(** * PPLAN: the snapshot / rollup computation engine

  A shallow embedding of the planning and finance services of the PPLAN
  backend (app/services/planning_service.py,
  app/services/finance_reporting_service.py and
  app/repositories/planning_repository.py), followed by the properties of
  the rate resolver, the cost calculator, the monthly rollup builder, the
  snapshot synchronizer and the request validation.

  Conventions of the embedding.
  - A Python [Decimal] is a coefficient and an exponent.  Sums, products
    and [quantize] are exact: the columns are NUMERIC(10..14, 2), so no
    intermediate value of stored amounts comes near the 28 significant
    digits at which the default context would round or signal.  Only
    division is carried out in the 28-digit context, because a quotient
    need not terminate.  [q2_fits] names the values on which [quantize]
    does not signal.
  - A [datetime.date] is a record of year, month and day; the constructor
    [Date.new] raises [ValueError] outside 0001-01-01 .. 9999-12-31.
  - A raised exception is the [Raise] branch of [result]; the database
    session is an explicit store threaded through the services, and
    [rollback] restores the store the request started from.
  - The store holds what the session reads.  A row that a bulk write
    inserts is flushed and read again, so it holds the value of its
    NUMERIC column; a row that a bulk write updates holds the value of the
    payload until the commit, and the value of its column afterwards.
  - A UUID is its 128-bit integer value; [uuid_str] is [str(uuid)]. *)

From Stdlib Require Import ZArith List String Ascii Bool Lia Permutation Sorted.
Import ListNotations.
Open Scope Z_scope.

(** ** Exceptions *)

Inductive exn : Type :=
| HTTPException (status_code : Z) (detail : string)
| ValueError (msg : string)
| IntegrityError (msg : string)
| DataError (msg : string)
| KeyError (key : string).

Inductive result (A : Type) : Type :=
| Ok (a : A)
| Raise (e : exn).

Arguments Ok {A} a.
Arguments Raise {A} e.

Definition bind {A B : Type} (m : result A) (k : A -> result B) : result B :=
  match m with
  | Ok a => k a
  | Raise e => Raise e
  end.

Notation "x <- m ;; k" := (bind m (fun x => k))
  (at level 61, m at next level, right associativity).
Notation "' pat <- m ;; k" := (bind m (fun x => match x with pat => k end))
  (at level 61, pat pattern, m at next level, right associativity).

Definition HTTP_403_FORBIDDEN : Z := 403.
Definition HTTP_404_NOT_FOUND : Z := 404.
Definition HTTP_409_CONFLICT : Z := 409.
Definition HTTP_422_UNPROCESSABLE_ENTITY : Z := 422.

(** A validation error is an HTTP 422 response. *)
Definition is_validation_error {A : Type} (r : result A) : bool :=
  match r with
  | Raise (HTTPException code _) => code =? HTTP_422_UNPROCESSABLE_ENTITY
  | _ => false
  end.

Definition is_ok {A : Type} (r : result A) : bool :=
  match r with Ok _ => true | Raise _ => false end.

(** ** Decimal arithmetic *)

Module Dec.

Record Decimal : Type := mk { coef : Z; expo : Z }.

Definition prec : Z := 28.

(** Coefficient of [a] written at the exponent [e <= expo a]. *)
Definition scaled (a : Decimal) (e : Z) : Z := coef a * 10 ^ (expo a - e).

Definition add (a b : Decimal) : Decimal :=
  let e := Z.min (expo a) (expo b) in
  mk (scaled a e + scaled b e) e.

Definition sub (a b : Decimal) : Decimal :=
  let e := Z.min (expo a) (expo b) in
  mk (scaled a e - scaled b e) e.

Definition mul (a b : Decimal) : Decimal :=
  mk (coef a * coef b) (expo a + expo b).

Definition ltb (a b : Decimal) : bool :=
  let e := Z.min (expo a) (expo b) in scaled a e <? scaled b e.

Definition eqb (a b : Decimal) : bool :=
  let e := Z.min (expo a) (expo b) in scaled a e =? scaled b e.

(** Nearest integer to [n / d] for [0 < d], ties to the even neighbour. *)
Definition round_half_even (n d : Z) : Z :=
  let q := n / d in
  let r := n mod d in
  if 2 * r <? d then q
  else if d <? 2 * r then q + 1
  else if Z.even q then q else q + 1.

(** [value.quantize(q)] in the default context (ROUND_HALF_EVEN). *)
Definition quantize (value q : Decimal) : Decimal :=
  let e := expo q in
  if e <=? expo value
  then mk (coef value * 10 ^ (expo value - e)) e
  else mk (round_half_even (coef value) (10 ^ (e - expo value))) e.

(** Nearest integer to [n / d] for [0 < d], ties away from zero. *)
Definition round_half_away (n d : Z) : Z :=
  Z.sgn n * ((2 * Z.abs n + d) / (2 * d)).

(** The value with [scale] places after the point, as PostgreSQL rounds a
    [numeric] to the scale of its column. *)
Definition rescale (value : Decimal) (scale : Z) : Decimal :=
  let e := - scale in
  if e <=? expo value
  then mk (coef value * 10 ^ (expo value - e)) e
  else mk (round_half_away (coef value) (10 ^ (e - expo value))) e.

(** Number of decimal digits of [|n|], one for zero. *)
Fixpoint ndigits_fuel (fuel : nat) (n : Z) : Z :=
  match fuel with
  | O => 1
  | S f => if n <? 10 then 1 else 1 + ndigits_fuel f (n / 10)
  end.

Definition ndigits (n : Z) : Z :=
  ndigits_fuel (Z.to_nat (Z.log2 (Z.abs n))) (Z.abs n).

(** [Decimal._fix]: round a coefficient longer than the context precision
    to [prec] digits, half-even. *)
Definition fix_prec (a : Decimal) : Decimal :=
  let len := ndigits (coef a) in
  if len <=? prec then a
  else
    let k := len - prec in
    let c := round_half_even (coef a) (10 ^ k) in
    if ndigits c <=? prec then mk c (expo a + k)
    else mk (c / 10) (expo a + k + 1).

(** The loop of [__truediv__] on an exact quotient: drop trailing zeros
    while the exponent is below the ideal one. *)
Fixpoint strip_to_ideal (fuel : nat) (coeff exp ideal : Z) : Decimal :=
  match fuel with
  | O => mk coeff exp
  | S f =>
      if (exp <? ideal) && (coeff mod 10 =? 0)
      then strip_to_ideal f (coeff / 10) (exp + 1) ideal
      else mk coeff exp
  end.

(** [a / b] for a non-zero divisor, as [Decimal.__truediv__] computes it. *)
Definition div (a b : Decimal) : Decimal :=
  let ideal := expo a - expo b in
  if coef a =? 0 then mk 0 ideal
  else
    let sign := Z.sgn (coef a) * Z.sgn (coef b) in
    let n := Z.abs (coef a) in
    let d := Z.abs (coef b) in
    let shift := ndigits d - ndigits n + prec + 1 in
    let exp := ideal - shift in
    let num := if 0 <=? shift then n * 10 ^ shift else n in
    let den := if 0 <=? shift then d else d * 10 ^ (- shift) in
    let coeff := num / den in
    let remainder := num mod den in
    let ans :=
      if negb (remainder =? 0)
      then mk (if coeff mod 5 =? 0 then coeff + 1 else coeff) exp
      else strip_to_ideal (Z.to_nat (ideal - exp)) coeff exp ideal in
    let fixed := fix_prec ans in
    mk (sign * coef fixed) (expo fixed).

(** [Decimal(str(n))] for an integer [n]. *)
Definition of_int (n : Z) : Decimal := mk n 0.

Definition sum (l : list Decimal) (init : Decimal) : Decimal :=
  fold_left add l init.

End Dec.

Abbreviation Decimal := Dec.Decimal.

(** Module constants of both services. *)
Definition ZERO : Decimal := Dec.mk 0 (-2).
Definition Q2 : Decimal := Dec.mk 1 (-2).

(** [_q2] of planning_service.py and finance_reporting_service.py. *)
Definition _q2 (value : Decimal) : Decimal := Dec.quantize value Q2.

(** [quantize] raises InvalidOperation when its result has more digits
    than the precision of the context, 28.  [_q2] is [value.quantize(Q2)]
    on the values whose result fits, and no claim is made of the others. *)
Definition q2_fits (value : Decimal) : bool :=
  Z.abs (Dec.coef (_q2 value)) <? 10 ^ Dec.prec.

(** What a [NUMERIC(precision, scale)] column of app/models/entities.py
    makes of a value written to it: the value rounded to [scale] places,
    refused by the database when it needs more than [precision] digits. *)
Definition numeric (precision scale : Z) (value : Decimal) : result Decimal :=
  let stored := Dec.rescale value scale in
  if 10 ^ precision <=? Z.abs (Dec.coef stored)
  then Raise (DataError "numeric field overflow")
  else Ok stored.

(** [_safe_div] of finance_reporting_service.py. *)
Definition _safe_div (numerator denominator : Decimal) : Decimal :=
  if Dec.eqb denominator ZERO then ZERO
  else Dec.quantize (Dec.div numerator denominator) Q2.








(** ** Calendar dates *)

Module Date.

Record date : Type := mk { year : Z; month : Z; day : Z }.

Definition MINYEAR : Z := 1.
Definition MAXYEAR : Z := 9999.

Definition is_leap (y : Z) : bool :=
  (y mod 4 =? 0) && (negb (y mod 100 =? 0) || (y mod 400 =? 0)).

Definition days_in_month (y m : Z) : Z :=
  if m =? 2 then (if is_leap y then 29 else 28)
  else if (m =? 4) || (m =? 6) || (m =? 9) || (m =? 11) then 30
  else 31.

(** The range check of the [date] constructor. *)
Definition valid (d : date) : bool :=
  (MINYEAR <=? year d) && (year d <=? MAXYEAR)
  && (1 <=? month d) && (month d <=? 12)
  && (1 <=? day d) && (day d <=? days_in_month (year d) (month d)).

(** [date(y, m, d)].  CPython words the [ValueError] after the field that
    is out of range; the model keeps one message for the three. *)
Definition new (y m d : Z) : result date :=
  if valid (mk y m d) then Ok (mk y m d)
  else Raise (ValueError "date value out of range").

(** [date.max]. *)
Definition max : date := mk 9999 12 31.

Definition eqb (a b : date) : bool :=
  (year a =? year b) && (month a =? month b) && (day a =? day b).

Definition ltb (a b : date) : bool :=
  (year a <? year b)
  || ((year a =? year b)
      && ((month a <? month b)
          || ((month a =? month b) && (day a <? day b)))).

Definition leb (a b : date) : bool := negb (ltb b a).

(** Position of the month of [d] on the line of all calendar months. *)
Definition month_index (d : date) : Z := 12 * year d + (month d - 1).

(** First day of the month at position [i]. *)
Definition of_month_index (i : Z) : date := mk (i / 12) (i mod 12 + 1) 1.

Definition is_month_start (d : date) : bool := day d =? 1.

End Date.

Abbreviation date := Date.date.

Declare Scope date_scope.
Delimit Scope date_scope with date.
Infix "<?" := Date.ltb : date_scope.
Infix "<=?" := Date.leb : date_scope.
Infix "=?" := Date.eqb : date_scope.

(** ** Month helpers of planning_service.py *)

Definition normalize_month_start (value : date) : result date :=
  if negb (Date.day value =? 1)
  then Raise (HTTPException HTTP_422_UNPROCESSABLE_ENTITY
              "month_start must be first day of calendar month.")
  else Date.new (Date.year value) (Date.month value) 1.

(** The [while current <= end] loop of [month_sequence]; [None] when the
  fuel is used up before the loop exits. *)
Fixpoint month_sequence_loop (fuel : nat) (current end_ : date)
  (months : list date) : option (result (list date)) :=
  match fuel with
  | O => None
  | S fuel' =>
    if (current <=? end_)%date then
      let months' := months ++ [current] in
      match (if Date.month current =? 12
             then Date.new (Date.year current + 1) 1 1
             else Date.new (Date.year current) (Date.month current + 1) 1)
      with
      | Ok next => month_sequence_loop fuel' next end_ months'
      | Raise e => Some (Raise e)
      end
    else Some (Ok months)
  end.

(** Iterations that the loop can need: one per month from [current] to
  [end_], and one for the exit test. *)
Definition month_sequence_fuel (current end_ : date) : nat :=
  S (Z.to_nat (Date.month_index end_ - Date.month_index current + 1)).

Definition month_sequence (start_month end_month : date) : result (list date) :=
  current <- Date.new (Date.year start_month) (Date.month start_month) 1 ;;
  end_ <- Date.new (Date.year end_month) (Date.month end_month) 1 ;;
  match month_sequence_loop (month_sequence_fuel current end_) current end_ [] with
  | Some r => r
  | None => Ok []
  end.

(** The months of the inclusive range, by position: what [month_sequence]
  is meant to enumerate. *)
Definition calendar_months (from_month to_month : date) : list date :=
  map (fun k => Date.of_month_index (Date.month_index from_month + Z.of_nat k))
    (seq 0 (Z.to_nat (Date.month_index to_month - Date.month_index from_month + 1))).

(** ** Python containers and sorting *)

(** Keys of dictionaries and sets: types with a decidable equality. *)
Class EqType (K : Type) : Type := {
  eqk : K -> K -> bool;
  eqk_spec : forall a b : K, reflect (a = b) (eqk a b)
}.

Lemma date_eqb_spec : forall a b : date, reflect (a = b) (Date.eqb a b).
Proof.
  intros [y1 m1 d1] [y2 m2 d2]. unfold Date.eqb; simpl.
  destruct (Z.eqb_spec y1 y2); [| right; congruence].
  destruct (Z.eqb_spec m1 m2); [| right; congruence].
  destruct (Z.eqb_spec d1 d2); [| right; congruence].
  left; congruence.
Qed.

#[export] Instance EqType_Z : EqType Z :=
  {| eqk := Z.eqb; eqk_spec := Z.eqb_spec |}.

#[export] Instance EqType_date : EqType date :=
  {| eqk := Date.eqb; eqk_spec := date_eqb_spec |}.

Lemma option_eqb_spec {K : Type} `{EqType K} :
  forall a b : option K,
    reflect (a = b)
      match a, b with
      | Some x, Some y => eqk x y
      | None, None => true
      | _, _ => false
      end.
Proof.
  intros [x|] [y|]; try (right; congruence); try (left; reflexivity).
  destruct (eqk_spec x y); [left | right]; congruence.
Qed.

#[export] Instance EqType_option {K : Type} `{EqType K} : EqType (option K) :=
  {| eqk := fun a b =>
       match a, b with
       | Some x, Some y => eqk x y
       | None, None => true
       | _, _ => false
       end;
     eqk_spec := option_eqb_spec |}.

Lemma prod_eqb_spec {K1 K2 : Type} `{EqType K1} `{EqType K2} :
  forall a b : K1 * K2, reflect (a = b) (eqk (fst a) (fst b) && eqk (snd a) (snd b)).
Proof.
  intros [a1 a2] [b1 b2]; simpl.
  destruct (eqk_spec a1 b1); [| right; congruence].
  destruct (eqk_spec a2 b2); [left | right]; congruence.
Qed.

#[export] Instance EqType_prod {K1 K2 : Type} `{EqType K1} `{EqType K2} :
  EqType (K1 * K2) :=
  {| eqk := fun a b => eqk (fst a) (fst b) && eqk (snd a) (snd b);
     eqk_spec := prod_eqb_spec |}.

Section Containers.

Context {K : Type} `{EqType K}.

(** [k in s] for a list or a set. *)
Fixpoint mem (k : K) (s : list K) : bool :=
  match s with
  | [] => false
  | x :: s' => eqk x k || mem k s'
  end.

(** [set(l)]: the distinct elements, in order of first occurrence. *)
Fixpoint to_set (l : list K) : list K :=
  match l with
  | [] => []
  | x :: l' => x :: filter (fun y => negb (eqk x y)) (to_set l')
  end.

Context {V : Type}.

(** A [dict], in insertion order. *)
Definition dict : Type := list (K * V).

Fixpoint dict_get (d : dict) (k : K) : option V :=
  match d with
  | [] => None
  | (k', v) :: d' => if eqk k' k then Some v else dict_get d' k
  end.

(** [d[k] = v]: overwrite in place, or append a new key. *)
Fixpoint dict_set (d : dict) (k : K) (v : V) : dict :=
  match d with
  | [] => [(k, v)]
  | (k', v') :: d' =>
      if eqk k' k then (k', v) :: d' else (k', v') :: dict_set d' k v
  end.

(** [d.get(k, default)]. *)
Definition dict_get_default (d : dict) (k : K) (default : V) : V :=
  match dict_get d k with
  | Some v => v
  | None => default
  end.

End Containers.

Arguments dict K V : clear implicits.

Section Sorting.

Context {A : Type} (lt : A -> A -> bool).

Fixpoint insert_asc (x : A) (l : list A) : list A :=
  match l with
  | [] => [x]
  | y :: l' => if lt y x then y :: insert_asc x l' else x :: l
  end.

(** [sorted(l)] and SQL [ORDER BY ... ASC]: stable, ascending. *)
Fixpoint sort_asc (l : list A) : list A :=
  match l with
  | [] => []
  | x :: l' => insert_asc x (sort_asc l')
  end.

Fixpoint insert_desc (x : A) (l : list A) : list A :=
  match l with
  | [] => [x]
  | y :: l' => if lt x y then y :: insert_desc x l' else x :: l
  end.

(** [l.sort(reverse=True)]: stable, descending; elements with equal keys
    keep their relative order. *)
Fixpoint sort_desc (l : list A) : list A :=
  match l with
  | [] => []
  | x :: l' => insert_desc x (sort_desc l')
  end.

End Sorting.

(** String order of Python's [str.__lt__] on ASCII text. *)
Definition str_ltb (a b : string) : bool := String.ltb a b.

(** [sep.join(parts)]. *)
Definition str_join (sep : string) (parts : list string) : string :=
  String.concat sep parts.

(** [needle in haystack]. *)
Fixpoint str_contains (needle haystack : string) : bool :=
  String.prefix needle haystack
  || match haystack with
     | EmptyString => false
     | String _ rest => str_contains needle rest
     end.

Definition is_space (c : ascii) : bool :=
  let n := N_of_ascii c in
  ((9 <=? n) && (n <=? 13) || (28 <=? n) && (n <=? 32))%N.

Fixpoint lstrip (s : string) : string :=
  match s with
  | EmptyString => EmptyString
  | String c rest => if is_space c then lstrip rest else s
  end.

Fixpoint rstrip (s : string) : string :=
  match s with
  | EmptyString => EmptyString
  | String c rest =>
      match rstrip rest with
      | EmptyString => if is_space c then EmptyString else String c EmptyString
      | rest' => String c rest'
      end
  end.

(** [s.strip()] on ASCII text. *)
Definition str_strip (s : string) : string := rstrip (lstrip s).

(** ** UUIDs *)

Definition UUID : Type := Z.

Definition hex_digit (d : Z) : ascii :=
  match d with
  | 0 => "0" | 1 => "1" | 2 => "2" | 3 => "3"
  | 4 => "4" | 5 => "5" | 6 => "6" | 7 => "7"
  | 8 => "8" | 9 => "9" | 10 => "a" | 11 => "b"
  | 12 => "c" | 13 => "d" | 14 => "e" | _ => "f"
  end%char.

Fixpoint hex_fixed (width : nat) (n : Z) : string :=
  match width with
  | O => EmptyString
  | S w => hex_fixed w (n / 16) ++ String (hex_digit (n mod 16)) EmptyString
  end.

(** [str(u)]: 32 lowercase hexadecimal digits grouped 8-4-4-4-12. *)
Definition uuid_str (u : UUID) : string :=
  let h := hex_fixed 32 (u mod 2 ^ 128) in
  (substring 0 8 h ++ "-" ++ substring 8 4 h ++ "-" ++ substring 12 4 h
   ++ "-" ++ substring 16 4 h ++ "-" ++ substring 20 12 h)%string.


(** ** Dates as text *)

Fixpoint dec_fixed (width : nat) (n : Z) : string :=
  match width with
  | O => EmptyString
  | S w => dec_fixed w (n / 10) ++ String (hex_digit (n mod 10)) EmptyString
  end.

(** [d.isoformat()]: YYYY-MM-DD. *)
Definition isoformat (d : date) : string :=
  (dec_fixed 4 (Date.year d) ++ "-" ++ dec_fixed 2 (Date.month d) ++ "-"
   ++ dec_fixed 2 (Date.day d))%string.

(** [s.lower()], on the letters A to Z. *)
Definition ascii_lower (c : ascii) : ascii :=
  let n := nat_of_ascii c in
  if (Nat.leb 65 n && Nat.leb n 90)%bool then ascii_of_nat (n + 32) else c.

Fixpoint str_lower (s : string) : string :=
  match s with
  | EmptyString => EmptyString
  | String c s' => String (ascii_lower c) (str_lower s')
  end.

(** ** Entities (app/models/entities.py) *)

Inductive ProjectStatus : Type := DRAFT | ACTIVE | CLOSED.

Inductive MoneyCurrency : Type := PLN | EUR | USD.

Inductive RateUnit : Type := DAY | FTE_MONTH.

Module BusinessUnit.
Record t : Type := mk { id : UUID; code : string; name : string; active : bool }.
End BusinessUnit.

Module Project.
Record t : Type := mk {
  id : UUID;
  business_unit_id : UUID;
  code : string;
  name : string;
  description : option string;
  start_month : date;
  end_month : date;
  status : ProjectStatus
}.
End Project.

Module ProjectStage.
Record t : Type := mk {
  id : UUID;
  project_id : UUID;
  name : string;
  start_month : date;
  end_month : date;
  color_token : string;
  sequence_no : Z
}.
End ProjectStage.

Module Performer.
Record t : Type := mk {
  id : UUID;
  business_unit_id : UUID;
  external_ref : option string;
  display_name : string;
  active : bool
}.
End Performer.

Module Task.
Record t : Type := mk {
  id : UUID;
  project_id : UUID;
  stage_id : UUID;
  code : string;
  name : string;
  sequence_no : Z;
  active : bool
}.
End Task.

Module TaskPerformerAssignment.
Record t : Type := mk { id : UUID; task_id : UUID; performer_id : UUID }.
End TaskPerformerAssignment.

Module EffortMonthlyEntry.
Record t : Type := mk {
  id : UUID;
  project_id : UUID;
  task_id : UUID;
  performer_id : UUID;
  month_start : date;
  planned_person_days : Decimal;
  actual_person_days : Decimal
}.
End EffortMonthlyEntry.

Module PerformerRate.
Record t : Type := mk {
  id : UUID;
  business_unit_id : UUID;
  performer_id : UUID;
  project_id : option UUID;
  rate_unit : RateUnit;
  rate_value : Decimal;
  effective_from_month : date;
  effective_to_month : option date
}.
End PerformerRate.

Module FinancialRequest.
Record t : Type := mk {
  id : UUID;
  project_id : UUID;
  request_no : string;
  request_date : date;
  month_start : date;
  amount : Decimal;
  currency : MoneyCurrency;
  status : string
}.
End FinancialRequest.

Module Invoice.
Record t : Type := mk {
  id : UUID;
  project_id : UUID;
  invoice_no : string;
  invoice_date : date;
  month_start : date;
  amount : Decimal;
  currency : MoneyCurrency;
  payment_status : string;
  payment_date : option date
}.
End Invoice.

Module Revenue.
Record t : Type := mk {
  id : UUID;
  project_id : UUID;
  revenue_no : string;
  recognition_date : date;
  month_start : date;
  amount : Decimal;
  currency : MoneyCurrency
}.
End Revenue.

(** The derived fields of a snapshot or rollup row. *)
Record MonthValues : Type := mkValues {
  planned_person_days : Decimal;
  actual_person_days : Decimal;
  planned_cost : Decimal;
  actual_cost : Decimal;
  revenue_amount : Decimal;
  invoice_amount : Decimal;
  cumulative_planned_cost : Decimal;
  cumulative_actual_cost : Decimal;
  cumulative_revenue : Decimal
}.

Module ProjectMonthlySnapshot.
Record t : Type := mk {
  id : UUID;
  project_id : UUID;
  month_start : date;
  values : MonthValues
}.
End ProjectMonthlySnapshot.

(** ** The database session

    One list per table, in insertion order, and the source of the next
    primary key ([uuid.uuid4], drawn here from a counter). *)

Record DB : Type := mkDB {
  business_units : list BusinessUnit.t;
  projects : list Project.t;
  stages : list ProjectStage.t;
  performers : list Performer.t;
  tasks : list Task.t;
  assignments : list TaskPerformerAssignment.t;
  effort_entries : list EffortMonthlyEntry.t;
  rates : list PerformerRate.t;
  financial_requests : list FinancialRequest.t;
  invoices : list Invoice.t;
  revenues : list Revenue.t;
  snapshots : list ProjectMonthlySnapshot.t;
  next_uuid : UUID
}.

Definition with_projects (db : DB) (v : list Project.t) : DB :=
  mkDB (business_units db) v (stages db) (performers db) (tasks db)
    (assignments db) (effort_entries db) (rates db) (financial_requests db)
    (invoices db) (revenues db) (snapshots db) (next_uuid db).

Definition with_stages (db : DB) (v : list ProjectStage.t) : DB :=
  mkDB (business_units db) (projects db) v (performers db) (tasks db)
    (assignments db) (effort_entries db) (rates db) (financial_requests db)
    (invoices db) (revenues db) (snapshots db) (next_uuid db).

Definition with_effort_entries (db : DB) (v : list EffortMonthlyEntry.t) : DB :=
  mkDB (business_units db) (projects db) (stages db) (performers db) (tasks db)
    (assignments db) v (rates db) (financial_requests db)
    (invoices db) (revenues db) (snapshots db) (next_uuid db).

Definition with_rates (db : DB) (v : list PerformerRate.t) : DB :=
  mkDB (business_units db) (projects db) (stages db) (performers db) (tasks db)
    (assignments db) (effort_entries db) v (financial_requests db)
    (invoices db) (revenues db) (snapshots db) (next_uuid db).

Definition with_financial_requests (db : DB) (v : list FinancialRequest.t) : DB :=
  mkDB (business_units db) (projects db) (stages db) (performers db) (tasks db)
    (assignments db) (effort_entries db) (rates db) v
    (invoices db) (revenues db) (snapshots db) (next_uuid db).

Definition with_invoices (db : DB) (v : list Invoice.t) : DB :=
  mkDB (business_units db) (projects db) (stages db) (performers db) (tasks db)
    (assignments db) (effort_entries db) (rates db) (financial_requests db)
    v (revenues db) (snapshots db) (next_uuid db).

Definition with_revenues (db : DB) (v : list Revenue.t) : DB :=
  mkDB (business_units db) (projects db) (stages db) (performers db) (tasks db)
    (assignments db) (effort_entries db) (rates db) (financial_requests db)
    (invoices db) v (snapshots db) (next_uuid db).

Definition with_snapshots (db : DB) (v : list ProjectMonthlySnapshot.t) : DB :=
  mkDB (business_units db) (projects db) (stages db) (performers db) (tasks db)
    (assignments db) (effort_entries db) (rates db) (financial_requests db)
    (invoices db) (revenues db) v (next_uuid db).

(** Take the next primary key. *)
Definition fresh_uuid (db : DB) : UUID * DB :=
  (next_uuid db,
   mkDB (business_units db) (projects db) (stages db) (performers db) (tasks db)
     (assignments db) (effort_entries db) (rates db) (financial_requests db)
     (invoices db) (revenues db) (snapshots db) (next_uuid db + 1)).

(** Replace the first row that satisfies [p]. *)
Fixpoint update_first {A : Type} (p : A -> bool) (f : A -> A) (l : list A) : list A :=
  match l with
  | [] => []
  | x :: l' => if p x then f x :: l' else x :: update_first p f l'
  end.

Definition with_performers (db : DB) (v : list Performer.t) : DB :=
  mkDB (business_units db) (projects db) (stages db) v (tasks db)
    (assignments db) (effort_entries db) (rates db) (financial_requests db)
    (invoices db) (revenues db) (snapshots db) (next_uuid db).

Definition with_tasks (db : DB) (v : list Task.t) : DB :=
  mkDB (business_units db) (projects db) (stages db) (performers db) v
    (assignments db) (effort_entries db) (rates db) (financial_requests db)
    (invoices db) (revenues db) (snapshots db) (next_uuid db).

Definition with_assignments (db : DB) (v : list TaskPerformerAssignment.t) : DB :=
  mkDB (business_units db) (projects db) (stages db) (performers db) (tasks db)
    v (effort_entries db) (rates db) (financial_requests db)
    (invoices db) (revenues db) (snapshots db) (next_uuid db).

(** ** Repository (app/repositories/planning_repository.py) *)

Module Repo.

(** [x BETWEEN from_month AND to_month] on dates. *)
Definition in_month_range (m from_month to_month : date) : bool :=
  (from_month <=? m)%date && (m <=? to_month)%date.

Definition opt_uuid_eqb (a b : option UUID) : bool := eqk a b.

(** [ORDER BY] on a nullable column, [NULL] last (PostgreSQL). *)
Definition opt_uuid_ltb (a b : option UUID) : bool :=
  match a, b with
  | Some x, Some y => x <? y
  | Some _, None => true
  | None, _ => false
  end.

(* ---------- Business units and projects ---------- *)

Definition get_business_unit (db : DB) (business_unit_id : UUID) : option BusinessUnit.t :=
  find (fun u => BusinessUnit.id u =? business_unit_id) (business_units db).

Definition list_projects_for_business_unit (db : DB) (business_unit_id : UUID)
  : list Project.t :=
  sort_asc (fun a b => str_ltb (Project.code a) (Project.code b))
    (filter (fun p => Project.business_unit_id p =? business_unit_id) (projects db)).

Definition get_project (db : DB) (project_id : UUID) : option Project.t :=
  find (fun p => Project.id p =? project_id) (projects db).

Definition add_project (db : DB) (project : Project.t) : DB :=
  with_projects db (projects db ++ [project]).

(* ---------- Stages ---------- *)

Definition list_stages (db : DB) (project_id : UUID) : list ProjectStage.t :=
  sort_asc
    (fun a b =>
       (ProjectStage.sequence_no a <? ProjectStage.sequence_no b)
       || ((ProjectStage.sequence_no a =? ProjectStage.sequence_no b)
           && str_ltb (ProjectStage.name a) (ProjectStage.name b)))
    (filter (fun s => ProjectStage.project_id s =? project_id) (stages db)).

Definition get_stage (db : DB) (stage_id : UUID) : option ProjectStage.t :=
  find (fun s => ProjectStage.id s =? stage_id) (stages db).

Definition add_stage (db : DB) (stage : ProjectStage.t) : DB :=
  with_stages db (stages db ++ [stage]).

(* ---------- Tasks ---------- *)

Definition list_tasks (db : DB) (project_id : UUID) : list Task.t :=
  sort_asc
    (fun a b =>
       (Task.sequence_no a <? Task.sequence_no b)
       || ((Task.sequence_no a =? Task.sequence_no b)
           && str_ltb (Task.code a) (Task.code b)))
    (filter (fun t => Task.project_id t =? project_id) (tasks db)).

Definition get_task (db : DB) (task_id : UUID) : option Task.t :=
  find (fun t => Task.id t =? task_id) (tasks db).

(* ---------- Performers ---------- *)

Definition list_performers_for_business_unit (db : DB) (business_unit_id : UUID)
  : list Performer.t :=
  sort_asc (fun a b => str_ltb (Performer.display_name a) (Performer.display_name b))
    (filter (fun p => Performer.business_unit_id p =? business_unit_id) (performers db)).

(** [JOIN tasks ON tasks.id = assignment.task_id WHERE tasks.project_id = :p]. *)
Definition assignment_in_project (db : DB) (project_id : UUID)
    (a : TaskPerformerAssignment.t) : bool :=
  existsb
    (fun t => (Task.id t =? TaskPerformerAssignment.task_id a)
              && (Task.project_id t =? project_id))
    (tasks db).

Definition list_performers_for_project (db : DB) (project_id business_unit_id : UUID)
  : list Performer.t :=
  let performer_ids :=
    map TaskPerformerAssignment.performer_id
      (filter (assignment_in_project db project_id) (assignments db)) in
  match performer_ids with
  | [] => []
  | _ =>
      sort_asc (fun a b => str_ltb (Performer.display_name a) (Performer.display_name b))
        (filter
           (fun p => mem (Performer.id p) performer_ids
                     && (Performer.business_unit_id p =? business_unit_id))
           (performers db))
  end.

Definition get_performer (db : DB) (performer_id : UUID) : option Performer.t :=
  find (fun p => Performer.id p =? performer_id) (performers db).

(* ---------- Task-performer assignments ---------- *)

Definition list_assignments_for_project (db : DB) (project_id : UUID)
  : list TaskPerformerAssignment.t :=
  sort_asc
    (fun a b =>
       (TaskPerformerAssignment.task_id a <? TaskPerformerAssignment.task_id b)
       || ((TaskPerformerAssignment.task_id a =? TaskPerformerAssignment.task_id b)
           && (TaskPerformerAssignment.performer_id a
               <? TaskPerformerAssignment.performer_id b)))
    (filter (assignment_in_project db project_id) (assignments db)).

(* ---------- Effort entries ---------- *)

Definition effort_order (a b : EffortMonthlyEntry.t) : bool :=
  (EffortMonthlyEntry.month_start a <? EffortMonthlyEntry.month_start b)%date
  || ((EffortMonthlyEntry.month_start a =? EffortMonthlyEntry.month_start b)%date
      && ((EffortMonthlyEntry.task_id a <? EffortMonthlyEntry.task_id b)
          || ((EffortMonthlyEntry.task_id a =? EffortMonthlyEntry.task_id b)
              && (EffortMonthlyEntry.performer_id a
                  <? EffortMonthlyEntry.performer_id b)))).

Definition list_effort_entries (db : DB) (project_id : UUID)
    (from_month to_month : date) : list EffortMonthlyEntry.t :=
  sort_asc effort_order
    (filter
       (fun e => (EffortMonthlyEntry.project_id e =? project_id)
                 && in_month_range (EffortMonthlyEntry.month_start e) from_month to_month)
       (effort_entries db)).

(** An absent or empty filter set adds no condition ([if task_ids:]). *)
Definition in_filter (ids : option (list UUID)) (x : UUID) : bool :=
  match ids with
  | None | Some [] => true
  | Some s => mem x s
  end.

Definition list_effort_entries_filtered (db : DB) (project_id : UUID)
    (from_month to_month : date) (task_ids performer_ids : option (list UUID))
  : list EffortMonthlyEntry.t :=
  sort_asc effort_order
    (filter
       (fun e => (EffortMonthlyEntry.project_id e =? project_id)
                 && in_month_range (EffortMonthlyEntry.month_start e) from_month to_month
                 && in_filter task_ids (EffortMonthlyEntry.task_id e)
                 && in_filter performer_ids (EffortMonthlyEntry.performer_id e))
       (effort_entries db)).

Definition effort_key_matches (project_id task_id performer_id : UUID)
    (month_start : date) (e : EffortMonthlyEntry.t) : bool :=
  (EffortMonthlyEntry.project_id e =? project_id)
  && (EffortMonthlyEntry.task_id e =? task_id)
  && (EffortMonthlyEntry.performer_id e =? performer_id)
  && (EffortMonthlyEntry.month_start e =? month_start)%date.

Definition get_effort_entry (db : DB) (project_id task_id performer_id : UUID)
    (month_start : date) : option EffortMonthlyEntry.t :=
  find (effort_key_matches project_id task_id performer_id month_start)
    (effort_entries db).

Definition add_effort_entry (db : DB) (entry : EffortMonthlyEntry.t) : DB :=
  with_effort_entries db (effort_entries db ++ [entry]).

(* ---------- Rates ---------- *)

Definition rate_order (a b : PerformerRate.t) : bool :=
  (PerformerRate.performer_id a <? PerformerRate.performer_id b)
  || ((PerformerRate.performer_id a =? PerformerRate.performer_id b)
      && (opt_uuid_ltb (PerformerRate.project_id a) (PerformerRate.project_id b)
          || (opt_uuid_eqb (PerformerRate.project_id a) (PerformerRate.project_id b)
              && (PerformerRate.effective_from_month a
                  <? PerformerRate.effective_from_month b)%date))).

Definition list_rates_for_business_unit (db : DB) (business_unit_id : UUID)
    (project_id : option UUID) : list PerformerRate.t :=
  sort_asc rate_order
    (filter
       (fun r =>
          (PerformerRate.business_unit_id r =? business_unit_id)
          && match project_id with
             | Some p =>
                 opt_uuid_eqb (PerformerRate.project_id r) (Some p)
                 || opt_uuid_eqb (PerformerRate.project_id r) None
             | None => true
             end)
       (rates db)).

Definition get_rate (db : DB) (performer_id : UUID) (project_id : option UUID)
    (effective_from_month : date) : option PerformerRate.t :=
  find
    (fun r =>
       (PerformerRate.performer_id r =? performer_id)
       && opt_uuid_eqb (PerformerRate.project_id r) project_id
       && (PerformerRate.effective_from_month r =? effective_from_month)%date)
    (rates db).

Definition add_rate (db : DB) (rate : PerformerRate.t) : DB :=
  with_rates db (rates db ++ [rate]).

Definition list_conflicting_rates (db : DB) (performer_id : UUID)
    (project_id : option UUID) (effective_from_month : date)
    (effective_to_month : option date) (exclude_rate_id : option UUID)
  : list PerformerRate.t :=
  filter
    (fun r =>
       (PerformerRate.performer_id r =? performer_id)
       && opt_uuid_eqb (PerformerRate.project_id r) project_id
       && (PerformerRate.effective_from_month r
           <=? match effective_to_month with Some d => d | None => Date.max end)%date
       && match PerformerRate.effective_to_month r with
          | None => true
          | Some t => (effective_from_month <=? t)%date
          end
       && match exclude_rate_id with
          | Some x => negb (PerformerRate.id r =? x)
          | None => true
          end)
    (rates db).

(* ---------- Financial registers ---------- *)

Definition add_financial_request (db : DB) (row : FinancialRequest.t) : DB :=
  with_financial_requests db (financial_requests db ++ [row]).

Definition add_invoice (db : DB) (row : Invoice.t) : DB :=
  with_invoices db (invoices db ++ [row]).

Definition add_revenue (db : DB) (row : Revenue.t) : DB :=
  with_revenues db (revenues db ++ [row]).

(** [SELECT month_start, SUM(amount) ... GROUP BY month_start] as a dict. *)
Fixpoint group_sum (rows : list (date * Decimal)) (acc : dict date Decimal)
  : dict date Decimal :=
  match rows with
  | [] => acc
  | (m, amount) :: rows' =>
      group_sum rows'
        (dict_set acc m
           match dict_get acc m with
           | Some total => Dec.add total amount
           | None => amount
           end)
  end.

Definition aggregate_invoices_by_month (db : DB) (project_id : UUID)
  : dict date Decimal :=
  group_sum
    (map (fun i => (Invoice.month_start i, Invoice.amount i))
       (filter (fun i => Invoice.project_id i =? project_id) (invoices db)))
    [].

Definition aggregate_revenues_by_month (db : DB) (project_id : UUID)
  : dict date Decimal :=
  group_sum
    (map (fun r => (Revenue.month_start r, Revenue.amount r))
       (filter (fun r => Revenue.project_id r =? project_id) (revenues db)))
    [].

(* ---------- Snapshots ---------- *)

Definition snapshot_key_matches (project_id : UUID) (month_start : date)
    (s : ProjectMonthlySnapshot.t) : bool :=
  (ProjectMonthlySnapshot.project_id s =? project_id)
  && (ProjectMonthlySnapshot.month_start s =? month_start)%date.

Definition list_snapshots (db : DB) (project_id : UUID) (from_month to_month : date)
  : list ProjectMonthlySnapshot.t :=
  sort_asc
    (fun a b => (ProjectMonthlySnapshot.month_start a
                 <? ProjectMonthlySnapshot.month_start b)%date)
    (filter
       (fun s => (ProjectMonthlySnapshot.project_id s =? project_id)
                 && in_month_range (ProjectMonthlySnapshot.month_start s)
                      from_month to_month)
       (snapshots db)).

Definition get_snapshot (db : DB) (project_id : UUID) (month_start : date)
  : option ProjectMonthlySnapshot.t :=
  find (snapshot_key_matches project_id month_start) (snapshots db).

Definition add_snapshot (db : DB) (snapshot : ProjectMonthlySnapshot.t) : DB :=
  with_snapshots db (snapshots db ++ [snapshot]).

Definition outside_range (project_id : UUID) (start_month end_month : date)
    (s : ProjectMonthlySnapshot.t) : bool :=
  (ProjectMonthlySnapshot.project_id s =? project_id)
  && ((ProjectMonthlySnapshot.month_start s <? start_month)%date
      || (end_month <? ProjectMonthlySnapshot.month_start s)%date).

Definition delete_snapshots_outside_range (db : DB) (project_id : UUID)
    (start_month end_month : date) : DB :=
  with_snapshots db
    (filter (fun s => negb (outside_range project_id start_month end_month s))
       (snapshots db)).

Definition effort_outside_project_range_count (db : DB) (project_id : UUID)
    (start_month end_month : date) : Z :=
  Z.of_nat
    (List.length
       (filter
          (fun e => (EffortMonthlyEntry.project_id e =? project_id)
                    && ((EffortMonthlyEntry.month_start e <? start_month)%date
                        || (end_month <? EffortMonthlyEntry.month_start e)%date))
          (effort_entries db))).

(* ---------- Rows added and deleted by the structure services ---------- *)

Definition add_task (db : DB) (task : Task.t) : DB :=
  with_tasks db (tasks db ++ [task]).

Definition add_performer (db : DB) (performer : Performer.t) : DB :=
  with_performers db (performers db ++ [performer]).

Definition get_assignment (db : DB) (task_id performer_id : UUID)
  : option TaskPerformerAssignment.t :=
  find
    (fun a => (TaskPerformerAssignment.task_id a =? task_id)
              && (TaskPerformerAssignment.performer_id a =? performer_id))
    (assignments db).

Definition add_assignment (db : DB) (assignment : TaskPerformerAssignment.t) : DB :=
  with_assignments db (assignments db ++ [assignment]).

(** The rows that hold a foreign key to a project, a stage, a task or a
    performer (models/entities.py).  No foreign key names an action on
    delete, so the [DELETE] that [flush] sends is refused while such a row
    exists. *)
Definition project_is_referenced (db : DB) (project_id : UUID) : bool :=
  existsb (fun s => ProjectStage.project_id s =? project_id) (stages db)
  || existsb (fun t => Task.project_id t =? project_id) (tasks db)
  || existsb (fun e => EffortMonthlyEntry.project_id e =? project_id) (effort_entries db)
  || existsb (fun r => opt_uuid_eqb (PerformerRate.project_id r) (Some project_id))
       (rates db)
  || existsb (fun r => FinancialRequest.project_id r =? project_id)
       (financial_requests db)
  || existsb (fun i => Invoice.project_id i =? project_id) (invoices db)
  || existsb (fun r => Revenue.project_id r =? project_id) (revenues db)
  || existsb (fun s => ProjectMonthlySnapshot.project_id s =? project_id) (snapshots db).

Definition stage_is_referenced (db : DB) (stage_id : UUID) : bool :=
  existsb (fun t => Task.stage_id t =? stage_id) (tasks db).

Definition task_is_referenced (db : DB) (task_id : UUID) : bool :=
  existsb (fun a => TaskPerformerAssignment.task_id a =? task_id) (assignments db)
  || existsb (fun e => EffortMonthlyEntry.task_id e =? task_id) (effort_entries db).

Definition performer_is_referenced (db : DB) (performer_id : UUID) : bool :=
  existsb (fun a => TaskPerformerAssignment.performer_id a =? performer_id)
    (assignments db)
  || existsb (fun e => EffortMonthlyEntry.performer_id e =? performer_id)
       (effort_entries db)
  || existsb (fun r => PerformerRate.performer_id r =? performer_id) (rates db).

(** [db.delete(row); db.flush()]: the row goes by its primary key, or the
    database refuses the statement. *)
Definition delete_project (db : DB) (project : Project.t) : result DB :=
  if project_is_referenced db (Project.id project)
  then Raise (IntegrityError "foreign key on projects.id")
  else Ok (with_projects db
             (filter (fun p => negb (Project.id p =? Project.id project)) (projects db))).

Definition delete_stage (db : DB) (stage : ProjectStage.t) : result DB :=
  if stage_is_referenced db (ProjectStage.id stage)
  then Raise (IntegrityError "foreign key on project_stages.id")
  else Ok (with_stages db
             (filter (fun s => negb (ProjectStage.id s =? ProjectStage.id stage))
                (stages db))).

Definition delete_task (db : DB) (task : Task.t) : result DB :=
  if task_is_referenced db (Task.id task)
  then Raise (IntegrityError "foreign key on tasks.id")
  else Ok (with_tasks db
             (filter (fun t => negb (Task.id t =? Task.id task)) (tasks db))).

Definition delete_performer (db : DB) (performer : Performer.t) : result DB :=
  if performer_is_referenced db (Performer.id performer)
  then Raise (IntegrityError "foreign key on performers.id")
  else Ok (with_performers db
             (filter (fun p => negb (Performer.id p =? Performer.id performer))
                (performers db))).

Definition delete_assignment (db : DB) (assignment : TaskPerformerAssignment.t) : DB :=
  with_assignments db
    (filter
       (fun a => negb (TaskPerformerAssignment.id a
                       =? TaskPerformerAssignment.id assignment))
       (assignments db)).

(* ---------- Existence checks used for safe deletes ---------- *)

Definition count {A : Type} (p : A -> bool) (rows : list A) : Z :=
  Z.of_nat (List.length (filter p rows)).

Definition task_count_in_stage (db : DB) (stage_id : UUID) : Z :=
  count (fun t => Task.stage_id t =? stage_id) (tasks db).

Definition assignment_count_for_task (db : DB) (task_id : UUID) : Z :=
  count (fun a => TaskPerformerAssignment.task_id a =? task_id) (assignments db).

Definition effort_count_for_task (db : DB) (task_id : UUID) : Z :=
  count (fun e => EffortMonthlyEntry.task_id e =? task_id) (effort_entries db).

Definition assignment_count_for_performer (db : DB) (performer_id : UUID) : Z :=
  count (fun a => TaskPerformerAssignment.performer_id a =? performer_id)
    (assignments db).

Definition effort_count_for_performer (db : DB) (performer_id : UUID) : Z :=
  count (fun e => EffortMonthlyEntry.performer_id e =? performer_id) (effort_entries db).

Definition effort_count_for_assignment (db : DB) (task_id performer_id : UUID) : Z :=
  count
    (fun e => (EffortMonthlyEntry.task_id e =? task_id)
              && (EffortMonthlyEntry.performer_id e =? performer_id))
    (effort_entries db).

Definition stage_count_for_project (db : DB) (project_id : UUID) : Z :=
  count (fun s => ProjectStage.project_id s =? project_id) (stages db).

Definition task_count_for_project (db : DB) (project_id : UUID) : Z :=
  count (fun t => Task.project_id t =? project_id) (tasks db).

Definition effort_count_for_project (db : DB) (project_id : UUID) : Z :=
  count (fun e => EffortMonthlyEntry.project_id e =? project_id) (effort_entries db).

Definition snapshot_count_for_project (db : DB) (project_id : UUID) : Z :=
  count (fun s => ProjectMonthlySnapshot.project_id s =? project_id) (snapshots db).

(* ---------- Reads across the projects of a business unit ---------- *)

(** [JOIN projects ON projects.id = row.project_id
     WHERE projects.business_unit_id = :b]. *)
Definition project_in_business_unit (db : DB) (business_unit_id project_id : UUID)
  : bool :=
  existsb
    (fun p => (Project.id p =? project_id)
              && (Project.business_unit_id p =? business_unit_id))
    (projects db).

Definition list_effort_entries_for_business_unit (db : DB) (business_unit_id : UUID)
    (from_month to_month : date) : list EffortMonthlyEntry.t :=
  sort_asc
    (fun a b =>
       (EffortMonthlyEntry.month_start a <? EffortMonthlyEntry.month_start b)%date
       || ((EffortMonthlyEntry.month_start a =? EffortMonthlyEntry.month_start b)%date
           && ((EffortMonthlyEntry.project_id a <? EffortMonthlyEntry.project_id b)
               || ((EffortMonthlyEntry.project_id a =? EffortMonthlyEntry.project_id b)
                   && ((EffortMonthlyEntry.task_id a <? EffortMonthlyEntry.task_id b)
                       || ((EffortMonthlyEntry.task_id a
                            =? EffortMonthlyEntry.task_id b)
                           && (EffortMonthlyEntry.performer_id a
                               <? EffortMonthlyEntry.performer_id b)))))))
    (filter
       (fun e => project_in_business_unit db business_unit_id
                   (EffortMonthlyEntry.project_id e)
                 && in_month_range (EffortMonthlyEntry.month_start e) from_month to_month)
       (effort_entries db)).

Definition list_snapshots_for_business_unit (db : DB) (business_unit_id : UUID)
    (from_month to_month : date) : list ProjectMonthlySnapshot.t :=
  sort_asc
    (fun a b =>
       (ProjectMonthlySnapshot.month_start a
        <? ProjectMonthlySnapshot.month_start b)%date
       || ((ProjectMonthlySnapshot.month_start a
            =? ProjectMonthlySnapshot.month_start b)%date
           && (ProjectMonthlySnapshot.project_id a
               <? ProjectMonthlySnapshot.project_id b)))
    (filter
       (fun s => project_in_business_unit db business_unit_id
                   (ProjectMonthlySnapshot.project_id s)
                 && in_month_range (ProjectMonthlySnapshot.month_start s)
                      from_month to_month)
       (snapshots db)).

(* ---------- Register listings ---------- *)

(** [if from_month is not None: ... >= from_month] and the like. *)
Definition in_optional_range (m : date) (from_month to_month : option date) : bool :=
  match from_month with Some f => (f <=? m)%date | None => true end
  && match to_month with Some t => (m <=? t)%date | None => true end.

Definition list_financial_requests (db : DB) (project_id : UUID)
    (from_month to_month : option date) : list FinancialRequest.t :=
  sort_asc
    (fun a b =>
       (FinancialRequest.month_start a <? FinancialRequest.month_start b)%date
       || ((FinancialRequest.month_start a =? FinancialRequest.month_start b)%date
           && (FinancialRequest.request_date a <? FinancialRequest.request_date b)%date))
    (filter
       (fun r => (FinancialRequest.project_id r =? project_id)
                 && in_optional_range (FinancialRequest.month_start r) from_month to_month)
       (financial_requests db)).

Definition list_invoices (db : DB) (project_id : UUID)
    (from_month to_month : option date) : list Invoice.t :=
  sort_asc
    (fun a b =>
       (Invoice.month_start a <? Invoice.month_start b)%date
       || ((Invoice.month_start a =? Invoice.month_start b)%date
           && (Invoice.invoice_date a <? Invoice.invoice_date b)%date))
    (filter
       (fun i => (Invoice.project_id i =? project_id)
                 && in_optional_range (Invoice.month_start i) from_month to_month)
       (invoices db)).

Definition list_revenues (db : DB) (project_id : UUID)
    (from_month to_month : option date) : list Revenue.t :=
  sort_asc
    (fun a b =>
       (Revenue.month_start a <? Revenue.month_start b)%date
       || ((Revenue.month_start a =? Revenue.month_start b)%date
           && (Revenue.recognition_date a <? Revenue.recognition_date b)%date))
    (filter
       (fun r => (Revenue.project_id r =? project_id)
                 && in_optional_range (Revenue.month_start r) from_month to_month)
       (revenues db)).

End Repo.

(** ** Inputs of the task, performer and assignment services
    (planning_service.py) *)

Record TaskCreateData : Type := mkTaskCreateData {
  tc_stage_id : UUID;
  tc_code : string;
  tc_name : string;
  tc_sequence_no : Z;
  tc_active : bool
}.

Record TaskUpdateData : Type := mkTaskUpdateData {
  tu_stage_id : option UUID;
  tu_code : option string;
  tu_name : option string;
  tu_sequence_no : option Z;
  tu_active : option bool
}.

Record PerformerCreateData : Type := mkPerformerCreateData {
  fc_external_ref : option string;
  fc_display_name : string;
  fc_active : bool
}.

Record PerformerUpdateData : Type := mkPerformerUpdateData {
  fu_external_ref : option string;
  fu_display_name : option string;
  fu_active : option bool
}.

Record AssignmentCreateData : Type := mkAssignmentCreateData {
  ac_task_id : UUID;
  ac_performer_id : UUID
}.

(** ** Access control (app/core/auth.py) *)

Inductive AppRole : Type := SUPER_ADMIN | BUSINESS_UNIT_ADMIN | EDITOR | VIEWER.

Definition AppRole_eqb (a b : AppRole) : bool :=
  match a, b with
  | SUPER_ADMIN, SUPER_ADMIN
  | BUSINESS_UNIT_ADMIN, BUSINESS_UNIT_ADMIN
  | EDITOR, EDITOR
  | VIEWER, VIEWER => true
  | _, _ => false
  end.

Lemma AppRole_eqb_spec : forall a b, reflect (a = b) (AppRole_eqb a b).
Proof. intros [] []; simpl; constructor; congruence. Qed.

#[export] Instance EqType_AppRole : EqType AppRole :=
  {| eqk := AppRole_eqb; eqk_spec := AppRole_eqb_spec |}.

Record EffectiveRoleAssignment : Type := mkRole {
  role : AppRole;
  role_business_unit_id : option UUID;
  assignment_id : UUID
}.

Record RequestUserContext : Type := mkContext {
  user_id : UUID;
  roles : list EffectiveRoleAssignment
}.

Definition is_super_admin (context : RequestUserContext) : bool :=
  mem SUPER_ADMIN (map role (roles context)).

Definition has_business_unit_access (context : RequestUserContext)
    (business_unit_id : UUID) (allowed_roles : list AppRole) : bool :=
  if is_super_admin context then mem SUPER_ADMIN allowed_roles
  else
    existsb
      (fun assignment =>
         eqk (role_business_unit_id assignment) (Some business_unit_id)
         && mem (role assignment) allowed_roles)
      (roles context).

Definition EDIT_ROLES : list AppRole := [SUPER_ADMIN; BUSINESS_UNIT_ADMIN; EDITOR].
Definition VIEW_ROLES : list AppRole := [SUPER_ADMIN; BUSINESS_UNIT_ADMIN; EDITOR; VIEWER].

(** ** Settings (app/core/config.py) *)

Record Settings : Type := mkSettings {
  (** [Field(default=20, ge=1)] *)
  cost_fte_month_working_days : positive
}.

Definition default_settings : Settings := mkSettings 20.

(** The request has ended: the store it leaves behind is the one it
    committed, or the one it started from when it raised (rollback, or the
    session closed without a commit). *)
Definition transaction {A : Type} (db : DB) (body : result (DB * A)) : DB * result A :=
  match body with
  | Ok (db', a) => (db', Ok a)
  | Raise e => (db, Raise e)
  end.

(** The four accumulators kept per month while entries are added up. *)
Record Bucket : Type := mkBucket {
  b_planned_person_days : Decimal;
  b_actual_person_days : Decimal;
  b_planned_cost : Decimal;
  b_actual_cost : Decimal
}.

Definition zero_bucket : Bucket := mkBucket ZERO ZERO ZERO ZERO.

(** [{month: {...ZERO...} for month in months}]. *)
Definition init_totals (months : list date) : dict date Bucket :=
  fold_left (fun d month => dict_set d month zero_bucket) months [].

(** [rates_by_performer.setdefault(rate.performer_id, []).append(rate)]. *)
Definition group_rates_by_performer (rates : list PerformerRate.t)
  : dict UUID (list PerformerRate.t) :=
  fold_left
    (fun d rate =>
       dict_set d (PerformerRate.performer_id rate)
         (dict_get_default d (PerformerRate.performer_id rate) [] ++ [rate]))
    rates [].

(** The sort key [(effective_from_month, effective_to_month or date.max,
    str(id))] and its tuple order. *)
Definition rate_sort_key (row : PerformerRate.t) : date * date * string :=
  (PerformerRate.effective_from_month row,
   match PerformerRate.effective_to_month row with
   | Some d => d
   | None => Date.max
   end,
   uuid_str (PerformerRate.id row)).

Definition key_ltb (a b : date * date * string) : bool :=
  let '(a1, a2, a3) := a in
  let '(b1, b2, b3) := b in
  (a1 <? b1)%date
  || ((a1 =? b1)%date
      && ((a2 <? b2)%date || ((a2 =? b2)%date && str_ltb a3 b3))).

Definition rate_key_ltb (a b : PerformerRate.t) : bool :=
  key_ltb (rate_sort_key a) (rate_sort_key b).

Record MatrixEntryInput : Type := mkMatrixEntryInput {
  mi_task_id : UUID;
  mi_performer_id : UUID;
  mi_month_start : date;
  mi_planned_person_days : Decimal;
  mi_actual_person_days : Decimal
}.

Record MatrixUpsertResult : Type := mkMatrixUpsertResult {
  updated_entries : Z;
  result_snapshots : list ProjectMonthlySnapshot.t
}.

Record ProjectCreateData : Type := mkProjectCreateData {
  pc_code : string;
  pc_name : string;
  pc_description : option string;
  pc_start_month : date;
  pc_end_month : date;
  pc_status : ProjectStatus
}.

Record ProjectUpdateData : Type := mkProjectUpdateData {
  pu_code : option string;
  pu_name : option string;
  pu_description : option string;
  pu_start_month : option date;
  pu_end_month : option date;
  pu_status : option ProjectStatus
}.

Record StageCreateData : Type := mkStageCreateData {
  sc_name : string;
  sc_start_month : date;
  sc_end_month : date;
  sc_color_token : string;
  sc_sequence_no : Z
}.

Record StageUpdateData : Type := mkStageUpdateData {
  su_name : option string;
  su_start_month : option date;
  su_end_month : option date;
  su_color_token : option string;
  su_sequence_no : option Z
}.

(** What the matrix response is rendered from. *)
Record MatrixData : Type := mkMatrixData {
  md_project : Project.t;
  md_months : list date;
  md_entries : list EffortMonthlyEntry.t;
  md_snapshot_rows : list (date * option MonthValues)
}.

Definition or_default {A : Type} (o : option A) (default : A) : A :=
  match o with Some a => a | None => default end.

(** [data.description.strip() if data.description else None]. *)
Definition strip_or_none (s : option string) : option string :=
  match s with
  | None | Some EmptyString => None
  | Some text => Some (str_strip text)
  end.

(** A [for] loop whose body may raise, stopping at the first exception. *)
Fixpoint fold_result {S X : Type} (step : S -> X -> result S) (l : list X) (s : S)
  : result S :=
  match l with
  | [] => Ok s
  | x :: l' => s' <- step s x ;; fold_result step l' s'
  end.

(** ** Planning service (app/services/planning_service.py) *)

Module Planning.

Definition _rate_covers_month (rate : PerformerRate.t) (month_start : date) : bool :=
  if (month_start <? PerformerRate.effective_from_month rate)%date then false
  else
    match PerformerRate.effective_to_month rate with
    | Some t => if (t <? month_start)%date then false else true
    | None => true
    end.

Definition _resolve_effective_rate
    (rates_by_performer : dict UUID (list PerformerRate.t))
    (performer_id project_id : UUID) (month_start : date)
  : option PerformerRate.t :=
  let candidates := dict_get_default rates_by_performer performer_id [] in
  let project_specific :=
    filter
      (fun row => eqk (PerformerRate.project_id row) (Some project_id)
                  && _rate_covers_month row month_start)
      candidates in
  match project_specific with
  | _ :: _ => hd_error (sort_desc rate_key_ltb project_specific)
  | [] =>
      let defaults :=
        filter
          (fun row => eqk (PerformerRate.project_id row) None
                      && _rate_covers_month row month_start)
          candidates in
      match defaults with
      | [] => None
      | _ :: _ => hd_error (sort_desc rate_key_ltb defaults)
      end
  end.

Section WithSettings.

Variable settings : Settings.

Definition _rate_value_per_day (rate : PerformerRate.t) : Decimal :=
  match PerformerRate.rate_unit rate with
  | DAY => _q2 (PerformerRate.rate_value rate)
  | FTE_MONTH =>
      _q2 (Dec.div (PerformerRate.rate_value rate)
             (Dec.of_int (Z.pos (cost_fte_month_working_days settings))))
  end.

(* ---------- Scope + RBAC ---------- *)

Definition ensure_can_edit_business_unit (context : RequestUserContext)
    (business_unit_id : UUID) : result unit :=
  if negb (has_business_unit_access context business_unit_id EDIT_ROLES)
  then Raise (HTTPException HTTP_403_FORBIDDEN
                "Insufficient business unit scope permissions for this operation.")
  else Ok tt.

Definition _ensure_project_access (db : DB) (context : RequestUserContext)
    (project_id : UUID) (allowed_roles : list AppRole) : result Project.t :=
  match Repo.get_project db project_id with
  | None => Raise (HTTPException HTTP_404_NOT_FOUND "Project not found.")
  | Some project =>
      if negb (has_business_unit_access context
                 (Project.business_unit_id project) allowed_roles)
      then Raise (HTTPException HTTP_403_FORBIDDEN
                    "Insufficient business unit scope permissions for this operation.")
      else Ok project
  end.

(* ---------- Snapshot refresh ---------- *)

(** One turn of [for entry in effort_entries]. *)
Definition accrue_entry (rates_by_performer : dict UUID (list PerformerRate.t))
    (project_id : UUID) (totals : dict date Bucket) (entry : EffortMonthlyEntry.t)
  : dict date Bucket :=
  let month := EffortMonthlyEntry.month_start entry in
  let bucket := dict_get_default totals month zero_bucket in
  let planned := Dec.add (b_planned_person_days bucket)
                   (EffortMonthlyEntry.planned_person_days entry) in
  let actual := Dec.add (b_actual_person_days bucket)
                  (EffortMonthlyEntry.actual_person_days entry) in
  match _resolve_effective_rate rates_by_performer
          (EffortMonthlyEntry.performer_id entry) project_id month with
  | None =>
      dict_set totals month
        (mkBucket planned actual (b_planned_cost bucket) (b_actual_cost bucket))
  | Some rate =>
      let rate_per_day := _rate_value_per_day rate in
      dict_set totals month
        (mkBucket planned actual
           (Dec.add (b_planned_cost bucket)
              (_q2 (Dec.mul (EffortMonthlyEntry.planned_person_days entry) rate_per_day)))
           (Dec.add (b_actual_cost bucket)
              (_q2 (Dec.mul (EffortMonthlyEntry.actual_person_days entry) rate_per_day))))
  end.

(** The running totals carried by [for month in months]. *)
Record Cumulative : Type := mkCumulative {
  c_planned_cost : Decimal;
  c_actual_cost : Decimal;
  c_revenue : Decimal
}.

Definition month_values (totals : dict date Bucket)
    (invoice_by_month revenue_by_month : dict date Decimal)
    (cumulative : Cumulative) (month : date) : MonthValues :=
  let bucket := or_default (dict_get totals month) zero_bucket in
  let planned_total := _q2 (b_planned_person_days bucket) in
  let actual_total := _q2 (b_actual_person_days bucket) in
  let planned_cost := _q2 (b_planned_cost bucket) in
  let actual_cost := _q2 (b_actual_cost bucket) in
  let revenue_amount := _q2 (dict_get_default revenue_by_month month ZERO) in
  let invoice_amount := _q2 (dict_get_default invoice_by_month month ZERO) in
  let cumulative_planned_cost := _q2 (Dec.add (c_planned_cost cumulative) planned_cost) in
  let cumulative_actual_cost := _q2 (Dec.add (c_actual_cost cumulative) actual_cost) in
  let cumulative_revenue := _q2 (Dec.add (c_revenue cumulative) revenue_amount) in
  mkValues planned_total actual_total planned_cost actual_cost
    revenue_amount invoice_amount
    cumulative_planned_cost cumulative_actual_cost cumulative_revenue.

(** Create the snapshot of a month or overwrite its derived fields in
    place; the row written is returned with the new store. *)
Definition write_snapshot (db : DB) (project_id : UUID) (month : date)
    (v : MonthValues) : DB * ProjectMonthlySnapshot.t :=
  match Repo.get_snapshot db project_id month with
  | None =>
      let '(new_id, db1) := fresh_uuid db in
      let snapshot := ProjectMonthlySnapshot.mk new_id project_id month v in
      (Repo.add_snapshot db1 snapshot, snapshot)
  | Some existing =>
      let snapshot :=
        ProjectMonthlySnapshot.mk (ProjectMonthlySnapshot.id existing)
          (ProjectMonthlySnapshot.project_id existing)
          (ProjectMonthlySnapshot.month_start existing) v in
      (with_snapshots db
         (update_first (Repo.snapshot_key_matches project_id month)
            (fun _ => snapshot) (snapshots db)),
       snapshot)
  end.

(** The loop [for month in months] of [refresh_project_snapshots]. *)
Fixpoint sync_months (totals : dict date Bucket)
    (invoice_by_month revenue_by_month : dict date Decimal)
    (project_id : UUID) (months : list date) (cumulative : Cumulative)
    (db : DB) (refreshed : list ProjectMonthlySnapshot.t)
  : DB * list ProjectMonthlySnapshot.t :=
  match months with
  | [] => (db, refreshed)
  | month :: months' =>
      let v := month_values totals invoice_by_month revenue_by_month cumulative month in
      let '(db1, snapshot) := write_snapshot db project_id month v in
      sync_months totals invoice_by_month revenue_by_month project_id months'
        (mkCumulative (cumulative_planned_cost v) (cumulative_actual_cost v)
           (cumulative_revenue v))
        db1 (refreshed ++ [snapshot])
  end.

Definition refresh_project_snapshots (db : DB) (project_id : UUID)
  : result (DB * list ProjectMonthlySnapshot.t) :=
  match Repo.get_project db project_id with
  | None => Raise (HTTPException HTTP_404_NOT_FOUND "Project not found.")
  | Some project =>
      months <- month_sequence (Project.start_month project) (Project.end_month project) ;;
      let effort_entries :=
        Repo.list_effort_entries db (Project.id project)
          (Project.start_month project) (Project.end_month project) in
      let rates :=
        Repo.list_rates_for_business_unit db (Project.business_unit_id project)
          (Some (Project.id project)) in
      let invoice_by_month := Repo.aggregate_invoices_by_month db (Project.id project) in
      let revenue_by_month := Repo.aggregate_revenues_by_month db (Project.id project) in
      let rates_by_performer := group_rates_by_performer rates in
      let totals :=
        fold_left (accrue_entry rates_by_performer (Project.id project))
          effort_entries (init_totals months) in
      let '(db1, refreshed) :=
        sync_months totals invoice_by_month revenue_by_month (Project.id project)
          months (mkCumulative ZERO ZERO ZERO) db [] in
      Ok (Repo.delete_snapshots_outside_range db1 (Project.id project)
            (Project.start_month project) (Project.end_month project),
          refreshed)
  end.

(* ---------- Project CRUD ---------- *)

(** The unique constraint [uq_projects_business_unit_code], checked when
    the row is flushed.  [add_project] flushes outside the [try] block of
    the service, so a violation leaves the service as [IntegrityError]. *)
Definition project_code_taken (db : DB) (self_id business_unit_id : UUID)
    (code : string) : bool :=
  existsb
    (fun p => negb (Project.id p =? self_id)
              && (Project.business_unit_id p =? business_unit_id)
              && String.eqb (Project.code p) code)
    (projects db).

Definition create_project (db : DB) (context : RequestUserContext)
    (business_unit_id : UUID) (data : ProjectCreateData) : DB * result Project.t :=
  transaction db
    match Repo.get_business_unit db business_unit_id with
    | None => Raise (HTTPException HTTP_404_NOT_FOUND "Business unit not found.")
    | Some _ =>
        _ <- ensure_can_edit_business_unit context business_unit_id ;;
        start_month <- normalize_month_start (pc_start_month data) ;;
        end_month <- normalize_month_start (pc_end_month data) ;;
        if (end_month <? start_month)%date
        then Raise (HTTPException HTTP_422_UNPROCESSABLE_ENTITY
                      "end_month must be greater than or equal to start_month.")
        else
          let '(new_id, db1) := fresh_uuid db in
          let project :=
            Project.mk new_id business_unit_id (str_strip (pc_code data))
              (str_strip (pc_name data)) (strip_or_none (pc_description data))
              start_month end_month (pc_status data) in
          if project_code_taken db1 new_id business_unit_id (Project.code project)
          then Raise (IntegrityError "uq_projects_business_unit_code")
          else Ok (Repo.add_project db1 project, project)
    end.

Definition update_project (db : DB) (context : RequestUserContext)
    (project_id : UUID) (data : ProjectUpdateData) : DB * result Project.t :=
  transaction db
    (project <- _ensure_project_access db context project_id EDIT_ROLES ;;
     target_start <-
       match pu_start_month data with
       | Some d => normalize_month_start d
       | None => Ok (Project.start_month project)
       end ;;
     target_end <-
       match pu_end_month data with
       | Some d => normalize_month_start d
       | None => Ok (Project.end_month project)
       end ;;
     if (target_end <? target_start)%date
     then Raise (HTTPException HTTP_422_UNPROCESSABLE_ENTITY
                   "end_month must be greater than or equal to start_month.")
     else if negb (Repo.effort_outside_project_range_count db (Project.id project)
                     target_start target_end =? 0)
     then Raise (HTTPException HTTP_422_UNPROCESSABLE_ENTITY
                   "Cannot shrink project month range while effort entries exist outside new range.")
     else
       let updated :=
         Project.mk (Project.id project) (Project.business_unit_id project)
           (match pu_code data with
            | Some c => str_strip c
            | None => Project.code project
            end)
           (match pu_name data with
            | Some n => str_strip n
            | None => Project.name project
            end)
           (match pu_description data with
            | Some d => strip_or_none (Some d)
            | None => Project.description project
            end)
           target_start target_end
           (or_default (pu_status data) (Project.status project)) in
       let db1 :=
         with_projects db
           (update_first (fun p => Project.id p =? project_id) (fun _ => updated)
              (projects db)) in
       if project_code_taken db1 (Project.id updated)
            (Project.business_unit_id updated) (Project.code updated)
       then Raise (IntegrityError "uq_projects_business_unit_code")
       else
         let db2 :=
           Repo.delete_snapshots_outside_range db1 (Project.id project)
             target_start target_end in
         '(db3, _) <- refresh_project_snapshots db2 (Project.id project) ;;
         Ok (db3, updated)).

(* ---------- Stage CRUD ---------- *)

Definition create_stage (db : DB) (context : RequestUserContext)
    (project_id : UUID) (data : StageCreateData) : DB * result ProjectStage.t :=
  transaction db
    (project <- _ensure_project_access db context project_id EDIT_ROLES ;;
     start_month <- normalize_month_start (sc_start_month data) ;;
     end_month <- normalize_month_start (sc_end_month data) ;;
     if (end_month <? start_month)%date
     then Raise (HTTPException HTTP_422_UNPROCESSABLE_ENTITY
                   "stage end_month must be greater than or equal to start_month.")
     else if (start_month <? Project.start_month project)%date
             || (Project.end_month project <? end_month)%date
     then Raise (HTTPException HTTP_422_UNPROCESSABLE_ENTITY
                   "Stage month range must be within project month range.")
     else
       let '(new_id, db1) := fresh_uuid db in
       let stage :=
         ProjectStage.mk new_id project_id (str_strip (sc_name data))
           start_month end_month (str_strip (sc_color_token data))
           (sc_sequence_no data) in
       Ok (Repo.add_stage db1 stage, stage)).

Definition update_stage (db : DB) (context : RequestUserContext)
    (project_id stage_id : UUID) (data : StageUpdateData)
  : DB * result ProjectStage.t :=
  transaction db
    (project <- _ensure_project_access db context project_id EDIT_ROLES ;;
     match Repo.get_stage db stage_id with
     | None => Raise (HTTPException HTTP_404_NOT_FOUND "Project stage not found.")
     | Some stage =>
         if negb (ProjectStage.project_id stage =? Project.id project)
         then Raise (HTTPException HTTP_404_NOT_FOUND "Project stage not found.")
         else
           target_start <-
             match su_start_month data with
             | Some d => normalize_month_start d
             | None => Ok (ProjectStage.start_month stage)
             end ;;
           target_end <-
             match su_end_month data with
             | Some d => normalize_month_start d
             | None => Ok (ProjectStage.end_month stage)
             end ;;
           if (target_end <? target_start)%date
           then Raise (HTTPException HTTP_422_UNPROCESSABLE_ENTITY
                         "stage end_month must be greater than or equal to start_month.")
           else if (target_start <? Project.start_month project)%date
                   || (Project.end_month project <? target_end)%date
           then Raise (HTTPException HTTP_422_UNPROCESSABLE_ENTITY
                         "Stage month range must be within project month range.")
           else
             let updated :=
               ProjectStage.mk (ProjectStage.id stage) (ProjectStage.project_id stage)
                 (match su_name data with
                  | Some n => str_strip n
                  | None => ProjectStage.name stage
                  end)
                 target_start target_end
                 (match su_color_token data with
                  | Some c => str_strip c
                  | None => ProjectStage.color_token stage
                  end)
                 (or_default (su_sequence_no data) (ProjectStage.sequence_no stage)) in
             Ok (with_stages db
                   (update_first (fun s => ProjectStage.id s =? stage_id)
                      (fun _ => updated) (stages db)),
                 updated)
     end).

(* ---------- Matrix read ---------- *)

Definition read_matrix (db : DB) (context : RequestUserContext) (project_id : UUID)
    (from_month to_month : option date) : result MatrixData :=
  project <- _ensure_project_access db context project_id VIEW_ROLES ;;
  matrix_from <- normalize_month_start (or_default from_month (Project.start_month project)) ;;
  matrix_to <- normalize_month_start (or_default to_month (Project.end_month project)) ;;
  if (matrix_from <? Project.start_month project)%date
     || (Project.end_month project <? matrix_to)%date
  then Raise (HTTPException HTTP_422_UNPROCESSABLE_ENTITY
                "Requested matrix month range must be within project month range.")
  else if (matrix_to <? matrix_from)%date
  then Raise (HTTPException HTTP_422_UNPROCESSABLE_ENTITY
                "to_month must be greater than or equal to from_month.")
  else
    months <- month_sequence matrix_from matrix_to ;;
    let entries := Repo.list_effort_entries db (Project.id project) matrix_from matrix_to in
    let snapshots := Repo.list_snapshots db (Project.id project) matrix_from matrix_to in
    let snapshot_map :=
      fold_left
        (fun d s => dict_set d (ProjectMonthlySnapshot.month_start s) s)
        snapshots [] in
    Ok (mkMatrixData project months entries
          (map (fun month =>
                  (month,
                   option_map ProjectMonthlySnapshot.values (dict_get snapshot_map month)))
             months)).

(* ---------- Matrix write ---------- *)

(** One turn of the validation loop of [bulk_upsert_matrix_entries]; the
    state is [(normalized, seen_keys)]. *)
Definition validate_matrix_entry (project : Project.t)
    (task_by_id : dict UUID Task.t) (performer_by_id : dict UUID Performer.t)
    (assignment_set : list (UUID * UUID))
    (state : list MatrixEntryInput * list (UUID * UUID * date))
    (payload : MatrixEntryInput)
  : result (list MatrixEntryInput * list (UUID * UUID * date)) :=
  let '(normalized, seen_keys) := state in
  month <- normalize_month_start (mi_month_start payload) ;;
  if Dec.ltb (mi_planned_person_days payload) ZERO
     || Dec.ltb (mi_actual_person_days payload) ZERO
  then Raise (HTTPException HTTP_422_UNPROCESSABLE_ENTITY
                "planned_person_days and actual_person_days must be greater or equal zero.")
  else if (month <? Project.start_month project)%date
          || (Project.end_month project <? month)%date
  then Raise (HTTPException HTTP_422_UNPROCESSABLE_ENTITY
                "Matrix edits outside project month range are rejected.")
  else
    match dict_get task_by_id (mi_task_id payload) with
    | None => Raise (HTTPException HTTP_422_UNPROCESSABLE_ENTITY
                       "task_id must reference task in this project.")
    | Some task =>
        if negb (Task.active task)
        then Raise (HTTPException HTTP_422_UNPROCESSABLE_ENTITY
                      "Edits for inactive task are rejected.")
        else
          match dict_get performer_by_id (mi_performer_id payload) with
          | None => Raise (HTTPException HTTP_422_UNPROCESSABLE_ENTITY
                             "performer_id must reference performer in project business unit.")
          | Some performer =>
              if negb (Performer.active performer)
              then Raise (HTTPException HTTP_422_UNPROCESSABLE_ENTITY
                            "Edits for inactive performer are rejected.")
              else if negb (mem (Task.id task, Performer.id performer) assignment_set)
              then Raise (HTTPException HTTP_422_UNPROCESSABLE_ENTITY
                            "Task-performer pair must be assigned before matrix edits.")
              else
                let dedup_key := (Task.id task, Performer.id performer, month) in
                if mem dedup_key seen_keys
                then Raise (HTTPException HTTP_422_UNPROCESSABLE_ENTITY
                              "Duplicate matrix entry key in bulk payload.")
                else
                  Ok (normalized
                        ++ [mkMatrixEntryInput (Task.id task) (Performer.id performer)
                              month (mi_planned_person_days payload)
                              (mi_actual_person_days payload)],
                      seen_keys ++ [dedup_key])
          end
    end.

(** One turn of the write loop.  A new entry is inserted and flushed: the
    session reads it again with the values of its NUMERIC(10, 2) columns.
    An entry that exists keeps its row, with the person-days of the payload
    as they are until the commit. *)
Definition upsert_effort_entry (project_id : UUID) (db : DB)
    (payload : MatrixEntryInput) : result DB :=
  match Repo.get_effort_entry db project_id (mi_task_id payload)
          (mi_performer_id payload) (mi_month_start payload) with
  | None =>
      planned <- numeric 10 2 (mi_planned_person_days payload) ;;
      actual <- numeric 10 2 (mi_actual_person_days payload) ;;
      let '(new_id, db1) := fresh_uuid db in
      Ok (Repo.add_effort_entry db1
            (EffortMonthlyEntry.mk new_id project_id (mi_task_id payload)
               (mi_performer_id payload) (mi_month_start payload) planned actual))
  | Some _ =>
      Ok (with_effort_entries db
            (update_first
               (Repo.effort_key_matches project_id (mi_task_id payload)
                  (mi_performer_id payload) (mi_month_start payload))
               (fun row =>
                  EffortMonthlyEntry.mk (EffortMonthlyEntry.id row)
                    (EffortMonthlyEntry.project_id row) (EffortMonthlyEntry.task_id row)
                    (EffortMonthlyEntry.performer_id row)
                    (EffortMonthlyEntry.month_start row)
                    (mi_planned_person_days payload) (mi_actual_person_days payload))
               (effort_entries db)))
  end.

(** What [commit] leaves of an entry of the batch: its row holds the
    values of its two NUMERIC(10, 2) columns. *)
Definition store_effort_entry (project_id : UUID) (db : DB)
    (payload : MatrixEntryInput) : result DB :=
  planned <- numeric 10 2 (mi_planned_person_days payload) ;;
  actual <- numeric 10 2 (mi_actual_person_days payload) ;;
  Ok (with_effort_entries db
        (update_first
           (Repo.effort_key_matches project_id (mi_task_id payload)
              (mi_performer_id payload) (mi_month_start payload))
           (fun row =>
              EffortMonthlyEntry.mk (EffortMonthlyEntry.id row)
                (EffortMonthlyEntry.project_id row) (EffortMonthlyEntry.task_id row)
                (EffortMonthlyEntry.performer_id row)
                (EffortMonthlyEntry.month_start row) planned actual)
           (effort_entries db))).

(** The validation pass of [bulk_upsert_matrix_entries]: nothing is
    written while it runs. *)
Definition validate_matrix_entries (db : DB) (project : Project.t)
    (entries : list MatrixEntryInput) : result (list MatrixEntryInput) :=
  let task_by_id :=
    fold_left (fun d task => dict_set d (Task.id task) task)
      (Repo.list_tasks db (Project.id project)) [] in
  let performer_by_id :=
    fold_left (fun d performer => dict_set d (Performer.id performer) performer)
      (Repo.list_performers_for_project db (Project.id project)
         (Project.business_unit_id project)) [] in
  let assignment_set :=
    to_set
      (map (fun a => (TaskPerformerAssignment.task_id a,
                      TaskPerformerAssignment.performer_id a))
         (Repo.list_assignments_for_project db (Project.id project))) in
  '(normalized, _) <-
    fold_result (validate_matrix_entry project task_by_id performer_by_id assignment_set)
      entries ([], []) ;;
  Ok normalized.

Definition bulk_upsert_matrix_entries (db : DB) (context : RequestUserContext)
    (project_id : UUID) (entries : list MatrixEntryInput)
  : DB * result MatrixUpsertResult :=
  transaction db
    (project <- _ensure_project_access db context project_id EDIT_ROLES ;;
     normalized <- validate_matrix_entries db project entries ;;
     db1 <- fold_result (upsert_effort_entry (Project.id project)) normalized db ;;
     '(db2, snapshots) <- refresh_project_snapshots db1 (Project.id project) ;;
     db3 <- fold_result (store_effort_entry (Project.id project)) normalized db2 ;;
     Ok (db3, mkMatrixUpsertResult (Z.of_nat (List.length normalized)) snapshots)).

(* ---------- Reads behind the access checks ---------- *)

Definition ensure_can_view_business_unit (context : RequestUserContext)
    (business_unit_id : UUID) : result unit :=
  if negb (has_business_unit_access context business_unit_id VIEW_ROLES)
  then Raise (HTTPException HTTP_403_FORBIDDEN
                "Insufficient business unit scope permissions for this operation.")
  else Ok tt.

Definition list_projects (db : DB) (context : RequestUserContext)
    (business_unit_id : UUID) : result (list Project.t) :=
  match Repo.get_business_unit db business_unit_id with
  | None => Raise (HTTPException HTTP_404_NOT_FOUND "Business unit not found.")
  | Some _ =>
      _ <- ensure_can_view_business_unit context business_unit_id ;;
      Ok (Repo.list_projects_for_business_unit db business_unit_id)
  end.

Definition get_project (db : DB) (context : RequestUserContext) (project_id : UUID)
  : result Project.t :=
  _ensure_project_access db context project_id VIEW_ROLES.

Definition list_stages (db : DB) (context : RequestUserContext) (project_id : UUID)
  : result (list ProjectStage.t) :=
  _ <- _ensure_project_access db context project_id VIEW_ROLES ;;
  Ok (Repo.list_stages db project_id).

Definition list_tasks (db : DB) (context : RequestUserContext) (project_id : UUID)
  : result (list Task.t) :=
  _ <- _ensure_project_access db context project_id VIEW_ROLES ;;
  Ok (Repo.list_tasks db project_id).

Definition list_project_performers (db : DB) (context : RequestUserContext)
    (project_id : UUID) : result (list Performer.t) :=
  project <- _ensure_project_access db context project_id VIEW_ROLES ;;
  Ok (Repo.list_performers_for_business_unit db (Project.business_unit_id project)).

Definition list_assignments (db : DB) (context : RequestUserContext)
    (project_id : UUID) : result (list TaskPerformerAssignment.t) :=
  _ <- _ensure_project_access db context project_id VIEW_ROLES ;;
  Ok (Repo.list_assignments_for_project db project_id).

(* ---------- Deleting a project or a stage ---------- *)

Definition delete_project (db : DB) (context : RequestUserContext) (project_id : UUID)
  : DB * result unit :=
  transaction db
    (project <- _ensure_project_access db context project_id EDIT_ROLES ;;
     if 0 <? Repo.stage_count_for_project db (Project.id project)
     then Raise (HTTPException HTTP_409_CONFLICT
                   "Cannot delete project with existing stages.")
     else if 0 <? Repo.task_count_for_project db (Project.id project)
     then Raise (HTTPException HTTP_409_CONFLICT
                   "Cannot delete project with existing tasks.")
     else if 0 <? Repo.effort_count_for_project db (Project.id project)
     then Raise (HTTPException HTTP_409_CONFLICT
                   "Cannot delete project with existing effort entries.")
     else if 0 <? Repo.snapshot_count_for_project db (Project.id project)
     then Raise (HTTPException HTTP_409_CONFLICT
                   "Cannot delete project with existing snapshots.")
     else
       db1 <- Repo.delete_project db project ;;
       Ok (db1, tt)).

Definition delete_stage (db : DB) (context : RequestUserContext)
    (project_id stage_id : UUID) : DB * result unit :=
  transaction db
    (_ <- _ensure_project_access db context project_id EDIT_ROLES ;;
     match Repo.get_stage db stage_id with
     | None => Raise (HTTPException HTTP_404_NOT_FOUND "Project stage not found.")
     | Some stage =>
         if negb (ProjectStage.project_id stage =? project_id)
         then Raise (HTTPException HTTP_404_NOT_FOUND "Project stage not found.")
         else if 0 <? Repo.task_count_in_stage db (ProjectStage.id stage)
         then Raise (HTTPException HTTP_409_CONFLICT
                       "Cannot delete stage with existing tasks.")
         else
           db1 <- Repo.delete_stage db stage ;;
           Ok (db1, tt)
     end).

(* ---------- Task CRUD ---------- *)

(** The unique constraint [uq_tasks_project_code]. *)
Definition task_code_taken (db : DB) (self_id project_id : UUID) (code : string) : bool :=
  existsb
    (fun t => negb (Task.id t =? self_id)
              && (Task.project_id t =? project_id)
              && String.eqb (Task.code t) code)
    (tasks db).

(** [add_task] flushes before the [try] block of the service is entered,
    so a violation of the unique constraint leaves [create_task] as
    [IntegrityError]. *)
Definition create_task (db : DB) (context : RequestUserContext) (project_id : UUID)
    (data : TaskCreateData) : DB * result Task.t :=
  transaction db
    (project <- _ensure_project_access db context project_id EDIT_ROLES ;;
     match Repo.get_stage db (tc_stage_id data) with
     | None => Raise (HTTPException HTTP_422_UNPROCESSABLE_ENTITY
                        "stage_id must reference a stage in this project.")
     | Some stage =>
         if negb (ProjectStage.project_id stage =? Project.id project)
         then Raise (HTTPException HTTP_422_UNPROCESSABLE_ENTITY
                       "stage_id must reference a stage in this project.")
         else
           let '(new_id, db1) := fresh_uuid db in
           let task :=
             Task.mk new_id project_id (tc_stage_id data) (str_strip (tc_code data))
               (str_strip (tc_name data)) (tc_sequence_no data) (tc_active data) in
           if task_code_taken db1 new_id project_id (Task.code task)
           then Raise (IntegrityError "uq_tasks_project_code")
           else Ok (Repo.add_task db1 task, task)
     end).

(** The changes of [update_task] are flushed by [commit], inside the
    [try] block: a violation of the unique constraint is answered 409. *)
Definition update_task (db : DB) (context : RequestUserContext)
    (project_id task_id : UUID) (data : TaskUpdateData) : DB * result Task.t :=
  transaction db
    (project <- _ensure_project_access db context project_id EDIT_ROLES ;;
     match Repo.get_task db task_id with
     | None => Raise (HTTPException HTTP_404_NOT_FOUND "Task not found.")
     | Some task =>
         if negb (Task.project_id task =? Project.id project)
         then Raise (HTTPException HTTP_404_NOT_FOUND "Task not found.")
         else
           stage_id <-
             match tu_stage_id data with
             | None => Ok (Task.stage_id task)
             | Some s =>
                 match Repo.get_stage db s with
                 | None => Raise (HTTPException HTTP_422_UNPROCESSABLE_ENTITY
                                    "stage_id must reference a stage in this project.")
                 | Some stage =>
                     if negb (ProjectStage.project_id stage =? Project.id project)
                     then Raise (HTTPException HTTP_422_UNPROCESSABLE_ENTITY
                                   "stage_id must reference a stage in this project.")
                     else Ok s
                 end
             end ;;
           let updated :=
             Task.mk (Task.id task) (Task.project_id task) stage_id
               (match tu_code data with
                | Some c => str_strip c
                | None => Task.code task
                end)
               (match tu_name data with
                | Some n => str_strip n
                | None => Task.name task
                end)
               (or_default (tu_sequence_no data) (Task.sequence_no task))
               (or_default (tu_active data) (Task.active task)) in
           let db1 :=
             with_tasks db
               (update_first (fun t => Task.id t =? task_id) (fun _ => updated)
                  (tasks db)) in
           if task_code_taken db1 (Task.id updated) (Task.project_id updated)
                (Task.code updated)
           then Raise (HTTPException HTTP_409_CONFLICT
                         "Task code already exists in this project.")
           else Ok (db1, updated)
     end).

Definition delete_task (db : DB) (context : RequestUserContext)
    (project_id task_id : UUID) : DB * result unit :=
  transaction db
    (_ <- _ensure_project_access db context project_id EDIT_ROLES ;;
     match Repo.get_task db task_id with
     | None => Raise (HTTPException HTTP_404_NOT_FOUND "Task not found.")
     | Some task =>
         if negb (Task.project_id task =? project_id)
         then Raise (HTTPException HTTP_404_NOT_FOUND "Task not found.")
         else if 0 <? Repo.assignment_count_for_task db (Task.id task)
         then Raise (HTTPException HTTP_409_CONFLICT
                       "Cannot delete task with performer assignments.")
         else if 0 <? Repo.effort_count_for_task db (Task.id task)
         then Raise (HTTPException HTTP_409_CONFLICT
                       "Cannot delete task with effort entries.")
         else
           db1 <- Repo.delete_task db task ;;
           Ok (db1, tt)
     end).

(* ---------- Performer CRUD ---------- *)

Definition create_project_performer (db : DB) (context : RequestUserContext)
    (project_id : UUID) (data : PerformerCreateData) : DB * result Performer.t :=
  transaction db
    (project <- _ensure_project_access db context project_id EDIT_ROLES ;;
     let '(new_id, db1) := fresh_uuid db in
     let performer :=
       Performer.mk new_id (Project.business_unit_id project)
         (strip_or_none (fc_external_ref data)) (str_strip (fc_display_name data))
         (fc_active data) in
     Ok (Repo.add_performer db1 performer, performer)).

Definition update_project_performer (db : DB) (context : RequestUserContext)
    (project_id performer_id : UUID) (data : PerformerUpdateData)
  : DB * result Performer.t :=
  transaction db
    (project <- _ensure_project_access db context project_id EDIT_ROLES ;;
     match Repo.get_performer db performer_id with
     | None => Raise (HTTPException HTTP_404_NOT_FOUND "Performer not found.")
     | Some performer =>
         if negb (Performer.business_unit_id performer
                  =? Project.business_unit_id project)
         then Raise (HTTPException HTTP_404_NOT_FOUND "Performer not found.")
         else
           let updated :=
             Performer.mk (Performer.id performer)
               (Performer.business_unit_id performer)
               (match fu_external_ref data with
                | Some r => strip_or_none (Some r)
                | None => Performer.external_ref performer
                end)
               (match fu_display_name data with
                | Some n => str_strip n
                | None => Performer.display_name performer
                end)
               (or_default (fu_active data) (Performer.active performer)) in
           Ok (with_performers db
                 (update_first (fun p => Performer.id p =? performer_id)
                    (fun _ => updated) (performers db)),
               updated)
     end).

Definition delete_project_performer (db : DB) (context : RequestUserContext)
    (project_id performer_id : UUID) : DB * result unit :=
  transaction db
    (project <- _ensure_project_access db context project_id EDIT_ROLES ;;
     match Repo.get_performer db performer_id with
     | None => Raise (HTTPException HTTP_404_NOT_FOUND "Performer not found.")
     | Some performer =>
         if negb (Performer.business_unit_id performer
                  =? Project.business_unit_id project)
         then Raise (HTTPException HTTP_404_NOT_FOUND "Performer not found.")
         else if 0 <? Repo.assignment_count_for_performer db (Performer.id performer)
         then Raise (HTTPException HTTP_409_CONFLICT
                       "Cannot delete performer with task assignments.")
         else if 0 <? Repo.effort_count_for_performer db (Performer.id performer)
         then Raise (HTTPException HTTP_409_CONFLICT
                       "Cannot delete performer with effort entries.")
         else
           db1 <- Repo.delete_performer db performer ;;
           Ok (db1, tt)
     end).

(* ---------- Assignments ---------- *)

(** [add_assignment] flushes before the [try] block: a pair that is
    already assigned ([uq_task_performer_assignments]) leaves
    [create_assignment] as [IntegrityError]. *)
Definition create_assignment (db : DB) (context : RequestUserContext)
    (project_id : UUID) (data : AssignmentCreateData)
  : DB * result TaskPerformerAssignment.t :=
  transaction db
    (project <- _ensure_project_access db context project_id EDIT_ROLES ;;
     match Repo.get_task db (ac_task_id data) with
     | None => Raise (HTTPException HTTP_422_UNPROCESSABLE_ENTITY
                        "task_id must reference a task in this project.")
     | Some task =>
         if negb (Task.project_id task =? Project.id project)
         then Raise (HTTPException HTTP_422_UNPROCESSABLE_ENTITY
                       "task_id must reference a task in this project.")
         else
           match Repo.get_performer db (ac_performer_id data) with
           | None => Raise (HTTPException HTTP_422_UNPROCESSABLE_ENTITY
                              "performer_id must reference performer in project business unit.")
           | Some performer =>
               if negb (Performer.business_unit_id performer
                        =? Project.business_unit_id project)
               then Raise (HTTPException HTTP_422_UNPROCESSABLE_ENTITY
                             "performer_id must reference performer in project business unit.")
               else
                 let '(new_id, db1) := fresh_uuid db in
                 let assignment :=
                   TaskPerformerAssignment.mk new_id (Task.id task)
                     (Performer.id performer) in
                 match Repo.get_assignment db1 (Task.id task) (Performer.id performer)
                 with
                 | Some _ => Raise (IntegrityError "uq_task_performer_assignments")
                 | None => Ok (Repo.add_assignment db1 assignment, assignment)
                 end
           end
     end).

Definition delete_assignment (db : DB) (context : RequestUserContext)
    (project_id task_id performer_id : UUID) : DB * result unit :=
  transaction db
    (project <- _ensure_project_access db context project_id EDIT_ROLES ;;
     match Repo.get_task db task_id with
     | None => Raise (HTTPException HTTP_404_NOT_FOUND "Task not found.")
     | Some task =>
         if negb (Task.project_id task =? Project.id project)
         then Raise (HTTPException HTTP_404_NOT_FOUND "Task not found.")
         else
           match Repo.get_performer db performer_id with
           | None => Raise (HTTPException HTTP_404_NOT_FOUND "Performer not found.")
           | Some performer =>
               if negb (Performer.business_unit_id performer
                        =? Project.business_unit_id project)
               then Raise (HTTPException HTTP_404_NOT_FOUND "Performer not found.")
               else
                 match Repo.get_assignment db task_id performer_id with
                 | None => Raise (HTTPException HTTP_404_NOT_FOUND
                                    "Task-performer assignment not found.")
                 | Some assignment =>
                     if 0 <? Repo.effort_count_for_assignment db task_id performer_id
                     then Raise (HTTPException HTTP_409_CONFLICT
                                   "Cannot delete assignment with existing effort entries.")
                     else Ok (Repo.delete_assignment db assignment, tt)
                 end
           end
     end).

End WithSettings.

End Planning.

(** ** More of app/core/auth.py *)

(** [RequestUserContext.role_names]: the roles of the assignments, each
    once, in the order of their first assignment. *)
Definition role_names (context : RequestUserContext) : list AppRole :=
  to_set (map role (roles context)).

(** [RequestUserContext.business_unit_ids]. *)
Definition business_unit_ids (context : RequestUserContext) : list UUID :=
  fold_left
    (fun scoped assignment =>
       match role_business_unit_id assignment with
       | Some b => if mem b scoped then scoped else scoped ++ [b]
       | None => scoped
       end)
    (roles context) [].

Definition has_role (context : RequestUserContext) (allowed_roles : list AppRole)
  : bool :=
  existsb (fun r => mem r allowed_roles) (role_names context).

(** The dependency built by [require_roles]. *)
Definition require_roles (allowed : list AppRole) (context : RequestUserContext)
  : result RequestUserContext :=
  if negb (has_role context allowed)
  then Raise (HTTPException HTTP_403_FORBIDDEN
                "Insufficient role permissions for this operation.")
  else Ok context.

(** The dependency built by [require_business_unit_roles]. *)
Definition require_business_unit_roles (allowed : list AppRole)
    (business_unit_id : UUID) (context : RequestUserContext)
  : result RequestUserContext :=
  if negb (has_business_unit_access context business_unit_id allowed)
  then Raise (HTTPException HTTP_403_FORBIDDEN
                "Insufficient business unit scope permissions for this operation.")
  else Ok context.

(** ** Finance and reporting service
       (app/services/finance_reporting_service.py) *)

Record RateEntryInput : Type := mkRateEntryInput {
  ri_performer_id : UUID;
  ri_project_id : option UUID;
  ri_rate_unit : RateUnit;
  ri_rate_value : Decimal;
  ri_effective_from_month : date;
  ri_effective_to_month : option date
}.

Record FinancialRequestCreateData : Type := mkFinancialRequestCreateData {
  fr_request_no : string;
  fr_request_date : date;
  fr_month_start : date;
  fr_amount : Decimal;
  fr_currency : MoneyCurrency;
  fr_status : string
}.

Record InvoiceCreateData : Type := mkInvoiceCreateData {
  ic_invoice_no : string;
  ic_invoice_date : date;
  ic_month_start : date;
  ic_amount : Decimal;
  ic_currency : MoneyCurrency;
  ic_payment_status : string;
  ic_payment_date : option date
}.

Record RevenueCreateData : Type := mkRevenueCreateData {
  rc_revenue_no : string;
  rc_recognition_date : date;
  rc_month_start : date;
  rc_amount : Decimal;
  rc_currency : MoneyCurrency
}.

(** A row of [_project_cost_entry_rows]. *)
Record CostRow : Type := mkCostRow {
  cr_task_id : UUID;
  cr_performer_id : UUID;
  cr_month_start : date;
  cr_planned_person_days : Decimal;
  cr_actual_person_days : Decimal;
  cr_planned_cost : Decimal;
  cr_actual_cost : Decimal;
  cr_rate_value_per_day : Decimal;
  cr_rate_unit : option RateUnit
}.

(** A row of [_project_monthly_rollups]. *)
Record RollupRow : Type := mkRollupRow {
  rr_month_start : date;
  rr_values : MonthValues
}.

Record SummaryData : Type := mkSummaryData {
  sd_project_id : UUID;
  sd_from_month : date;
  sd_to_month : date;
  sd_months : list RollupRow
}.

(** What a report is rendered from: its window, its month columns and the
    rows it pivots by performer or by task. *)
Record ReportData (Row : Type) : Type := mkReportData {
  rd_report_key : string;
  rd_project_id : UUID;
  rd_from_month : date;
  rd_to_month : date;
  rd_months : list date;
  rd_rows : list Row
}.

Arguments mkReportData {Row}.

(** A month of a report row, the totals of a row and a row, with their
    amounts before they are printed: person-days in an effort report,
    costs in a cost report. *)
Record ReportMonth : Type := mkReportMonth {
  rm_month_start : date;
  rm_planned : Decimal;
  rm_actual : Decimal;
  rm_variance : Decimal
}.

Record ReportTotals : Type := mkReportTotals {
  rt_planned : Decimal;
  rt_actual : Decimal;
  rt_variance : Decimal
}.

(** [row_id] is the performer_id or the task_id of the row, [row_name] the
    performer_name or the task_name; [row_stage_name] is absent from the
    rows of a report by performer. *)
Record ReportRow : Type := mkReportRow {
  row_id : UUID;
  row_name : string;
  row_stage_name : option string;
  row_months : list ReportMonth;
  row_totals : ReportTotals
}.

(** What [export_report] hands over: the media type and the name of the
    file, and the report whose rows, flattened to one line per row and
    month, are the content of the file. *)
Record ExportData : Type := mkExportData {
  ex_media_type : string;
  ex_filename : string;
  ex_report : ReportData ReportRow
}.


Record RealizationPoint : Type := mkRealizationPoint {
  rp_month_start : date;
  rp_cumulative_revenue : Decimal;
  rp_cumulative_actual_cost : Decimal;
  rp_cumulative_margin : Decimal;
  rp_realization_percent : Decimal
}.

Record DashboardData : Type := mkDashboardData {
  dd_project_id : UUID;
  dd_from_month : date;
  dd_to_month : date;
  dd_rollups : list RollupRow;
  dd_realization_trend : list RealizationPoint;
  dd_effort_entries : list EffortMonthlyEntry.t
}.

Record Filters : Type := mkFilters {
  performer_filter_set : option (list UUID);
  task_filter_set : option (list UUID);
  performer_labels : dict UUID string;
  task_labels : dict UUID string;
  stage_labels : dict UUID string
}.

Module Finance.

Definition _validate_rate_range (effective_from_month : date)
    (effective_to_month : option date) : result unit :=
  match effective_to_month with
  | Some t =>
      if (t <? effective_from_month)%date
      then Raise (HTTPException HTTP_422_UNPROCESSABLE_ENTITY
                    "effective_to_month must be greater than or equal to effective_from_month.")
      else Ok tt
  | None => Ok tt
  end.

Definition _validate_non_negative_amount (value : Decimal) (field_name : string)
  : result unit :=
  if Dec.ltb value ZERO
  then Raise (HTTPException HTTP_422_UNPROCESSABLE_ENTITY
                (field_name ++ " must be greater or equal zero."))
  else Ok tt.

Definition _covers_month (rate : PerformerRate.t) (month_start : date) : bool :=
  if (month_start <? PerformerRate.effective_from_month rate)%date then false
  else
    match PerformerRate.effective_to_month rate with
    | Some t => if (t <? month_start)%date then false else true
    | None => true
    end.

Definition _resolve_effective_rate
    (rates_by_performer : dict UUID (list PerformerRate.t))
    (performer_id : UUID) (month_start : date) (project_id : UUID)
  : option PerformerRate.t :=
  let candidates := dict_get_default rates_by_performer performer_id [] in
  let project_specific :=
    filter
      (fun rate => eqk (PerformerRate.project_id rate) (Some project_id)
                   && _covers_month rate month_start)
      candidates in
  match project_specific with
  | _ :: _ => hd_error (sort_desc rate_key_ltb project_specific)
  | [] =>
      let defaults :=
        filter
          (fun rate => eqk (PerformerRate.project_id rate) None
                       && _covers_month rate month_start)
          candidates in
      match defaults with
      | [] => None
      | _ :: _ => hd_error (sort_desc rate_key_ltb defaults)
      end
  end.

Section WithSettings.

Variable settings : Settings.

Definition _rate_value_per_day (rate : PerformerRate.t) : Decimal :=
  match PerformerRate.rate_unit rate with
  | DAY => _q2 (PerformerRate.rate_value rate)
  | FTE_MONTH =>
      let divisor := Dec.of_int (Z.pos (cost_fte_month_working_days settings)) in
      _q2 (Dec.div (PerformerRate.rate_value rate) divisor)
  end.

Definition _ensure_project_access (db : DB) (context : RequestUserContext)
    (project_id : UUID) (allowed_roles : list AppRole) : result Project.t :=
  match Repo.get_project db project_id with
  | None => Raise (HTTPException HTTP_404_NOT_FOUND "Project not found.")
  | Some project =>
      if negb (has_business_unit_access context
                 (Project.business_unit_id project) allowed_roles)
      then Raise (HTTPException HTTP_403_FORBIDDEN
                    "Insufficient business unit scope permissions for this operation.")
      else Ok project
  end.

Definition _project_rates_by_performer (db : DB) (project : Project.t)
  : dict UUID (list PerformerRate.t) :=
  group_rates_by_performer
    (Repo.list_rates_for_business_unit db (Project.business_unit_id project)
       (Some (Project.id project))).

(** The body of [for entry in effort_entries] in [_project_cost_entry_rows]. *)
Definition cost_entry_row (rates_by_performer : dict UUID (list PerformerRate.t))
    (project_id : UUID) (entry : EffortMonthlyEntry.t) : CostRow :=
  let rate :=
    _resolve_effective_rate rates_by_performer
      (EffortMonthlyEntry.performer_id entry)
      (EffortMonthlyEntry.month_start entry) project_id in
  let '(per_day, rate_unit) :=
    match rate with
    | None => (ZERO, None)
    | Some r => (_rate_value_per_day r, Some (PerformerRate.rate_unit r))
    end in
  let planned_cost := _q2 (Dec.mul (EffortMonthlyEntry.planned_person_days entry) per_day) in
  let actual_cost := _q2 (Dec.mul (EffortMonthlyEntry.actual_person_days entry) per_day) in
  mkCostRow (EffortMonthlyEntry.task_id entry) (EffortMonthlyEntry.performer_id entry)
    (EffortMonthlyEntry.month_start entry)
    (EffortMonthlyEntry.planned_person_days entry)
    (EffortMonthlyEntry.actual_person_days entry)
    planned_cost actual_cost per_day rate_unit.

Definition _project_cost_entry_rows (db : DB) (project : Project.t)
    (from_month to_month : date)
    (performer_filter_set task_filter_set : option (list UUID)) : list CostRow :=
  let effort_entries :=
    Repo.list_effort_entries_filtered db (Project.id project) from_month to_month
      task_filter_set performer_filter_set in
  let rates_by_performer := _project_rates_by_performer db project in
  map (cost_entry_row rates_by_performer (Project.id project)) effort_entries.

(** The body of [for row in cost_rows] in [_project_monthly_rollups]. *)
Definition accrue_cost_row (totals : dict date Bucket) (row : CostRow)
  : dict date Bucket :=
  let month_key := cr_month_start row in
  let bucket := dict_get_default totals month_key zero_bucket in
  dict_set totals month_key
    (mkBucket
       (Dec.add (b_planned_person_days bucket) (cr_planned_person_days row))
       (Dec.add (b_actual_person_days bucket) (cr_actual_person_days row))
       (Dec.add (b_planned_cost bucket) (cr_planned_cost row))
       (Dec.add (b_actual_cost bucket) (cr_actual_cost row))).

Record Cumulative : Type := mkCumulative {
  c_planned_cost : Decimal;
  c_actual_cost : Decimal;
  c_revenue : Decimal
}.

(** The row appended by one turn of [for month in months]. *)
Definition rollup_values (effort_and_cost_by_month : dict date Bucket)
    (invoices revenues : dict date Decimal)
    (cumulative : Cumulative) (month : date) : MonthValues :=
  let bucket := or_default (dict_get effort_and_cost_by_month month) zero_bucket in
  let planned_pd := _q2 (b_planned_person_days bucket) in
  let actual_pd := _q2 (b_actual_person_days bucket) in
  let planned_cost := _q2 (b_planned_cost bucket) in
  let actual_cost := _q2 (b_actual_cost bucket) in
  let invoice_amount := _q2 (dict_get_default invoices month ZERO) in
  let revenue_amount := _q2 (dict_get_default revenues month ZERO) in
  let cumulative_planned_cost := _q2 (Dec.add (c_planned_cost cumulative) planned_cost) in
  let cumulative_actual_cost := _q2 (Dec.add (c_actual_cost cumulative) actual_cost) in
  let cumulative_revenue := _q2 (Dec.add (c_revenue cumulative) revenue_amount) in
  mkValues planned_pd actual_pd planned_cost actual_cost
    revenue_amount invoice_amount
    cumulative_planned_cost cumulative_actual_cost cumulative_revenue.

Fixpoint rollup_months (effort_and_cost_by_month : dict date Bucket)
    (invoices revenues : dict date Decimal)
    (months : list date) (cumulative : Cumulative) (output : list RollupRow)
  : list RollupRow :=
  match months with
  | [] => output
  | month :: months' =>
      let v := rollup_values effort_and_cost_by_month invoices revenues cumulative month in
      rollup_months effort_and_cost_by_month invoices revenues months'
        (mkCumulative (cumulative_planned_cost v) (cumulative_actual_cost v)
           (cumulative_revenue v))
        (output ++ [mkRollupRow month v])
  end.

Definition _project_monthly_rollups (db : DB) (project : Project.t)
    (from_month to_month : date) : result (list RollupRow) :=
  months <- month_sequence from_month to_month ;;
  let cost_rows := _project_cost_entry_rows db project from_month to_month None None in
  let effort_and_cost_by_month :=
    fold_left accrue_cost_row cost_rows (init_totals months) in
  let invoices := Repo.aggregate_invoices_by_month db (Project.id project) in
  let revenues := Repo.aggregate_revenues_by_month db (Project.id project) in
  Ok (rollup_months effort_and_cost_by_month invoices revenues months
        (mkCumulative ZERO ZERO ZERO) []).

Definition project_finance_summary (db : DB) (context : RequestUserContext)
    (project_id : UUID) (from_month to_month : option date) : result SummaryData :=
  project <- _ensure_project_access db context project_id VIEW_ROLES ;;
  summary_from <- normalize_month_start (or_default from_month (Project.start_month project)) ;;
  summary_to <- normalize_month_start (or_default to_month (Project.end_month project)) ;;
  if (summary_from <? Project.start_month project)%date
     || (Project.end_month project <? summary_to)%date
  then Raise (HTTPException HTTP_422_UNPROCESSABLE_ENTITY
                "Requested summary month range must be within project month range.")
  else if (summary_to <? summary_from)%date
  then Raise (HTTPException HTTP_422_UNPROCESSABLE_ENTITY
                "to_month must be greater than or equal to from_month.")
  else
    rollups <- _project_monthly_rollups db project summary_from summary_to ;;
    Ok (mkSummaryData (Project.id project) summary_from summary_to rollups).

(* ---------- Rates: bulk upsert ---------- *)

(** One turn of the validation loop of [bulk_upsert_rates]; the state is
    [(normalized, seen_keys)]. *)
Definition validate_rate_entry (project : Project.t)
    (performer_lookup : dict UUID Performer.t)
    (state : list RateEntryInput * list (UUID * option UUID * date))
    (entry : RateEntryInput)
  : result (list RateEntryInput * list (UUID * option UUID * date)) :=
  let '(normalized, seen_keys) := state in
  effective_from_month <- normalize_month_start (ri_effective_from_month entry) ;;
  effective_to_month <-
    match ri_effective_to_month entry with
    | Some t => t' <- normalize_month_start t ;; Ok (Some t')
    | None => Ok None
    end ;;
  _ <- _validate_rate_range effective_from_month effective_to_month ;;
  _ <- _validate_non_negative_amount (ri_rate_value entry) "rate_value" ;;
  match dict_get performer_lookup (ri_performer_id entry) with
  | None => Raise (HTTPException HTTP_422_UNPROCESSABLE_ENTITY
                     "performer_id must reference performer in project business unit.")
  | Some performer =>
      let normalized_project_id := ri_project_id entry in
      if match normalized_project_id with
         | Some p => negb (p =? Project.id project)
         | None => false
         end
      then Raise (HTTPException HTTP_422_UNPROCESSABLE_ENTITY
                    "project_id for rate entry must be either null or current project id.")
      else
        let dedup_key := (Performer.id performer, normalized_project_id,
                          effective_from_month) in
        if mem dedup_key seen_keys
        then Raise (HTTPException HTTP_422_UNPROCESSABLE_ENTITY
                      "Duplicate rate key in bulk payload.")
        else
          Ok (normalized
                ++ [mkRateEntryInput (Performer.id performer) normalized_project_id
                      (ri_rate_unit entry) (ri_rate_value entry)
                      effective_from_month effective_to_month],
              seen_keys ++ [dedup_key])
  end.

Definition validate_rate_entries (db : DB) (project : Project.t)
    (entries : list RateEntryInput) : result (list RateEntryInput) :=
  let performer_lookup :=
    fold_left (fun d performer => dict_set d (Performer.id performer) performer)
      (Repo.list_performers_for_business_unit db (Project.business_unit_id project))
      [] in
  '(normalized, _) <-
    fold_result (validate_rate_entry project performer_lookup) entries ([], []) ;;
  Ok normalized.

(** One turn of the write loop of [bulk_upsert_rates]: insert or overwrite
    the rate, then reject it when its range meets another rate of the same
    performer and scope.  The state is [(session, persisted)].  A new rate
    is flushed, which its NUMERIC(12, 2) column may refuse; the session
    keeps the row it has written, with the value of the payload as it is
    until the commit. *)
Definition upsert_rate (project : Project.t)
    (state : DB * list PerformerRate.t) (entry : RateEntryInput)
  : result (DB * list PerformerRate.t) :=
  let '(db, persisted) := state in
  written <-
    match Repo.get_rate db (ri_performer_id entry) (ri_project_id entry)
            (ri_effective_from_month entry) with
    | None =>
        _ <- numeric 12 2 (ri_rate_value entry) ;;
        let '(new_id, db') := fresh_uuid db in
        let row :=
          PerformerRate.mk new_id (Project.business_unit_id project)
            (ri_performer_id entry) (ri_project_id entry) (ri_rate_unit entry)
            (ri_rate_value entry) (ri_effective_from_month entry)
            (ri_effective_to_month entry) in
        Ok (Repo.add_rate db' row, row)
    | Some existing =>
        let row :=
          PerformerRate.mk (PerformerRate.id existing)
            (PerformerRate.business_unit_id existing)
            (PerformerRate.performer_id existing) (PerformerRate.project_id existing)
            (ri_rate_unit entry) (ri_rate_value entry)
            (PerformerRate.effective_from_month existing)
            (ri_effective_to_month entry) in
        Ok (with_rates db
              (update_first
                 (fun r =>
                    (PerformerRate.performer_id r =? ri_performer_id entry)
                    && Repo.opt_uuid_eqb (PerformerRate.project_id r)
                         (ri_project_id entry)
                    && (PerformerRate.effective_from_month r
                        =? ri_effective_from_month entry)%date)
                 (fun _ => row) (rates db)),
            row)
    end ;;
  let '(db1, target) := written in
  match Repo.list_conflicting_rates db1 (ri_performer_id entry) (ri_project_id entry)
          (ri_effective_from_month entry) (ri_effective_to_month entry)
          (Some (PerformerRate.id target)) with
  | _ :: _ =>
      let scope :=
        match ri_project_id entry with
        | Some _ => "project"
        | None => "business-unit default"
        end%string in
      Raise (HTTPException HTTP_422_UNPROCESSABLE_ENTITY
               ("Rate effective range overlaps existing " ++ scope
                ++ " rate for performer " ++ uuid_str (ri_performer_id entry) ++ "."))
  | [] => Ok (db1, persisted ++ [target])
  end.

(** A rate as it reads after the commit: with the value of its
    NUMERIC(12, 2) column. *)
Definition stored_rate (rate : PerformerRate.t) : PerformerRate.t :=
  PerformerRate.mk (PerformerRate.id rate) (PerformerRate.business_unit_id rate)
    (PerformerRate.performer_id rate) (PerformerRate.project_id rate)
    (PerformerRate.rate_unit rate) (Dec.rescale (PerformerRate.rate_value rate) 2)
    (PerformerRate.effective_from_month rate) (PerformerRate.effective_to_month rate).

(** What [commit] leaves of an entry of the batch: its row holds the value
    of its column. *)
Definition store_rate (db : DB) (entry : RateEntryInput) : result DB :=
  rate_value <- numeric 12 2 (ri_rate_value entry) ;;
  Ok (with_rates db
        (update_first
           (fun r =>
              (PerformerRate.performer_id r =? ri_performer_id entry)
              && Repo.opt_uuid_eqb (PerformerRate.project_id r) (ri_project_id entry)
              && (PerformerRate.effective_from_month r
                  =? ri_effective_from_month entry)%date)
           (fun r =>
              PerformerRate.mk (PerformerRate.id r) (PerformerRate.business_unit_id r)
                (PerformerRate.performer_id r) (PerformerRate.project_id r)
                (PerformerRate.rate_unit r) rate_value
                (PerformerRate.effective_from_month r)
                (PerformerRate.effective_to_month r))
           (rates db))).

Definition bulk_upsert_rates (db : DB) (context : RequestUserContext)
    (project_id : UUID) (entries : list RateEntryInput)
  : DB * result (list PerformerRate.t) :=
  transaction db
    (project <- _ensure_project_access db context project_id EDIT_ROLES ;;
     normalized <- validate_rate_entries db project entries ;;
     '(db1, persisted) <- fold_result (upsert_rate project) normalized (db, []) ;;
     '(db2, _) <- Planning.refresh_project_snapshots settings db1 (Project.id project) ;;
     db3 <- fold_result store_rate normalized db2 ;;
     Ok (db3, map stored_rate persisted)).

(* ---------- Financial registers ---------- *)

Definition register_month_check (project : Project.t) (month_start : date)
  : result unit :=
  if (month_start <? Project.start_month project)%date
     || (Project.end_month project <? month_start)%date
  then Raise (HTTPException HTTP_422_UNPROCESSABLE_ENTITY
                "Financial register month_start must be within project month range.")
  else Ok tt.

Definition create_financial_request (db : DB) (context : RequestUserContext)
    (project_id : UUID) (data : FinancialRequestCreateData)
  : DB * result FinancialRequest.t :=
  transaction db
    (project <- _ensure_project_access db context project_id EDIT_ROLES ;;
     month_start <- normalize_month_start (fr_month_start data) ;;
     _ <- _validate_non_negative_amount (fr_amount data) "amount" ;;
     _ <- register_month_check project month_start ;;
     let '(new_id, db1) := fresh_uuid db in
     let row :=
       FinancialRequest.mk new_id (Project.id project) (str_strip (fr_request_no data))
         (fr_request_date data) month_start (fr_amount data) (fr_currency data)
         (str_strip (fr_status data)) in
     let db2 := Repo.add_financial_request db1 row in
     '(db3, _) <- Planning.refresh_project_snapshots settings db2 (Project.id project) ;;
     Ok (db3, row)).

Definition create_invoice (db : DB) (context : RequestUserContext)
    (project_id : UUID) (data : InvoiceCreateData) : DB * result Invoice.t :=
  transaction db
    (project <- _ensure_project_access db context project_id EDIT_ROLES ;;
     month_start <- normalize_month_start (ic_month_start data) ;;
     _ <- _validate_non_negative_amount (ic_amount data) "amount" ;;
     _ <- register_month_check project month_start ;;
     let '(new_id, db1) := fresh_uuid db in
     let row :=
       Invoice.mk new_id (Project.id project) (str_strip (ic_invoice_no data))
         (ic_invoice_date data) month_start (ic_amount data) (ic_currency data)
         (str_strip (ic_payment_status data)) (ic_payment_date data) in
     let db2 := Repo.add_invoice db1 row in
     '(db3, _) <- Planning.refresh_project_snapshots settings db2 (Project.id project) ;;
     Ok (db3, row)).

Definition create_revenue (db : DB) (context : RequestUserContext)
    (project_id : UUID) (data : RevenueCreateData) : DB * result Revenue.t :=
  transaction db
    (project <- _ensure_project_access db context project_id EDIT_ROLES ;;
     month_start <- normalize_month_start (rc_month_start data) ;;
     _ <- _validate_non_negative_amount (rc_amount data) "amount" ;;
     _ <- register_month_check project month_start ;;
     let '(new_id, db1) := fresh_uuid db in
     let row :=
       Revenue.mk new_id (Project.id project) (str_strip (rc_revenue_no data))
         (rc_recognition_date data) month_start (rc_amount data) (rc_currency data) in
     let db2 := Repo.add_revenue db1 row in
     '(db3, _) <- Planning.refresh_project_snapshots settings db2 (Project.id project) ;;
     Ok (db3, row)).

(* ---------- Reports ---------- *)

Definition _report_month_range (project : Project.t) (from_month to_month : option date)
  : result (date * date * list date) :=
  report_from <- normalize_month_start (or_default from_month (Project.start_month project)) ;;
  report_to <- normalize_month_start (or_default to_month (Project.end_month project)) ;;
  if (report_from <? Project.start_month project)%date
     || (Project.end_month project <? report_to)%date
  then Raise (HTTPException HTTP_422_UNPROCESSABLE_ENTITY
                "Requested report month range must be within project month range.")
  else if (report_to <? report_from)%date
  then Raise (HTTPException HTTP_422_UNPROCESSABLE_ENTITY
                "to_month must be greater than or equal to from_month.")
  else
    months <- month_sequence report_from report_to ;;
    Ok (report_from, report_to, months).

(** [set(ids) if ids else None]. *)
Definition filter_set (ids : option (list UUID)) : option (list UUID) :=
  match ids with
  | None | Some [] => None
  | Some l => Some (to_set l)
  end.

(** The identifiers of a filter set that are not keys of [known], as the
    sorted list of their [str]. *)
Definition unknown_ids {V : Type} (ids : option (list UUID)) (known : dict UUID V)
  : list string :=
  sort_asc str_ltb
    (map uuid_str
       (filter (fun x => match dict_get known x with Some _ => false | None => true end)
          (or_default ids []))).

Definition _resolve_filters (db : DB) (project_id business_unit_id : UUID)
    (performer_ids task_ids : option (list UUID)) : result Filters :=
  let tasks := Repo.list_tasks db project_id in
  let performers := Repo.list_performers_for_business_unit db business_unit_id in
  let stages :=
    fold_left (fun d stage => dict_set d (ProjectStage.id stage) (ProjectStage.name stage))
      (Repo.list_stages db project_id) [] in
  let task_map := fold_left (fun d task => dict_set d (Task.id task) task) tasks [] in
  let performer_map := fold_left (fun d p => dict_set d (Performer.id p) p) performers [] in
  let task_filter_set := filter_set task_ids in
  let performer_filter_set := filter_set performer_ids in
  match unknown_ids task_filter_set task_map with
  | (_ :: _) as unknown =>
      Raise (HTTPException HTTP_422_UNPROCESSABLE_ENTITY
               ("Unknown task_id values for this project: " ++ str_join ", " unknown))
  | [] =>
      match unknown_ids performer_filter_set performer_map with
      | (_ :: _) as unknown =>
          Raise (HTTPException HTTP_422_UNPROCESSABLE_ENTITY
                   ("Unknown performer_id values for this project business unit: "
                    ++ str_join ", " unknown))
      | [] =>
          let task_labels :=
            fold_left (fun d task => dict_set d (Task.id task) (Task.name task)) tasks [] in
          let performer_labels :=
            fold_left (fun d p => dict_set d (Performer.id p) (Performer.display_name p))
              performers [] in
          let stage_labels :=
            fold_left
              (fun d task =>
                 dict_set d (Task.id task)
                   (dict_get_default stages (Task.stage_id task) EmptyString))
              tasks [] in
          Ok (mkFilters performer_filter_set task_filter_set performer_labels
                task_labels stage_labels)
      end
  end.

(** The four reports share their opening: access, window, filters and the
    entries that they pivot.  [effort_report] is the opening of the two
    effort reports and [cost_report] the opening of the two cost reports,
    with the entries still to be pivoted as their rows. *)
Definition effort_report (report_key : string) (db : DB) (context : RequestUserContext)
    (project_id : UUID) (from_month to_month : option date)
    (performer_ids task_ids : option (list UUID))
  : result (ReportData EffortMonthlyEntry.t) :=
  project <- _ensure_project_access db context project_id VIEW_ROLES ;;
  '(report_from, report_to, months) <- _report_month_range project from_month to_month ;;
  filters <- _resolve_filters db (Project.id project) (Project.business_unit_id project)
               performer_ids task_ids ;;
  let entries :=
    Repo.list_effort_entries_filtered db (Project.id project) report_from report_to
      (task_filter_set filters) (performer_filter_set filters) in
  Ok (mkReportData report_key (Project.id project) report_from report_to months entries).


Definition cost_report (report_key : string) (db : DB) (context : RequestUserContext)
    (project_id : UUID) (from_month to_month : option date)
    (performer_ids task_ids : option (list UUID)) : result (ReportData CostRow) :=
  project <- _ensure_project_access db context project_id VIEW_ROLES ;;
  '(report_from, report_to, months) <- _report_month_range project from_month to_month ;;
  filters <- _resolve_filters db (Project.id project) (Project.business_unit_id project)
               performer_ids task_ids ;;
  let entries :=
    _project_cost_entry_rows db project report_from report_to
      (performer_filter_set filters) (task_filter_set filters) in
  Ok (mkReportData report_key (Project.id project) report_from report_to months entries).


(* ---------- Dashboards ---------- *)

Definition realization_point (rollups_by_month : dict date RollupRow) (month : date)
  : RealizationPoint :=
  let row := dict_get rollups_by_month month in
  let pick (f : MonthValues -> Decimal) :=
    _q2 match row with Some r => f (rr_values r) | None => ZERO end in
  let cumulative_actual := pick cumulative_actual_cost in
  let cumulative_revenue := pick cumulative_revenue in
  mkRealizationPoint month cumulative_revenue cumulative_actual
    (_q2 (Dec.sub cumulative_revenue cumulative_actual))
    (_safe_div (Dec.mul cumulative_actual (Dec.mk 10000 (-2))) cumulative_revenue).

Definition project_dashboard (db : DB) (context : RequestUserContext)
    (project_id : UUID) (from_month to_month : option date) : result DashboardData :=
  project <- _ensure_project_access db context project_id VIEW_ROLES ;;
  '(report_from, report_to, months) <- _report_month_range project from_month to_month ;;
  rollups <- _project_monthly_rollups db project report_from report_to ;;
  let rollups_by_month :=
    fold_left (fun d row => dict_set d (rr_month_start row) row) rollups [] in
  Ok (mkDashboardData (Project.id project) report_from report_to rollups
        (map (realization_point rollups_by_month) months)
        (Repo.list_effort_entries db (Project.id project) report_from report_to)).

(* ---------- Listings ---------- *)

Definition _ensure_business_unit_view_access (context : RequestUserContext)
    (business_unit_id : UUID) : result unit :=
  if negb (has_business_unit_access context business_unit_id VIEW_ROLES)
  then Raise (HTTPException HTTP_403_FORBIDDEN
                "Insufficient business unit scope permissions for this operation.")
  else Ok tt.

Definition list_rates (db : DB) (context : RequestUserContext) (project_id : UUID)
  : result (list PerformerRate.t) :=
  project <- _ensure_project_access db context project_id VIEW_ROLES ;;
  Ok (Repo.list_rates_for_business_unit db (Project.business_unit_id project)
        (Some (Project.id project))).

Definition list_financial_requests (db : DB) (context : RequestUserContext)
    (project_id : UUID) : result (list FinancialRequest.t) :=
  project <- _ensure_project_access db context project_id VIEW_ROLES ;;
  Ok (Repo.list_financial_requests db (Project.id project) None None).

Definition list_invoices (db : DB) (context : RequestUserContext) (project_id : UUID)
  : result (list Invoice.t) :=
  project <- _ensure_project_access db context project_id VIEW_ROLES ;;
  Ok (Repo.list_invoices db (Project.id project) None None).

Definition list_revenues (db : DB) (context : RequestUserContext) (project_id : UUID)
  : result (list Revenue.t) :=
  project <- _ensure_project_access db context project_id VIEW_ROLES ;;
  Ok (Repo.list_revenues db (Project.id project) None None).

(* ---------- Business-unit dashboard ---------- *)

(** A point of the aggregated cumulative cost trend. *)
Record CostTrendPoint : Type := mkCostTrendPoint {
  ct_month_start : date;
  ct_planned_cost : Decimal;
  ct_actual_cost : Decimal;
  ct_cumulative_planned_cost : Decimal;
  ct_cumulative_actual_cost : Decimal
}.

(** A cell and a row of the workload heatmap. *)
Record WorkloadMonth : Type := mkWorkloadMonth {
  wm_month_start : date;
  wm_planned_person_days : Decimal;
  wm_actual_person_days : Decimal
}.

Record WorkloadRow : Type := mkWorkloadRow {
  wr_performer_id : UUID;
  wr_performer_name : string;
  wr_months : list WorkloadMonth
}.

(** The dashboard of a business unit, with its amounts and months before
    they are printed. *)
Record BusinessUnitDashboardData : Type := mkBusinessUnitDashboardData {
  bd_business_unit_id : UUID;
  bd_from_month : option date;
  bd_to_month : option date;
  bd_aggregated_cumulative_cost_trend : list CostTrendPoint;
  bd_workload_heatmap : list WorkloadRow;
  bd_realization_trend : list RealizationPoint
}.

(** The six entries of a bucket of [aggregate_by_month]. *)
Record Aggregate : Type := mkAggregate {
  ag_planned_cost : Decimal;
  ag_actual_cost : Decimal;
  ag_revenue : Decimal;
  ag_cumulative_planned : Decimal;
  ag_cumulative_actual : Decimal;
  ag_cumulative_revenue : Decimal
}.

Definition zero_aggregate : Aggregate := mkAggregate ZERO ZERO ZERO ZERO ZERO ZERO.

(** [min(...)] and [max(...)] of a generator of dates that is not empty. *)
Definition min_date (first : date) (rest : list date) : date :=
  fold_left (fun best d => if (d <? best)%date then d else best) rest first.

Definition max_date (first : date) (rest : list date) : date :=
  fold_left (fun best d => if (best <? d)%date then d else best) rest first.

(** One turn of [for row in snapshots]. *)
Definition accrue_snapshot (aggregate_by_month : dict date Aggregate)
    (row : ProjectMonthlySnapshot.t) : dict date Aggregate :=
  let month := ProjectMonthlySnapshot.month_start row in
  let bucket := dict_get_default aggregate_by_month month zero_aggregate in
  let v := ProjectMonthlySnapshot.values row in
  dict_set aggregate_by_month month
    (mkAggregate
       (Dec.add (ag_planned_cost bucket) (planned_cost v))
       (Dec.add (ag_actual_cost bucket) (actual_cost v))
       (Dec.add (ag_revenue bucket) (revenue_amount v))
       (ag_cumulative_planned bucket) (ag_cumulative_actual bucket)
       (ag_cumulative_revenue bucket)).

(** The loop [for month in months] of the dashboard: the two trends grow
    by one point per month. *)
Fixpoint aggregate_trends (aggregate_by_month : dict date Aggregate)
    (months : list date) (cumulative : Cumulative)
    (cost_trend : list CostTrendPoint) (realization_trend : list RealizationPoint)
  : list CostTrendPoint * list RealizationPoint :=
  match months with
  | [] => (cost_trend, realization_trend)
  | month :: months' =>
      let bucket := or_default (dict_get aggregate_by_month month) zero_aggregate in
      let planned_cost := _q2 (ag_planned_cost bucket) in
      let actual_cost := _q2 (ag_actual_cost bucket) in
      let revenue := _q2 (ag_revenue bucket) in
      let cumulative_planned := _q2 (Dec.add (c_planned_cost cumulative) planned_cost) in
      let cumulative_actual := _q2 (Dec.add (c_actual_cost cumulative) actual_cost) in
      let cumulative_revenue := _q2 (Dec.add (c_revenue cumulative) revenue) in
      let margin := _q2 (Dec.sub cumulative_revenue cumulative_actual) in
      let realization_percent :=
        _safe_div (Dec.mul cumulative_actual (Dec.mk 10000 (-2))) cumulative_revenue in
      aggregate_trends aggregate_by_month months'
        (mkCumulative cumulative_planned cumulative_actual cumulative_revenue)
        (cost_trend
         ++ [mkCostTrendPoint month planned_cost actual_cost cumulative_planned
               cumulative_actual])
        (realization_trend
         ++ [mkRealizationPoint month cumulative_revenue cumulative_actual margin
               realization_percent])
  end.

(** One turn of [for entry in effort_entries] of the workload. *)
Definition accrue_workload (workload : dict (UUID * date) (Decimal * Decimal))
    (entry : EffortMonthlyEntry.t) : dict (UUID * date) (Decimal * Decimal) :=
  let key := (EffortMonthlyEntry.performer_id entry,
              EffortMonthlyEntry.month_start entry) in
  let '(planned_prev, actual_prev) := dict_get_default workload key (ZERO, ZERO) in
  dict_set workload key
    (Dec.add planned_prev (EffortMonthlyEntry.planned_person_days entry),
     Dec.add actual_prev (EffortMonthlyEntry.actual_person_days entry)).

(** The rows of the workload: the performers of the entries in the order
    of their [str], one cell per month each. *)
Definition workload_rows (effort_entries : list EffortMonthlyEntry.t)
    (performer_labels : dict UUID string) (months : list date) : list WorkloadRow :=
  let workload := fold_left accrue_workload effort_entries [] in
  map
    (fun performer_id =>
       mkWorkloadRow performer_id
         (dict_get_default performer_labels performer_id (uuid_str performer_id))
         (map
            (fun month =>
               let '(planned, actual) :=
                 dict_get_default workload (performer_id, month) (ZERO, ZERO) in
               mkWorkloadMonth month (_q2 planned) (_q2 actual))
            months))
    (sort_asc (fun a b => str_ltb (uuid_str a) (uuid_str b))
       (to_set (map EffortMonthlyEntry.performer_id effort_entries))).

Definition business_unit_dashboard (db : DB) (context : RequestUserContext)
    (business_unit_id : UUID) (from_month to_month : option date)
  : result BusinessUnitDashboardData :=
  _ <- _ensure_business_unit_view_access context business_unit_id ;;
  match Repo.list_projects_for_business_unit db business_unit_id with
  | [] => Ok (mkBusinessUnitDashboardData business_unit_id None None [] [] [])
  | first :: rest =>
      let min_project_month :=
        min_date (Project.start_month first) (map Project.start_month rest) in
      let max_project_month :=
        max_date (Project.end_month first) (map Project.end_month rest) in
      report_from <- normalize_month_start (or_default from_month min_project_month) ;;
      report_to <- normalize_month_start (or_default to_month max_project_month) ;;
      if (report_to <? report_from)%date
      then Raise (HTTPException HTTP_422_UNPROCESSABLE_ENTITY
                    "to_month must be greater than or equal to from_month.")
      else
        months <- month_sequence report_from report_to ;;
        let snapshots :=
          Repo.list_snapshots_for_business_unit db business_unit_id report_from
            report_to in
        let aggregate_by_month :=
          fold_left accrue_snapshot snapshots
            (fold_left (fun d month => dict_set d month zero_aggregate) months []) in
        let '(aggregated_cumulative_cost_trend, realization_trend) :=
          aggregate_trends aggregate_by_month months (mkCumulative ZERO ZERO ZERO)
            [] [] in
        let effort_entries :=
          Repo.list_effort_entries_for_business_unit db business_unit_id report_from
            report_to in
        let performer_labels :=
          fold_left (fun d p => dict_set d (Performer.id p) (Performer.display_name p))
            (Repo.list_performers_for_business_unit db business_unit_id) [] in
        Ok (mkBusinessUnitDashboardData business_unit_id (Some report_from)
              (Some report_to) aggregated_cumulative_cost_trend
              (workload_rows effort_entries performer_labels months)
              realization_trend)
  end.

(* ---------- Reports by performer and by task ---------- *)

(** The bucket of a performer or a task.  The two entries of a month,
    [f"{month}_planned"] and [f"{month}_actual"], are made together and
    kept together: they are one entry here, under the month, with the two
    values as a pair. *)
Definition Bucket : Type := dict date (Decimal * Decimal).

(** [{f"{month}_planned": ZERO for month in month_keys}
     | {f"{month}_actual": ZERO for month in month_keys}]. *)
Definition new_bucket (months : list date) : Bucket :=
  fold_left (fun d month => dict_set d month (ZERO, ZERO)) months [].

Section Pivot.

Context {Row : Type}.
Variable key_of : Row -> UUID.
Variable month_of : Row -> date.
Variable planned_of actual_of : Row -> Decimal.

(** One turn of [for row in entries]: [setdefault], then the two [+=],
    the first of which raises KeyError when the month of the row is not a
    month of the report. *)
Definition accrue_row (months : list date) (by_key : dict UUID Bucket) (row : Row)
  : result (dict UUID Bucket) :=
  let bucket := dict_get_default by_key (key_of row) (new_bucket months) in
  match dict_get bucket (month_of row) with
  | None => Raise (KeyError (isoformat (month_of row) ++ "_planned"))
  | Some (planned, actual) =>
      Ok (dict_set by_key (key_of row)
            (dict_set bucket (month_of row)
               (Dec.add planned (planned_of row), Dec.add actual (actual_of row))))
  end.

(** The loop [for month in month_keys] of a row. *)
Fixpoint report_month_values (bucket : Bucket) (months : list date)
    (total_planned total_actual : Decimal) (month_values : list ReportMonth)
  : result (list ReportMonth * Decimal * Decimal) :=
  match months with
  | [] => Ok (month_values, total_planned, total_actual)
  | month :: months' =>
      match dict_get bucket month with
      | None => Raise (KeyError (isoformat month ++ "_planned"))
      | Some (planned_sum, actual_sum) =>
          let planned := _q2 planned_sum in
          let actual := _q2 actual_sum in
          report_month_values bucket months'
            (Dec.add total_planned planned) (Dec.add total_actual actual)
            (month_values
             ++ [mkReportMonth month planned actual (_q2 (Dec.sub actual planned))])
      end
  end.

(** One turn of the loop over the sorted keys. *)
Definition report_row (label_of : UUID -> string) (stage_of : UUID -> option string)
    (by_key : dict UUID Bucket) (months : list date) (rows : list ReportRow)
    (key : UUID) : result (list ReportRow) :=
  match dict_get by_key key with
  | None => Raise (KeyError (uuid_str key))
  | Some bucket =>
      '(month_values, total_planned, total_actual) <-
        report_month_values bucket months ZERO ZERO [] ;;
      Ok (rows
          ++ [mkReportRow key (label_of key) (stage_of key) month_values
                (mkReportTotals (_q2 total_planned) (_q2 total_actual)
                   (_q2 (Dec.sub total_actual total_planned)))])
  end.

(** From the entries to the rows: the buckets, the keys sorted by their
    label, one row per key. *)
Definition pivot_rows (label_of : UUID -> string) (stage_of : UUID -> option string)
    (months : list date) (entries : list Row) : result (list ReportRow) :=
  by_key <- fold_result (accrue_row months) entries [] ;;
  let keys_sorted :=
    sort_asc (fun a b => str_ltb (label_of a) (label_of b)) (map fst by_key) in
  fold_result (report_row label_of stage_of by_key months) keys_sorted [].

End Pivot.

(** [labels.get(key, str(key))]. *)
Definition label_or_str (labels : dict UUID string) (key : UUID) : string :=
  dict_get_default labels key (uuid_str key).

Definition effort_report_by_performer (db : DB) (context : RequestUserContext)
    (project_id : UUID) (from_month to_month : option date)
    (performer_ids task_ids : option (list UUID)) : result (ReportData ReportRow) :=
  project <- _ensure_project_access db context project_id VIEW_ROLES ;;
  '(report_from, report_to, months) <- _report_month_range project from_month to_month ;;
  filters <- _resolve_filters db (Project.id project) (Project.business_unit_id project)
               performer_ids task_ids ;;
  let entries :=
    Repo.list_effort_entries_filtered db (Project.id project) report_from report_to
      (task_filter_set filters) (performer_filter_set filters) in
  rows <- pivot_rows EffortMonthlyEntry.performer_id EffortMonthlyEntry.month_start
            EffortMonthlyEntry.planned_person_days EffortMonthlyEntry.actual_person_days
            (label_or_str (performer_labels filters)) (fun _ => None) months entries ;;
  Ok (mkReportData "effort-by-performer" (Project.id project) report_from report_to
        months rows).

Definition effort_report_by_task (db : DB) (context : RequestUserContext)
    (project_id : UUID) (from_month to_month : option date)
    (performer_ids task_ids : option (list UUID)) : result (ReportData ReportRow) :=
  project <- _ensure_project_access db context project_id VIEW_ROLES ;;
  '(report_from, report_to, months) <- _report_month_range project from_month to_month ;;
  filters <- _resolve_filters db (Project.id project) (Project.business_unit_id project)
               performer_ids task_ids ;;
  let entries :=
    Repo.list_effort_entries_filtered db (Project.id project) report_from report_to
      (task_filter_set filters) (performer_filter_set filters) in
  rows <- pivot_rows EffortMonthlyEntry.task_id EffortMonthlyEntry.month_start
            EffortMonthlyEntry.planned_person_days EffortMonthlyEntry.actual_person_days
            (label_or_str (task_labels filters))
            (fun task_id =>
               Some (dict_get_default (stage_labels filters) task_id EmptyString))
            months entries ;;
  Ok (mkReportData "effort-by-task" (Project.id project) report_from report_to
        months rows).

Definition cost_report_by_performer (db : DB) (context : RequestUserContext)
    (project_id : UUID) (from_month to_month : option date)
    (performer_ids task_ids : option (list UUID)) : result (ReportData ReportRow) :=
  project <- _ensure_project_access db context project_id VIEW_ROLES ;;
  '(report_from, report_to, months) <- _report_month_range project from_month to_month ;;
  filters <- _resolve_filters db (Project.id project) (Project.business_unit_id project)
               performer_ids task_ids ;;
  let entries :=
    _project_cost_entry_rows db project report_from report_to
      (performer_filter_set filters) (task_filter_set filters) in
  rows <- pivot_rows cr_performer_id cr_month_start cr_planned_cost cr_actual_cost
            (label_or_str (performer_labels filters)) (fun _ => None) months entries ;;
  Ok (mkReportData "cost-by-performer" (Project.id project) report_from report_to
        months rows).

Definition cost_report_by_task (db : DB) (context : RequestUserContext)
    (project_id : UUID) (from_month to_month : option date)
    (performer_ids task_ids : option (list UUID)) : result (ReportData ReportRow) :=
  project <- _ensure_project_access db context project_id VIEW_ROLES ;;
  '(report_from, report_to, months) <- _report_month_range project from_month to_month ;;
  filters <- _resolve_filters db (Project.id project) (Project.business_unit_id project)
               performer_ids task_ids ;;
  let entries :=
    _project_cost_entry_rows db project report_from report_to
      (performer_filter_set filters) (task_filter_set filters) in
  rows <- pivot_rows cr_task_id cr_month_start cr_planned_cost cr_actual_cost
            (label_or_str (task_labels filters))
            (fun task_id =>
               Some (dict_get_default (stage_labels filters) task_id EmptyString))
            months entries ;;
  Ok (mkReportData "cost-by-task" (Project.id project) report_from report_to
        months rows).

(* ---------- Exports ---------- *)

(** [report_dispatch.get(normalized_key)]. *)
Definition report_dispatch (normalized_key : string)
  : option (DB -> RequestUserContext -> UUID -> option date -> option date ->
            option (list UUID) -> option (list UUID) -> result (ReportData ReportRow)) :=
  if (normalized_key =? "effort-by-performer")%string
  then Some effort_report_by_performer
  else if (normalized_key =? "effort-by-task")%string
  then Some effort_report_by_task
  else if (normalized_key =? "cost-by-performer")%string
  then Some cost_report_by_performer
  else if (normalized_key =? "cost-by-task")%string
  then Some cost_report_by_task
  else None.

Definition export_report (db : DB) (context : RequestUserContext)
    (report_key format_name : string) (project_id : UUID)
    (from_month to_month : option date)
    (performer_ids task_ids : option (list UUID)) : result ExportData :=
  let normalized_key := str_lower (str_strip report_key) in
  let normalized_format := str_lower (str_strip format_name) in
  if negb ((normalized_format =? "csv")%string || (normalized_format =? "xlsx")%string)
  then Raise (HTTPException HTTP_422_UNPROCESSABLE_ENTITY
                "format must be one of: csv, xlsx.")
  else
    match report_dispatch normalized_key with
    | None => Raise (HTTPException HTTP_404_NOT_FOUND "Unknown report_key for export.")
    | Some report_func =>
        report_payload <- report_func db context project_id from_month to_month
                            performer_ids task_ids ;;
        let base_filename := (normalized_key ++ "-" ++ uuid_str project_id)%string in
        if (normalized_format =? "csv")%string
        then Ok (mkExportData "text/csv; charset=utf-8" (base_filename ++ ".csv")
                   report_payload)
        else Ok (mkExportData
                   "application/vnd.openxmlformats-officedocument.spreadsheetml.sheet"
                   (base_filename ++ ".xlsx") report_payload)
    end.

End WithSettings.

End Finance.

(** ** The end-to-end scenario of the specification

    A project from 2026-01 to 2026-03.  Performer A has a business-unit
    default day rate of 100.00 for 2026-01 only and a project-specific day
    rate of 200.00 from 2026-02 on; performer B has a business-unit default
    fte_month rate of 2000.00 from 2026-01 on.  A plans 2.00 and works 1.00
    in January, plans 3.00 and works 2.00 in February; B plans 1.00 and
    works 0.50 in January. *)

Module Scenario.

Definition month (y m : Z) : date := Date.mk y m 1.

Definition dec2 (cents : Z) : Decimal := Dec.mk cents (-2).

Definition unit_id : UUID := 1.
Definition project_id : UUID := 10.
Definition stage_id : UUID := 40.
Definition task_id : UUID := 50.
Definition performer_a : UUID := 100.
Definition performer_b : UUID := 101.

Definition project : Project.t :=
  Project.mk project_id unit_id "P1" "Project one" None
    (month 2026 1) (month 2026 3) ACTIVE.

Definition rate_a_default : PerformerRate.t :=
  PerformerRate.mk 80 unit_id performer_a None DAY (dec2 10000)
    (month 2026 1) (Some (month 2026 1)).

Definition rate_a_project : PerformerRate.t :=
  PerformerRate.mk 81 unit_id performer_a (Some project_id) DAY (dec2 20000)
    (month 2026 2) None.

Definition rate_b_default : PerformerRate.t :=
  PerformerRate.mk 82 unit_id performer_b None FTE_MONTH (dec2 200000)
    (month 2026 1) None.

Definition db : DB :=
  mkDB
    [BusinessUnit.mk unit_id "BU" "Unit" true]
    [project]
    [ProjectStage.mk stage_id project_id "Stage" (month 2026 1) (month 2026 3) "blue" 1]
    [Performer.mk performer_a unit_id None "A" true;
     Performer.mk performer_b unit_id None "B" true]
    [Task.mk task_id project_id stage_id "T1" "Task one" 1 true]
    [TaskPerformerAssignment.mk 60 task_id performer_a;
     TaskPerformerAssignment.mk 61 task_id performer_b]
    [EffortMonthlyEntry.mk 70 project_id task_id performer_a (month 2026 1)
       (dec2 200) (dec2 100);
     EffortMonthlyEntry.mk 71 project_id task_id performer_a (month 2026 2)
       (dec2 300) (dec2 200);
     EffortMonthlyEntry.mk 72 project_id task_id performer_b (month 2026 1)
       (dec2 100) (dec2 50)]
    [rate_a_default; rate_a_project; rate_b_default]
    []
    []
    [Revenue.mk 90 project_id "R1" (Date.mk 2026 2 10) (month 2026 2) (dec2 50000) PLN]
    []
    1000.

(** A super administrator. *)
Definition admin : RequestUserContext :=
  mkContext 7 [mkRole SUPER_ADMIN None 8].

Definition values_of (l : list Z) : MonthValues :=
  match map dec2 l with
  | [a; b; c; d; e; f; g; h; i] => mkValues a b c d e f g h i
  | _ => mkValues ZERO ZERO ZERO ZERO ZERO ZERO ZERO ZERO ZERO
  end.

(** The three rows expected by the specification (amounts in cents). *)
Definition january : MonthValues :=
  values_of [300; 150; 30000; 15000; 0; 0; 30000; 15000; 0].
Definition february : MonthValues :=
  values_of [300; 200; 60000; 40000; 50000; 0; 90000; 55000; 50000].
Definition march : MonthValues :=
  values_of [0; 0; 0; 0; 0; 0; 90000; 55000; 50000].

Definition rollup_rows : list RollupRow :=
  [mkRollupRow (month 2026 1) january;
   mkRollupRow (month 2026 2) february;
   mkRollupRow (month 2026 3) march].

Definition snapshot_rows : list ProjectMonthlySnapshot.t :=
  [ProjectMonthlySnapshot.mk 1000 project_id (month 2026 1) january;
   ProjectMonthlySnapshot.mk 1001 project_id (month 2026 2) february;
   ProjectMonthlySnapshot.mk 1002 project_id (month 2026 3) march].

(** The store after the first snapshot refresh. *)
Definition db_refreshed : DB :=
  mkDB (business_units db) (projects db) (stages db) (performers db) (tasks db)
    (assignments db) (effort_entries db) (rates db) (financial_requests db)
    (invoices db) (revenues db) snapshot_rows 1003.

(** The same store after the project range has shrunk to 2026-01 ..
    2026-02: the snapshot row of March is now outside the range. *)
Definition shrunk_project : Project.t :=
  Project.mk project_id unit_id "P1" "Project one" None
    (month 2026 1) (month 2026 2) ACTIVE.

Definition db_shrunk : DB :=
  mkDB (business_units db) [shrunk_project] (stages db) (performers db) (tasks db)
    (assignments db) (effort_entries db) (rates db) (financial_requests db)
    (invoices db) (revenues db) snapshot_rows 1003.

Definition db_shrunk_refreshed : DB :=
  mkDB (business_units db) [shrunk_project] (stages db) (performers db) (tasks db)
    (assignments db) (effort_entries db) (rates db) (financial_requests db)
    (invoices db) (revenues db)
    [ProjectMonthlySnapshot.mk 1000 project_id (month 2026 1) january;
     ProjectMonthlySnapshot.mk 1001 project_id (month 2026 2) february]
    1003.

(** Requests that carry the fifteenth of January where a month is due. *)
Definition mid_month : date := Date.mk 2026 1 15.

Definition matrix_entry_mid_month : MatrixEntryInput :=
  mkMatrixEntryInput task_id performer_a mid_month (dec2 100) (dec2 100).

Definition rate_entry_mid_month : RateEntryInput :=
  mkRateEntryInput performer_a None DAY (dec2 10000) mid_month None.

Definition request_mid_month : FinancialRequestCreateData :=
  mkFinancialRequestCreateData "REQ-1" (Date.mk 2026 1 20) mid_month (dec2 1000) PLN
    "draft".

Definition invoice_mid_month : InvoiceCreateData :=
  mkInvoiceCreateData "INV-1" (Date.mk 2026 1 20) mid_month (dec2 1000) PLN "unpaid" None.

Definition revenue_mid_month : RevenueCreateData :=
  mkRevenueCreateData "REV-1" (Date.mk 2026 1 20) mid_month (dec2 1000) PLN.

Definition project_create_mid_month : ProjectCreateData :=
  mkProjectCreateData "P2" "Project two" None mid_month (month 2026 3) DRAFT.

Definition project_update_mid_month : ProjectUpdateData :=
  mkProjectUpdateData None None None (Some mid_month) None None.

Definition stage_create_mid_month : StageCreateData :=
  mkStageCreateData "Stage two" mid_month (month 2026 3) "green" 2.

Definition stage_update_mid_month : StageUpdateData :=
  mkStageUpdateData None (Some mid_month) None None None.

(** Identifiers that belong to no task and to no performer. *)
Definition unknown_task : UUID := 998.
Definition unknown_performer : UUID := 999.

(** A matrix batch whose second entry has negative planned person-days. *)
Definition batch_negative : list MatrixEntryInput :=
  [mkMatrixEntryInput task_id performer_a (month 2026 1) (dec2 500) (dec2 100);
   mkMatrixEntryInput task_id performer_b (month 2026 1) (Dec.mk (-100) (-2)) (dec2 0)].

(** A rate of performer B from 2026-02 on: its range meets that of the
    stored default rate of B, which starts in 2026-01 and has no end. *)
Definition rate_entry_overlapping : RateEntryInput :=
  mkRateEntryInput performer_b None DAY (dec2 5000) (month 2026 2) None.

(** A viewer of the business unit, and an editor of another one. *)
Definition viewer : RequestUserContext :=
  mkContext 9 [mkRole VIEWER (Some unit_id) 11].

Definition outsider : RequestUserContext :=
  mkContext 12 [mkRole EDITOR (Some 2) 13].

(** A store in which the project has no stage, task or effort entry yet,
    and performer C has nothing but a project rate. *)
Definition performer_c : UUID := 102.

Definition rate_c_project : PerformerRate.t :=
  PerformerRate.mk 83 unit_id performer_c (Some project_id) DAY (dec2 10000)
    (month 2026 1) None.

Definition db_bare : DB :=
  mkDB
    [BusinessUnit.mk unit_id "BU" "Unit" true]
    [project]
    []
    [Performer.mk performer_c unit_id None "C" true]
    []
    []
    []
    [rate_c_project]
    []
    []
    []
    []
    1000.

(** A revenue and an invoice registered for February. *)
Definition revenue_february : RevenueCreateData :=
  mkRevenueCreateData "R2" (Date.mk 2026 2 20) (month 2026 2) (dec2 2500) PLN.

Definition revenue_february_row : Revenue.t :=
  Revenue.mk 1000 project_id "R2" (Date.mk 2026 2 20) (month 2026 2) (dec2 2500) PLN.

Definition invoice_february : InvoiceCreateData :=
  mkInvoiceCreateData "INV-2" (Date.mk 2026 2 20) (month 2026 2) (dec2 4000) PLN
    "unpaid" None.

Definition invoice_february_row : Invoice.t :=
  Invoice.mk 1000 project_id "INV-2" (Date.mk 2026 2 20) (month 2026 2) (dec2 4000) PLN
    "unpaid" None.

(** The dashboard of the project over its whole range: the revenue of
    500.00 of February against actual costs of 150.00 and 550.00. *)
Definition dashboard : DashboardData :=
  mkDashboardData project_id (month 2026 1) (month 2026 3) rollup_rows
    [mkRealizationPoint (month 2026 1) (dec2 0) (dec2 15000) (dec2 (-15000)) (dec2 0);
     mkRealizationPoint (month 2026 2) (dec2 50000) (dec2 55000) (dec2 (-5000))
       (dec2 11000);
     mkRealizationPoint (month 2026 3) (dec2 50000) (dec2 55000) (dec2 (-5000))
       (dec2 11000)]
    [EffortMonthlyEntry.mk 70 project_id task_id performer_a (month 2026 1)
       (dec2 200) (dec2 100);
     EffortMonthlyEntry.mk 72 project_id task_id performer_b (month 2026 1)
       (dec2 100) (dec2 50);
     EffortMonthlyEntry.mk 71 project_id task_id performer_a (month 2026 2)
       (dec2 300) (dec2 200)].

(** The dashboard of the unit over the range of its one project, read from
    the snapshots of the refreshed store. *)
Definition unit_dashboard : Finance.BusinessUnitDashboardData :=
  Finance.mkBusinessUnitDashboardData unit_id (Some (month 2026 1))
    (Some (month 2026 3))
    [Finance.mkCostTrendPoint (month 2026 1) (dec2 30000) (dec2 15000) (dec2 30000)
       (dec2 15000);
     Finance.mkCostTrendPoint (month 2026 2) (dec2 60000) (dec2 40000) (dec2 90000)
       (dec2 55000);
     Finance.mkCostTrendPoint (month 2026 3) (dec2 0) (dec2 0) (dec2 90000)
       (dec2 55000)]
    [Finance.mkWorkloadRow performer_a "A"
       [Finance.mkWorkloadMonth (month 2026 1) (dec2 200) (dec2 100);
        Finance.mkWorkloadMonth (month 2026 2) (dec2 300) (dec2 200);
        Finance.mkWorkloadMonth (month 2026 3) (dec2 0) (dec2 0)];
     Finance.mkWorkloadRow performer_b "B"
       [Finance.mkWorkloadMonth (month 2026 1) (dec2 100) (dec2 50);
        Finance.mkWorkloadMonth (month 2026 2) (dec2 0) (dec2 0);
        Finance.mkWorkloadMonth (month 2026 3) (dec2 0) (dec2 0)]]
    (dd_realization_trend dashboard).

(** Requests that the scenario accepts: a new name for the project, a
    second stage, a second task, and performer C assigned to the task. *)
Definition project_rename : ProjectUpdateData :=
  mkProjectUpdateData None (Some "Project one, renamed"%string) None None None None.

Definition stage_two : StageCreateData :=
  mkStageCreateData "Stage two" (month 2026 2) (month 2026 3) "green" 2.

Definition task_two : TaskCreateData :=
  mkTaskCreateData stage_id "T2" "Task two" 2 true.

(** The scenario before any effort was entered. *)
Definition db_assigned : DB := with_effort_entries db [].

(** A matrix batch that overwrites the January entry of performer A with
    1.004 planned person-days: three places where the column has two. *)
Definition batch_three_places : list MatrixEntryInput :=
  [mkMatrixEntryInput task_id performer_a (month 2026 1) (Dec.mk 1004 (-3)) (dec2 100)].

(** A store with the business unit and nothing else: the unit has no
    project. *)
Definition db_unit_only : DB :=
  mkDB [BusinessUnit.mk unit_id "BU" "Unit" true] [] [] [] [] [] [] [] [] [] [] [] 1000.

End Scenario.
(** * Properties

    The vocabulary in which the properties of the services are stated: the
    calendar months of a range, the cumulative chain of the rollups, the
    identity keys of rows and payloads, and the invariants of the store. *)

(** The positions of December 9999 and of January 1 on the line of all
    calendar months. *)
Definition MAX_INDEX : Z := 12 * Date.MAXYEAR + 11.

Definition MIN_INDEX : Z := 12 * Date.MINYEAR.

(** The months at positions [i, i + 1, ..., i + n - 1]. *)
Definition months_from (i : Z) (n : nat) : list date :=
  map (fun k => Date.of_month_index (i + Z.of_nat k)) (seq 0 n).

(** The cumulative fields of consecutive rows: each is the previous
    cumulative value plus the month's own rounded value, rounded again. *)
Fixpoint cumulative_chain (prev_planned prev_actual prev_revenue : Decimal)
    (rows : list MonthValues) : Prop :=
  match rows with
  | [] => True
  | v :: rest =>
      cumulative_planned_cost v = _q2 (Dec.add prev_planned (planned_cost v))
      /\ cumulative_actual_cost v = _q2 (Dec.add prev_actual (actual_cost v))
      /\ cumulative_revenue v = _q2 (Dec.add prev_revenue (revenue_amount v))
      /\ _q2 (planned_cost v) = planned_cost v
      /\ _q2 (actual_cost v) = actual_cost v
      /\ _q2 (revenue_amount v) = revenue_amount v
      /\ cumulative_chain (cumulative_planned_cost v) (cumulative_actual_cost v)
           (cumulative_revenue v) rest
  end.

(** The rows that the month loop of [refresh_project_snapshots] computes,
    before they are written. *)
Fixpoint plan_values (totals : dict date Bucket)
    (invoice_by_month revenue_by_month : dict date Decimal)
    (months : list date) (cumulative : Planning.Cumulative)
  : list (date * MonthValues) :=
  match months with
  | [] => []
  | month :: months' =>
      let v := Planning.month_values totals invoice_by_month revenue_by_month
                 cumulative month in
      (month, v)
      :: plan_values totals invoice_by_month revenue_by_month months'
           (Planning.mkCumulative (cumulative_planned_cost v)
              (cumulative_actual_cost v) (cumulative_revenue v))
  end.

(** Writing planned rows one after the other. *)
Fixpoint write_all (db : DB) (project_id : UUID) (items : list (date * MonthValues))
  : DB * list ProjectMonthlySnapshot.t :=
  match items with
  | [] => (db, [])
  | (month, v) :: items' =>
      let '(db1, snapshot) := Planning.write_snapshot db project_id month v in
      let '(db2, rest) := write_all db1 project_id items' in
      (db2, snapshot :: rest)
  end.

(** A strict total order given by its boolean test. *)
Record StrictTotal {A : Type} (lt : A -> A -> bool) : Prop := {
  st_irrefl : forall a, lt a a = false;
  st_trans : forall a b c, lt a b = true -> lt b c = true -> lt a c = true;
  st_total : forall a b, lt a b = false -> lt b a = false -> a = b
}.

(** A rate covers a month when it starts no later than the month and has
    no end or ends no earlier than the month. *)
Definition covers_month (rate : PerformerRate.t) (month_start : date) : bool :=
  (PerformerRate.effective_from_month rate <=? month_start)%date
  && match PerformerRate.effective_to_month rate with
     | None => true
     | Some t => (month_start <=? t)%date
     end.

(** The rates of a performer, in one scope, that cover a month. *)
Definition covering_rates (rates_by_performer : dict UUID (list PerformerRate.t))
    (performer_id : UUID) (scope : option UUID) (month_start : date)
  : list PerformerRate.t :=
  filter
    (fun rate => eqk (PerformerRate.project_id rate) scope && covers_month rate month_start)
    (dict_get_default rates_by_performer performer_id []).

(** [r] is in the pool and no rate of the pool ranks above it: none has a
    later start, nor the same start and a later end (no end counting as
    [date.max]), nor the same start and end and a greater identifier. *)
Definition best_of (pool : list PerformerRate.t) (r : PerformerRate.t) : Prop :=
  In r pool
  /\ forall r', In r' pool -> key_ltb (rate_sort_key r) (rate_sort_key r') = false.

(** A month without activity in a project: no effort entry, no invoice and
    no revenue of the project carries it. *)
Definition quiet_month (db : DB) (project_id : UUID) (m : date) : Prop :=
  (forall e, In e (effort_entries db) -> EffortMonthlyEntry.project_id e = project_id ->
             EffortMonthlyEntry.month_start e <> m)
  /\ (forall i, In i (invoices db) -> Invoice.project_id i = project_id ->
                Invoice.month_start i <> m)
  /\ (forall r, In r (revenues db) -> Revenue.project_id r = project_id ->
                Revenue.month_start r <> m).

(** A date that is a valid first day of a month. *)
Definition month_start_ok (d : date) : bool := Date.valid d && Date.is_month_start d.

(** The month range of a project as the data model has it: two valid
    month starts ([create_project] and [update_project] store nothing
    else). *)
Definition project_range_ok (p : Project.t) : bool :=
  month_start_ok (Project.start_month p) && month_start_ok (Project.end_month p).

Definition snapshot_key (s : ProjectMonthlySnapshot.t) : UUID * date :=
  (ProjectMonthlySnapshot.project_id s, ProjectMonthlySnapshot.month_start s).

(** The unique constraint [uq_project_snapshots_project_month]. *)
Definition snapshot_keys_unique (db : DB) : Prop :=
  NoDup (map snapshot_key (snapshots db)).

(** The snapshot months of a project are valid month starts. *)
Definition snapshot_months_ok (db : DB) (project_id : UUID) : Prop :=
  forall s, In s (snapshots db) -> ProjectMonthlySnapshot.project_id s = project_id ->
            month_start_ok (ProjectMonthlySnapshot.month_start s) = true.

(** The snapshot months of a project, in table order. *)
Definition snapshot_months (db : DB) (project_id : UUID) : list date :=
  map ProjectMonthlySnapshot.month_start
    (filter (fun s => ProjectMonthlySnapshot.project_id s =? project_id) (snapshots db)).

(** The tables a refresh reads and never writes. *)
Definition same_facts (a b : DB) : Prop :=
  projects a = projects b /\ effort_entries a = effort_entries b
  /\ rates a = rates b /\ invoices a = invoices b /\ revenues a = revenues b.

(** Each planned row is stored: it is the first row of its key. *)
Definition stored (snaps : list ProjectMonthlySnapshot.t) (project_id : UUID)
    (items : list (date * MonthValues)) (rows : list ProjectMonthlySnapshot.t) : Prop :=
  Forall2
    (fun item s =>
       s = ProjectMonthlySnapshot.mk (ProjectMonthlySnapshot.id s) project_id
             (fst item) (snd item)
       /\ find (Repo.snapshot_key_matches project_id (fst item)) snaps = Some s)
    items rows.

(** The message of [normalize_month_start]. *)
Definition month_start_error {A : Type} : result A :=
  Raise (HTTPException HTTP_422_UNPROCESSABLE_ENTITY
           "month_start must be first day of calendar month.").

Definition valid_opt (d : option date) : bool :=
  match d with Some x => Date.valid x | None => true end.

(** The window that a request asks for: absent bounds default to the
    bounds of the project. *)
Definition requested_from (p : Project.t) (from_month : option date) : date :=
  or_default from_month (Project.start_month p).

Definition requested_to (p : Project.t) (to_month : option date) : date :=
  or_default to_month (Project.end_month p).

(** The window starts before the project, ends after it, or ends before
    it starts. *)
Definition window_violation (p : Project.t) (from_month to_month : option date) : bool :=
  Date.ltb (requested_from p from_month) (Project.start_month p)
  || Date.ltb (Project.end_month p) (requested_to p to_month)
  || Date.ltb (requested_to p to_month) (requested_from p from_month).

(** A bound of the window is not the first day of a month. *)
Definition window_off_month (p : Project.t) (from_month to_month : option date) : bool :=
  negb (Date.day (requested_from p from_month) =? 1)
  || negb (Date.day (requested_to p to_month) =? 1).

(** The three rejections of a window, by their message. *)
Definition window_rejection {A : Type} (what : string) (r : result A) : Prop :=
  r = month_start_error
  \/ r = Raise (HTTPException HTTP_422_UNPROCESSABLE_ENTITY
                  ("Requested " ++ what ++ " month range must be within project month range."))
  \/ r = Raise (HTTPException HTTP_422_UNPROCESSABLE_ENTITY
                  "to_month must be greater than or equal to from_month.").

Definition rate_entry_dates_valid (entry : RateEntryInput) : bool :=
  Date.valid (ri_effective_from_month entry)
  && valid_opt (ri_effective_to_month entry).

(** A rate entry with a bound that is not the first day of a month. *)
Definition rate_entry_off_month (entry : RateEntryInput) : bool :=
  negb (Date.day (ri_effective_from_month entry) =? 1)
  || match ri_effective_to_month entry with
     | Some t => negb (Date.day t =? 1)
     | None => false
     end.

(** The task belongs to the project. *)
Definition task_in_project (db : DB) (project_id t : UUID) : bool :=
  existsb (fun x => (Task.id x =? t) && (Task.project_id x =? project_id)) (tasks db).

(** The performer belongs to the business unit. *)
Definition performer_in_unit (db : DB) (business_unit_id q : UUID) : bool :=
  existsb
    (fun x => (Performer.id x =? q) && (Performer.business_unit_id x =? business_unit_id))
    (performers db).

(** The rejection is a validation error whose detail is [prefix] followed
    by the comma-separated [str] of exactly the identifiers [ids]. *)
Definition rejection_lists {A : Type} (r : result A) (prefix : string)
    (ids : list UUID) : Prop :=
  exists listed,
    r = Raise (HTTPException HTTP_422_UNPROCESSABLE_ENTITY
                 (prefix ++ str_join ", " listed))
    /\ (forall i, In i ids -> In (uuid_str i) listed)
    /\ (forall s, In s listed -> exists i, In i ids /\ s = uuid_str i).

(** The detail of the rejection contains the [str] of the identifier. *)
Definition rejection_mentions {A : Type} (r : result A) (i : UUID) : bool :=
  match r with
  | Raise (HTTPException _ detail) => str_contains (uuid_str i) detail
  | _ => false
  end.

(** The identity key of a matrix payload: task, performer and the month
    start it is normalized to. *)
Definition matrix_pkey (payload : MatrixEntryInput) : option (UUID * UUID * date) :=
  match normalize_month_start (mi_month_start payload) with
  | Ok m => Some (mi_task_id payload, mi_performer_id payload, m)
  | Raise _ => None
  end.

Definition matrix_key (entry : MatrixEntryInput) : UUID * UUID * date :=
  (mi_task_id entry, mi_performer_id entry, mi_month_start entry).

(** What the validation pass has checked of a payload that it accepted as
    the normalized entry [n]. *)
Definition matrix_entry_validated (db : DB) (project : Project.t)
    (payload n : MatrixEntryInput) : Prop :=
  normalize_month_start (mi_month_start payload) = Ok (mi_month_start n)
  /\ mi_task_id n = mi_task_id payload
  /\ mi_performer_id n = mi_performer_id payload
  /\ mi_planned_person_days n = mi_planned_person_days payload
  /\ mi_actual_person_days n = mi_actual_person_days payload
  /\ Dec.ltb (mi_planned_person_days payload) ZERO = false
  /\ Dec.ltb (mi_actual_person_days payload) ZERO = false
  /\ (mi_month_start n <? Project.start_month project)%date = false
  /\ (Project.end_month project <? mi_month_start n)%date = false
  /\ task_in_project db (Project.id project) (mi_task_id payload) = true
  /\ performer_in_unit db (Project.business_unit_id project)
       (mi_performer_id payload) = true.

(** A row is stored under the identity key of the entry. *)
Definition matrix_row_exists (project_id : UUID) (db : DB) (entry : MatrixEntryInput)
  : Prop :=
  exists row,
    Repo.get_effort_entry db project_id (mi_task_id entry) (mi_performer_id entry)
      (mi_month_start entry) = Some row.

(** The entry is stored under its identity key, with what the two
    NUMERIC(10, 2) columns make of its person-days. *)
Definition matrix_persisted (project_id : UUID) (db : DB) (entry : MatrixEntryInput)
  : Prop :=
  exists row,
    Repo.get_effort_entry db project_id (mi_task_id entry) (mi_performer_id entry)
      (mi_month_start entry) = Some row
    /\ numeric 10 2 (mi_planned_person_days entry)
       = Ok (EffortMonthlyEntry.planned_person_days row)
    /\ numeric 10 2 (mi_actual_person_days entry)
       = Ok (EffortMonthlyEntry.actual_person_days row).

(** The identity key of a rate payload: performer, scope and the month
    start its first month is normalized to. *)
Definition rate_pkey (entry : RateEntryInput) : option (UUID * option UUID * date) :=
  match normalize_month_start (ri_effective_from_month entry) with
  | Ok m => Some (ri_performer_id entry, ri_project_id entry, m)
  | Raise _ => None
  end.

Definition rate_key (entry : RateEntryInput) : UUID * option UUID * date :=
  (ri_performer_id entry, ri_project_id entry, ri_effective_from_month entry).

Definition rate_row_key (r : PerformerRate.t) : UUID * option UUID * date :=
  (PerformerRate.performer_id r, PerformerRate.project_id r,
   PerformerRate.effective_from_month r).

(** What the validation pass has checked of a payload that it accepted as
    the normalized entry [n]. *)
Definition rate_entry_validated (db : DB) (project : Project.t)
    (entry n : RateEntryInput) : Prop :=
  normalize_month_start (ri_effective_from_month entry)
  = Ok (ri_effective_from_month n)
  /\ ri_performer_id n = ri_performer_id entry
  /\ ri_project_id n = ri_project_id entry
  /\ ri_rate_unit n = ri_rate_unit entry
  /\ ri_rate_value n = ri_rate_value entry
  /\ Dec.ltb (ri_rate_value entry) ZERO = false
  /\ Finance._validate_rate_range (ri_effective_from_month n)
       (ri_effective_to_month n) = Ok tt
  /\ performer_in_unit db (Project.business_unit_id project)
       (ri_performer_id entry) = true.

(** A rate is stored under the identity key of the entry, with its unit
    and last month. *)
Definition rate_written (db : DB) (entry : RateEntryInput) : Prop :=
  exists row,
    Repo.get_rate db (ri_performer_id entry) (ri_project_id entry)
      (ri_effective_from_month entry) = Some row
    /\ PerformerRate.rate_unit row = ri_rate_unit entry
    /\ PerformerRate.effective_to_month row = ri_effective_to_month entry.

(** The rate is stored under its identity key with its unit, its last
    month and what the NUMERIC(12, 2) column makes of its value. *)
Definition rate_persisted (db : DB) (entry : RateEntryInput) : Prop :=
  exists row,
    Repo.get_rate db (ri_performer_id entry) (ri_project_id entry)
      (ri_effective_from_month entry) = Some row
    /\ PerformerRate.rate_unit row = ri_rate_unit entry
    /\ numeric 12 2 (ri_rate_value entry) = Ok (PerformerRate.rate_value row)
    /\ PerformerRate.effective_to_month row = ri_effective_to_month entry.

(** The ranges of a stored rate and of an entry of the same performer and
    scope meet. *)
Definition rate_overlaps (r : PerformerRate.t) (entry : RateEntryInput) : bool :=
  (PerformerRate.performer_id r =? ri_performer_id entry)
  && Repo.opt_uuid_eqb (PerformerRate.project_id r) (ri_project_id entry)
  && (PerformerRate.effective_from_month r
      <=? match ri_effective_to_month entry with
          | Some d => d
          | None => Date.max
          end)%date
  && match PerformerRate.effective_to_month r with
     | None => true
     | Some t => (ri_effective_from_month entry <=? t)%date
     end.

(** A stored rate that a batch leaves alone: it is in the table, no other
    row has its identifier, and its identifier has been handed out. *)
Definition rate_settled (db : DB) (r : PerformerRate.t) : Prop :=
  In r (rates db)
  /\ (forall r', In r' (rates db) -> PerformerRate.id r' = PerformerRate.id r -> r' = r)
  /\ PerformerRate.id r < next_uuid db.

(** The request was rejected and the store is the one it started from. *)
Definition rejected_unchanged {A : Type} (db : DB) (out : DB * result A) : Prop :=
  fst out = db /\ is_ok (snd out) = false.

(** A person-days amount of the payload is negative. *)
Definition matrix_negative (payload : MatrixEntryInput) : bool :=
  Dec.ltb (mi_planned_person_days payload) ZERO
  || Dec.ltb (mi_actual_person_days payload) ZERO.

Section PropertiesWithSettings.

Variable settings : Settings.

(** The per-day value of a rate, in the words of the specification. *)
Definition per_day_value (rate : PerformerRate.t) : Decimal :=
  match PerformerRate.rate_unit rate with
  | DAY => _q2 (PerformerRate.rate_value rate)
  | FTE_MONTH =>
      _q2 (Dec.div (PerformerRate.rate_value rate)
             (Dec.of_int (Z.pos (cost_fte_month_working_days settings))))
  end.

(** [cost(personDays, perDayValue) = round2(personDays * perDayValue)]. *)
Definition cost (person_days per_day : Decimal) : Decimal :=
  _q2 (Dec.mul person_days per_day).

(** The costs that the entries of a list add to a month, in order; an
    entry without a rate adds nothing. *)
Definition cost_contributions (rates_by_performer : dict UUID (list PerformerRate.t))
    (project_id : UUID) (person_days : EffortMonthlyEntry.t -> Decimal)
    (entries : list EffortMonthlyEntry.t) : list Decimal :=
  flat_map
    (fun entry =>
       match Planning._resolve_effective_rate rates_by_performer
               (EffortMonthlyEntry.performer_id entry) project_id
               (EffortMonthlyEntry.month_start entry) with
       | Some rate => [cost (person_days entry) (per_day_value rate)]
       | None => []
       end)
    entries.

(** One turn of the entry loop of the refresh, on the bucket of its month. *)
Definition add_entry (rates_by_performer : dict UUID (list PerformerRate.t))
    (project_id : UUID) (bucket : Bucket) (entry : EffortMonthlyEntry.t) : Bucket :=
  let planned := Dec.add (b_planned_person_days bucket)
                   (EffortMonthlyEntry.planned_person_days entry) in
  let actual := Dec.add (b_actual_person_days bucket)
                  (EffortMonthlyEntry.actual_person_days entry) in
  match Planning._resolve_effective_rate rates_by_performer
          (EffortMonthlyEntry.performer_id entry) project_id
          (EffortMonthlyEntry.month_start entry) with
  | None => mkBucket planned actual (b_planned_cost bucket) (b_actual_cost bucket)
  | Some rate =>
      mkBucket planned actual
        (Dec.add (b_planned_cost bucket)
           (cost (EffortMonthlyEntry.planned_person_days entry) (per_day_value rate)))
        (Dec.add (b_actual_cost bucket)
           (cost (EffortMonthlyEntry.actual_person_days entry) (per_day_value rate)))
  end.

(** The rows that a refresh plans for a project from the facts of a store. *)
Definition planned_rows (db : DB) (p : Project.t) (months : list date)
  : list (date * MonthValues) :=
  plan_values
    (fold_left
       (Planning.accrue_entry settings
          (group_rates_by_performer
             (Repo.list_rates_for_business_unit db (Project.business_unit_id p)
                (Some (Project.id p))))
          (Project.id p))
       (Repo.list_effort_entries db (Project.id p) (Project.start_month p)
          (Project.end_month p))
       (init_totals months))
    (Repo.aggregate_invoices_by_month db (Project.id p))
    (Repo.aggregate_revenues_by_month db (Project.id p))
    months (Planning.mkCumulative ZERO ZERO ZERO).

End PropertiesWithSettings.

(** Every table but the snapshots is the same in both stores. *)
Definition same_structure (a b : DB) : Prop :=
  business_units a = business_units b /\ projects a = projects b
  /\ stages a = stages b /\ performers a = performers b /\ tasks a = tasks b
  /\ assignments a = assignments b /\ effort_entries a = effort_entries b
  /\ rates a = rates b /\ financial_requests a = financial_requests b
  /\ invoices a = invoices b /\ revenues a = revenues b.

(** The snapshot rows of the other projects, in table order. *)
Definition snapshots_of_others (db : DB) (project_id : UUID)
  : list ProjectMonthlySnapshot.t :=
  filter (fun s => negb (ProjectMonthlySnapshot.project_id s =? project_id))
    (snapshots db).

(** Every effort entry is on a pair of task and performer that is
    assigned. *)
Definition effort_on_assigned_pairs (db : DB) : Prop :=
  forall e, In e (effort_entries db) ->
    exists a, In a (assignments db)
              /\ TaskPerformerAssignment.task_id a = EffortMonthlyEntry.task_id e
              /\ TaskPerformerAssignment.performer_id a
                 = EffortMonthlyEntry.performer_id e.

(** The person-days and costs of a month. *)
Definition effort_and_cost_values (v : MonthValues)
  : Decimal * Decimal * Decimal * Decimal :=
  (planned_person_days v, actual_person_days v, planned_cost v, actual_cost v).

(** An identifier passes a filter: the filter is absent or empty, or it
    lists the identifier. *)
Definition selected (ids : option (list UUID)) (x : UUID) : Prop :=
  match ids with
  | None | Some [] => True
  | Some l => In x l
  end.

(** The sum of one value over the snapshot rows of a month. *)
Definition month_sum (f : MonthValues -> Decimal)
    (rows : list ProjectMonthlySnapshot.t) (m : date) : Decimal :=
  Dec.sum
    (map (fun s => f (ProjectMonthlySnapshot.values s))
       (filter (fun s => (ProjectMonthlySnapshot.month_start s =? m)%date) rows))
    ZERO.

(** The sum of the person-days of a performer in a month. *)
Definition person_days_sum (f : EffortMonthlyEntry.t -> Decimal)
    (entries : list EffortMonthlyEntry.t) (performer_id : UUID) (m : date) : Decimal :=
  Dec.sum
    (map f
       (filter
          (fun e => (EffortMonthlyEntry.performer_id e =? performer_id)
                    && (EffortMonthlyEntry.month_start e =? m)%date)
          entries))
    ZERO.

(** The two trends of a business-unit dashboard, point by point: the
    monthly costs are the rounded sums over the snapshot rows of the
    month, and each cumulative value is the previous one plus the rounded
    monthly value, rounded again. *)
Fixpoint trends_sum_snapshots (prev_planned prev_actual prev_revenue : Decimal)
    (rows : list ProjectMonthlySnapshot.t) (months : list date)
    (cost_trend : list Finance.CostTrendPoint)
    (realization_trend : list RealizationPoint) : Prop :=
  match months, cost_trend, realization_trend with
  | [], [], [] => True
  | m :: months', c :: cost_trend', r :: realization_trend' =>
      Finance.ct_month_start c = m
      /\ rp_month_start r = m
      /\ Finance.ct_planned_cost c = _q2 (month_sum planned_cost rows m)
      /\ Finance.ct_actual_cost c = _q2 (month_sum actual_cost rows m)
      /\ Finance.ct_cumulative_planned_cost c
         = _q2 (Dec.add prev_planned (Finance.ct_planned_cost c))
      /\ Finance.ct_cumulative_actual_cost c
         = _q2 (Dec.add prev_actual (Finance.ct_actual_cost c))
      /\ rp_cumulative_actual_cost r = Finance.ct_cumulative_actual_cost c
      /\ rp_cumulative_revenue r
         = _q2 (Dec.add prev_revenue (_q2 (month_sum revenue_amount rows m)))
      /\ rp_cumulative_margin r
         = Dec.sub (rp_cumulative_revenue r) (rp_cumulative_actual_cost r)
      /\ trends_sum_snapshots (Finance.ct_cumulative_planned_cost c)
           (Finance.ct_cumulative_actual_cost c) (rp_cumulative_revenue r)
           rows months' cost_trend' realization_trend'
  | _, _, _ => False
  end.

(** One more effort entry in the two sums of a workload cell. *)
Definition add_person_days (cell : Decimal * Decimal) (entry : EffortMonthlyEntry.t)
  : Decimal * Decimal :=
  (Dec.add (fst cell) (EffortMonthlyEntry.planned_person_days entry),
   Dec.add (snd cell) (EffortMonthlyEntry.actual_person_days entry)).

(** The answer to a caller whose roles do not cover the business unit. *)
Definition forbidden : exn :=
  HTTPException HTTP_403_FORBIDDEN
    "Insufficient business unit scope permissions for this operation.".

(** The answer is an [HTTPException], not an error of the database. *)
Definition answered {A : Type} (r : result A) : Prop :=
  match r with
  | Raise (HTTPException _ _) => True
  | _ => False
  end.

(** One more snapshot row in the sums of a month of the dashboard. *)
Definition add_snapshot_values (bucket : Finance.Aggregate)
    (row : ProjectMonthlySnapshot.t) : Finance.Aggregate :=
  Finance.mkAggregate
    (Dec.add (Finance.ag_planned_cost bucket)
       (planned_cost (ProjectMonthlySnapshot.values row)))
    (Dec.add (Finance.ag_actual_cost bucket)
       (actual_cost (ProjectMonthlySnapshot.values row)))
    (Dec.add (Finance.ag_revenue bucket)
       (revenue_amount (ProjectMonthlySnapshot.values row)))
    (Finance.ag_cumulative_planned bucket)
    (Finance.ag_cumulative_actual bucket)
    (Finance.ag_cumulative_revenue bucket).

(** The amounts of the store are values of their NUMERIC(.., 2) columns:
    the person-days of the effort entries, the values of the rates and the
    amounts of the invoices and revenues have two places. *)
Definition two_place_amounts (db : DB) : Prop :=
  Forall (fun e => Dec.expo (EffortMonthlyEntry.planned_person_days e) = -2
                   /\ Dec.expo (EffortMonthlyEntry.actual_person_days e) = -2)
    (effort_entries db)
  /\ Forall (fun r => Dec.expo (PerformerRate.rate_value r) = -2) (rates db)
  /\ Forall (fun i => Dec.expo (Invoice.amount i) = -2) (invoices db)
  /\ Forall (fun r => Dec.expo (Revenue.amount r) = -2) (revenues db).

(** A date that is not the first day of its month, for an optional input:
    an absent input is not off its month. *)
Definition off_month_opt (d : option date) : bool :=
  match d with Some x => negb (Date.day x =? 1) | None => false end.

(** The window that a request for the dashboard of a business unit asks
    for: absent bounds default to the earliest start month and the latest
    end month of the projects of the unit. *)
Definition unit_requested_from (first : Project.t) (rest : list Project.t)
    (from_month : option date) : date :=
  or_default from_month
    (Finance.min_date (Project.start_month first) (map Project.start_month rest)).

Definition unit_requested_to (first : Project.t) (rest : list Project.t)
    (to_month : option date) : date :=
  or_default to_month
    (Finance.max_date (Project.end_month first) (map Project.end_month rest)).

(** ** The rows of a report *)

Section PivotTable.

Context {Row : Type}.
Variable key_of : Row -> UUID.
Variable month_of : Row -> date.
Variable planned_of actual_of : Row -> Decimal.

(** The sum of one value over the entries of a performer (or a task) in a
    month, added in the order of the entries. *)
Definition cell_sum (value_of : Row -> Decimal) (entries : list Row)
    (key : UUID) (month : date) : Decimal :=
  Dec.sum
    (map value_of
       (filter (fun r => (key_of r =? key) && Date.eqb (month_of r) month) entries))
    ZERO.

(** A month of a row: the two sums rounded, and the rounded difference of
    the rounded sums. *)
Definition pivot_month (entries : list Row) (key : UUID) (month : date) : ReportMonth :=
  let planned := _q2 (cell_sum planned_of entries key month) in
  let actual := _q2 (cell_sum actual_of entries key month) in
  mkReportMonth month planned actual (_q2 (Dec.sub actual planned)).

(** A row: one cell per month of the report, and the totals of the
    cells. *)
Definition pivot_row (label_of : UUID -> string) (stage_of : UUID -> option string)
    (months : list date) (entries : list Row) (key : UUID) : ReportRow :=
  let month_values := map (pivot_month entries key) months in
  let total_planned := Dec.sum (map rm_planned month_values) ZERO in
  let total_actual := Dec.sum (map rm_actual month_values) ZERO in
  mkReportRow key (label_of key) (stage_of key) month_values
    (mkReportTotals (_q2 total_planned) (_q2 total_actual)
       (_q2 (Dec.sub total_actual total_planned))).

(** The rows: one for each performer (or task) of the entries, in the
    order of the labels, equal labels in the order in which the entries
    first name them. *)
Definition pivot_table (label_of : UUID -> string) (stage_of : UUID -> option string)
    (months : list date) (entries : list Row) : list ReportRow :=
  map (pivot_row label_of stage_of months entries)
    (sort_asc (fun a b => str_ltb (label_of a) (label_of b))
       (to_set (map key_of entries))).

(** What the buckets of the pivot hold after the entries [done]: a bucket
    for each performer (or task) of the entries, in the order in which the
    entries first name them, and in it, under each month of the report,
    the two sums of the entries of the performer in the month. *)
Definition buckets_of (months : list date) (done : list Row)
    (by_key : dict UUID Finance.Bucket) : Prop :=
  map fst by_key = to_set (map key_of done)
  /\ forall k month,
       dict_get (dict_get_default by_key k (Finance.new_bucket months)) month
       = if mem month months
         then Some (cell_sum planned_of done k month, cell_sum actual_of done k month)
         else None.

(** A report pivots the entries of its opening: it returns when the month
    of every entry is a month of the report, and then it has the window
    of the opening and the rows of the pivot table. *)
Definition pivoted (label_of : UUID -> string) (stage_of : UUID -> option string)
    (report_key : string) (opening : ReportData Row)
    (report : result (ReportData ReportRow)) : Prop :=
  forall d,
    report = Ok d
    <-> Forall (fun r => In (month_of r) (rd_months _ opening)) (rd_rows _ opening)
        /\ d = mkReportData report_key (rd_project_id _ opening)
                 (rd_from_month _ opening) (rd_to_month _ opening)
                 (rd_months _ opening)
                 (pivot_table label_of stage_of (rd_months _ opening)
                    (rd_rows _ opening)).

End PivotTable.

(** The performer_name of a row of a report on a project: the name of a
    performer of the business unit of the project, and [str] of the
    identifier for any other. *)
Definition performer_label (db : DB) (project_id : UUID) (performer_id : UUID) : string :=
  match Repo.get_project db project_id with
  | Some project =>
      Finance.label_or_str
        (fold_left (fun d p => dict_set d (Performer.id p) (Performer.display_name p))
           (Repo.list_performers_for_business_unit db (Project.business_unit_id project))
           [])
        performer_id
  | None => uuid_str performer_id
  end.

(** The task_name of a row: the name of a task of the project, and [str]
    of the identifier for any other. *)
Definition task_label (db : DB) (project_id : UUID) (task_id : UUID) : string :=
  Finance.label_or_str
    (fold_left (fun d task => dict_set d (Task.id task) (Task.name task))
       (Repo.list_tasks db project_id) [])
    task_id.

(** The stage_name of a row: the name of the stage of a task of the
    project, empty for a task whose stage is not a stage of the project
    and for any other identifier. *)
Definition task_stage_label (db : DB) (project_id : UUID) (task_id : UUID)
  : option string :=
  Some
    (dict_get_default
       (fold_left
          (fun d task =>
             dict_set d (Task.id task)
               (dict_get_default
                  (fold_left
                     (fun d stage =>
                        dict_set d (ProjectStage.id stage) (ProjectStage.name stage))
                     (Repo.list_stages db project_id) [])
                  (Task.stage_id task) EmptyString))
          (Repo.list_tasks db project_id) [])
       task_id EmptyString).

(** Every effort entry of the store is on the first day of a month. *)
Definition effort_on_month_starts (db : DB) : Prop :=
  Forall (fun e => Date.valid (EffortMonthlyEntry.month_start e) = true
                   /\ Date.day (EffortMonthlyEntry.month_start e) = 1)
    (effort_entries db).

(** * Properties *)

(** ** The calendar *)

Module DateFacts.

(** Quotient and remainder of a month position by twelve. *)
Ltac div12 i :=
  pose proof (Z.div_mod i 12 ltac:(lia));
  pose proof (Z.mod_pos_bound i 12 ltac:(lia)).

Lemma of_month_index_year i : Date.year (Date.of_month_index i) = i / 12.
Proof. reflexivity. Qed.

Lemma of_month_index_month i : Date.month (Date.of_month_index i) = i mod 12 + 1.
Proof. reflexivity. Qed.

Lemma month_index_of_month_index i :
  Date.month_index (Date.of_month_index i) = i.
Proof.
  unfold Date.month_index, Date.of_month_index; cbn [Date.year Date.month].
  div12 i. lia.
Qed.

Lemma of_month_index_month_index d :
  1 <= Date.month d <= 12 -> Date.day d = 1 ->
  Date.of_month_index (Date.month_index d) = d.
Proof.
  destruct d as [y m dd]; unfold Date.month_index, Date.of_month_index;
    cbn [Date.year Date.month Date.day].
  intros Hm ->.
  replace (12 * y + (m - 1)) with ((m - 1) + y * 12) by lia.
  rewrite Z.div_add, Z.mod_add by lia.
  rewrite Z.div_small, Z.mod_small by lia.
  f_equal; lia.
Qed.

Lemma ltb_of_month_index i j :
  Date.ltb (Date.of_month_index i) (Date.of_month_index j) = (i <? j).
Proof.
  unfold Date.ltb, Date.of_month_index; cbn [Date.year Date.month Date.day].
  div12 i. div12 j.
  rewrite Z.ltb_irrefl, andb_false_r, orb_false_r.
  destruct (Z.ltb_spec (i / 12) (j / 12)); simpl.
  - symmetry; apply Z.ltb_lt; lia.
  - destruct (Z.eqb_spec (i / 12) (j / 12)); simpl.
    + destruct (Z.ltb_spec (i mod 12 + 1) (j mod 12 + 1)); symmetry.
      * apply Z.ltb_lt; lia.
      * apply Z.ltb_ge; lia.
    + symmetry; apply Z.ltb_ge; lia.
Qed.

Lemma leb_of_month_index i j :
  Date.leb (Date.of_month_index i) (Date.of_month_index j) = (i <=? j).
Proof.
  unfold Date.leb. rewrite ltb_of_month_index.
  destruct (Z.ltb_spec j i), (Z.leb_spec i j); simpl; auto; lia.
Qed.

Lemma of_month_index_inj i j :
  Date.of_month_index i = Date.of_month_index j -> i = j.
Proof.
  intros E. rewrite <- (month_index_of_month_index i), E.
  apply month_index_of_month_index.
Qed.

Lemma valid_of_month_index i :
  Date.valid (Date.of_month_index i) = (MIN_INDEX <=? i) && (i <=? MAX_INDEX).
Proof.
  unfold Date.valid, Date.of_month_index, MIN_INDEX, MAX_INDEX,
    Date.MINYEAR, Date.MAXYEAR; cbn [Date.year Date.month Date.day].
  div12 i.
  assert (Hd : (1 <=? Date.days_in_month (i / 12) (i mod 12 + 1)) = true).
  { apply Z.leb_le. unfold Date.days_in_month.
    repeat match goal with |- context [if ?b then _ else _] => destruct b end; lia. }
  rewrite Hd, andb_true_r.
  replace (1 <=? i mod 12 + 1) with true by (symmetry; apply Z.leb_le; lia).
  replace (i mod 12 + 1 <=? 12) with true by (symmetry; apply Z.leb_le; lia).
  rewrite !andb_true_r.
  destruct (Z.leb_spec 1 (i / 12)), (Z.leb_spec (i / 12) 9999),
    (Z.leb_spec (12 * 1) i), (Z.leb_spec i (12 * 9999 + 11)); simpl; auto; lia.
Qed.

Lemma days_in_month_pos y m : 1 <= Date.days_in_month y m.
Proof.
  unfold Date.days_in_month.
  repeat match goal with |- context [if ?b then _ else _] => destruct b end; lia.
Qed.

Lemma valid_first (d : date) :
  Date.valid d = true ->
  Date.valid (Date.mk (Date.year d) (Date.month d) 1) = true.
Proof.
  destruct d as [y m dd]; unfold Date.valid; cbn [Date.year Date.month Date.day].
  pose proof (days_in_month_pos y m).
  rewrite !andb_true_iff, !Z.leb_le. lia.
Qed.

(** [date(d.year, d.month, 1)]: the month of [d] by position, when the
    year and the month are in range. *)
Lemma first_of_month_new (d : date) :
  Date.new (Date.year d) (Date.month d) 1
  = if Date.valid (Date.mk (Date.year d) (Date.month d) 1)
    then Ok (Date.of_month_index (Date.month_index d))
    else Raise (ValueError "date value out of range").
Proof.
  unfold Date.new.
  destruct (Date.valid (Date.mk (Date.year d) (Date.month d) 1)) eqn:V; [|reflexivity].
  f_equal. symmetry.
  change (Date.month_index d)
    with (Date.month_index (Date.mk (Date.year d) (Date.month d) 1)).
  apply of_month_index_month_index; [|reflexivity].
  revert V. unfold Date.valid; cbn [Date.year Date.month Date.day].
  rewrite !andb_true_iff, !Z.leb_le. lia.
Qed.

Lemma first_of_month_bounds (d : date) :
  Date.valid (Date.mk (Date.year d) (Date.month d) 1) = true ->
  MIN_INDEX <= Date.month_index d <= MAX_INDEX.
Proof.
  unfold Date.valid, MIN_INDEX, MAX_INDEX, Date.month_index, Date.MINYEAR, Date.MAXYEAR;
    cbn [Date.year Date.month Date.day].
  rewrite !andb_true_iff, !Z.leb_le. lia.
Qed.

(** The successor computed at the bottom of the loop of [month_sequence]. *)
Lemma next_month_of_index i :
  MIN_INDEX <= i <= MAX_INDEX ->
  (if Date.month (Date.of_month_index i) =? 12
   then Date.new (Date.year (Date.of_month_index i) + 1) 1 1
   else Date.new (Date.year (Date.of_month_index i))
          (Date.month (Date.of_month_index i) + 1) 1)
  = if i <? MAX_INDEX then Ok (Date.of_month_index (i + 1))
    else Raise (ValueError "date value out of range").
Proof.
  intros Hi.
  assert (E : (if Date.month (Date.of_month_index i) =? 12
               then Date.mk (Date.year (Date.of_month_index i) + 1) 1 1
               else Date.mk (Date.year (Date.of_month_index i))
                      (Date.month (Date.of_month_index i) + 1) 1)
              = Date.of_month_index (i + 1)).
  { unfold Date.of_month_index; cbn [Date.year Date.month Date.day].
    div12 i.
    destruct (Z.eqb_spec (i mod 12 + 1) 12) as [E12|N12].
    - assert (i + 1 = 0 + (i / 12 + 1) * 12) as -> by lia.
      rewrite Z.div_add, Z.mod_add by lia. reflexivity.
    - assert (i + 1 = (i mod 12 + 1) + (i / 12) * 12) as -> by lia.
      rewrite Z.div_add, Z.mod_add by lia.
      rewrite (Z.div_small (i mod 12 + 1) 12), (Z.mod_small (i mod 12 + 1) 12) by lia.
      f_equal; lia. }
  assert (V : forall dt, Date.new (Date.year dt) (Date.month dt) (Date.day dt)
                         = if Date.valid dt then Ok dt
                           else Raise (ValueError "date value out of range")).
  { intros [y m dd]. reflexivity. }
  transitivity (if Date.valid (Date.of_month_index (i + 1))
                then Ok (Date.of_month_index (i + 1))
                else Raise (ValueError "date value out of range")).
  - rewrite <- E, <- V. destruct (_ =? 12); reflexivity.
  - rewrite valid_of_month_index.
    unfold MIN_INDEX, MAX_INDEX, Date.MINYEAR, Date.MAXYEAR in *.
    destruct (Z.ltb_spec i (12 * 9999 + 11)),
      (Z.leb_spec (12 * 1) (i + 1)), (Z.leb_spec (i + 1) (12 * 9999 + 11));
      simpl; auto; lia.
Qed.

Lemma months_from_S i n :
  months_from i (S n) = Date.of_month_index i :: months_from (i + 1) n.
Proof.
  unfold months_from. simpl. rewrite Z.add_0_r. f_equal.
  rewrite <- seq_shift, map_map. apply map_ext. intros k. f_equal. lia.
Qed.

Lemma loop_by_index (n : nat) :
  forall fuel i j acc,
    MIN_INDEX <= i -> j <= MAX_INDEX ->
    Z.of_nat n = Z.max 0 (j - i + 1) ->
    (n < fuel)%nat ->
    month_sequence_loop fuel (Date.of_month_index i) (Date.of_month_index j) acc
    = Some (if (i <=? j) && (j =? MAX_INDEX)
            then Raise (ValueError "date value out of range")
            else Ok (acc ++ months_from i n)).
Proof.
  induction n as [|n IH]; intros fuel i j acc Hi Hj Hn Hf.
  - destruct fuel as [|fuel]; [lia|]. cbn [month_sequence_loop].
    rewrite leb_of_month_index.
    destruct (Z.leb_spec i j); [lia|]. cbn [andb]. now rewrite app_nil_r.
  - destruct fuel as [|fuel]; [lia|]. cbn [month_sequence_loop].
    rewrite leb_of_month_index.
    destruct (Z.leb_spec i j) as [Hij|]; [|lia].
    rewrite next_month_of_index by lia.
    destruct (Z.ltb_spec i MAX_INDEX) as [Hlt|Hge].
    + rewrite IH by lia.
      rewrite months_from_S, <- app_assoc. cbn [app andb].
      destruct (Z.eqb_spec j MAX_INDEX) as [->|Hne].
      * destruct (Z.leb_spec (i + 1) MAX_INDEX); [reflexivity | lia].
      * rewrite !andb_false_r. reflexivity.
    + assert (j = MAX_INDEX) as -> by lia.
      rewrite Z.eqb_refl. reflexivity.
Qed.

(** [month_sequence], case by case: the constructor rejects a bound
    whose year or month is out of range, the successor of December 9999
    does not exist, and otherwise the calendar months of the range come
    back. *)
Theorem month_sequence_cases (s e : date) :
  month_sequence s e
  = if negb (Date.valid (Date.mk (Date.year s) (Date.month s) 1))
       || negb (Date.valid (Date.mk (Date.year e) (Date.month e) 1))
       || ((Date.month_index s <=? Date.month_index e)
           && (Date.month_index e =? MAX_INDEX))
    then Raise (ValueError "date value out of range")
    else Ok (calendar_months s e).
Proof.
  unfold month_sequence. rewrite !first_of_month_new.
  destruct (Date.valid (Date.mk (Date.year s) (Date.month s) 1)) eqn:Vs;
    [|reflexivity].
  destruct (Date.valid (Date.mk (Date.year e) (Date.month e) 1)) eqn:Ve;
    [|reflexivity].
  pose proof (first_of_month_bounds s Vs). pose proof (first_of_month_bounds e Ve).
  cbn [bind negb orb].
  unfold month_sequence_fuel. rewrite !month_index_of_month_index.
  rewrite (loop_by_index
             (Z.to_nat (Date.month_index e - Date.month_index s + 1))) by lia.
  reflexivity.
Qed.

Corollary month_sequence_valid (s e : date) :
  Date.valid s = true -> Date.valid e = true ->
  month_sequence s e
  = if (Date.month_index s <=? Date.month_index e)
       && (Date.month_index e =? MAX_INDEX)
    then Raise (ValueError "date value out of range")
    else Ok (calendar_months s e).
Proof.
  intros Vs Ve. rewrite month_sequence_cases.
  now rewrite (valid_first s Vs), (valid_first e Ve).
Qed.

(** Whenever [month_sequence] returns, it returns the calendar months of
    the range, and both bounds have a year and a month in range. *)
Corollary month_sequence_ok (s e : date) (months : list date) :
  month_sequence s e = Ok months ->
  months = calendar_months s e
  /\ MIN_INDEX <= Date.month_index s <= MAX_INDEX
  /\ MIN_INDEX <= Date.month_index e <= MAX_INDEX.
Proof.
  rewrite month_sequence_cases.
  destruct (Date.valid (Date.mk (Date.year s) (Date.month s) 1)) eqn:Vs;
    [|discriminate].
  destruct (Date.valid (Date.mk (Date.year e) (Date.month e) 1)) eqn:Ve;
    [|discriminate].
  cbn [negb orb].
  destruct (_ && _); [discriminate|].
  intros [= <-]. auto using first_of_month_bounds.
Qed.

Lemma calendar_months_In (s e m : date) :
  In m (calendar_months s e)
  <-> exists i, Date.month_index s <= i <= Date.month_index e
                /\ m = Date.of_month_index i.
Proof.
  unfold calendar_months. rewrite in_map_iff. split.
  - intros (k & <- & Hk). apply in_seq in Hk.
    exists (Date.month_index s + Z.of_nat k). split; [lia | reflexivity].
  - intros (i & Hi & ->).
    exists (Z.to_nat (i - Date.month_index s)). split.
    + f_equal. lia.
    + apply in_seq. lia.
Qed.

Lemma calendar_months_NoDup (s e : date) : NoDup (calendar_months s e).
Proof.
  unfold calendar_months.
  apply Finite.Injective_map_NoDup; [|apply seq_NoDup].
  intros a b E. apply of_month_index_inj in E. lia.
Qed.

Lemma calendar_months_length (s e : date) :
  List.length (calendar_months s e)
  = Z.to_nat (Date.month_index e - Date.month_index s + 1).
Proof. unfold calendar_months. now rewrite length_map, length_seq. Qed.

Lemma months_from_ascending (n : nat) :
  forall i, StronglySorted (fun a b => Date.ltb a b = true) (months_from i n).
Proof.
  induction n as [|n IH]; intros i; [constructor|].
  rewrite months_from_S. constructor; [apply IH|].
  apply Forall_forall. intros m Hm. unfold months_from in Hm.
  apply in_map_iff in Hm. destruct Hm as (k & <- & _).
  rewrite ltb_of_month_index. apply Z.ltb_lt. lia.
Qed.

(** The calendar months of a range are in strictly ascending order. *)
Lemma calendar_months_ascending (s e : date) :
  StronglySorted (fun a b => Date.ltb a b = true) (calendar_months s e).
Proof. apply months_from_ascending. Qed.

End DateFacts.

(** ** Dictionaries, lists and loops *)

Section ContainerFacts.

Context {K : Type} `{EqType K}.

Lemma eqk_refl (k : K) : eqk k k = true.
Proof. destruct (eqk_spec k k); congruence. Qed.

Lemma eqk_true (a b : K) : eqk a b = true -> a = b.
Proof. destruct (eqk_spec a b); congruence. Qed.

Lemma eqk_neq (a b : K) : a <> b -> eqk a b = false.
Proof. destruct (eqk_spec a b); congruence. Qed.

Lemma mem_In (k : K) (s : list K) : mem k s = true <-> In k s.
Proof.
  induction s as [|x s IH]; simpl; [split; [discriminate | tauto]|].
  rewrite orb_true_iff, IH. split; intros [E|E]; auto.
  - left. now apply eqk_true.
  - left. subst. apply eqk_refl.
Qed.

Lemma mem_app (k : K) (s t : list K) : mem k (s ++ t) = mem k s || mem k t.
Proof. induction s; simpl; [reflexivity|]. now rewrite IHs, orb_assoc. Qed.

Lemma to_set_In (k : K) (l : list K) : In k (to_set l) <-> In k l.
Proof.
  induction l as [|x l IH]; simpl; [tauto|].
  rewrite filter_In, IH. split.
  - intros [E|[E _]]; auto.
  - intros [E|E]; auto.
    destruct (eqk_spec x k); [left | right]; auto.
Qed.

Context {V : Type}.

Lemma dict_get_set_same (d : dict K V) k v : dict_get (dict_set d k v) k = Some v.
Proof.
  induction d as [|[k' v'] d IH]; simpl.
  - now rewrite eqk_refl.
  - destruct (eqk k' k) eqn:E; simpl; rewrite E; auto.
Qed.

Lemma dict_get_set_other (d : dict K V) k k' v :
  k <> k' -> dict_get (dict_set d k v) k' = dict_get d k'.
Proof.
  intros N. induction d as [|[k0 v0] d IH]; simpl.
  - now rewrite eqk_neq.
  - destruct (eqk k0 k) eqn:E; simpl.
    + apply eqk_true in E; subst. now rewrite eqk_neq.
    + destruct (eqk k0 k'); auto.
Qed.

Lemma dict_get_default_set (d : dict K V) k k' v z :
  dict_get_default (dict_set d k v) k' z
  = if eqk k k' then v else dict_get_default d k' z.
Proof.
  unfold dict_get_default. destruct (eqk_spec k k') as [->|N].
  - now rewrite dict_get_set_same.
  - now rewrite dict_get_set_other.
Qed.

(** A dictionary built by [d[key(x)] = x] holds the keys of the list. *)
Lemma dict_of_list_get {X : Type} (key : X -> K) (val : X -> V) (l : list X) :
  forall (d : dict K V) k,
    (exists v, dict_get (fold_left (fun d x => dict_set d (key x) (val x)) l d) k = Some v)
    <-> (exists v, dict_get d k = Some v) \/ In k (map key l).
Proof.
  induction l as [|x l IH]; intros d k; simpl.
  - tauto.
  - rewrite IH. split.
    + intros [[v Hv]|Hin]; auto.
      destruct (eqk_spec (key x) k) as [E|N]; auto.
      rewrite dict_get_set_other in Hv by auto. eauto.
    + intros [[v Hv]|[E|Hin]]; auto.
      * left. destruct (eqk_spec (key x) k) as [E|N].
        -- subst. rewrite dict_get_set_same. eauto.
        -- rewrite dict_get_set_other by auto. eauto.
      * left. subst. rewrite dict_get_set_same. eauto.
Qed.

(** A loop that accumulates into the entry of each element's key: the
    entry of [k] holds the accumulation of the elements keyed [k]. *)
Lemma grouped_fold {X : Type} (key : X -> K) (upd : V -> X -> V) (z : V)
    (step : dict K V -> X -> dict K V) :
  (forall d x, step d x = dict_set d (key x) (upd (dict_get_default d (key x) z) x)) ->
  forall (l : list X) (d : dict K V) k,
    dict_get_default (fold_left step l d) k z
    = fold_left upd (filter (fun x => eqk (key x) k) l) (dict_get_default d k z).
Proof.
  intros Hstep. induction l as [|x l IH]; intros d k; simpl; [reflexivity|].
  rewrite IH, Hstep, dict_get_default_set.
  destruct (eqk_spec (key x) k) as [->|N]; reflexivity.
Qed.

End ContainerFacts.

Lemma date_eqb_true (a b : date) : Date.eqb a b = true -> a = b.
Proof. destruct (date_eqb_spec a b); congruence. Qed.

Lemma date_eqb_refl (a : date) : Date.eqb a a = true.
Proof. destruct (date_eqb_spec a a); congruence. Qed.

Lemma date_eqb_neq (a b : date) : a <> b -> Date.eqb a b = false.
Proof. destruct (date_eqb_spec a b); congruence. Qed.

Lemma init_totals_default (months : list date) (m : date) :
  dict_get_default (init_totals months) m zero_bucket = zero_bucket.
Proof.
  unfold init_totals.
  assert (G : forall d, dict_get_default d m zero_bucket = zero_bucket ->
                        dict_get_default
                          (fold_left (fun d month => dict_set d month zero_bucket) months d)
                          m zero_bucket = zero_bucket).
  { induction months as [|x l IH]; intros d Hd; simpl; auto.
    apply IH. rewrite dict_get_default_set. now destruct (eqk x m). }
  now apply G.
Qed.

Lemma find_app_found {A : Type} (p : A -> bool) (l l' : list A) (a : A) :
  find p l = Some a -> find p (l ++ l') = Some a.
Proof. induction l; simpl; [discriminate|]. destruct (p a0); auto. Qed.

Lemma find_app_none {A : Type} (p : A -> bool) (l l' : list A) :
  find p l = None -> find p (l ++ l') = find p l'.
Proof. induction l; simpl; auto. destruct (p a); [discriminate | auto]. Qed.

Lemma find_update_first_same {A : Type} (p : A -> bool) (f : A -> A) (l : list A) a :
  find p l = Some a -> p (f a) = true -> find p (update_first p f l) = Some (f a).
Proof.
  induction l as [|x l IH]; simpl; [discriminate|].
  destruct (p x) eqn:E; simpl.
  - intros [= ->] Hf. now rewrite Hf.
  - intros Hfind Hf. rewrite E. auto.
Qed.

Lemma find_update_first_other {A : Type} (p q : A -> bool) (f : A -> A) (l : list A) :
  (forall x, p x = true -> q x = false /\ q (f x) = false) ->
  find q (update_first p f l) = find q l.
Proof.
  intros Hpq. induction l as [|x l IH]; simpl; auto.
  destruct (p x) eqn:E; simpl.
  - destruct (Hpq x E) as [-> ->]. reflexivity.
  - destruct (q x); auto.
Qed.

Lemma update_first_id {A : Type} (p : A -> bool) (l : list A) a :
  find p l = Some a -> update_first p (fun _ => a) l = l.
Proof.
  induction l as [|x l IH]; simpl; auto.
  destruct (p x); [intros [= ->]; reflexivity | intros E; f_equal; auto].
Qed.

Lemma find_filter_keep {A : Type} (p keep : A -> bool) (l : list A) a :
  find p l = Some a -> keep a = true -> find p (filter keep l) = Some a.
Proof.
  induction l as [|x l IH]; simpl; [discriminate|].
  destruct (p x) eqn:E.
  - intros [= ->] Hk. rewrite Hk. simpl. now rewrite E.
  - intros Hf Hk. destruct (keep x); simpl; [rewrite E|]; auto.
Qed.

Lemma filter_idem {A : Type} (p : A -> bool) (l : list A) :
  filter p (filter p l) = filter p l.
Proof.
  induction l as [|x l IH]; simpl; auto.
  destruct (p x) eqn:E; simpl; [rewrite E; f_equal|]; auto.
Qed.

Lemma fold_result_app {S X : Type} (step : S -> X -> result S) (l l' : list X) (s : S) :
  fold_result step (l ++ l') s = (s' <- fold_result step l s ;; fold_result step l' s').
Proof.
  revert s. induction l as [|x l IH]; intros s; simpl; auto.
  destruct (step s x); simpl; auto.
Qed.

(** ** Rounding to two places *)

Lemma pow10_pos (k : Z) : 0 <= k -> 0 < 10 ^ k.
Proof. intros. apply Z.pow_pos_nonneg; lia. Qed.

Lemma round_half_even_zero (d : Z) : 0 < d -> Dec.round_half_even 0 d = 0.
Proof.
  intros Hd. unfold Dec.round_half_even.
  rewrite Z.div_0_l, Z.mod_0_l by lia.
  destruct (Z.ltb_spec (2 * 0) d); [reflexivity | lia].
Qed.

Lemma q2_expo (x : Decimal) : Dec.expo (_q2 x) = -2.
Proof. unfold _q2, Dec.quantize. now destruct (_ <=? _). Qed.

Lemma q2_fixed (x : Decimal) : Dec.expo x = -2 -> _q2 x = x.
Proof.
  destruct x as [c e]; cbn [Dec.expo]; intros ->.
  unfold _q2, Dec.quantize; cbn. f_equal. lia.
Qed.

Lemma q2_idempotent (x : Decimal) : _q2 (_q2 x) = _q2 x.
Proof. apply q2_fixed, q2_expo. Qed.

Lemma q2_zero : _q2 ZERO = ZERO.
Proof. reflexivity. Qed.

(** A product with [Decimal("0.00")] rounds to [Decimal("0.00")]. *)
Lemma q2_mul_zero (x : Decimal) : _q2 (Dec.mul x ZERO) = ZERO.
Proof.
  destruct x as [c e].
  unfold _q2, Dec.quantize, Dec.mul, ZERO, Q2; cbn [Dec.coef Dec.expo].
  rewrite Z.mul_0_r.
  destruct (Z.leb_spec (-2) (e + -2)).
  - reflexivity.
  - rewrite round_half_even_zero; [reflexivity|]. apply pow10_pos. lia.
Qed.

(** ** Running totals *)

Section RollupFacts.

Variable settings : Settings.

Lemma sync_months_write_all totals inv rev project_id months :
  forall cumulative db refreshed,
    Planning.sync_months totals inv rev project_id months cumulative db refreshed
    = let '(db', rows) :=
        write_all db project_id (plan_values totals inv rev months cumulative) in
      (db', refreshed ++ rows).
Proof.
  induction months as [|m ms IH]; intros cum db acc; cbn [Planning.sync_months
    plan_values write_all].
  - now rewrite app_nil_r.
  - destruct (Planning.write_snapshot db project_id m _) as [db1 s].
    rewrite IH.
    destruct (write_all db1 project_id _) as [db2 rest].
    now rewrite <- app_assoc.
Qed.

Lemma plan_values_months totals inv rev months :
  forall cumulative,
    map fst (plan_values totals inv rev months cumulative) = months.
Proof. induction months; intros; cbn; f_equal; auto. Qed.

Lemma plan_values_chain totals inv rev months :
  forall cumulative,
    cumulative_chain (Planning.c_planned_cost cumulative)
      (Planning.c_actual_cost cumulative) (Planning.c_revenue cumulative)
      (map snd (plan_values totals inv rev months cumulative)).
Proof.
  induction months as [|m ms IH]; intros cum; cbn [plan_values map cumulative_chain snd];
    [exact I|].
  repeat split; try apply q2_idempotent.
  apply (IH (Planning.mkCumulative _ _ _)).
Qed.

Lemma write_snapshot_row db project_id month v db' s :
  Planning.write_snapshot db project_id month v = (db', s) ->
  ProjectMonthlySnapshot.project_id s = project_id
  /\ ProjectMonthlySnapshot.month_start s = month
  /\ ProjectMonthlySnapshot.values s = v.
Proof.
  unfold Planning.write_snapshot, Repo.get_snapshot.
  destruct (find _ _) as [existing|] eqn:F.
  - intros [= <- <-]. apply find_some in F. destruct F as [_ F].
    unfold Repo.snapshot_key_matches in F. apply andb_true_iff in F.
    destruct F as [F1 F2]. apply Z.eqb_eq in F1.
    apply date_eqb_true in F2. cbn. auto.
  - destruct (fresh_uuid db) as [new_id db1]. intros [= <- <-]. cbn. auto.
Qed.

Lemma write_all_rows project_id items :
  forall db db' rows,
    write_all db project_id items = (db', rows) ->
    map (fun s => (ProjectMonthlySnapshot.month_start s, ProjectMonthlySnapshot.values s))
      rows = items
    /\ Forall (fun s => ProjectMonthlySnapshot.project_id s = project_id) rows.
Proof.
  induction items as [|[m v] items IH]; intros db db' rows; cbn [write_all].
  - intros [= <- <-]. split; [reflexivity | constructor].
  - destruct (Planning.write_snapshot db project_id m v) as [db1 s] eqn:W.
    destruct (write_all db1 project_id items) as [db2 rest] eqn:R.
    intros [= <- <-].
    destruct (write_snapshot_row _ _ _ _ _ _ W) as (Hp & Hm & Hv).
    destruct (IH _ _ _ R) as [IH1 IH2].
    split; [cbn; now rewrite Hm, Hv, IH1 | now constructor].
Qed.

Lemma rollup_months_acc totals inv rev months :
  forall cumulative output,
    Finance.rollup_months totals inv rev months cumulative output
    = output ++ Finance.rollup_months totals inv rev months cumulative [].
Proof.
  induction months as [|m ms IH]; intros cum out; cbn [Finance.rollup_months].
  - now rewrite app_nil_r.
  - rewrite IH. rewrite (IH _ ([] ++ _)). now rewrite <- app_assoc.
Qed.

Lemma rollup_months_months totals inv rev months :
  forall cumulative,
    map rr_month_start (Finance.rollup_months totals inv rev months cumulative [])
    = months.
Proof.
  induction months as [|m ms IH]; intros cum; cbn [Finance.rollup_months]; auto.
  rewrite rollup_months_acc. cbn. now rewrite IH.
Qed.

Lemma rollup_months_chain totals inv rev months :
  forall cumulative,
    cumulative_chain (Finance.c_planned_cost cumulative)
      (Finance.c_actual_cost cumulative) (Finance.c_revenue cumulative)
      (map rr_values (Finance.rollup_months totals inv rev months cumulative [])).
Proof.
  induction months as [|m ms IH]; intros cum; cbn [Finance.rollup_months];
    [exact I|].
  rewrite rollup_months_acc. cbn [app map rr_values cumulative_chain].
  repeat split; try apply q2_idempotent.
  apply (IH (Finance.mkCumulative _ _ _)).
Qed.

(** What [refresh_project_snapshots] computes when it returns: the months
    of the project range, the planned rows, and the store after writing
    them and pruning the rows outside the range. *)
Lemma refresh_unfold db project_id db' refreshed :
  Planning.refresh_project_snapshots settings db project_id = Ok (db', refreshed) ->
  exists project dbw,
    Repo.get_project db project_id = Some project
    /\ month_sequence (Project.start_month project) (Project.end_month project)
       = Ok (calendar_months (Project.start_month project) (Project.end_month project))
    /\ write_all db (Project.id project)
         (plan_values
            (fold_left
               (Planning.accrue_entry settings
                  (group_rates_by_performer
                     (Repo.list_rates_for_business_unit db
                        (Project.business_unit_id project) (Some (Project.id project))))
                  (Project.id project))
               (Repo.list_effort_entries db (Project.id project)
                  (Project.start_month project) (Project.end_month project))
               (init_totals
                  (calendar_months (Project.start_month project)
                     (Project.end_month project))))
            (Repo.aggregate_invoices_by_month db (Project.id project))
            (Repo.aggregate_revenues_by_month db (Project.id project))
            (calendar_months (Project.start_month project) (Project.end_month project))
            (Planning.mkCumulative ZERO ZERO ZERO))
       = (dbw, refreshed)
    /\ db' = Repo.delete_snapshots_outside_range dbw (Project.id project)
               (Project.start_month project) (Project.end_month project).
Proof.
  unfold Planning.refresh_project_snapshots.
  destruct (Repo.get_project db project_id) as [project|]; [|discriminate].
  destruct (month_sequence _ _) as [months|] eqn:M; [|discriminate].
  destruct (DateFacts.month_sequence_ok _ _ _ M) as (-> & _ & _).
  cbn [bind]. rewrite sync_months_write_all.
  destruct (write_all db _ _) as [dbw rows] eqn:W. cbn [app].
  intros [= <- <-]. exists project, dbw. auto.
Qed.

Lemma get_project_id db project_id project :
  Repo.get_project db project_id = Some project -> Project.id project = project_id.
Proof.
  unfold Repo.get_project. intros F. apply find_some in F.
  destruct F as [_ F]. now apply Z.eqb_eq in F.
Qed.

End RollupFacts.

(** ** Orders used by the rate resolver *)

Section StrictTotalFacts.

Context {A : Type} {lt : A -> A -> bool} (O : StrictTotal lt).

Lemma st_asym a b : lt a b = true -> lt b a = false.
Proof.
  intros H. destruct (lt b a) eqn:E; auto.
  now rewrite <- (st_irrefl lt O a), <- (st_trans lt O a b a H E).
Qed.

(** "Not below" is transitive. *)
Lemma st_negtrans a b c : lt a b = false -> lt b c = false -> lt a c = false.
Proof.
  intros Hab Hbc. destruct (lt a c) eqn:Hac; auto.
  destruct (lt b a) eqn:Hba.
  - now rewrite (st_trans lt O b a c Hba Hac) in Hbc.
  - rewrite (st_total lt O a b Hab Hba) in Hac. congruence.
Qed.

End StrictTotalFacts.

(** The order of a pair, first component first. *)
Lemma lex_strict_total {A B : Type} (lt1 : A -> A -> bool) (eq1 : A -> A -> bool)
    (lt2 : B -> B -> bool) :
  (forall a b, reflect (a = b) (eq1 a b)) ->
  StrictTotal lt1 -> StrictTotal lt2 ->
  StrictTotal (fun x y : A * B =>
                 lt1 (fst x) (fst y) || (eq1 (fst x) (fst y) && lt2 (snd x) (snd y))).
Proof.
  intros R O1 O2. split.
  - intros [a b]; cbn. now rewrite (st_irrefl _ O1), (st_irrefl _ O2), andb_false_r.
  - intros [a1 b1] [a2 b2] [a3 b3]; cbn.
    rewrite !orb_true_iff, !andb_true_iff.
    intros [H12|[E12 H12]] [H23|[E23 H23]].
    + left. eapply st_trans; eauto.
    + destruct (R a2 a3); [subst; auto | discriminate].
    + destruct (R a1 a2); [subst; auto | discriminate].
    + right. destruct (R a1 a2), (R a2 a3); try discriminate. subst.
      split; [destruct (R a3 a3); congruence | eapply st_trans; eauto].
  - intros [a1 b1] [a2 b2]; cbn.
    rewrite !orb_false_iff, !andb_false_iff.
    intros [H12 E12] [H21 E21].
    assert (a1 = a2) by (apply (st_total _ O1); auto). subst.
    destruct (R a2 a2); [|congruence].
    destruct E12 as [|E12], E21 as [|E21]; try discriminate.
    f_equal. apply (st_total _ O2); auto.
Qed.

Lemma date_ltb_strict_total : StrictTotal Date.ltb.
Proof.
  split.
  - intros [y m d]; unfold Date.ltb; cbn.
    now rewrite !Z.ltb_irrefl, !andb_false_r.
  - intros [y1 m1 d1] [y2 m2 d2] [y3 m3 d3]; unfold Date.ltb; cbn.
    rewrite !orb_true_iff, !andb_true_iff, !orb_true_iff, !andb_true_iff,
      !Z.ltb_lt, !Z.eqb_eq. lia.
  - intros [y1 m1 d1] [y2 m2 d2]; unfold Date.ltb; cbn.
    rewrite !orb_false_iff, !andb_false_iff, !orb_false_iff, !andb_false_iff,
      !Z.ltb_ge, !Z.eqb_neq.
    intros H1 H2. f_equal; lia.
Qed.

Lemma ascii_compare_spec (a b : ascii) :
  CompareSpec (a = b) (N_of_ascii a < N_of_ascii b)%N
    (N_of_ascii b < N_of_ascii a)%N (Ascii.compare a b).
Proof.
  unfold Ascii.compare.
  destruct (N.compare_spec (N_of_ascii a) (N_of_ascii b)) as [E|L|G];
    constructor; auto.
  rewrite <- (ascii_N_embedding a), <- (ascii_N_embedding b). now f_equal.
Qed.

Lemma string_compare_refl (s : string) : String.compare s s = Eq.
Proof.
  induction s as [|c s IH]; cbn; [reflexivity|].
  destruct (ascii_compare_spec c c); auto; lia.
Qed.

Lemma string_compare_lt_trans (s1 : string) :
  forall s2 s3,
    String.compare s1 s2 = Lt -> String.compare s2 s3 = Lt ->
    String.compare s1 s3 = Lt.
Proof.
  induction s1 as [|c1 s1 IH]; intros [|c2 s2] [|c3 s3]; cbn; try congruence.
  destruct (ascii_compare_spec c1 c2) as [E12|L12|G12];
    destruct (ascii_compare_spec c2 c3) as [E23|L23|G23];
    destruct (ascii_compare_spec c1 c3) as [E13|L13|G13];
    intros H12 H23; subst; try discriminate; try reflexivity; try lia; eauto.
Qed.

Lemma str_ltb_strict_total : StrictTotal str_ltb.
Proof.
  unfold str_ltb, String.ltb. split.
  - intros s. now rewrite string_compare_refl.
  - intros a b c.
    destruct (String.compare a b) eqn:Hab; try discriminate.
    destruct (String.compare b c) eqn:Hbc; try discriminate.
    now rewrite (string_compare_lt_trans a b c Hab Hbc).
  - intros a b Hab Hba.
    destruct (String.compare a b) eqn:E; try discriminate.
    + now apply String.compare_eq_iff.
    + rewrite String.compare_antisym, E in Hba. discriminate.
Qed.

Lemma key_ltb_strict_total : StrictTotal key_ltb.
Proof.
  pose proof (lex_strict_total Date.ltb Date.eqb
                (fun x y : date * string =>
                   Date.ltb (fst x) (fst y)
                   || (Date.eqb (fst x) (fst y) && str_ltb (snd x) (snd y)))
                date_eqb_spec date_ltb_strict_total
                (lex_strict_total Date.ltb Date.eqb str_ltb date_eqb_spec
                   date_ltb_strict_total str_ltb_strict_total)) as O.
  split.
  - intros [[a1 a2] a3]. apply (st_irrefl _ O (a1, (a2, a3))).
  - intros [[a1 a2] a3] [[b1 b2] b3] [[c1 c2] c3].
    apply (st_trans _ O (a1, (a2, a3)) (b1, (b2, b3)) (c1, (c2, c3))).
  - intros [[a1 a2] a3] [[b1 b2] b3] H1 H2.
    pose proof (st_total _ O (a1, (a2, a3)) (b1, (b2, b3)) H1 H2). congruence.
Qed.

(** ** Sorting *)

Section SortFacts.

Context {A K : Type} (key : A -> K) (klt : K -> K -> bool) (O : StrictTotal klt).

Let lt (a b : A) : bool := klt (key a) (key b).

Lemma insert_desc_In x l y : In y (insert_desc lt x l) <-> y = x \/ In y l.
Proof.
  induction l as [|z l IH]; cbn; [intuition|].
  destruct (lt x z); cbn; rewrite ?IH; intuition.
Qed.

Lemma sort_desc_In l y : In y (sort_desc lt l) <-> In y l.
Proof.
  induction l as [|x l IH]; cbn; [tauto|].
  rewrite insert_desc_In, IH. intuition.
Qed.

Lemma hd_insert_desc x l :
  hd_error (insert_desc lt x l)
  = match hd_error l with
    | Some h => if lt x h then Some h else Some x
    | None => Some x
    end.
Proof. destruct l as [|h l]; cbn; [reflexivity|]. now destruct (lt x h). Qed.

(** The head of a list sorted with [reverse=True] is an element that no
    other element outranks. *)
Lemma sort_desc_head l h :
  hd_error (sort_desc lt l) = Some h ->
  In h l /\ forall x, In x l -> klt (key h) (key x) = false.
Proof.
  revert h. induction l as [|a l IH]; intros h; cbn [sort_desc]; [discriminate|].
  rewrite hd_insert_desc.
  destruct (hd_error (sort_desc lt l)) as [h'|] eqn:E.
  - destruct (IH h' eq_refl) as [Hin Hmax].
    destruct (lt a h') eqn:L; intros [= <-].
    + split; [now right|]. intros x [<-|Hx]; [|auto].
      now apply (st_asym O).
    + split; [now left|]. intros x [<-|Hx]; [apply (st_irrefl _ O)|].
      apply (st_negtrans O) with (b := key h'); auto.
  - intros [= <-]. split; [now left|].
    destruct l as [|b l]; [|destruct (sort_desc_In (b :: l) b) as [_ Hb];
                             specialize (Hb (or_introl eq_refl));
                             destruct (sort_desc lt (b :: l)); [destruct Hb | discriminate]].
    intros x [<-|[]]. apply (st_irrefl _ O).
Qed.

Lemma sort_desc_nonempty a l : exists h, hd_error (sort_desc lt (a :: l)) = Some h.
Proof.
  cbn [sort_desc]. rewrite hd_insert_desc.
  destruct (hd_error _) as [h|]; [destruct (lt a h)|]; eauto.
Qed.

End SortFacts.

(** ** The rate resolver *)

Lemma rate_covers_month_spec rate month_start :
  Planning._rate_covers_month rate month_start = covers_month rate month_start.
Proof.
  unfold Planning._rate_covers_month, covers_month, Date.leb.
  destruct (Date.ltb month_start _); cbn; [reflexivity|].
  destruct (PerformerRate.effective_to_month rate) as [t|]; [|reflexivity].
  now destruct (Date.ltb t month_start).
Qed.

Lemma finance_resolve_is_planning_resolve rates_by_performer performer_id month_start
    project_id :
  Finance._resolve_effective_rate rates_by_performer performer_id month_start project_id
  = Planning._resolve_effective_rate rates_by_performer performer_id project_id month_start.
Proof. reflexivity. Qed.

Lemma resolve_pool_head (pool : list PerformerRate.t) r :
  hd_error (sort_desc rate_key_ltb pool) = Some r -> best_of pool r.
Proof.
  intros Hd.
  exact (sort_desc_head rate_sort_key key_ltb key_ltb_strict_total pool r Hd).
Qed.

Lemma resolve_by_covering_rates rates_by_performer performer_id project_id month_start :
  Planning._resolve_effective_rate rates_by_performer performer_id project_id month_start
  = match covering_rates rates_by_performer performer_id (Some project_id) month_start with
    | (_ :: _) as pool => hd_error (sort_desc rate_key_ltb pool)
    | [] =>
        match covering_rates rates_by_performer performer_id None month_start with
        | [] => None
        | (_ :: _) as pool => hd_error (sort_desc rate_key_ltb pool)
        end
    end.
Proof.
  unfold Planning._resolve_effective_rate, covering_rates.
  set (candidates := dict_get_default rates_by_performer performer_id []).
  replace (filter (fun row => eqk (PerformerRate.project_id row) (Some project_id)
                              && Planning._rate_covers_month row month_start) candidates)
    with (filter (fun rate => eqk (PerformerRate.project_id rate) (Some project_id)
                              && covers_month rate month_start) candidates)
    by (apply filter_ext; intros; now rewrite rate_covers_month_spec).
  replace (filter (fun row => eqk (PerformerRate.project_id row) None
                              && Planning._rate_covers_month row month_start) candidates)
    with (filter (fun rate => eqk (PerformerRate.project_id rate) None
                              && covers_month rate month_start) candidates)
    by (apply filter_ext; intros; now rewrite rate_covers_month_spec).
  destruct (filter _ candidates); [|reflexivity].
  now destruct (filter _ candidates).
Qed.

(** Every date is at most [date.max]. *)
Lemma date_max_greatest (d : date) : Date.valid d = true -> Date.ltb Date.max d = false.
Proof.
  destruct d as [y m dd]; unfold Date.valid, Date.ltb, Date.max, Date.MAXYEAR;
    cbn [Date.year Date.month Date.day].
  rewrite !andb_true_iff, !Z.leb_le. intros [[[[[Hy1 Hy2] Hm1] Hm2] Hd1] Hd2].
  assert (Date.days_in_month y m <= 31).
  { unfold Date.days_in_month.
    repeat match goal with |- context [if ?b then _ else _] => destruct b end; lia. }
  rewrite !orb_false_iff, !andb_false_iff, !orb_false_iff, !andb_false_iff,
    !Z.ltb_ge, !Z.eqb_neq. lia.
Qed.



(** ** The monthly rollup and its running totals *)

Section RollupClaims.

Variable settings : Settings.

(** C1. In the rows of the rollup builder and in the rows written by the
    snapshot refresh, the months ascend, and each cumulative field
    (planned cost, actual cost, revenue) equals the previous month's
    cumulative value plus this month's value, rounded to two places, the
    first month starting from zero; the month's own value is already
    rounded to two places when it is added. *)
Theorem cumulative_fields_round_after_each_addition (db : DB) :
  (forall (project : Project.t) (from_month to_month : date) (rows : list RollupRow),
     Finance._project_monthly_rollups settings db project from_month to_month = Ok rows ->
     StronglySorted (fun a b => Date.ltb a b = true) (map rr_month_start rows)
     /\ cumulative_chain ZERO ZERO ZERO (map rr_values rows))
  /\ (forall (project_id : UUID) (db' : DB) (refreshed : list ProjectMonthlySnapshot.t),
        Planning.refresh_project_snapshots settings db project_id = Ok (db', refreshed) ->
        StronglySorted (fun a b => Date.ltb a b = true)
          (map ProjectMonthlySnapshot.month_start refreshed)
        /\ cumulative_chain ZERO ZERO ZERO
             (map ProjectMonthlySnapshot.values refreshed)).
Proof.
  split.
  - intros project from_month to_month rows Hrollup.
    unfold Finance._project_monthly_rollups in Hrollup.
    destruct (month_sequence from_month to_month) as [months|] eqn:M; [|discriminate].
    destruct (DateFacts.month_sequence_ok _ _ _ M) as (-> & _ & _).
    cbn [bind] in Hrollup. injection Hrollup as <-. split.
    + rewrite rollup_months_months. apply DateFacts.calendar_months_ascending.
    + apply (rollup_months_chain _ _ _ _ (Finance.mkCumulative ZERO ZERO ZERO)).
  - intros project_id db' refreshed Hrefresh.
    destruct (refresh_unfold settings _ _ _ _ Hrefresh) as (p & dbw & _ & _ & W & _).
    destruct (write_all_rows _ _ _ _ _ W) as [Hrows _].
    match type of W with
    | write_all _ _ ?items = _ =>
        assert (Hm : map ProjectMonthlySnapshot.month_start refreshed = map fst items)
          by (rewrite <- Hrows, map_map; reflexivity);
        assert (Hv : map ProjectMonthlySnapshot.values refreshed = map snd items)
          by (rewrite <- Hrows, map_map; reflexivity)
    end.
    rewrite Hm, Hv, plan_values_months. split.
    + apply DateFacts.calendar_months_ascending.
    + apply (plan_values_chain _ _ _ _ (Planning.mkCumulative ZERO ZERO ZERO)).
Qed.

End RollupClaims.

(** The scenario: January 300.00 and 150.00, February 900.00 and 550.00
    cumulated, March unchanged. *)
Lemma cumulative_fields_round_after_each_addition_witness :
  (Finance._project_monthly_rollups default_settings Scenario.db Scenario.project
     (Scenario.month 2026 1) (Scenario.month 2026 3) = Ok Scenario.rollup_rows
   /\ Planning.refresh_project_snapshots default_settings Scenario.db Scenario.project_id
      = Ok (Scenario.db_refreshed, Scenario.snapshot_rows))
  /\ cumulative_chain ZERO ZERO ZERO (map rr_values Scenario.rollup_rows)
  /\ cumulative_chain ZERO ZERO ZERO
       (map ProjectMonthlySnapshot.values Scenario.snapshot_rows).
Proof.
  assert (H1 : Finance._project_monthly_rollups default_settings Scenario.db
                 Scenario.project (Scenario.month 2026 1) (Scenario.month 2026 3)
               = Ok Scenario.rollup_rows) by (vm_compute; reflexivity).
  assert (H2 : Planning.refresh_project_snapshots default_settings Scenario.db
                 Scenario.project_id
               = Ok (Scenario.db_refreshed, Scenario.snapshot_rows))
    by (vm_compute; reflexivity).
  split; [split; assumption|].
  destruct (cumulative_fields_round_after_each_addition default_settings Scenario.db)
    as [Hrollups Hrefreshed].
  split.
  - exact (proj2 (Hrollups Scenario.project (Scenario.month 2026 1)
                    (Scenario.month 2026 3) Scenario.rollup_rows H1)).
  - exact (proj2 (Hrefreshed Scenario.project_id Scenario.db_refreshed
                    Scenario.snapshot_rows H2)).
Defined.

(** ** The cost calculator *)

Section CostClaims.

Variable settings : Settings.

#[local] Abbreviation per_day_value := (per_day_value settings).
#[local] Abbreviation cost_contributions := (cost_contributions settings).
#[local] Abbreviation add_entry := (add_entry settings).

Lemma accrue_entry_grouped rates_by_performer project_id totals entry :
  Planning.accrue_entry settings rates_by_performer project_id totals entry
  = dict_set totals (EffortMonthlyEntry.month_start entry)
      (add_entry rates_by_performer project_id
         (dict_get_default totals (EffortMonthlyEntry.month_start entry) zero_bucket)
         entry).
Proof.
  unfold Planning.accrue_entry, add_entry.
  now destruct (Planning._resolve_effective_rate _ _ _ _).
Qed.

Lemma add_entry_costs rates_by_performer project_id entries :
  forall bucket,
    b_planned_cost (fold_left (add_entry rates_by_performer project_id) entries bucket)
    = Dec.sum
        (cost_contributions rates_by_performer project_id
           EffortMonthlyEntry.planned_person_days entries)
        (b_planned_cost bucket)
    /\ b_actual_cost (fold_left (add_entry rates_by_performer project_id) entries bucket)
       = Dec.sum
           (cost_contributions rates_by_performer project_id
              EffortMonthlyEntry.actual_person_days entries)
           (b_actual_cost bucket).
Proof.
  unfold Dec.sum, cost_contributions.
  induction entries as [|e l IH]; intros bucket; cbn [fold_left flat_map];
    [split; reflexivity|].
  destruct (IH (add_entry rates_by_performer project_id bucket e)) as [-> ->].
  unfold add_entry.
  destruct (Planning._resolve_effective_rate _ _ _ _);
    cbn [app fold_left b_planned_cost b_actual_cost]; split; reflexivity.
Qed.

(** The bucket that the refresh reads for a month: the entries of that
    month, accumulated from zero. *)
Lemma refresh_month_bucket rates_by_performer project_id entries months month :
  dict_get_default
    (fold_left (Planning.accrue_entry settings rates_by_performer project_id) entries
       (init_totals months))
    month zero_bucket
  = fold_left (add_entry rates_by_performer project_id)
      (filter (fun e => Date.eqb (EffortMonthlyEntry.month_start e) month) entries)
      zero_bucket.
Proof.
  rewrite (grouped_fold EffortMonthlyEntry.month_start
             (add_entry rates_by_performer project_id) zero_bucket).
  - now rewrite init_totals_default.
  - intros. apply accrue_entry_grouped.
Qed.

Lemma plan_values_In totals inv rev months :
  forall cumulative month v,
    In (month, v) (plan_values totals inv rev months cumulative) ->
    exists cumulative',
      v = Planning.month_values totals inv rev cumulative' month.
Proof.
  induction months as [|m ms IH]; intros cum month v; cbn [plan_values In]; [tauto|].
  intros [[= <- <-]|Hin]; eauto.
Qed.

(** C3. The per-day value of a rate is its value rounded to two places
    for a day rate, and its value divided by the configured number of
    working days per month (20 by default), rounded to two places, for an
    fte_month rate.  In the cost rows of the finance service each entry's
    planned and actual cost is its person-days times the per-day value of
    its rate, rounded to two places, and zero when no rate is resolved.
    In the snapshot refresh the planned and actual cost of a month are the
    rounded sum of those costs over the month's entries, an entry without
    a rate adding nothing. *)
Theorem entry_cost_is_rounded_person_days_times_rate (db : DB) :
  (forall rate,
      Planning._rate_value_per_day settings rate = per_day_value rate
      /\ Finance._rate_value_per_day settings rate = per_day_value rate
      /\ (PerformerRate.rate_unit rate = DAY ->
          per_day_value rate = _q2 (PerformerRate.rate_value rate))
      /\ (PerformerRate.rate_unit rate = FTE_MONTH ->
          per_day_value rate
          = _q2 (Dec.div (PerformerRate.rate_value rate)
                   (Dec.of_int (Z.pos (cost_fte_month_working_days settings))))))
  /\ cost_fte_month_working_days default_settings = 20%positive
  /\ (forall (project : Project.t) (from_month to_month : date)
             (performer_filter task_filter : option (list UUID)),
      Forall2
       (fun entry row =>
          let rate :=
            Planning._resolve_effective_rate
              (Finance._project_rates_by_performer db project)
              (EffortMonthlyEntry.performer_id entry) (Project.id project)
              (EffortMonthlyEntry.month_start entry) in
          match rate with
          | Some r =>
              cr_planned_cost row
              = cost (EffortMonthlyEntry.planned_person_days entry) (per_day_value r)
              /\ cr_actual_cost row
                 = cost (EffortMonthlyEntry.actual_person_days entry) (per_day_value r)
          | None => cr_planned_cost row = ZERO /\ cr_actual_cost row = ZERO
          end)
       (Repo.list_effort_entries_filtered db (Project.id project) from_month to_month
          task_filter performer_filter)
       (Finance._project_cost_entry_rows settings db project from_month to_month
          performer_filter task_filter))
  /\ forall (project_id : UUID) (db' : DB) (refreshed : list ProjectMonthlySnapshot.t),
     Planning.refresh_project_snapshots settings db project_id = Ok (db', refreshed) ->
     exists p,
       Repo.get_project db project_id = Some p
       /\ forall s, In s refreshed ->
            let entries :=
              filter
                (fun e => Date.eqb (EffortMonthlyEntry.month_start e)
                            (ProjectMonthlySnapshot.month_start s))
                (Repo.list_effort_entries db project_id
                   (Project.start_month p) (Project.end_month p)) in
            let rates_by_performer :=
              group_rates_by_performer
                (Repo.list_rates_for_business_unit db (Project.business_unit_id p)
                   (Some project_id)) in
            planned_cost (ProjectMonthlySnapshot.values s)
            = _q2 (Dec.sum
                     (cost_contributions rates_by_performer project_id
                        EffortMonthlyEntry.planned_person_days entries)
                     ZERO)
            /\ actual_cost (ProjectMonthlySnapshot.values s)
               = _q2 (Dec.sum
                        (cost_contributions rates_by_performer project_id
                           EffortMonthlyEntry.actual_person_days entries)
                        ZERO).
Proof.
  split; [|split; [reflexivity|split]].
  - intros rate. unfold Planning._rate_value_per_day, Finance._rate_value_per_day,
      per_day_value.
    repeat split; intros ->; reflexivity.
  - intros project from_month to_month performer_filter task_filter.
    unfold Finance._project_cost_entry_rows.
    induction (Repo.list_effort_entries_filtered _ _ _ _ _ _) as [|e l IH];
      cbn [map]; constructor; [|exact IH].
    unfold Finance.cost_entry_row.
    rewrite finance_resolve_is_planning_resolve.
    destruct (Planning._resolve_effective_rate _ _ _ _) as [r|];
      cbn [cr_planned_cost cr_actual_cost].
    + split; reflexivity.
    + split; apply q2_mul_zero.
  - intros project_id db' refreshed Hrefresh.
    destruct (refresh_unfold settings _ _ _ _ Hrefresh) as (p & dbw & G & _ & W & _).
    pose proof (get_project_id _ _ _ G) as Hid.
    exists p. split; [exact G|]. intros s Hs. cbv zeta.
    destruct (write_all_rows _ _ _ _ _ W) as [Hrows _].
    assert (Hin : In (ProjectMonthlySnapshot.month_start s, ProjectMonthlySnapshot.values s)
                    (map (fun s => (ProjectMonthlySnapshot.month_start s,
                                    ProjectMonthlySnapshot.values s)) refreshed))
      by (apply in_map_iff; eauto).
    rewrite Hrows in Hin.
    destruct (plan_values_In _ _ _ _ _ _ _ Hin) as [cum ->].
    unfold Planning.month_values; cbn [planned_cost actual_cost].
    change (or_default (dict_get ?d ?k) zero_bucket)
      with (dict_get_default d k zero_bucket).
    rewrite refresh_month_bucket, Hid.
    destruct (add_entry_costs
                (group_rates_by_performer
                   (Repo.list_rates_for_business_unit db (Project.business_unit_id p)
                      (Some project_id)))
                project_id
                (filter (fun e => Date.eqb (EffortMonthlyEntry.month_start e)
                                    (ProjectMonthlySnapshot.month_start s))
                   (Repo.list_effort_entries db project_id (Project.start_month p)
                      (Project.end_month p)))
                zero_bucket) as [-> ->].
    split; reflexivity.
Qed.

End CostClaims.

(** The scenario: 2000.00 per month is 100.00 per day, January costs
    300.00 planned and 150.00 actual, February 600.00 and 400.00. *)
Lemma entry_cost_is_rounded_person_days_times_rate_witness :
  Planning.refresh_project_snapshots default_settings Scenario.db Scenario.project_id
  = Ok (Scenario.db_refreshed, Scenario.snapshot_rows)
  /\ per_day_value default_settings Scenario.rate_b_default = Scenario.dec2 10000
  /\ (exists p, Repo.get_project Scenario.db Scenario.project_id = Some p)
  /\ map (fun s => planned_cost (ProjectMonthlySnapshot.values s)) Scenario.snapshot_rows
     = [Scenario.dec2 30000; Scenario.dec2 60000; Scenario.dec2 0].
Proof.
  assert (H : Planning.refresh_project_snapshots default_settings Scenario.db
                Scenario.project_id
              = Ok (Scenario.db_refreshed, Scenario.snapshot_rows))
    by (vm_compute; reflexivity).
  pose proof (entry_cost_is_rounded_person_days_times_rate default_settings Scenario.db)
    as (Hrate & _ & _ & Hsnapshots).
  split; [exact H|]. split; [|split].
  - destruct (Hrate Scenario.rate_b_default) as (_ & _ & _ & ->); reflexivity.
  - destruct (Hsnapshots Scenario.project_id Scenario.db_refreshed
                Scenario.snapshot_rows H) as (p & Hp & _).
    exists p. exact Hp.
  - reflexivity.
Defined.

(** ** One row per month *)

Lemma group_sum_absent (rows : list (date * Decimal)) (m : date) :
  (forall row, In row rows -> fst row <> m) ->
  forall acc, dict_get (Repo.group_sum rows acc) m = dict_get acc m.
Proof.
  induction rows as [|[k a] rows IH]; intros Habs acc; cbn [Repo.group_sum]; auto.
  rewrite IH by (intros; apply Habs; now right).
  apply dict_get_set_other. apply (Habs (k, a)). now left.
Qed.

Lemma rollup_months_In totals inv rev months :
  forall cumulative row,
    In row (Finance.rollup_months totals inv rev months cumulative []) ->
    exists cumulative',
      rr_values row
      = Finance.rollup_values totals inv rev cumulative' (rr_month_start row).
Proof.
  induction months as [|m ms IH]; intros cum row; cbn [Finance.rollup_months];
    [intros []|].
  rewrite rollup_months_acc. cbn [app In]. intros [<-|Hin].
  - exists cum. reflexivity.
  - eapply IH; eauto.
Qed.

Lemma filter_none {A : Type} (p : A -> bool) (l : list A) :
  (forall x, In x l -> p x = false) -> filter p l = [].
Proof.
  induction l as [|a l IH]; cbn; intros Hp; [reflexivity|].
  rewrite (Hp a) by now left. apply IH. intros; apply Hp; now right.
Qed.

Lemma insert_asc_In {A : Type} (lt : A -> A -> bool) (a x : A) (s : list A) :
  In x (insert_asc lt a s) <-> x = a \/ In x s.
Proof.
  induction s as [|b s IHs]; cbn; [intuition|].
  destruct (lt b a); cbn; rewrite ?IHs; intuition.
Qed.

Lemma sort_asc_In {A : Type} (lt : A -> A -> bool) (l : list A) (x : A) :
  In x (sort_asc lt l) <-> In x l.
Proof.
  induction l as [|a l IH]; cbn [sort_asc]; [tauto|].
  rewrite insert_asc_In, IH. cbn. intuition.
Qed.

Section MonthClaims.

Variable settings : Settings.

Lemma cost_entry_row_month rates_by_performer project_id entry :
  cr_month_start (Finance.cost_entry_row settings rates_by_performer project_id entry)
  = EffortMonthlyEntry.month_start entry.
Proof.
  unfold Finance.cost_entry_row.
  now destruct (Finance._resolve_effective_rate _ _ _ _).
Qed.

(** X1.  The rollup builder on a range of valid dates that does not end
    in December 9999: one row per calendar month, in calendar order, and
    all-zero monthly values in a month without activity. *)
Theorem rollup_one_row_per_month (db : DB) (project : Project.t)
    (from_month to_month : date) :
  Date.valid from_month = true -> Date.valid to_month = true ->
  (Date.month_index from_month <=? Date.month_index to_month)
  && (Date.month_index to_month =? MAX_INDEX) = false ->
  exists rows,
    Finance._project_monthly_rollups settings db project from_month to_month = Ok rows
    /\ map rr_month_start rows = calendar_months from_month to_month
    /\ forall row,
         In row rows -> quiet_month db (Project.id project) (rr_month_start row) ->
         let v := rr_values row in
         planned_person_days v = ZERO /\ actual_person_days v = ZERO
         /\ planned_cost v = ZERO /\ actual_cost v = ZERO
         /\ revenue_amount v = ZERO /\ invoice_amount v = ZERO.
Proof.
  intros Vf Vt Hno. unfold Finance._project_monthly_rollups.
  rewrite (DateFacts.month_sequence_valid _ _ Vf Vt), Hno. cbn [bind].
  eexists. split; [reflexivity|]. split; [apply rollup_months_months|].
  intros row Hin (Qe & Qi & Qr).
  destruct (rollup_months_In _ _ _ _ _ _ Hin) as [cum ->].
  set (m := rr_month_start row) in *.
  unfold Finance.rollup_values.
  change (or_default (dict_get ?d ?k) zero_bucket)
    with (dict_get_default d k zero_bucket).
  rewrite (grouped_fold cr_month_start
             (fun bucket r =>
                mkBucket
                  (Dec.add (b_planned_person_days bucket) (cr_planned_person_days r))
                  (Dec.add (b_actual_person_days bucket) (cr_actual_person_days r))
                  (Dec.add (b_planned_cost bucket) (cr_planned_cost r))
                  (Dec.add (b_actual_cost bucket) (cr_actual_cost r)))
             zero_bucket Finance.accrue_cost_row) by reflexivity.
  rewrite init_totals_default, filter_none.
  2:{ intros x Hx. unfold Finance._project_cost_entry_rows in Hx.
      apply in_map_iff in Hx. destruct Hx as (e & <- & He).
      unfold Repo.list_effort_entries_filtered in He.
      apply sort_asc_In, filter_In in He. destruct He as [He Hp].
      rewrite !andb_true_iff in Hp. destruct Hp as [[[Hp _] _] _].
      apply Z.eqb_eq in Hp.
      rewrite cost_entry_row_month. apply eqk_neq. now apply Qe. }
  unfold dict_get_default, Repo.aggregate_invoices_by_month,
    Repo.aggregate_revenues_by_month.
  rewrite !group_sum_absent.
  - cbv zeta. cbn. repeat split; reflexivity.
  - intros r Hr. apply in_map_iff in Hr. destruct Hr as (x & <- & Hx).
    apply filter_In in Hx. destruct Hx as [Hx Hp]. apply Z.eqb_eq in Hp.
    cbn [fst]. now apply Qi.
  - intros r Hr. apply in_map_iff in Hr. destruct Hr as (x & <- & Hx).
    apply filter_In in Hx. destruct Hx as [Hx Hp]. apply Z.eqb_eq in Hp.
    cbn [fst]. now apply Qr.
Qed.

(** C4, at the last month of the calendar.  The rollup builder appends
    December 9999 and then computes its successor before testing the loop
    condition again; [date(10000, 1, 1)] raises, so a range that ends in
    December 9999 yields no rows at all, for any project and any data. *)
Theorem rollup_raises_when_range_ends_december_9999
    (db : DB) (project : Project.t) :
  Finance._project_monthly_rollups settings db project
    (Date.mk 9999 12 1) (Date.mk 9999 12 1)
  = Raise (ValueError "date value out of range")
  /\ Date.valid (Date.mk 9999 12 1) = true
  /\ calendar_months (Date.mk 9999 12 1) (Date.mk 9999 12 1) = [Date.mk 9999 12 1].
Proof. repeat split. Qed.

End MonthClaims.

(** The scenario: the rollups of 2026-01 .. 2026-03 are three rows. *)
Lemma rollup_one_row_per_month_witness :
  (Date.valid (Scenario.month 2026 1) = true
   /\ Date.valid (Scenario.month 2026 3) = true
   /\ (Date.month_index (Scenario.month 2026 1)
       <=? Date.month_index (Scenario.month 2026 3))
      && (Date.month_index (Scenario.month 2026 3) =? MAX_INDEX) = false)
  /\ exists rows,
       Finance._project_monthly_rollups default_settings Scenario.db Scenario.project
         (Scenario.month 2026 1) (Scenario.month 2026 3) = Ok rows
       /\ map rr_month_start rows
          = [Scenario.month 2026 1; Scenario.month 2026 2; Scenario.month 2026 3].
Proof.
  split; [repeat split|].
  destruct (rollup_one_row_per_month default_settings Scenario.db Scenario.project
              (Scenario.month 2026 1) (Scenario.month 2026 3)
              eq_refl eq_refl eq_refl) as (rows & Hrows & Hmonths & _).
  exists rows. split; [exact Hrows | exact Hmonths].
Defined.

(** ** The snapshot synchronizer *)

Lemma month_start_ok_index d :
  month_start_ok d = true ->
  d = Date.of_month_index (Date.month_index d)
  /\ MIN_INDEX <= Date.month_index d <= MAX_INDEX.
Proof.
  unfold month_start_ok, Date.is_month_start. rewrite andb_true_iff, Z.eqb_eq.
  intros [V D]. split.
  - symmetry. apply DateFacts.of_month_index_month_index; [|exact D].
    revert V. unfold Date.valid. rewrite !andb_true_iff, !Z.leb_le. lia.
  - apply DateFacts.first_of_month_bounds. now apply DateFacts.valid_first.
Qed.

Lemma key_matches_iff project_id month s :
  Repo.snapshot_key_matches project_id month s = true
  <-> snapshot_key s = (project_id, month).
Proof.
  unfold Repo.snapshot_key_matches, snapshot_key.
  rewrite andb_true_iff, Z.eqb_eq. split.
  - intros [-> E]. now rewrite (date_eqb_true _ _ E).
  - intros [= -> ->]. split; [reflexivity | apply date_eqb_refl].
Qed.

Lemma find_app {A : Type} (p : A -> bool) (l l' : list A) :
  find p (l ++ l') = match find p l with Some a => Some a | None => find p l' end.
Proof. induction l as [|x l IH]; cbn; auto. now destruct (p x). Qed.

Lemma find_none_key project_id month snaps :
  find (Repo.snapshot_key_matches project_id month) snaps = None <->
  ~ In (project_id, month) (map snapshot_key snaps).
Proof.
  split.
  - intros F Hin. apply in_map_iff in Hin. destruct Hin as (s & Hk & Hs).
    apply (find_none _ _ F) in Hs. apply key_matches_iff in Hk. congruence.
  - intros Hn. destruct (find _ snaps) as [s|] eqn:F; [|reflexivity].
    apply find_some in F. destruct F as [Hs Hk]. apply key_matches_iff in Hk.
    exfalso. apply Hn. rewrite <- Hk. now apply in_map.
Qed.

Lemma map_update_first_key {A B : Type} (key : A -> B) (p : A -> bool) (a : A)
    (l : list A) :
  (forall x, p x = true -> key x = key a) ->
  map key (update_first p (fun _ => a) l) = map key l.
Proof.
  intros Hk. induction l as [|x l IH]; cbn; auto.
  destruct (p x) eqn:E; cbn; [now rewrite (Hk x E) | now rewrite IH].
Qed.

Section SnapshotFacts.

Variable project_id : UUID.

(** What one write does to the store. *)
Lemma write_snapshot_effect db month v db' s :
  Planning.write_snapshot db project_id month v = (db', s) ->
  snapshot_key s = (project_id, month)
  /\ ProjectMonthlySnapshot.values s = v
  /\ find (Repo.snapshot_key_matches project_id month) (snapshots db') = Some s
  /\ same_facts db db'
  /\ ((In (project_id, month) (map snapshot_key (snapshots db))
       /\ map snapshot_key (snapshots db') = map snapshot_key (snapshots db))
      \/ (~ In (project_id, month) (map snapshot_key (snapshots db))
          /\ map snapshot_key (snapshots db')
             = map snapshot_key (snapshots db) ++ [(project_id, month)])).
Proof.
  unfold Planning.write_snapshot, Repo.get_snapshot.
  destruct (find _ (snapshots db)) as [existing|] eqn:F.
  - intros [= <- <-]. pose proof F as F'. apply find_some in F'.
    destruct F' as [Hin Hk]. pose proof Hk as Hk'. apply key_matches_iff in Hk'.
    unfold snapshot_key in Hk'. injection Hk' as Hp Hm.
    cbn [snapshots with_snapshots]. repeat split.
    + unfold snapshot_key; cbn. now rewrite Hp, Hm.
    + apply (find_update_first_same _ (fun _ => _) _ _ F).
      apply key_matches_iff. unfold snapshot_key; cbn. now rewrite Hp, Hm.
    + left. split.
      * rewrite <- Hp, <- Hm. apply (in_map snapshot_key _ _ Hin).
      * apply map_update_first_key. intros x Hx. apply key_matches_iff in Hx.
        rewrite Hx. unfold snapshot_key; cbn. now rewrite Hp, Hm.
  - intros [= <- <-]. cbn [snapshots Repo.add_snapshot with_snapshots fresh_uuid fst snd].
    repeat split.
    + rewrite find_app, F. cbn. unfold Repo.snapshot_key_matches; cbn.
      now rewrite Z.eqb_refl, date_eqb_refl.
    + right. split; [now apply find_none_key|]. now rewrite map_app.
Qed.

Lemma same_facts_refl db : same_facts db db.
Proof. repeat split. Qed.

Lemma same_facts_trans a b c : same_facts a b -> same_facts b c -> same_facts a c.
Proof. unfold same_facts. intuition congruence. Qed.

(** A write for another month leaves the first row of a key in place. *)
Lemma write_snapshot_other db month month' v db' s :
  month' <> month ->
  Planning.write_snapshot db project_id month' v = (db', s) ->
  find (Repo.snapshot_key_matches project_id month) (snapshots db')
  = find (Repo.snapshot_key_matches project_id month) (snapshots db).
Proof.
  intros Hne. unfold Planning.write_snapshot, Repo.get_snapshot.
  destruct (find _ (snapshots db)) as [existing|] eqn:F.
  - intros [= <- <-]. cbn [snapshots with_snapshots].
    apply find_update_first_other. intros x Hx.
    apply find_some in F. destruct F as [_ Hk].
    apply key_matches_iff in Hx. apply key_matches_iff in Hk.
    unfold snapshot_key in *. injection Hx as Hxp Hxm. injection Hk as Hkp Hkm.
    unfold Repo.snapshot_key_matches; cbn. rewrite Hxm, Hkm.
    rewrite (date_eqb_neq month' month Hne).
    now rewrite !andb_false_r.
  - intros [= <- <-]. cbn [snapshots Repo.add_snapshot with_snapshots fresh_uuid fst snd].
    rewrite find_app.
    destruct (find (Repo.snapshot_key_matches project_id month) (snapshots db));
      [reflexivity|].
    cbn. unfold Repo.snapshot_key_matches; cbn.
    rewrite (date_eqb_neq month' month Hne).
    now rewrite andb_false_r.
Qed.

Lemma write_all_effect items :
  forall db db' rows,
    write_all db project_id items = (db', rows) ->
    same_facts db db'
    /\ (forall month, ~ In month (map fst items) ->
          find (Repo.snapshot_key_matches project_id month) (snapshots db')
          = find (Repo.snapshot_key_matches project_id month) (snapshots db))
    /\ (forall k, In k (map snapshot_key (snapshots db')) ->
          In k (map snapshot_key (snapshots db))
          \/ exists month, In month (map fst items) /\ k = (project_id, month))
    /\ (NoDup (map snapshot_key (snapshots db)) ->
        NoDup (map snapshot_key (snapshots db'))).
Proof.
  induction items as [|[m v] items IH]; intros db db' rows; cbn [write_all].
  - intros [= <- <-]. repeat split; auto using same_facts_refl.
  - destruct (Planning.write_snapshot db project_id m v) as [db1 s] eqn:W.
    destruct (write_all db1 project_id items) as [db2 rest] eqn:R.
    intros [= <- <-].
    destruct (write_snapshot_effect _ _ _ _ _ W) as (_ & _ & _ & Hf1 & Hkeys).
    destruct (IH _ _ _ R) as (Hf2 & Hother & Hsub & Hnd).
    split; [eapply same_facts_trans; eauto|]. split; [|split].
    + intros month Hn. cbn [map fst In] in Hn.
      rewrite Hother by tauto.
      eapply write_snapshot_other; [|exact W]. intros ->. tauto.
    + intros k Hk. destruct (Hsub k Hk) as [H1|(month & Hm & ->)].
      * destruct Hkeys as [[_ E]|[_ E]]; rewrite E in H1.
        -- now left.
        -- apply in_app_or in H1. destruct H1 as [H1|[<-|[]]]; [now left|].
           right. exists m. split; [now left | reflexivity].
      * right. exists month. split; [now right | reflexivity].
    + intros N. apply Hnd.
      destruct Hkeys as [[_ E]|[Hn E]]; rewrite E; [exact N|].
      apply NoDup_app; [exact N | repeat constructor; intros [] |].
      intros k Hk [<-|[]]. contradiction.
Qed.

(** After the planned rows are written, each is the first row of its key. *)
Lemma write_all_stored items :
  NoDup (map fst items) ->
  forall db db' rows,
    write_all db project_id items = (db', rows) ->
    stored (snapshots db') project_id items rows.
Proof.
  induction items as [|[m v] items IH]; intros Hnd db db' rows; cbn [write_all].
  - intros [= <- <-]. constructor.
  - destruct (Planning.write_snapshot db project_id m v) as [db1 s] eqn:W.
    destruct (write_all db1 project_id items) as [db2 rest] eqn:R.
    intros [= <- <-]. cbn [map fst] in Hnd. inversion Hnd as [|? ? Hnot Hnd']; subst.
    destruct (write_snapshot_effect _ _ _ _ _ W) as (Hk & Hv & Hfind & _ & _).
    destruct (write_all_effect _ _ _ _ R) as (_ & Hother & _ & _).
    constructor; [|eapply IH; eauto].
    cbn [fst snd]. split.
    + destruct s as [i p mm vv]. unfold snapshot_key in Hk. cbn in *.
      injection Hk as -> ->. now subst.
    + now rewrite Hother.
Qed.

(** Writing rows that are already stored changes nothing. *)
Lemma write_all_stored_id items :
  forall db rows,
    stored (snapshots db) project_id items rows ->
    write_all db project_id items = (db, rows).
Proof.
  induction items as [|[m v] items IH]; intros db rows St; inversion St; subst;
    cbn [write_all]; [reflexivity|].
  match goal with H : _ /\ _ |- _ => destruct H as [Hs Hf] end.
  cbn [fst snd] in *.
  unfold Planning.write_snapshot, Repo.get_snapshot. rewrite Hf.
  assert (E : ProjectMonthlySnapshot.mk (ProjectMonthlySnapshot.id y)
                (ProjectMonthlySnapshot.project_id y)
                (ProjectMonthlySnapshot.month_start y) v = y).
  { rewrite Hs at 4. rewrite Hs at 2 3. reflexivity. }
  rewrite E, (update_first_id _ _ _ Hf).
  assert (Ed : with_snapshots db (snapshots db) = db) by now destruct db.
  rewrite Ed, (IH db l'); auto.
Qed.

Lemma stored_filter snaps items rows (keep : ProjectMonthlySnapshot.t -> bool) :
  stored snaps project_id items rows ->
  Forall (fun s => keep s = true) rows ->
  stored (filter keep snaps) project_id items rows.
Proof.
  intros St. induction St as [|item s items rows [Hs Hf] St IH]; intros Hk;
    [constructor|].
  inversion Hk as [|? ? Hks Hkr]; subst. constructor.
  - split; [exact Hs|]. now apply find_filter_keep.
  - now apply IH.
Qed.

End SnapshotFacts.

Section SnapshotClaims.

Variable settings : Settings.

#[local] Abbreviation planned_rows := (planned_rows settings).

Lemma refresh_equation db project_id :
  Planning.refresh_project_snapshots settings db project_id
  = match Repo.get_project db project_id with
    | None => Raise (HTTPException HTTP_404_NOT_FOUND "Project not found.")
    | Some p =>
        months <- month_sequence (Project.start_month p) (Project.end_month p) ;;
        let '(dbw, rows) := write_all db (Project.id p) (planned_rows db p months) in
        Ok (Repo.delete_snapshots_outside_range dbw (Project.id p)
              (Project.start_month p) (Project.end_month p),
            rows)
    end.
Proof.
  unfold Planning.refresh_project_snapshots, planned_rows.
  destruct (Repo.get_project db project_id) as [p|]; [|reflexivity].
  destruct (month_sequence _ _) as [months|]; [|reflexivity].
  cbn [bind]. rewrite sync_months_write_all.
  now destruct (write_all db _ _).
Qed.

Lemma planned_rows_same_facts a b p months :
  same_facts a b -> planned_rows a p months = planned_rows b p months.
Proof.
  intros (Hp & He & Hr & Hi & Hv).
  unfold planned_rows, Repo.list_rates_for_business_unit, Repo.list_effort_entries,
    Repo.aggregate_invoices_by_month, Repo.aggregate_revenues_by_month.
  now rewrite He, Hr, Hi, Hv.
Qed.

Lemma get_project_same_facts a b project_id :
  same_facts a b -> Repo.get_project a project_id = Repo.get_project b project_id.
Proof. intros (Hp & _). unfold Repo.get_project. now rewrite Hp. Qed.

Lemma delete_same_facts db project_id s e :
  same_facts db (Repo.delete_snapshots_outside_range db project_id s e).
Proof. repeat split. Qed.

(** A month of the project range is not outside the range. *)
Lemma range_month_kept p m s :
  project_range_ok p = true ->
  In m (calendar_months (Project.start_month p) (Project.end_month p)) ->
  snapshot_key s = (Project.id p, m) ->
  negb (Repo.outside_range (Project.id p) (Project.start_month p)
          (Project.end_month p) s) = true.
Proof.
  unfold project_range_ok. rewrite andb_true_iff. intros [Hs He] Hm Hk.
  apply month_start_ok_index in Hs, He. destruct Hs as [Hs _], He as [He _].
  apply DateFacts.calendar_months_In in Hm. destruct Hm as (i & Hi & ->).
  unfold snapshot_key in Hk. injection Hk as _ Hk.
  unfold Repo.outside_range. rewrite Hk, Hs, He.
  rewrite !DateFacts.ltb_of_month_index.
  destruct (Z.ltb_spec i (Date.month_index (Project.start_month p))); [lia|].
  destruct (Z.ltb_spec (Date.month_index (Project.end_month p)) i); [lia|].
  now rewrite andb_false_r.
Qed.

(** A valid month start that is not outside the range is a month of it. *)
Lemma kept_month_in_range p m :
  project_range_ok p = true -> month_start_ok m = true ->
  Date.ltb m (Project.start_month p) = false ->
  Date.ltb (Project.end_month p) m = false ->
  In m (calendar_months (Project.start_month p) (Project.end_month p)).
Proof.
  unfold project_range_ok. rewrite andb_true_iff. intros [Hs He] Hm.
  apply month_start_ok_index in Hs, He, Hm.
  destruct Hs as [Hs _], He as [He _], Hm as [Hm _].
  rewrite Hs, He, Hm at 1 2.
  rewrite !DateFacts.ltb_of_month_index, !Z.ltb_ge. intros H1 H2.
  apply DateFacts.calendar_months_In. exists (Date.month_index m).
  rewrite !DateFacts.month_index_of_month_index in *. split; [lia | exact Hm].
Qed.

Lemma stored_rows_kept p items rows snaps :
  project_range_ok p = true ->
  (forall m, In m (map fst items) ->
             In m (calendar_months (Project.start_month p) (Project.end_month p))) ->
  stored snaps (Project.id p) items rows ->
  Forall
    (fun s => negb (Repo.outside_range (Project.id p) (Project.start_month p)
                      (Project.end_month p) s) = true)
    rows.
Proof.
  intros Hr Hin St. induction St as [|item s items rows [Hs Hf] St IH];
    constructor.
  - apply (range_month_kept p (fst item)); auto.
    + apply Hin. now left.
    + rewrite Hs. reflexivity.
  - apply IH. intros m Hm. apply Hin. now right.
Qed.

(** X22. On a store whose amounts have two places (what the columns
    hold), a snapshot refresh that follows a snapshot refresh, with nothing
    changed in between, returns the same rows (the same months, the same
    keys, the same value in every derived field) and leaves the store as
    the first refresh left it. *)
Theorem refresh_twice_is_refresh_once
    (db : DB) (project_id : UUID) (p : Project.t)
    (db1 : DB) (rows1 : list ProjectMonthlySnapshot.t)
    (Hcolumns : two_place_amounts db)
    (Hproject : Repo.get_project db project_id = Some p)
    (Hrange : project_range_ok p = true)
    (Hfirst : Planning.refresh_project_snapshots settings db project_id
              = Ok (db1, rows1)) :
  Planning.refresh_project_snapshots settings db1 project_id = Ok (db1, rows1).
Proof.
  rewrite refresh_equation, Hproject in Hfirst.
  destruct (month_sequence _ _) as [months|] eqn:M; [|discriminate].
  cbn [bind] in Hfirst.
  destruct (write_all db _ _) as [dbw rows] eqn:W.
  injection Hfirst as <- <-.
  destruct (DateFacts.month_sequence_ok _ _ _ M) as (Hmonths & _ & _).
  destruct (write_all_effect _ _ _ _ _ W) as (Hfacts & _ & _ & _).
  assert (Hfacts1 : same_facts db
                      (Repo.delete_snapshots_outside_range dbw (Project.id p)
                         (Project.start_month p) (Project.end_month p)))
    by (eapply same_facts_trans; [exact Hfacts | apply delete_same_facts]).
  assert (Hnd : NoDup (map fst (planned_rows db p months))).
  { unfold planned_rows. rewrite plan_values_months, Hmonths.
    apply DateFacts.calendar_months_NoDup. }
  pose proof (write_all_stored _ _ Hnd _ _ _ W) as St.
  assert (Hkept : Forall
                    (fun s => negb (Repo.outside_range (Project.id p)
                                      (Project.start_month p) (Project.end_month p) s)
                              = true) rows).
  { apply (stored_rows_kept p (planned_rows db p months) rows (snapshots dbw) Hrange);
      [|exact St].
    intros m Hm. unfold planned_rows in Hm.
    now rewrite plan_values_months, Hmonths in Hm. }
  pose proof (stored_filter _ _ _ _ _ St Hkept) as St1.
  rewrite refresh_equation, <- (get_project_same_facts _ _ _ Hfacts1), Hproject, M.
  cbn [bind]. rewrite <- (planned_rows_same_facts _ _ _ _ Hfacts1).
  rewrite (write_all_stored_id (Project.id p) (planned_rows db p months)
             (Repo.delete_snapshots_outside_range dbw (Project.id p)
                (Project.start_month p) (Project.end_month p)) rows St1).
  f_equal. f_equal.
  unfold Repo.delete_snapshots_outside_range; cbn [snapshots with_snapshots].
  rewrite filter_idem. reflexivity.
Qed.

Lemma NoDup_map_filter {A B : Type} (f : A -> B) (keep : A -> bool) (l : list A) :
  NoDup (map f l) -> NoDup (map f (filter keep l)).
Proof.
  induction l as [|x l IH]; cbn; intros N; [constructor|].
  inversion N as [|? ? Hn N']; subst.
  destruct (keep x); cbn; auto. constructor; auto.
  intros Hin. apply Hn. apply in_map_iff in Hin. destruct Hin as (y & E & Hy).
  apply filter_In in Hy. rewrite <- E. apply in_map. tauto.
Qed.

Lemma snapshot_months_NoDup db project_id :
  snapshot_keys_unique db -> NoDup (snapshot_months db project_id).
Proof.
  unfold snapshot_keys_unique, snapshot_months.
  induction (snapshots db) as [|s l IH]; cbn; intros N; [constructor|].
  inversion N as [|? ? Hn N']; subst.
  destruct (Z.eqb_spec (ProjectMonthlySnapshot.project_id s) project_id) as [E|];
    cbn; auto.
  constructor; auto. intros Hin. apply Hn.
  apply in_map_iff in Hin. destruct Hin as (y & Ey & Hy).
  apply filter_In in Hy. destruct Hy as [Hy Hp]. apply Z.eqb_eq in Hp.
  apply in_map_iff. exists y. split; [|exact Hy].
  unfold snapshot_key. now rewrite Ey, Hp, E.
Qed.

Lemma snapshot_months_In db project_id m :
  In m (snapshot_months db project_id)
  <-> exists s, In s (snapshots db) /\ snapshot_key s = (project_id, m).
Proof.
  unfold snapshot_months, snapshot_key. rewrite in_map_iff. split.
  - intros (s & <- & Hs). apply filter_In in Hs. destruct Hs as [Hs Hp].
    apply Z.eqb_eq in Hp. exists s. now rewrite Hp.
  - intros (s & Hs & [= Hp Hm]). exists s. split; [exact Hm|].
    apply filter_In. split; [exact Hs | now apply Z.eqb_eq].
Qed.

Lemma stored_find project_id items rows snaps m :
  stored snaps project_id items rows -> In m (map fst items) ->
  exists s, find (Repo.snapshot_key_matches project_id m) snaps = Some s.
Proof.
  intros St. induction St as [|item s items rows [Hs Hf] St IH]; cbn; [tauto|].
  intros [<-|Hin]; eauto.
Qed.

(** C6. After a snapshot refresh the snapshot rows of the project are,
    one for one, the calendar months of the project range: every month of
    [start_month, end_month] has exactly one row and no row lies outside
    the range, so the rows that a shrunken range left outside are gone. *)
Theorem refresh_leaves_one_snapshot_per_month_of_range
    (db : DB) (project_id : UUID) (p : Project.t)
    (db1 : DB) (rows1 : list ProjectMonthlySnapshot.t)
    (Hproject : Repo.get_project db project_id = Some p)
    (Hrange : project_range_ok p = true)
    (Hunique : snapshot_keys_unique db)
    (Hmonths : snapshot_months_ok db project_id)
    (Hrefresh : Planning.refresh_project_snapshots settings db project_id
                = Ok (db1, rows1)) :
  Permutation (snapshot_months db1 project_id)
    (calendar_months (Project.start_month p) (Project.end_month p))
  /\ (forall s, In s (snapshots db1) ->
        ProjectMonthlySnapshot.project_id s = project_id ->
        Date.ltb (ProjectMonthlySnapshot.month_start s) (Project.start_month p) = false
        /\ Date.ltb (Project.end_month p) (ProjectMonthlySnapshot.month_start s) = false)
  /\ snapshot_keys_unique db1.
Proof.
  pose proof (get_project_id _ _ _ Hproject) as Hid.
  rewrite refresh_equation, Hproject in Hrefresh.
  destruct (month_sequence _ _) as [months|] eqn:M; [|discriminate].
  cbn [bind] in Hrefresh.
  destruct (write_all db _ _) as [dbw rows] eqn:W.
  injection Hrefresh as <- <-.
  destruct (DateFacts.month_sequence_ok _ _ _ M) as (Hcal & _ & _).
  destruct (write_all_effect _ _ _ _ _ W) as (_ & _ & Hsub & Hnd).
  assert (Hitems : map fst (planned_rows db p months)
                   = calendar_months (Project.start_month p) (Project.end_month p))
    by (unfold planned_rows; now rewrite plan_values_months).
  assert (NDitems : NoDup (map fst (planned_rows db p months)))
    by (rewrite Hitems; apply DateFacts.calendar_months_NoDup).
  pose proof (write_all_stored _ _ NDitems _ _ _ W) as St.
  assert (Huniq1 : snapshot_keys_unique
                     (Repo.delete_snapshots_outside_range dbw (Project.id p)
                        (Project.start_month p) (Project.end_month p))).
  { unfold snapshot_keys_unique, Repo.delete_snapshots_outside_range;
      cbn [snapshots with_snapshots].
    apply NoDup_map_filter. now apply Hnd. }
  assert (Hinside : forall s,
             In s (snapshots
                     (Repo.delete_snapshots_outside_range dbw (Project.id p)
                        (Project.start_month p) (Project.end_month p))) ->
             ProjectMonthlySnapshot.project_id s = project_id ->
             Date.ltb (ProjectMonthlySnapshot.month_start s) (Project.start_month p)
             = false
             /\ Date.ltb (Project.end_month p) (ProjectMonthlySnapshot.month_start s)
                = false).
  { intros s Hs Hp. unfold Repo.delete_snapshots_outside_range in Hs;
      cbn [snapshots with_snapshots] in Hs.
    apply filter_In in Hs. destruct Hs as [_ Hk].
    unfold Repo.outside_range in Hk. rewrite Hp, Hid, Z.eqb_refl in Hk.
    cbn [andb] in Hk. apply negb_true_iff, orb_false_iff in Hk. exact Hk. }
  split; [|split; assumption].
  apply NoDup_Permutation.
  - now apply snapshot_months_NoDup.
  - apply DateFacts.calendar_months_NoDup.
  - intros m. rewrite snapshot_months_In. split.
    + intros (s & Hs & Hk). pose proof Hs as Hs'.
      unfold snapshot_key in Hk. injection Hk as Hp Hm.
      destruct (Hinside s Hs Hp) as [H1 H2]. rewrite Hm in H1, H2.
      unfold Repo.delete_snapshots_outside_range in Hs';
        cbn [snapshots with_snapshots] in Hs'.
      apply filter_In in Hs'. destruct Hs' as [Hs' _].
      destruct (Hsub (snapshot_key s) (in_map snapshot_key _ _ Hs'))
        as [Hold|(month & Hmonth & Hk)].
      * apply in_map_iff in Hold. destruct Hold as (s0 & Hk0 & Hs0).
        unfold snapshot_key in Hk0. injection Hk0 as Hp0 Hm0.
        apply kept_month_in_range; auto.
        rewrite <- Hm, <- Hm0. apply Hmonths; [exact Hs0 | congruence].
      * unfold snapshot_key in Hk. injection Hk as _ Hk.
        rewrite <- Hm, Hk, <- Hitems. exact Hmonth.
    + intros Hm. rewrite <- Hitems in Hm.
      assert (Hkept : Forall
                        (fun s => negb (Repo.outside_range (Project.id p)
                                          (Project.start_month p) (Project.end_month p) s)
                                  = true) rows).
      { apply (stored_rows_kept p (planned_rows db p months) rows (snapshots dbw)
                 Hrange); [|exact St].
        intros m' Hm'. now rewrite <- Hitems. }
      pose proof (stored_filter _ _ _ _ _ St Hkept) as St1.
      destruct (stored_find _ _ _ _ _ St1 Hm) as [s Hf].
      apply find_some in Hf. destruct Hf as [Hs Hk].
      apply key_matches_iff in Hk. rewrite Hid in Hk.
      exists s. split; [exact Hs | exact Hk].
Qed.

End SnapshotClaims.

(** The scenario, refreshed a second time. *)
Lemma scenario_two_place_amounts : two_place_amounts Scenario.db.
Proof. vm_compute. repeat constructor. Qed.

Lemma refresh_twice_is_refresh_once_witness :
  (two_place_amounts Scenario.db
   /\ Repo.get_project Scenario.db Scenario.project_id = Some Scenario.project
   /\ project_range_ok Scenario.project = true
   /\ Planning.refresh_project_snapshots default_settings Scenario.db Scenario.project_id
      = Ok (Scenario.db_refreshed, Scenario.snapshot_rows))
  /\ Planning.refresh_project_snapshots default_settings Scenario.db_refreshed
       Scenario.project_id
     = Ok (Scenario.db_refreshed, Scenario.snapshot_rows).
Proof.
  assert (H0 : two_place_amounts Scenario.db) by exact scenario_two_place_amounts.
  assert (H1 : Repo.get_project Scenario.db Scenario.project_id = Some Scenario.project)
    by reflexivity.
  assert (H2 : project_range_ok Scenario.project = true) by reflexivity.
  assert (H3 : Planning.refresh_project_snapshots default_settings Scenario.db
                 Scenario.project_id
               = Ok (Scenario.db_refreshed, Scenario.snapshot_rows))
    by (vm_compute; reflexivity).
  split; [exact (conj H0 (conj H1 (conj H2 H3)))|].
  exact (refresh_twice_is_refresh_once default_settings Scenario.db Scenario.project_id
           Scenario.project Scenario.db_refreshed Scenario.snapshot_rows H0 H1 H2 H3).
Defined.

(** The scenario after the range shrank to two months: the row of March
    is deleted and the rows of January and February remain. *)
Lemma refresh_leaves_one_snapshot_per_month_of_range_witness :
  (Repo.get_project Scenario.db_shrunk Scenario.project_id = Some Scenario.shrunk_project
   /\ project_range_ok Scenario.shrunk_project = true
   /\ snapshot_keys_unique Scenario.db_shrunk
   /\ snapshot_months_ok Scenario.db_shrunk Scenario.project_id
   /\ Planning.refresh_project_snapshots default_settings Scenario.db_shrunk
        Scenario.project_id
      = Ok (Scenario.db_shrunk_refreshed,
            [ProjectMonthlySnapshot.mk 1000 Scenario.project_id (Scenario.month 2026 1)
               Scenario.january;
             ProjectMonthlySnapshot.mk 1001 Scenario.project_id (Scenario.month 2026 2)
               Scenario.february]))
  /\ Permutation (snapshot_months Scenario.db_shrunk_refreshed Scenario.project_id)
       [Scenario.month 2026 1; Scenario.month 2026 2].
Proof.
  assert (H1 : Repo.get_project Scenario.db_shrunk Scenario.project_id
               = Some Scenario.shrunk_project) by reflexivity.
  assert (H2 : project_range_ok Scenario.shrunk_project = true) by reflexivity.
  assert (H3 : snapshot_keys_unique Scenario.db_shrunk).
  { unfold snapshot_keys_unique. cbn.
    repeat constructor; cbn; intuition discriminate. }
  assert (H4 : snapshot_months_ok Scenario.db_shrunk Scenario.project_id).
  { intros s Hs _. cbn in Hs.
    destruct Hs as [<-|[<-|[<-|[]]]]; reflexivity. }
  assert (H5 : Planning.refresh_project_snapshots default_settings Scenario.db_shrunk
                 Scenario.project_id
               = Ok (Scenario.db_shrunk_refreshed,
                     [ProjectMonthlySnapshot.mk 1000 Scenario.project_id
                        (Scenario.month 2026 1) Scenario.january;
                      ProjectMonthlySnapshot.mk 1001 Scenario.project_id
                        (Scenario.month 2026 2) Scenario.february]))
    by (vm_compute; reflexivity).
  split; [repeat split; assumption|].
  exact (proj1 (refresh_leaves_one_snapshot_per_month_of_range default_settings
                  Scenario.db_shrunk Scenario.project_id Scenario.shrunk_project
                  _ _ H1 H2 H3 H4 H5)).
Defined.

(** ** Request validation *)

Lemma normalize_month_start_valid (d : date) :
  Date.valid d = true ->
  normalize_month_start d = if Date.day d =? 1 then Ok d else month_start_error.
Proof.
  intros V. unfold normalize_month_start.
  destruct (Z.eqb_spec (Date.day d) 1) as [E|N]; cbn [negb]; [|reflexivity].
  unfold Date.new. rewrite (DateFacts.valid_first d V).
  destruct d as [y m dd]; cbn in *. now subst.
Qed.

(** A date that is not the first of its month is rejected, whatever else
    it is. *)
Lemma normalize_month_start_rejects (d : date) :
  Date.day d <> 1 -> normalize_month_start d = month_start_error.
Proof.
  intros N. unfold normalize_month_start.
  destruct (Z.eqb_spec (Date.day d) 1); [contradiction | reflexivity].
Qed.

Lemma window_rejection_is_validation_error {A : Type} what (r : result A) :
  window_rejection what r -> is_validation_error r = true.
Proof. intros [-> | [-> | ->]]; reflexivity. Qed.

(** The checks that open every operation with a month window: they raise
    before the continuation [k] is reached. *)
Lemma window_checks_reject {A : Type} (p : Project.t) (from_month to_month : option date)
    (what : string) (k : date -> date -> result A) :
  Date.valid (requested_from p from_month) = true ->
  Date.valid (requested_to p to_month) = true ->
  window_violation p from_month to_month || window_off_month p from_month to_month
  = true ->
  window_rejection what
    (a <- normalize_month_start (requested_from p from_month) ;;
     b <- normalize_month_start (requested_to p to_month) ;;
     if Date.ltb a (Project.start_month p) || Date.ltb (Project.end_month p) b
     then Raise (HTTPException HTTP_422_UNPROCESSABLE_ENTITY
                   ("Requested " ++ what
                    ++ " month range must be within project month range."))
     else if Date.ltb b a
     then Raise (HTTPException HTTP_422_UNPROCESSABLE_ENTITY
                   "to_month must be greater than or equal to from_month.")
     else k a b).
Proof.
  intros Vf Vt H. unfold window_violation, window_off_month in H.
  rewrite (normalize_month_start_valid _ Vf), (normalize_month_start_valid _ Vt).
  destruct (Date.day (requested_from p from_month) =? 1); [|now left].
  destruct (Date.day (requested_to p to_month) =? 1); [|now left].
  cbn [bind negb orb] in *. rewrite orb_false_r in H.
  destruct (Date.ltb (requested_from p from_month) (Project.start_month p)
            || Date.ltb (Project.end_month p) (requested_to p to_month));
    [right; now left|].
  cbn [orb] in H. rewrite H. right; now right.
Qed.

Section ValidationClaims.

Variable settings : Settings.


End ValidationClaims.


(** ** Month-valued inputs *)

Lemma bind_raise {A B : Type} (e : exn) (k : A -> result B) :
  (x <- Raise e ;; k x) = Raise e.
Proof. reflexivity. Qed.

Lemma bind_validation_error {A B : Type} (m : result A) (k : A -> result B) :
  is_validation_error m = true -> is_validation_error (x <- m ;; k x) = true.
Proof. destruct m as [a|[c msg|msg|msg|msg|msg]]; cbn; auto; discriminate. Qed.

Lemma transaction_validation_error {A : Type} (db : DB) (body : result (DB * A)) :
  is_validation_error body = true ->
  fst (transaction db body) = db
  /\ is_validation_error (snd (transaction db body)) = true.
Proof. destruct body as [[db' a]|e]; cbn; [discriminate | auto]. Qed.

(** A loop rejects its input as soon as one element is always rejected,
    when every rejection in the loop is a validation error. *)
Lemma fold_result_validation_error {S X : Type} (step : S -> X -> result S)
    (l : list X) :
  Forall (fun x => forall s, is_ok (step s x) = true
                             \/ is_validation_error (step s x) = true) l ->
  Exists (fun x => forall s, is_ok (step s x) = false) l ->
  forall s, is_validation_error (fold_result step l s) = true.
Proof.
  induction l as [|x l IH]; intros Hall Hex s; [inversion Hex|].
  inversion Hall as [|? ? Hx Hl]; subst. cbn [fold_result].
  destruct (Hx s) as [Hok|Hv].
  - destruct (step s x) as [s'|e] eqn:E; [|discriminate]. cbn [bind].
    apply IH; [exact Hl|].
    inversion Hex as [? ? Hbad|]; subst; [|assumption].
    specialize (Hbad s). rewrite E in Hbad. discriminate.
  - now apply bind_validation_error.
Qed.

(** A loop fails as soon as one element always fails. *)
Lemma fold_result_fails {S X : Type} (step : S -> X -> result S) (l : list X) :
  Exists (fun x => forall s, is_ok (step s x) = false) l ->
  forall s, is_ok (fold_result step l s) = false.
Proof.
  induction l as [|x l IH]; intros Hex s; [inversion Hex|].
  cbn [fold_result]. destruct (step s x) as [s'|e] eqn:E; [|reflexivity].
  cbn [bind]. apply IH.
  inversion Hex as [? ? Hbad|]; subst; [|assumption].
  specialize (Hbad s). rewrite E in Hbad. discriminate.
Qed.

(** Case analysis of a validation step: every branch returns or raises a
    validation error. *)
Ltac ok_or_validation_error :=
  repeat lazymatch goal with
    | |- is_ok (Raise _) = true \/ _ => right; reflexivity
    | |- is_ok (Ok _) = true \/ _ => left; reflexivity
    | |- context [bind (Ok _) _] => cbn [bind]
    | |- context [bind (Raise _) _] => cbn [bind]
    | |- context [match ?x with _ => _ end] => destruct x eqn:?
    end.

Lemma validate_matrix_entry_outcome project task_by_id performer_by_id assignment_set
    state payload :
  Date.valid (mi_month_start payload) = true ->
  is_ok (Planning.validate_matrix_entry project task_by_id performer_by_id
           assignment_set state payload) = true
  \/ is_validation_error
       (Planning.validate_matrix_entry project task_by_id performer_by_id
          assignment_set state payload) = true.
Proof.
  intros V. unfold Planning.validate_matrix_entry. destruct state as [n seen].
  rewrite (normalize_month_start_valid _ V). unfold month_start_error.
  ok_or_validation_error.
Qed.

Lemma validate_rate_entry_outcome project performer_lookup state entry :
  rate_entry_dates_valid entry = true ->
  is_ok (Finance.validate_rate_entry project performer_lookup state entry) = true
  \/ is_validation_error
       (Finance.validate_rate_entry project performer_lookup state entry) = true.
Proof.
  unfold rate_entry_dates_valid. rewrite andb_true_iff. intros [Vf Vt].
  unfold Finance.validate_rate_entry, Finance._validate_rate_range,
    Finance._validate_non_negative_amount.
  destruct state as [n seen].
  rewrite (normalize_month_start_valid _ Vf). unfold month_start_error.
  destruct (ri_effective_to_month entry) as [t|]; cbn [valid_opt] in Vt.
  - rewrite (normalize_month_start_valid _ Vt). unfold month_start_error.
    ok_or_validation_error.
  - ok_or_validation_error.
Qed.

Lemma validate_rate_entry_off_month project performer_lookup state entry :
  rate_entry_dates_valid entry = true ->
  rate_entry_off_month entry = true ->
  Finance.validate_rate_entry project performer_lookup state entry = month_start_error.
Proof.
  unfold rate_entry_dates_valid, rate_entry_off_month.
  rewrite andb_true_iff. intros [Vf Vt] Hoff.
  unfold Finance.validate_rate_entry. destruct state as [n seen].
  rewrite (normalize_month_start_valid _ Vf).
  destruct (Date.day (ri_effective_from_month entry) =? 1); [|reflexivity].
  cbn [negb orb bind] in *.
  destruct (ri_effective_to_month entry) as [t|]; [|discriminate].
  cbn [valid_opt] in Vt. rewrite (normalize_month_start_valid _ Vt).
  destruct (Date.day t =? 1); [discriminate | reflexivity].
Qed.

Section MonthInputClaims.

Variable settings : Settings.

Lemma window_off_month_rejected {A : Type} (p : Project.t)
    (from_month to_month : option date) (what : string) (k : date -> date -> result A) :
  Date.valid (requested_from p from_month) = true ->
  Date.valid (requested_to p to_month) = true ->
  window_off_month p from_month to_month = true ->
  (a <- normalize_month_start (requested_from p from_month) ;;
   b <- normalize_month_start (requested_to p to_month) ;;
   if Date.ltb a (Project.start_month p) || Date.ltb (Project.end_month p) b
   then Raise (HTTPException HTTP_422_UNPROCESSABLE_ENTITY
                 ("Requested " ++ what
                  ++ " month range must be within project month range."))
   else if Date.ltb b a
   then Raise (HTTPException HTTP_422_UNPROCESSABLE_ENTITY
                 "to_month must be greater than or equal to from_month.")
   else k a b)
  = month_start_error.
Proof.
  intros Vf Vt H. unfold window_off_month in H.
  rewrite (normalize_month_start_valid _ Vf), (normalize_month_start_valid _ Vt).
  destruct (Date.day (requested_from p from_month) =? 1); [|reflexivity].
  destruct (Date.day (requested_to p to_month) =? 1); [discriminate | reflexivity].
Qed.

(** Reads with a month window. *)
Lemma reads_reject_off_month_window
    (db : DB) (context : RequestUserContext) (project_id : UUID) (p : Project.t)
    (from_month to_month : option date) :
  Finance._ensure_project_access db context project_id VIEW_ROLES = Ok p ->
  Date.valid (requested_from p from_month) = true ->
  Date.valid (requested_to p to_month) = true ->
  window_off_month p from_month to_month = true ->
  Planning.read_matrix db context project_id from_month to_month = month_start_error
  /\ Finance.project_finance_summary settings db context project_id from_month to_month
     = month_start_error
  /\ Finance.project_dashboard settings db context project_id from_month to_month
     = month_start_error
  /\ forall (performer_ids task_ids : option (list UUID)),
       Finance.effort_report_by_performer db context project_id from_month to_month
         performer_ids task_ids = month_start_error
       /\ Finance.effort_report_by_task db context project_id from_month to_month
            performer_ids task_ids = month_start_error
       /\ Finance.cost_report_by_performer settings db context project_id from_month
            to_month performer_ids task_ids = month_start_error
       /\ Finance.cost_report_by_task settings db context project_id from_month
            to_month performer_ids task_ids = month_start_error.
Proof.
  intros Hacc Vf Vt Hoff.
  assert (Hr : Finance._report_month_range p from_month to_month = month_start_error)
    by (apply (window_off_month_rejected p from_month to_month "report"); assumption).
  split; [|split; [|split]].
  - unfold Planning.read_matrix.
    change (Planning._ensure_project_access db context project_id VIEW_ROLES)
      with (Finance._ensure_project_access db context project_id VIEW_ROLES).
    rewrite Hacc. cbn [bind].
    apply (window_off_month_rejected p from_month to_month "matrix"); assumption.
  - unfold Finance.project_finance_summary. rewrite Hacc. cbn [bind].
    apply (window_off_month_rejected p from_month to_month "summary"); assumption.
  - unfold Finance.project_dashboard. rewrite Hacc. cbn [bind]. now rewrite Hr.
  - intros performer_ids task_ids.
    unfold Finance.effort_report_by_performer, Finance.effort_report_by_task,
      Finance.cost_report_by_performer, Finance.cost_report_by_task.
    rewrite Hacc. cbn [bind]. rewrite Hr. repeat split.
Qed.

(** The export of a report: a format or a key that it does not know is
    refused first, and then the report refuses the window. *)
Lemma export_rejects_off_month_window
    (db : DB) (context : RequestUserContext) (project_id : UUID) (p : Project.t)
    (from_month to_month : option date) (report_key format_name : string)
    (performer_ids task_ids : option (list UUID)) :
  Finance._ensure_project_access db context project_id VIEW_ROLES = Ok p ->
  Date.valid (requested_from p from_month) = true ->
  Date.valid (requested_to p to_month) = true ->
  window_off_month p from_month to_month = true ->
  let out :=
    Finance.export_report settings db context report_key format_name project_id
      from_month to_month performer_ids task_ids in
  out = month_start_error
  \/ out = Raise (HTTPException HTTP_422_UNPROCESSABLE_ENTITY
                   "format must be one of: csv, xlsx.")
  \/ out = Raise (HTTPException HTTP_404_NOT_FOUND "Unknown report_key for export.").
Proof.
  intros Hacc Vf Vt Hoff. cbv zeta.
  destruct (reads_reject_off_month_window db context project_id p from_month to_month
              Hacc Vf Vt Hoff) as (_ & _ & _ & Hreports).
  destruct (Hreports performer_ids task_ids) as (H1 & H2 & H3 & H4).
  unfold Finance.export_report, Finance.report_dispatch.
  destruct (negb _); [right; left; reflexivity|].
  repeat (match goal with
          | |- context [if String.eqb ?a ?b then Some _ else _] =>
              destruct (String.eqb a b)
          end);
    [left; now rewrite H1 | left; now rewrite H2 | left; now rewrite H3
     | left; now rewrite H4 | right; right; reflexivity].
Qed.

(** The dashboard of a business unit that has a project. *)
Lemma unit_dashboard_rejects_off_month_window
    (db : DB) (context : RequestUserContext) (business_unit_id : UUID)
    (first : Project.t) (rest : list Project.t) (from_month to_month : option date) :
  Finance._ensure_business_unit_view_access context business_unit_id = Ok tt ->
  Repo.list_projects_for_business_unit db business_unit_id = first :: rest ->
  Date.valid (unit_requested_from first rest from_month) = true ->
  Date.valid (unit_requested_to first rest to_month) = true ->
  Date.day (unit_requested_from first rest from_month) <> 1
  \/ Date.day (unit_requested_to first rest to_month) <> 1 ->
  Finance.business_unit_dashboard db context business_unit_id from_month to_month
  = month_start_error.
Proof.
  intros Hacc Hprojects Vf Vt Hoff.
  unfold Finance.business_unit_dashboard. rewrite Hacc, Hprojects. cbn [bind].
  fold (unit_requested_from first rest from_month).
  fold (unit_requested_to first rest to_month).
  rewrite (normalize_month_start_valid _ Vf), (normalize_month_start_valid _ Vt).
  destruct (Date.day (unit_requested_from first rest from_month) =? 1) eqn:Ef;
    [|reflexivity].
  destruct (Date.day (unit_requested_to first rest to_month) =? 1) eqn:Et;
    [|reflexivity].
  apply Z.eqb_eq in Ef, Et. destruct Hoff as [N|N]; contradiction.
Qed.

(** The two bulk writes. *)
Lemma bulk_matrix_rejects_off_month_entries
    (db : DB) (context : RequestUserContext) (project_id : UUID) (p : Project.t)
    (entries : list MatrixEntryInput) :
  Finance._ensure_project_access db context project_id EDIT_ROLES = Ok p ->
  Forall (fun e => Date.valid (mi_month_start e) = true) entries ->
  Exists (fun e => Date.day (mi_month_start e) <> 1) entries ->
  let out := Planning.bulk_upsert_matrix_entries settings db context project_id entries in
  fst out = db /\ is_validation_error (snd out) = true.
Proof.
  intros Hacc Hvalid Hbad. cbv zeta. unfold Planning.bulk_upsert_matrix_entries.
  apply transaction_validation_error.
  change (Planning._ensure_project_access db context project_id EDIT_ROLES)
    with (Finance._ensure_project_access db context project_id EDIT_ROLES).
  rewrite Hacc. cbn [bind].
  apply bind_validation_error. unfold Planning.validate_matrix_entries.
  apply bind_validation_error. apply fold_result_validation_error.
  - eapply Forall_impl; [|exact Hvalid]. intros e V s.
    now apply validate_matrix_entry_outcome.
  - eapply Exists_impl; [|exact Hbad]. intros e N [n seen].
    unfold Planning.validate_matrix_entry.
    now rewrite (normalize_month_start_rejects _ N).
Qed.

Lemma bulk_rates_reject_off_month_entries
    (db : DB) (context : RequestUserContext) (project_id : UUID) (p : Project.t)
    (rate_entries : list RateEntryInput) :
  Finance._ensure_project_access db context project_id EDIT_ROLES = Ok p ->
  Forall (fun e => rate_entry_dates_valid e = true) rate_entries ->
  Exists (fun e => rate_entry_off_month e = true) rate_entries ->
  let out := Finance.bulk_upsert_rates settings db context project_id rate_entries in
  fst out = db /\ is_validation_error (snd out) = true.
Proof.
  intros Hacc Hvalid Hbad. cbv zeta. unfold Finance.bulk_upsert_rates.
  apply transaction_validation_error. rewrite Hacc. cbn [bind].
  apply bind_validation_error. unfold Finance.validate_rate_entries.
  apply bind_validation_error. apply fold_result_validation_error.
  - eapply Forall_impl; [|exact Hvalid]. intros e V s.
    now apply validate_rate_entry_outcome.
  - rewrite Exists_exists in *. destruct Hbad as (e & He & Hoff).
    exists e. split; [exact He|]. intros s.
    rewrite Forall_forall in Hvalid.
    now rewrite (validate_rate_entry_off_month _ _ _ _ (Hvalid e He) Hoff).
Qed.

(** The financial registers. *)
Lemma registers_reject_off_month
    (db : DB) (context : RequestUserContext) (project_id : UUID) (p : Project.t) :
  Finance._ensure_project_access db context project_id EDIT_ROLES = Ok p ->
  (forall request, Date.day (fr_month_start request) <> 1 ->
     Finance.create_financial_request settings db context project_id request
     = (db, month_start_error))
  /\ (forall invoice, Date.day (ic_month_start invoice) <> 1 ->
        Finance.create_invoice settings db context project_id invoice
        = (db, month_start_error))
  /\ (forall revenue, Date.day (rc_month_start revenue) <> 1 ->
        Finance.create_revenue settings db context project_id revenue
        = (db, month_start_error)).
Proof.
  intros Hacc. repeat split; intros x N.
  - unfold Finance.create_financial_request.
    now rewrite Hacc, (normalize_month_start_rejects _ N).
  - unfold Finance.create_invoice.
    now rewrite Hacc, (normalize_month_start_rejects _ N).
  - unfold Finance.create_revenue.
    now rewrite Hacc, (normalize_month_start_rejects _ N).
Qed.

(** A start month off the first, or an end month off the first next to a
    start month that is a date: the pair is rejected at the first of the
    two that is off. *)
Lemma month_pair_rejected {A : Type} (start_month end_month : date)
    (k : date -> date -> result A) :
  Date.day start_month <> 1
  \/ (Date.valid start_month = true /\ Date.day end_month <> 1) ->
  (a <- normalize_month_start start_month ;;
   b <- normalize_month_start end_month ;; k a b) = month_start_error.
Proof.
  intros [N|[V N]].
  - now rewrite (normalize_month_start_rejects _ N).
  - rewrite (normalize_month_start_valid _ V), (normalize_month_start_rejects _ N).
    now destruct (Date.day start_month =? 1).
Qed.

Lemma optional_month_pair_rejected {A : Type} (start_month end_month : option date)
    (stored_start stored_end : date) (k : date -> date -> result A) :
  off_month_opt start_month = true
  \/ (valid_opt start_month = true /\ off_month_opt end_month = true) ->
  (a <- match start_month with
        | Some d => normalize_month_start d
        | None => Ok stored_start
        end ;;
   b <- match end_month with
        | Some d => normalize_month_start d
        | None => Ok stored_end
        end ;; k a b) = month_start_error.
Proof.
  assert (Hoff : forall d, negb (Date.day d =? 1) = true -> Date.day d <> 1).
  { intros d H E. rewrite E in H. discriminate. }
  intros [N|[V N]].
  - destruct start_month as [d|]; [|discriminate]. cbn [off_month_opt] in N.
    now rewrite (normalize_month_start_rejects _ (Hoff _ N)).
  - destruct end_month as [e|]; [|discriminate]. cbn [off_month_opt] in N.
    rewrite (normalize_month_start_rejects _ (Hoff _ N)).
    destruct start_month as [d|]; cbn [valid_opt] in V; [|reflexivity].
    rewrite (normalize_month_start_valid _ V).
    now destruct (Date.day d =? 1).
Qed.

(** Projects. *)
Lemma create_project_rejects_off_month
    (db : DB) (context : RequestUserContext) (business_unit_id : UUID)
    (unit : BusinessUnit.t) (data : ProjectCreateData) :
  Repo.get_business_unit db business_unit_id = Some unit ->
  Planning.ensure_can_edit_business_unit context business_unit_id = Ok tt ->
  Date.day (pc_start_month data) <> 1
  \/ (Date.valid (pc_start_month data) = true /\ Date.day (pc_end_month data) <> 1) ->
  Planning.create_project db context business_unit_id data = (db, month_start_error).
Proof.
  intros Hunit Hedit Hoff. unfold Planning.create_project.
  rewrite Hunit, Hedit. cbn [bind].
  now rewrite (month_pair_rejected _ _ _ Hoff).
Qed.

Lemma update_project_rejects_off_month
    (db : DB) (context : RequestUserContext) (project_id : UUID) (p : Project.t)
    (data : ProjectUpdateData) :
  Finance._ensure_project_access db context project_id EDIT_ROLES = Ok p ->
  off_month_opt (pu_start_month data) = true
  \/ (valid_opt (pu_start_month data) = true
      /\ off_month_opt (pu_end_month data) = true) ->
  Planning.update_project settings db context project_id data = (db, month_start_error).
Proof.
  intros Hacc Hoff. unfold Planning.update_project.
  change (Planning._ensure_project_access db context project_id EDIT_ROLES)
    with (Finance._ensure_project_access db context project_id EDIT_ROLES).
  rewrite Hacc. cbn [bind].
  now rewrite (optional_month_pair_rejected _ _ _ _ _ Hoff).
Qed.

(** Stages. *)
Lemma create_stage_rejects_off_month
    (db : DB) (context : RequestUserContext) (project_id : UUID) (p : Project.t)
    (data : StageCreateData) :
  Finance._ensure_project_access db context project_id EDIT_ROLES = Ok p ->
  Date.day (sc_start_month data) <> 1
  \/ (Date.valid (sc_start_month data) = true /\ Date.day (sc_end_month data) <> 1) ->
  Planning.create_stage db context project_id data = (db, month_start_error).
Proof.
  intros Hacc Hoff. unfold Planning.create_stage.
  change (Planning._ensure_project_access db context project_id EDIT_ROLES)
    with (Finance._ensure_project_access db context project_id EDIT_ROLES).
  rewrite Hacc. cbn [bind].
  now rewrite (month_pair_rejected _ _ _ Hoff).
Qed.

Lemma update_stage_rejects_off_month
    (db : DB) (context : RequestUserContext) (project_id : UUID) (p : Project.t)
    (stage_id : UUID) (stage : ProjectStage.t) (data : StageUpdateData) :
  Finance._ensure_project_access db context project_id EDIT_ROLES = Ok p ->
  Repo.get_stage db stage_id = Some stage ->
  ProjectStage.project_id stage = Project.id p ->
  off_month_opt (su_start_month data) = true
  \/ (valid_opt (su_start_month data) = true
      /\ off_month_opt (su_end_month data) = true) ->
  Planning.update_stage db context project_id stage_id data = (db, month_start_error).
Proof.
  intros Hacc Hstage Hsp Hoff. unfold Planning.update_stage.
  change (Planning._ensure_project_access db context project_id EDIT_ROLES)
    with (Finance._ensure_project_access db context project_id EDIT_ROLES).
  rewrite Hacc, Hstage, Hsp. cbn [bind]. rewrite Z.eqb_refl. cbn [negb].
  now rewrite (optional_month_pair_rejected _ _ _ _ _ Hoff).
Qed.


End MonthInputClaims.



(** ** Unknown references *)

Lemma dict_of_list_none {K V X : Type} `{EqType K} (key : X -> K) (val : X -> V)
    (l : list X) (k : K) :
  dict_get (fold_left (fun d x => dict_set d (key x) (val x)) l []) k = None
  <-> ~ In k (map key l).
Proof.
  split.
  - intros Hn Hin.
    destruct (proj2 (dict_of_list_get key val l [] k) (or_intror Hin)) as [v Hv].
    congruence.
  - intros Hn. destruct (dict_get _ k) as [v|] eqn:E; [|reflexivity].
    destruct (proj1 (dict_of_list_get key val l [] k) (ex_intro _ v E))
      as [[v' Hv']|Hin]; [discriminate | contradiction].
Qed.

Lemma task_map_none db project_id t :
  dict_get (fold_left (fun d task => dict_set d (Task.id task) task)
              (Repo.list_tasks db project_id) []) t = None
  <-> task_in_project db project_id t = false.
Proof.
  rewrite (dict_of_list_none Task.id (fun task => task)).
  unfold task_in_project, Repo.list_tasks. split.
  - intros Hn. destruct (existsb _ _) eqn:E; [|reflexivity].
    exfalso. apply Hn. apply existsb_exists in E. destruct E as (x & Hx & Hp).
    apply andb_true_iff in Hp. destruct Hp as [Hi Hp]. apply Z.eqb_eq in Hi.
    apply in_map_iff. exists x. split; [exact Hi|].
    apply sort_asc_In, filter_In. auto.
  - intros Hf Hin. apply in_map_iff in Hin. destruct Hin as (x & Hi & Hx).
    apply sort_asc_In, filter_In in Hx. destruct Hx as [Hx Hp].
    assert (E : existsb (fun x => (Task.id x =? t) && (Task.project_id x =? project_id))
                  (tasks db) = true).
    { apply existsb_exists. exists x. split; [exact Hx|].
      now rewrite Hi, Z.eqb_refl, Hp. }
    congruence.
Qed.

Lemma performer_map_none db business_unit_id q :
  dict_get (fold_left (fun d p => dict_set d (Performer.id p) p)
              (Repo.list_performers_for_business_unit db business_unit_id) []) q = None
  <-> performer_in_unit db business_unit_id q = false.
Proof.
  rewrite (dict_of_list_none Performer.id (fun p => p)).
  unfold performer_in_unit, Repo.list_performers_for_business_unit. split.
  - intros Hn. destruct (existsb _ _) eqn:E; [|reflexivity].
    exfalso. apply Hn. apply existsb_exists in E. destruct E as (x & Hx & Hp).
    apply andb_true_iff in Hp. destruct Hp as [Hi Hp]. apply Z.eqb_eq in Hi.
    apply in_map_iff. exists x. split; [exact Hi|].
    apply sort_asc_In, filter_In. auto.
  - intros Hf Hin. apply in_map_iff in Hin. destruct Hin as (x & Hi & Hx).
    apply sort_asc_In, filter_In in Hx. destruct Hx as [Hx Hp].
    assert (E : existsb (fun x => (Performer.id x =? q)
                                  && (Performer.business_unit_id x =? business_unit_id))
                  (performers db) = true).
    { apply existsb_exists. exists x. split; [exact Hx|].
      now rewrite Hi, Z.eqb_refl, Hp. }
    congruence.
Qed.

Lemma filter_set_In (ids : option (list UUID)) (i : UUID) :
  In i (or_default (Finance.filter_set ids) []) <-> In i (or_default ids []).
Proof.
  destruct ids as [[|x l]|]; cbn [Finance.filter_set or_default]; try tauto.
  apply (to_set_In (K := UUID)).
Qed.

(** The identifiers that [_resolve_filters] lists are those of the filter
    that are not known. *)
Lemma unknown_ids_spec {V : Type} (ids : option (list UUID)) (known : dict UUID V)
    (is_known : UUID -> bool) :
  (forall i, dict_get known i = None <-> is_known i = false) ->
  let missing := filter (fun i => negb (is_known i)) (or_default ids []) in
  (forall i, In i missing -> In (uuid_str i) (Finance.unknown_ids (Finance.filter_set ids) known))
  /\ (forall s, In s (Finance.unknown_ids (Finance.filter_set ids) known) ->
                exists i, In i missing /\ s = uuid_str i)
  /\ (missing = [] -> Finance.unknown_ids (Finance.filter_set ids) known = []).
Proof.
  intros Hk. cbv zeta. unfold Finance.unknown_ids.
  assert (Hin : forall i,
             In i (filter (fun x => match dict_get known x with
                                    | Some _ => false
                                    | None => true
                                    end) (or_default (Finance.filter_set ids) []))
             <-> In i (filter (fun i => negb (is_known i)) (or_default ids []))).
  { intros i. rewrite !filter_In, filter_set_In.
    destruct (dict_get known i) eqn:E.
    - destruct (is_known i) eqn:K; [cbn; tauto|].
      apply Hk in K. congruence.
    - apply Hk in E. rewrite E. cbn. tauto. }
  split; [|split].
  - intros i Hi. apply sort_asc_In, in_map, Hin, Hi.
  - intros s Hs. apply sort_asc_In, in_map_iff in Hs. destruct Hs as (i & <- & Hi).
    exists i. split; [now apply Hin | reflexivity].
  - intros Hempty.
    assert (Hnone : forall x,
               ~ In x (filter (fun x => match dict_get known x with
                                        | Some _ => false
                                        | None => true
                                        end) (or_default (Finance.filter_set ids) []))).
    { intros x Hx. apply Hin in Hx. rewrite Hempty in Hx. destruct Hx. }
    destruct (filter _ (or_default (Finance.filter_set ids) [])) as [|x l];
      [reflexivity|].
    exfalso. exact (Hnone x (or_introl eq_refl)).
Qed.

Section ReferenceClaims.

Variable settings : Settings.


End ReferenceClaims.



(** ** Bulk upserts *)

Lemma refresh_same_facts settings db project_id db' rows :
  Planning.refresh_project_snapshots settings db project_id = Ok (db', rows) ->
  same_facts db db'.
Proof.
  rewrite refresh_equation.
  destruct (Repo.get_project db project_id) as [p|]; [|discriminate].
  destruct (month_sequence _ _) as [months|]; [|discriminate]. cbn [bind].
  destruct (write_all db (Project.id p) _) as [dbw rows'] eqn:W. intros [= <- <-].
  destruct (write_all_effect _ _ _ _ _ W) as (Hf & _).
  eapply same_facts_trans; [exact Hf | apply delete_same_facts].
Qed.

(** A dictionary built by [d[key(x)] = x] maps a key to a value of that
    key. *)
Lemma dict_of_list_key {K V : Type} `{EqType K} (key : V -> K) (l : list V) :
  forall (d : dict K V) k v,
    (forall k v, dict_get d k = Some v -> key v = k) ->
    dict_get (fold_left (fun d x => dict_set d (key x) x) l d) k = Some v ->
    key v = k.
Proof.
  induction l as [|x l IH]; intros d k v Hd; cbn [fold_left]; [apply Hd|].
  apply IH. intros k' v'. destruct (eqk_spec (key x) k') as [<-|N].
  - rewrite dict_get_set_same. now intros [= <-].
  - rewrite dict_get_set_other by exact N. apply Hd.
Qed.

Lemma dict_of_list_key_empty {K V : Type} `{EqType K} (key : V -> K) (l : list V) k v :
  dict_get (fold_left (fun d x => dict_set d (key x) x) l []) k = Some v -> key v = k.
Proof. apply dict_of_list_key. intros k' v'. discriminate. Qed.

(** A validation loop that keeps the identity keys it has seen: [pkey] is
    the identity key of a payload, [ykey] that of a normalized entry, and
    [V] what the loop has checked of a payload when it accepts it. *)
Section DedupLoop.

Context {X Y K : Type} `{EqType K}.
Variable step : list Y * list K -> X -> result (list Y * list K).
Variable pkey : X -> option K.
Variable ykey : Y -> K.
Variable V : X -> Y -> Prop.

Hypothesis Hstep : forall n seen x s',
  step (n, seen) x = Ok s' ->
  exists y, pkey x = Some (ykey y) /\ mem (ykey y) seen = false /\ V x y
            /\ s' = (n ++ [y], seen ++ [ykey y]).

Lemma dedup_loop_from (l : list X) :
  forall done n seen s',
    Forall2 (fun x y => V x y /\ pkey x = Some (ykey y)) done n ->
    seen = map ykey n -> NoDup seen ->
    fold_result step l (n, seen) = Ok s' ->
    Forall2 (fun x y => V x y /\ pkey x = Some (ykey y)) (done ++ l) (fst s')
    /\ NoDup (map ykey (fst s')).
Proof.
  induction l as [|x l IH]; intros done n seen s' Hd Hs Hn; cbn [fold_result].
  - intros [= <-]. cbn [fst]. rewrite app_nil_r. split; [exact Hd | now rewrite <- Hs].
  - destruct (step (n, seen) x) as [s1|e] eqn:E; cbn [bind]; [|discriminate].
    destruct (Hstep _ _ _ _ E) as (y & Hk & Hm & Hv & ->).
    replace (done ++ x :: l) with ((done ++ [x]) ++ l)
      by (now rewrite <- app_assoc).
    apply IH.
    + apply Forall2_app; [exact Hd | repeat constructor; assumption].
    + now rewrite map_app, Hs.
    + apply NoDup_app; [exact Hn | repeat constructor; intros [] |].
      intros k Hin [<-|[]]. apply mem_In in Hin. congruence.
Qed.

Lemma dedup_loop (l : list X) n seen :
  fold_result step l ([], []) = Ok (n, seen) ->
  Forall2 (fun x y => V x y /\ pkey x = Some (ykey y)) l n
  /\ NoDup (map ykey n).
Proof.
  intros E. apply (dedup_loop_from l [] [] [] (n, seen)); auto; constructor.
Qed.

(** Two payloads of one identity key are never both accepted. *)
Lemma dedup_duplicate_fails (l1 l2 l3 : list X) (e1 e2 : X) :
  pkey e1 = pkey e2 ->
  is_ok (fold_result step (l1 ++ e1 :: l2 ++ e2 :: l3) ([], [])) = false.
Proof.
  intros Hk. destruct (fold_result step _ _) as [[n seen]|e] eqn:E; [|reflexivity].
  exfalso. apply dedup_loop in E. destruct E as [F N].
  apply Forall2_app_inv_l in F. destruct F as (n1 & n' & _ & F & ->).
  inversion F as [|? y1 ? n'' [_ K1] F' ]; subst.
  apply Forall2_app_inv_l in F'. destruct F' as (n2 & n3' & _ & F' & ->).
  inversion F' as [|? y2 ? n3 [_ K2] _]; subst.
  rewrite map_app in N. cbn [map] in N. apply NoDup_remove_2 in N. apply N.
  apply in_or_app. right. rewrite map_app. apply in_or_app. right. left.
  congruence.
Qed.

End DedupLoop.

(** *** Matrix entries *)

Lemma project_performers_in_unit db project_id business_unit_id q :
  performer_in_unit db business_unit_id q = false ->
  dict_get (fold_left (fun d p => dict_set d (Performer.id p) p)
              (Repo.list_performers_for_project db project_id business_unit_id) []) q
  = None.
Proof.
  intros Hq. apply (dict_of_list_none Performer.id (fun p => p)).
  intros Hin. apply in_map_iff in Hin. destruct Hin as (x & Hi & Hx).
  unfold Repo.list_performers_for_project in Hx.
  destruct (map _ _) as [|i ids]; [destruct Hx|].
  apply sort_asc_In, filter_In in Hx. destruct Hx as [Hx Hp].
  apply andb_true_iff in Hp. destruct Hp as [_ Hb].
  assert (E : performer_in_unit db business_unit_id q = true).
  { apply existsb_exists. exists x. split; [exact Hx|]. now rewrite Hi, Z.eqb_refl, Hb. }
  congruence.
Qed.

Lemma validate_matrix_entry_step db project assignment_set n seen x s' :
  Planning.validate_matrix_entry project
    (fold_left (fun d task => dict_set d (Task.id task) task)
       (Repo.list_tasks db (Project.id project)) [])
    (fold_left (fun d performer => dict_set d (Performer.id performer) performer)
       (Repo.list_performers_for_project db (Project.id project)
          (Project.business_unit_id project)) [])
    assignment_set (n, seen) x = Ok s' ->
  exists y, matrix_pkey x = Some (matrix_key y) /\ mem (matrix_key y) seen = false
            /\ matrix_entry_validated db project x y
            /\ s' = (n ++ [y], seen ++ [matrix_key y]).
Proof.
  unfold Planning.validate_matrix_entry, matrix_pkey.
  destruct (normalize_month_start (mi_month_start x)) as [m|e] eqn:En; cbn [bind];
    [|discriminate].
  destruct (Dec.ltb (mi_planned_person_days x) ZERO) eqn:Ep; [discriminate|].
  destruct (Dec.ltb (mi_actual_person_days x) ZERO) eqn:Ea; [discriminate|].
  cbn [orb].
  destruct (m <? Project.start_month project)%date eqn:Es; [discriminate|].
  destruct (Project.end_month project <? m)%date eqn:Ee; [discriminate|].
  cbn [orb].
  destruct (dict_get _ (mi_task_id x)) as [task|] eqn:Et; [|discriminate].
  destruct (negb (Task.active task)); [discriminate|].
  destruct (dict_get _ (mi_performer_id x)) as [performer|] eqn:Eq; [|discriminate].
  destruct (negb (Performer.active performer)); [discriminate|].
  destruct (negb (mem _ assignment_set)); [discriminate|].
  destruct (mem _ seen) eqn:Em; [discriminate|].
  intros [= <-].
  pose proof (dict_of_list_key_empty Task.id _ _ _ Et) as Kt.
  pose proof (dict_of_list_key_empty Performer.id _ _ _ Eq) as Kq.
  rewrite Kt, Kq in *.
  exists (mkMatrixEntryInput (mi_task_id x) (mi_performer_id x) m
            (mi_planned_person_days x) (mi_actual_person_days x)).
  unfold matrix_key, matrix_entry_validated.
  cbn [mi_task_id mi_performer_id mi_month_start mi_planned_person_days
       mi_actual_person_days].
  repeat split; try assumption; try reflexivity.
  - destruct (task_in_project db (Project.id project) (mi_task_id x)) eqn:T;
      [reflexivity|]. apply task_map_none in T. congruence.
  - destruct (performer_in_unit db (Project.business_unit_id project)
                (mi_performer_id x)) eqn:T; [reflexivity|].
    apply (project_performers_in_unit db (Project.id project)) in T. congruence.
Qed.

Section BulkMatrixFacts.

Variable settings : Settings.

Lemma validate_matrix_entries_ok db project entries normalized :
  Planning.validate_matrix_entries db project entries = Ok normalized ->
  Forall2 (fun x y => matrix_entry_validated db project x y
                      /\ matrix_pkey x = Some (matrix_key y)) entries normalized
  /\ NoDup (map matrix_key normalized).
Proof.
  unfold Planning.validate_matrix_entries. cbv zeta.
  destruct (fold_result _ entries ([], [])) as [[n seen]|e] eqn:E; cbn [bind];
    [|discriminate].
  intros [= <-].
  eapply dedup_loop; [|exact E].
  intros n0 seen0 x s'. apply validate_matrix_entry_step.
Qed.

End BulkMatrixFacts.

Lemma effort_key_matches_iff project_id t q m e :
  Repo.effort_key_matches project_id t q m e = true
  <-> EffortMonthlyEntry.project_id e = project_id
      /\ (EffortMonthlyEntry.task_id e, EffortMonthlyEntry.performer_id e,
          EffortMonthlyEntry.month_start e) = (t, q, m).
Proof.
  unfold Repo.effort_key_matches. rewrite !andb_true_iff, !Z.eqb_eq. split.
  - intros [[[-> ->] ->] E]. now rewrite (date_eqb_true _ _ E).
  - intros [-> [= -> -> ->]]. now rewrite date_eqb_refl.
Qed.

Lemma effort_key_matches_other project_id t q m t' q' m' e :
  (t', q', m') <> (t, q, m) ->
  Repo.effort_key_matches project_id t q m e = true ->
  Repo.effort_key_matches project_id t' q' m' e = false.
Proof.
  intros Hne Hk. destruct (Repo.effort_key_matches project_id t' q' m' e) eqn:E;
    [|reflexivity].
  apply effort_key_matches_iff in Hk, E. destruct Hk as [_ Hk], E as [_ E]. congruence.
Qed.

(** Overwriting the person-days of the row of a key. *)
Lemma overwrite_effort_self project_id db t q m planned actual row :
  Repo.get_effort_entry db project_id t q m = Some row ->
  Repo.get_effort_entry
    (with_effort_entries db
       (update_first (Repo.effort_key_matches project_id t q m)
          (fun row =>
             EffortMonthlyEntry.mk (EffortMonthlyEntry.id row)
               (EffortMonthlyEntry.project_id row) (EffortMonthlyEntry.task_id row)
               (EffortMonthlyEntry.performer_id row) (EffortMonthlyEntry.month_start row)
               planned actual)
          (effort_entries db)))
    project_id t q m
  = Some (EffortMonthlyEntry.mk (EffortMonthlyEntry.id row)
            (EffortMonthlyEntry.project_id row) (EffortMonthlyEntry.task_id row)
            (EffortMonthlyEntry.performer_id row) (EffortMonthlyEntry.month_start row)
            planned actual).
Proof.
  unfold Repo.get_effort_entry. intros F. cbn [effort_entries with_effort_entries].
  apply (find_update_first_same _
           (fun row =>
              EffortMonthlyEntry.mk (EffortMonthlyEntry.id row)
                (EffortMonthlyEntry.project_id row) (EffortMonthlyEntry.task_id row)
                (EffortMonthlyEntry.performer_id row) (EffortMonthlyEntry.month_start row)
                planned actual) _ _ F).
  apply find_some in F. destruct F as [_ Hk].
  apply effort_key_matches_iff in Hk. apply effort_key_matches_iff. exact Hk.
Qed.

Lemma overwrite_effort_other project_id db t q m t' q' m' f :
  (forall row,
      EffortMonthlyEntry.project_id (f row) = EffortMonthlyEntry.project_id row
      /\ EffortMonthlyEntry.task_id (f row) = EffortMonthlyEntry.task_id row
      /\ EffortMonthlyEntry.performer_id (f row) = EffortMonthlyEntry.performer_id row
      /\ EffortMonthlyEntry.month_start (f row) = EffortMonthlyEntry.month_start row) ->
  (t', q', m') <> (t, q, m) ->
  Repo.get_effort_entry
    (with_effort_entries db
       (update_first (Repo.effort_key_matches project_id t q m) f (effort_entries db)))
    project_id t' q' m'
  = Repo.get_effort_entry db project_id t' q' m'.
Proof.
  intros Hf Hne. unfold Repo.get_effort_entry. cbn [effort_entries with_effort_entries].
  apply find_update_first_other. intros x Hx. split.
  - eapply effort_key_matches_other; eauto.
  - eapply effort_key_matches_other; [exact Hne|].
    apply effort_key_matches_iff in Hx. apply effort_key_matches_iff.
    destruct (Hf x) as (-> & -> & -> & ->). exact Hx.
Qed.

(** After its write, a row is stored under the key of the entry. *)
Lemma upsert_effort_entry_self project_id db e db' :
  Planning.upsert_effort_entry project_id db e = Ok db' ->
  matrix_row_exists project_id db' e.
Proof.
  unfold matrix_row_exists, Planning.upsert_effort_entry.
  destruct (Repo.get_effort_entry db project_id _ _ _) as [row|] eqn:F.
  - intros [= <-]. eexists. apply (overwrite_effort_self _ _ _ _ _ _ _ _ F).
  - destruct (numeric 10 2 (mi_planned_person_days e)) as [planned|]; cbn [bind];
      [|discriminate].
    destruct (numeric 10 2 (mi_actual_person_days e)) as [actual|]; cbn [bind];
      [|discriminate].
    cbn [fresh_uuid]. intros [= <-]. unfold Repo.get_effort_entry in *.
    cbn [Repo.add_effort_entry effort_entries with_effort_entries].
    rewrite find_app, F. cbn [find]. unfold Repo.effort_key_matches at 1.
    cbn [EffortMonthlyEntry.project_id EffortMonthlyEntry.task_id
         EffortMonthlyEntry.performer_id EffortMonthlyEntry.month_start].
    rewrite !Z.eqb_refl, date_eqb_refl. cbn [andb]. eauto.
Qed.

(** A new entry is stored with the values of its columns at once. *)
Lemma upsert_effort_entry_new project_id db e db' :
  Repo.get_effort_entry db project_id (mi_task_id e) (mi_performer_id e)
    (mi_month_start e) = None ->
  Planning.upsert_effort_entry project_id db e = Ok db' ->
  matrix_persisted project_id db' e.
Proof.
  unfold matrix_persisted, Planning.upsert_effort_entry. intros F. rewrite F.
  destruct (numeric 10 2 (mi_planned_person_days e)) as [planned|]; cbn [bind];
    [|discriminate].
  destruct (numeric 10 2 (mi_actual_person_days e)) as [actual|]; cbn [bind];
    [|discriminate].
  cbn [fresh_uuid]. intros [= <-]. unfold Repo.get_effort_entry in *.
  cbn [Repo.add_effort_entry effort_entries with_effort_entries].
  rewrite find_app, F. cbn [find]. unfold Repo.effort_key_matches at 1.
  cbn [EffortMonthlyEntry.project_id EffortMonthlyEntry.task_id
       EffortMonthlyEntry.performer_id EffortMonthlyEntry.month_start].
  rewrite !Z.eqb_refl, date_eqb_refl. cbn [andb].
  eexists. split; [reflexivity|]. split; reflexivity.
Qed.

(** The write of an entry leaves the rows of the other keys in place. *)
Lemma upsert_effort_entry_other project_id db e db' t q m :
  Planning.upsert_effort_entry project_id db e = Ok db' ->
  (t, q, m) <> matrix_key e ->
  Repo.get_effort_entry db' project_id t q m
  = Repo.get_effort_entry db project_id t q m.
Proof.
  unfold Planning.upsert_effort_entry. intros Hw Hne.
  destruct (Repo.get_effort_entry db project_id (mi_task_id e) (mi_performer_id e)
              (mi_month_start e)) as [row|] eqn:F.
  - injection Hw as <-. apply overwrite_effort_other; [|exact Hne].
    intros r. cbn. auto.
  - destruct (numeric 10 2 (mi_planned_person_days e)) as [planned|]; cbn [bind] in Hw;
      [|discriminate].
    destruct (numeric 10 2 (mi_actual_person_days e)) as [actual|]; cbn [bind] in Hw;
      [|discriminate].
    cbn [fresh_uuid] in Hw. injection Hw as <-. unfold Repo.get_effort_entry.
    cbn [Repo.add_effort_entry effort_entries with_effort_entries].
    rewrite find_app.
    destruct (find (Repo.effort_key_matches project_id t q m) (effort_entries db));
      [reflexivity|].
    cbn [find].
    rewrite (effort_key_matches_other project_id (mi_task_id e) (mi_performer_id e)
               (mi_month_start e) t q m); [reflexivity | exact Hne |].
    apply effort_key_matches_iff. split; reflexivity.
Qed.

(** After the write loop a row is stored under the key of every entry. *)
Lemma upsert_all_written project_id (l : list MatrixEntryInput) :
  forall db db',
    fold_result (Planning.upsert_effort_entry project_id) l db = Ok db' ->
    (forall e, matrix_row_exists project_id db e -> matrix_row_exists project_id db' e)
    /\ Forall (matrix_row_exists project_id db') l.
Proof.
  induction l as [|x l IH]; intros db db'; cbn [fold_result].
  - intros [= <-]. split; [auto | constructor].
  - destruct (Planning.upsert_effort_entry project_id db x) as [db1|] eqn:W;
      cbn [bind]; [|discriminate].
    intros Hl. destruct (IH _ _ Hl) as [Hkeep Hall].
    assert (Hstep : forall e, matrix_row_exists project_id db e ->
                              matrix_row_exists project_id db1 e).
    { intros e [row Hrow].
      destruct (eqk_spec (mi_task_id e, mi_performer_id e, mi_month_start e)
                  (matrix_key x)) as [E|N].
      - destruct (upsert_effort_entry_self _ _ _ _ W) as [row' Hrow'].
        exists row'. unfold matrix_key in E. injection E as -> -> ->. exact Hrow'.
      - exists row. now rewrite (upsert_effort_entry_other _ _ _ _ _ _ _ W N). }
    split; [auto|]. constructor; [|exact Hall].
    apply Hkeep. exact (upsert_effort_entry_self _ _ _ _ W).
Qed.

(** The commit of an entry whose row exists stores the values of its
    columns, and leaves the rows of the other keys in place. *)
Lemma store_effort_entry_self project_id db e db' :
  Planning.store_effort_entry project_id db e = Ok db' ->
  matrix_row_exists project_id db e ->
  matrix_persisted project_id db' e.
Proof.
  unfold Planning.store_effort_entry, matrix_persisted. intros Hs [row Hrow].
  destruct (numeric 10 2 (mi_planned_person_days e)) as [planned|]; cbn [bind] in Hs;
    [|discriminate].
  destruct (numeric 10 2 (mi_actual_person_days e)) as [actual|]; cbn [bind] in Hs;
    [|discriminate].
  injection Hs as <-. eexists. split.
  - apply (overwrite_effort_self _ _ _ _ _ _ _ _ Hrow).
  - split; reflexivity.
Qed.

Lemma store_effort_entry_other project_id db e db' t q m :
  Planning.store_effort_entry project_id db e = Ok db' ->
  (t, q, m) <> matrix_key e ->
  Repo.get_effort_entry db' project_id t q m
  = Repo.get_effort_entry db project_id t q m.
Proof.
  unfold Planning.store_effort_entry. intros Hs Hne.
  destruct (numeric 10 2 (mi_planned_person_days e)) as [planned|]; cbn [bind] in Hs;
    [|discriminate].
  destruct (numeric 10 2 (mi_actual_person_days e)) as [actual|]; cbn [bind] in Hs;
    [|discriminate].
  injection Hs as <-. apply overwrite_effort_other; [|exact Hne].
  intros r. cbn. auto.
Qed.

Lemma store_all_keeps project_id (l : list MatrixEntryInput) :
  forall db db' e,
    fold_result (Planning.store_effort_entry project_id) l db = Ok db' ->
    ~ In (matrix_key e) (map matrix_key l) ->
    Repo.get_effort_entry db' project_id (mi_task_id e) (mi_performer_id e)
      (mi_month_start e)
    = Repo.get_effort_entry db project_id (mi_task_id e) (mi_performer_id e)
        (mi_month_start e).
Proof.
  induction l as [|x l IH]; intros db db' e; cbn [fold_result].
  - now intros [= <-].
  - destruct (Planning.store_effort_entry project_id db x) as [db1|] eqn:S;
      cbn [bind]; [|discriminate].
    intros Hl Hn. cbn [map In] in Hn. rewrite (IH _ _ _ Hl) by tauto.
    apply (store_effort_entry_other _ _ _ _ _ _ _ S).
    intros E. apply Hn. left. symmetry. exact E.
Qed.

(** After the commit every entry of a batch without duplicate keys is
    stored with the values of its columns. *)
Lemma store_all_persisted project_id (l : list MatrixEntryInput) :
  NoDup (map matrix_key l) ->
  forall db db',
    fold_result (Planning.store_effort_entry project_id) l db = Ok db' ->
    Forall (matrix_row_exists project_id db) l ->
    Forall (matrix_persisted project_id db') l.
Proof.
  induction l as [|x l IH]; intros N db db'; [constructor|].
  cbn [map] in N. inversion N as [|? ? Hx Hl]; subst. cbn [fold_result].
  destruct (Planning.store_effort_entry project_id db x) as [db1|] eqn:S;
    cbn [bind]; [|discriminate].
  intros Hrest Hall. inversion Hall as [|? ? Hex Hall']; subst. constructor.
  - destruct (store_effort_entry_self _ _ _ _ S Hex) as (row & Hrow & Hv).
    exists row. split; [|exact Hv].
    now rewrite (store_all_keeps _ _ _ _ _ Hrest Hx).
  - apply (IH Hl db1 db' Hrest).
    rewrite Forall_forall in *. intros e He. destruct (Hall' e He) as [row Hrow].
    exists row. rewrite (store_effort_entry_other _ _ _ _ _ _ _ S); [exact Hrow|].
    intros E. apply Hx. rewrite <- E. apply in_map_iff. exists e. split; [|exact He].
    reflexivity.
Qed.

Lemma matrix_row_exists_same_facts project_id a b e :
  same_facts a b -> matrix_row_exists project_id a e -> matrix_row_exists project_id b e.
Proof.
  intros (_ & He & _). unfold matrix_row_exists, Repo.get_effort_entry.
  now rewrite He.
Qed.

(** *** Rates *)

Lemma rate_key_matches_iff p pr m r :
  (PerformerRate.performer_id r =? p)
  && Repo.opt_uuid_eqb (PerformerRate.project_id r) pr
  && (PerformerRate.effective_from_month r =? m)%date = true
  <-> rate_row_key r = (p, pr, m).
Proof.
  unfold rate_row_key, Repo.opt_uuid_eqb. rewrite !andb_true_iff, Z.eqb_eq. split.
  - intros [[E0 E1] E2]. apply eqk_true in E1. apply date_eqb_true in E2.
    now rewrite E0, E1, E2.
  - intros [= -> -> ->]. now rewrite eqk_refl, date_eqb_refl.
Qed.

Lemma rate_key_matches_other p pr m p' pr' m' r :
  (p', pr', m') <> (p, pr, m) ->
  rate_row_key r = (p, pr, m) ->
  (PerformerRate.performer_id r =? p')
  && Repo.opt_uuid_eqb (PerformerRate.project_id r) pr'
  && (PerformerRate.effective_from_month r =? m')%date = false.
Proof.
  intros Hne Hk.
  destruct ((PerformerRate.performer_id r =? p')
            && Repo.opt_uuid_eqb (PerformerRate.project_id r) pr'
            && (PerformerRate.effective_from_month r =? m')%date) eqn:E;
    [|reflexivity].
  apply rate_key_matches_iff in E. congruence.
Qed.

Lemma validate_rate_entry_step db project n seen x s' :
  Finance.validate_rate_entry project
    (fold_left (fun d performer => dict_set d (Performer.id performer) performer)
       (Repo.list_performers_for_business_unit db (Project.business_unit_id project))
       [])
    (n, seen) x = Ok s' ->
  exists y, rate_pkey x = Some (rate_key y) /\ mem (rate_key y) seen = false
            /\ rate_entry_validated db project x y
            /\ s' = (n ++ [y], seen ++ [rate_key y]).
Proof.
  unfold Finance.validate_rate_entry, rate_pkey.
  destruct (normalize_month_start (ri_effective_from_month x)) as [m|e] eqn:En;
    cbn [bind]; [|discriminate].
  destruct (match ri_effective_to_month x with
            | Some t => _
            | None => _
            end) as [to|e] eqn:Eto; cbn [bind]; [|discriminate].
  destruct (Finance._validate_rate_range m to) as [[]|e] eqn:Er; cbn [bind];
    [|discriminate].
  unfold Finance._validate_non_negative_amount.
  destruct (Dec.ltb (ri_rate_value x) ZERO) eqn:Ev; cbn [bind]; [discriminate|].
  destruct (dict_get _ (ri_performer_id x)) as [performer|] eqn:Eq; [|discriminate].
  destruct (match ri_project_id x with
            | Some p => negb (p =? Project.id project)
            | None => false
            end); [discriminate|].
  destruct (mem _ seen) eqn:Em; [discriminate|].
  intros [= <-].
  pose proof (dict_of_list_key_empty Performer.id _ _ _ Eq) as Kq.
  rewrite Kq in *.
  exists (mkRateEntryInput (ri_performer_id x) (ri_project_id x) (ri_rate_unit x)
            (ri_rate_value x) m to).
  unfold rate_key, rate_entry_validated.
  cbn [ri_performer_id ri_project_id ri_rate_unit ri_rate_value
       ri_effective_from_month ri_effective_to_month].
  repeat split; try assumption; try reflexivity.
  destruct (performer_in_unit db (Project.business_unit_id project)
              (ri_performer_id x)) eqn:T; [reflexivity|].
  apply performer_map_none in T. congruence.
Qed.

Lemma validate_rate_entries_ok db project entries normalized :
  Finance.validate_rate_entries db project entries = Ok normalized ->
  Forall2 (fun x y => rate_entry_validated db project x y
                      /\ rate_pkey x = Some (rate_key y)) entries normalized
  /\ NoDup (map rate_key normalized).
Proof.
  unfold Finance.validate_rate_entries. cbv zeta.
  destruct (fold_result _ entries ([], [])) as [[n seen]|e] eqn:E; cbn [bind];
    [|discriminate].
  intros [= <-].
  eapply dedup_loop; [|exact E].
  intros n0 seen0 x s'. apply validate_rate_entry_step.
Qed.

Lemma In_update_first {A : Type} (p : A -> bool) (f : A -> A) (l : list A) x :
  In x (update_first p f l) ->
  In x l \/ exists y, In y l /\ p y = true /\ x = f y.
Proof.
  induction l as [|a l IH]; cbn [update_first]; [tauto|].
  destruct (p a) eqn:E; cbn [In].
  - intros [<-|H]; [right; exists a; auto | auto].
  - intros [<-|H]; [auto|]. destruct (IH H) as [H'|(y & Hy & Hp & ->)]; [auto|].
    right. exists y. auto.
Qed.

Lemma In_update_first_other {A : Type} (p : A -> bool) (f : A -> A) (l : list A) x :
  p x = false -> In x l -> In x (update_first p f l).
Proof.
  intros Hx. induction l as [|a l IH]; cbn [update_first In]; [tauto|].
  destruct (p a) eqn:E; cbn [In].
  - intros [->|H]; [congruence | auto].
  - intros [->|H]; auto.
Qed.

(** What an accepted write of a rate does to the store. *)
Lemma upsert_rate_ok project db ps e db' ps' :
  Finance.upsert_rate project (db, ps) e = Ok (db', ps') ->
  rate_written db' e
  /\ (forall p pr m, (p, pr, m) <> rate_key e ->
        Repo.get_rate db' p pr m = Repo.get_rate db p pr m)
  /\ (exists target, ps' = ps ++ [target])
  /\ effort_entries db' = effort_entries db.
Proof.
  unfold Finance.upsert_rate, rate_written, Repo.get_rate.
  destruct (find (fun r => (PerformerRate.performer_id r =? ri_performer_id e)
                           && Repo.opt_uuid_eqb (PerformerRate.project_id r)
                                (ri_project_id e)
                           && (PerformerRate.effective_from_month r
                               =? ri_effective_from_month e)%date)
              (rates db)) as [existing|] eqn:F; cbn [bind].
  - destruct (Repo.list_conflicting_rates _ _ _ _ _ _) as [|c cs]; [|discriminate].
    intros [= <- <-]. pose proof F as F'. apply find_some in F'.
    destruct F' as [_ Hk]. apply rate_key_matches_iff in Hk.
    unfold rate_row_key in Hk. injection Hk as Hp Hpr Hm.
    cbn [rates with_rates effort_entries]. split; [|split; [|split]].
    + eexists. split.
      * apply (find_update_first_same _ _ _ _ F).
        apply rate_key_matches_iff. unfold rate_row_key. cbn.
        now rewrite Hp, Hpr, Hm.
      * repeat split.
    + intros p pr m Hne. apply find_update_first_other. intros x Hx.
      apply rate_key_matches_iff in Hx. split.
      * eapply rate_key_matches_other; [exact Hne | exact Hx].
      * eapply rate_key_matches_other; [exact Hne|].
        unfold rate_row_key. cbn. unfold rate_key. now rewrite Hp, Hpr, Hm.
    + eexists. reflexivity.
    + reflexivity.
  - destruct (numeric 12 2 (ri_rate_value e)) as [stored|]; cbn [bind fresh_uuid];
      [|discriminate].
    destruct (Repo.list_conflicting_rates _ _ _ _ _ _) as [|c cs]; [|discriminate].
    intros [= <- <-].
    cbn [Repo.add_rate rates with_rates effort_entries]. split; [|split; [|split]].
    + eexists. split.
      * rewrite find_app, F. cbn [find].
        cbn [PerformerRate.performer_id PerformerRate.project_id
             PerformerRate.effective_from_month].
        unfold Repo.opt_uuid_eqb.
        rewrite Z.eqb_refl, eqk_refl, date_eqb_refl. reflexivity.
      * repeat split.
    + intros p pr m Hne. rewrite find_app.
      destruct (find (fun r => (PerformerRate.performer_id r =? p)
                               && Repo.opt_uuid_eqb (PerformerRate.project_id r) pr
                               && (PerformerRate.effective_from_month r =? m)%date)
                  (rates db)); [reflexivity|].
      cbn [find].
      rewrite (rate_key_matches_other (ri_performer_id e) (ri_project_id e)
                 (ri_effective_from_month e) p pr m); [reflexivity | exact Hne |].
      reflexivity.
    + eexists. reflexivity.
    + reflexivity.
Qed.

Lemma upsert_rates_keep project (l : list RateEntryInput) :
  forall db ps db' ps' e,
    ~ In (rate_key e) (map rate_key l) ->
    fold_result (Finance.upsert_rate project) l (db, ps) = Ok (db', ps') ->
    rate_written db e -> rate_written db' e.
Proof.
  induction l as [|x l IH]; intros db ps db' ps' e Hn; cbn [fold_result].
  - now intros [= <- <-].
  - destruct (Finance.upsert_rate project (db, ps) x) as [[db1 ps1]|err] eqn:E;
      cbn [bind]; [|discriminate].
    intros Hf Hp. cbn [map In] in Hn.
    apply (IH db1 ps1 db' ps' e); [tauto | exact Hf |].
    destruct (upsert_rate_ok _ _ _ _ _ _ E) as (_ & Hother & _).
    destruct Hp as (row & Hg & Hv). exists row. split; [|exact Hv].
    rewrite Hother; [exact Hg|]. intros K. apply Hn. left. symmetry. exact K.
Qed.

(** After an accepted write loop a rate is stored under the key of every
    entry of a batch without duplicate keys, one row is returned per entry
    and no effort entry has changed. *)
Lemma upsert_rates_written project (l : list RateEntryInput) :
  NoDup (map rate_key l) ->
  forall db ps db' ps',
    fold_result (Finance.upsert_rate project) l (db, ps) = Ok (db', ps') ->
    Forall (rate_written db') l
    /\ List.length ps' = (List.length ps + List.length l)%nat
    /\ effort_entries db' = effort_entries db.
Proof.
  induction l as [|x l IH]; intros N db ps db' ps'; cbn [fold_result].
  - intros [= <- <-]. cbn [List.length]. rewrite Nat.add_0_r. auto.
  - destruct (Finance.upsert_rate project (db, ps) x) as [[db1 ps1]|err] eqn:E;
      cbn [bind]; [|discriminate].
    intros Hf. cbn [map] in N. inversion N as [|? ? Hx Hl]; subst.
    destruct (upsert_rate_ok _ _ _ _ _ _ E) as (Hself & _ & (target & ->) & He).
    destruct (IH Hl _ _ _ _ Hf) as (Hall & Hlen & He').
    split; [|split].
    + constructor; [|exact Hall].
      eapply upsert_rates_keep; [exact Hx | exact Hf | exact Hself].
    + rewrite Hlen, length_app. cbn [List.length]. lia.
    + congruence.
Qed.

Lemma rate_written_same_facts a b e :
  same_facts a b -> rate_written a e -> rate_written b e.
Proof.
  intros (_ & _ & Hr & _). unfold rate_written, Repo.get_rate. now rewrite Hr.
Qed.

(** The commit of a rate whose row was written stores the value of its
    column, and leaves the rows of the other keys in place. *)
Lemma store_rate_ok db e db' :
  Finance.store_rate db e = Ok db' ->
  (rate_written db e -> rate_persisted db' e)
  /\ (forall p pr m, (p, pr, m) <> rate_key e ->
        Repo.get_rate db' p pr m = Repo.get_rate db p pr m)
  /\ effort_entries db' = effort_entries db.
Proof.
  unfold Finance.store_rate, rate_written, rate_persisted, Repo.get_rate.
  destruct (numeric 12 2 (ri_rate_value e)) as [stored|]; cbn [bind]; [|discriminate].
  intros [= <-]. cbn [rates with_rates effort_entries]. split; [|split].
  - intros (row & F & Hu & Ht). pose proof F as F'. apply find_some in F'.
    destruct F' as [_ Hk].
    eexists. split.
    + apply (find_update_first_same _
               (fun r =>
                  PerformerRate.mk (PerformerRate.id r)
                    (PerformerRate.business_unit_id r) (PerformerRate.performer_id r)
                    (PerformerRate.project_id r) (PerformerRate.rate_unit r) stored
                    (PerformerRate.effective_from_month r)
                    (PerformerRate.effective_to_month r)) _ _ F).
      exact Hk.
    + cbn. auto.
  - intros p pr m Hne. apply find_update_first_other. intros x Hx.
    apply rate_key_matches_iff in Hx. split.
    + eapply rate_key_matches_other; [exact Hne | exact Hx].
    + eapply rate_key_matches_other; [exact Hne|]. exact Hx.
  - reflexivity.
Qed.

Lemma store_rates_keep (l : list RateEntryInput) :
  forall db db' e,
    ~ In (rate_key e) (map rate_key l) ->
    fold_result Finance.store_rate l db = Ok db' ->
    Repo.get_rate db' (ri_performer_id e) (ri_project_id e) (ri_effective_from_month e)
    = Repo.get_rate db (ri_performer_id e) (ri_project_id e)
        (ri_effective_from_month e).
Proof.
  induction l as [|x l IH]; intros db db' e Hn; cbn [fold_result].
  - now intros [= <-].
  - destruct (Finance.store_rate db x) as [db1|] eqn:S; cbn [bind]; [|discriminate].
    intros Hl. cbn [map In] in Hn. rewrite (IH _ _ _ (fun H => Hn (or_intror H)) Hl).
    destruct (store_rate_ok _ _ _ S) as (_ & Hother & _). apply Hother.
    intros E. apply Hn. left. symmetry. exact E.
Qed.

(** After the commit every rate of a batch without duplicate keys is
    stored with the value of its column. *)
Lemma store_rates_persisted (l : list RateEntryInput) :
  NoDup (map rate_key l) ->
  forall db db',
    fold_result Finance.store_rate l db = Ok db' ->
    Forall (rate_written db) l ->
    Forall (rate_persisted db') l /\ effort_entries db' = effort_entries db.
Proof.
  induction l as [|x l IH]; intros N db db'; cbn [fold_result].
  - intros [= <-] _. split; [constructor | reflexivity].
  - cbn [map] in N. inversion N as [|? ? Hx Hl]; subst.
    destruct (Finance.store_rate db x) as [db1|] eqn:S; cbn [bind]; [|discriminate].
    intros Hrest Hall. inversion Hall as [|? ? Hex Hall']; subst.
    destruct (store_rate_ok _ _ _ S) as (Hself & Hother & He).
    assert (Hall1 : Forall (rate_written db1) l).
    { rewrite Forall_forall in *. intros e He'.
      destruct (Hall' e He') as (row & Hrow & Hv). exists row. split; [|exact Hv].
      rewrite Hother; [exact Hrow|].
      intros E. apply Hx. change (ri_performer_id e, ri_project_id e,
                                  ri_effective_from_month e) with (rate_key e) in E.
      rewrite <- E. apply in_map. exact He'. }
    destruct (IH Hl db1 db' Hrest Hall1) as [Hp He1].
    split; [|congruence]. constructor; [|exact Hp].
    destruct (Hself Hex) as (row & Hrow & Hv). exists row. split; [|exact Hv].
    now rewrite (store_rates_keep _ _ _ _ Hx Hrest).
Qed.

Lemma conflicting_In db e x r :
  In r (rates db) -> rate_overlaps r e = true -> PerformerRate.id r <> x ->
  In r (Repo.list_conflicting_rates db (ri_performer_id e) (ri_project_id e)
          (ri_effective_from_month e) (ri_effective_to_month e) (Some x)).
Proof.
  intros Hin Hov Hx. unfold Repo.list_conflicting_rates. apply filter_In.
  split; [exact Hin|]. unfold rate_overlaps in Hov. rewrite Hov. cbn [andb].
  apply negb_true_iff, Z.eqb_neq. exact Hx.
Qed.

Lemma rate_key_mismatch r e :
  rate_row_key r <> rate_key e ->
  (PerformerRate.performer_id r =? ri_performer_id e)
  && Repo.opt_uuid_eqb (PerformerRate.project_id r) (ri_project_id e)
  && (PerformerRate.effective_from_month r =? ri_effective_from_month e)%date = false.
Proof.
  intros Hne.
  destruct ((PerformerRate.performer_id r =? ri_performer_id e)
            && Repo.opt_uuid_eqb (PerformerRate.project_id r) (ri_project_id e)
            && (PerformerRate.effective_from_month r
                =? ri_effective_from_month e)%date) eqn:E; [|reflexivity].
  apply rate_key_matches_iff in E. contradiction.
Qed.

(** The write of an entry whose range meets that of a settled rate of
    another key is rejected. *)
Lemma upsert_rate_conflict project db ps e r :
  rate_settled db r -> rate_row_key r <> rate_key e -> rate_overlaps r e = true ->
  is_ok (Finance.upsert_rate project (db, ps) e) = false.
Proof.
  intros (Hin & Huniq & Hid) Hne Hov. pose proof (rate_key_mismatch r e Hne) as Hm.
  unfold Finance.upsert_rate, Repo.get_rate.
  destruct (find _ (rates db)) as [existing|] eqn:F; cbn [bind].
  - match goal with
    | |- context [Repo.list_conflicting_rates ?d _ _ _ _ (Some ?x)] =>
        assert (Hc : In r (Repo.list_conflicting_rates d (ri_performer_id e)
                             (ri_project_id e) (ri_effective_from_month e)
                             (ri_effective_to_month e) (Some x)))
    end.
    { apply conflicting_In; [|exact Hov|].
      - cbn [rates with_rates]. apply In_update_first_other; assumption.
      - cbn [PerformerRate.id]. intros E. apply find_some in F.
        destruct F as [Hex Hk]. rewrite (Huniq existing Hex (eq_sym E)) in Hk.
        congruence. }
    destruct (Repo.list_conflicting_rates _ _ _ _ _ _); [destruct Hc | reflexivity].
  - destruct (numeric 12 2 (ri_rate_value e)) as [stored|]; cbn [bind fresh_uuid];
      [|reflexivity].
    match goal with
    | |- context [Repo.list_conflicting_rates ?d _ _ _ _ (Some ?x)] =>
        assert (Hc : In r (Repo.list_conflicting_rates d (ri_performer_id e)
                             (ri_project_id e) (ri_effective_from_month e)
                             (ri_effective_to_month e) (Some x)))
    end.
    { apply conflicting_In; [|exact Hov|].
      - cbn [Repo.add_rate rates with_rates]. apply in_or_app. now left.
      - cbn [PerformerRate.id]. lia. }
    destruct (Repo.list_conflicting_rates _ _ _ _ _ _); [destruct Hc | reflexivity].
Qed.

(** An accepted write of another key leaves a settled rate settled. *)
Lemma upsert_rate_settled project db ps e r db' ps' :
  rate_settled db r -> rate_row_key r <> rate_key e ->
  Finance.upsert_rate project (db, ps) e = Ok (db', ps') ->
  rate_settled db' r.
Proof.
  intros (Hin & Huniq & Hid) Hne. pose proof (rate_key_mismatch r e Hne) as Hm.
  unfold Finance.upsert_rate, Repo.get_rate.
  destruct (find _ (rates db)) as [existing|] eqn:F; cbn [bind].
  - destruct (Repo.list_conflicting_rates _ _ _ _ _ _); [|discriminate].
    intros [= <- <-]. apply find_some in F. destruct F as [Hex Hk].
    unfold rate_settled. cbn [rates with_rates next_uuid]. split; [|split].
    + apply In_update_first_other; assumption.
    + intros r' Hr' Hi. apply In_update_first in Hr'.
      destruct Hr' as [Hr'|(y & Hy & Hp & ->)]; [now apply Huniq|].
      cbn [PerformerRate.id] in Hi. exfalso.
      rewrite (Huniq existing Hex Hi) in Hk. congruence.
    + exact Hid.
  - destruct (numeric 12 2 (ri_rate_value e)) as [stored|]; cbn [bind fresh_uuid];
      [|discriminate].
    destruct (Repo.list_conflicting_rates _ _ _ _ _ _); [|discriminate].
    intros [= <- <-].
    unfold rate_settled. cbn [Repo.add_rate rates with_rates next_uuid]. split; [|split].
    + apply in_or_app. now left.
    + intros r' Hr' Hi. apply in_app_or in Hr'. destruct Hr' as [Hr'|[<-|[]]].
      * now apply Huniq.
      * cbn [PerformerRate.id] in Hi. lia.
    + lia.
Qed.

(** A batch that leaves a settled rate alone and holds an entry whose
    range meets that of the rate is rejected by the write loop. *)
Lemma upsert_rates_conflict project (l : list RateEntryInput) :
  forall db ps r,
    rate_settled db r -> ~ In (rate_row_key r) (map rate_key l) ->
    Exists (fun e => rate_overlaps r e = true) l ->
    is_ok (fold_result (Finance.upsert_rate project) l (db, ps)) = false.
Proof.
  induction l as [|x l IH]; intros db ps r Hs Hn Hex; [inversion Hex|].
  cbn [map In] in Hn. cbn [fold_result].
  assert (Hne : rate_row_key r <> rate_key x) by (intros E; apply Hn; now left).
  destruct (Finance.upsert_rate project (db, ps) x) as [[db1 ps1]|err] eqn:E;
    cbn [bind]; [|reflexivity].
  inversion Hex as [? ? Hov|? ? Hlater]; subst.
  - pose proof (upsert_rate_conflict project db ps x r Hs Hne Hov) as Hc.
    rewrite E in Hc. discriminate.
  - apply (IH db1 ps1 r); [|tauto | exact Hlater].
    eapply upsert_rate_settled; eauto.
Qed.

Lemma transaction_rejected {A : Type} (db : DB) (body : result (DB * A)) :
  is_ok body = false -> rejected_unchanged db (transaction db body).
Proof. destruct body as [[db' a]|e]; cbn; [discriminate | split; reflexivity]. Qed.

Lemma transaction_raise_unchanged {A : Type} (db : DB) (body : result (DB * A)) e :
  snd (transaction db body) = Raise e -> fst (transaction db body) = db.
Proof. destruct body as [[db' a]|e']; cbn; [discriminate | reflexivity]. Qed.

Lemma bind_not_ok {A B : Type} (m : result A) (k : A -> result B) :
  is_ok m = false -> is_ok (x <- m ;; k x) = false.
Proof. destruct m; cbn; [discriminate | reflexivity]. Qed.

Lemma validate_matrix_entry_negative project tb pb aset s x :
  matrix_negative x = true ->
  is_ok (Planning.validate_matrix_entry project tb pb aset s x) = false.
Proof.
  unfold matrix_negative. intros Hn. destruct s as [n seen].
  unfold Planning.validate_matrix_entry.
  destruct (normalize_month_start (mi_month_start x)); cbn [bind]; [|reflexivity].
  now rewrite Hn.
Qed.

Lemma validate_matrix_entry_unknown project tb pb aset s x :
  dict_get tb (mi_task_id x) = None \/ dict_get pb (mi_performer_id x) = None ->
  is_ok (Planning.validate_matrix_entry project tb pb aset s x) = false.
Proof.
  intros Hu. destruct s as [n seen]. unfold Planning.validate_matrix_entry.
  destruct (normalize_month_start (mi_month_start x)); cbn [bind]; [|reflexivity].
  destruct (_ || _); [reflexivity|]. destruct (_ || _); [reflexivity|].
  destruct (dict_get tb (mi_task_id x)) as [task|] eqn:Et; [|reflexivity].
  destruct (negb (Task.active task)); [reflexivity|].
  destruct (dict_get pb (mi_performer_id x)) as [performer|] eqn:Eq; [|reflexivity].
  destruct Hu; discriminate.
Qed.

Lemma validate_rate_entry_unknown project lookup s x :
  dict_get lookup (ri_performer_id x) = None ->
  is_ok (Finance.validate_rate_entry project lookup s x) = false.
Proof.
  intros Hu. destruct s as [n seen]. unfold Finance.validate_rate_entry.
  destruct (normalize_month_start (ri_effective_from_month x)); cbn [bind];
    [|reflexivity].
  destruct (match ri_effective_to_month x with
            | Some t => _
            | None => _
            end); cbn [bind]; [|reflexivity].
  destruct (Finance._validate_rate_range _ _); cbn [bind]; [|reflexivity].
  destruct (Finance._validate_non_negative_amount _ _); cbn [bind]; [|reflexivity].
  now rewrite Hu.
Qed.

Lemma validate_matrix_entries_fails db project entries :
  Exists (fun x => forall tb pb aset s,
            tb = fold_left (fun d task => dict_set d (Task.id task) task)
                   (Repo.list_tasks db (Project.id project)) [] ->
            pb = fold_left (fun d p => dict_set d (Performer.id p) p)
                   (Repo.list_performers_for_project db (Project.id project)
                      (Project.business_unit_id project)) [] ->
            is_ok (Planning.validate_matrix_entry project tb pb aset s x) = false)
    entries ->
  is_ok (Planning.validate_matrix_entries db project entries) = false.
Proof.
  intros Hex. unfold Planning.validate_matrix_entries. cbv zeta.
  apply bind_not_ok. apply fold_result_fails.
  eapply Exists_impl; [|exact Hex]. intros x Hx s. now apply Hx.
Qed.

Lemma validate_rate_entries_fails db project entries :
  Exists (fun x => forall s,
            is_ok (Finance.validate_rate_entry project
                     (fold_left (fun d p => dict_set d (Performer.id p) p)
                        (Repo.list_performers_for_business_unit db
                           (Project.business_unit_id project)) [])
                     s x) = false)
    entries ->
  is_ok (Finance.validate_rate_entries db project entries) = false.
Proof.
  intros Hex. unfold Finance.validate_rate_entries. cbv zeta.
  apply bind_not_ok. now apply fold_result_fails.
Qed.

Lemma validate_matrix_entries_duplicate db project l1 e1 l2 e2 l3 :
  matrix_pkey e1 = matrix_pkey e2 ->
  is_ok (Planning.validate_matrix_entries db project (l1 ++ e1 :: l2 ++ e2 :: l3))
  = false.
Proof.
  intros Hk. unfold Planning.validate_matrix_entries. cbv zeta.
  apply bind_not_ok.
  eapply (dedup_duplicate_fails _ matrix_pkey matrix_key
            (matrix_entry_validated db project)); [|exact Hk].
  intros n seen x s'. apply validate_matrix_entry_step.
Qed.

Lemma validate_rate_entries_duplicate db project l1 e1 l2 e2 l3 :
  rate_pkey e1 = rate_pkey e2 ->
  is_ok (Finance.validate_rate_entries db project (l1 ++ e1 :: l2 ++ e2 :: l3))
  = false.
Proof.
  intros Hk. unfold Finance.validate_rate_entries. cbv zeta.
  apply bind_not_ok.
  eapply (dedup_duplicate_fails _ rate_pkey rate_key
            (rate_entry_validated db project)); [|exact Hk].
  intros n seen x s'. apply validate_rate_entry_step.
Qed.

Section BulkBodies.

Variable settings : Settings.

(** The two bulk upserts, by the outcome of their check of access. *)
Lemma bulk_upsert_matrix_entries_body db context project_id entries :
  Planning.bulk_upsert_matrix_entries settings db context project_id entries
  = transaction db
      (project <- Planning._ensure_project_access db context project_id EDIT_ROLES ;;
       normalized <- Planning.validate_matrix_entries db project entries ;;
       db1 <-
         fold_result (Planning.upsert_effort_entry (Project.id project)) normalized db ;;
       '(db2, snapshots) <-
         Planning.refresh_project_snapshots settings db1 (Project.id project) ;;
       db3 <-
         fold_result (Planning.store_effort_entry (Project.id project)) normalized db2 ;;
       Ok (db3, mkMatrixUpsertResult (Z.of_nat (List.length normalized)) snapshots)).
Proof. reflexivity. Qed.

Lemma bulk_upsert_rates_body db context project_id entries :
  Finance.bulk_upsert_rates settings db context project_id entries
  = transaction db
      (project <- Finance._ensure_project_access db context project_id EDIT_ROLES ;;
       normalized <- Finance.validate_rate_entries db project entries ;;
       '(db1, persisted) <-
         fold_result (Finance.upsert_rate project) normalized (db, []) ;;
       '(db2, _) <-
         Planning.refresh_project_snapshots settings db1 (Project.id project) ;;
       db3 <- fold_result Finance.store_rate normalized db2 ;;
       Ok (db3, map Finance.stored_rate persisted)).
Proof. reflexivity. Qed.

Lemma matrix_rejected_when_validation_fails db context project_id entries :
  (forall project,
     Planning._ensure_project_access db context project_id EDIT_ROLES = Ok project ->
     is_ok (Planning.validate_matrix_entries db project entries) = false) ->
  rejected_unchanged db
    (Planning.bulk_upsert_matrix_entries settings db context project_id entries).
Proof.
  intros Hv. rewrite bulk_upsert_matrix_entries_body. apply transaction_rejected.
  destruct (Planning._ensure_project_access db context project_id EDIT_ROLES)
    as [project|e]; cbn [bind]; [|reflexivity].
  apply bind_not_ok. now apply Hv.
Qed.

Lemma rates_rejected_when_validation_fails db context project_id entries :
  (forall project,
     Finance._ensure_project_access db context project_id EDIT_ROLES = Ok project ->
     is_ok (Finance.validate_rate_entries db project entries) = false) ->
  rejected_unchanged db
    (Finance.bulk_upsert_rates settings db context project_id entries).
Proof.
  intros Hv. rewrite bulk_upsert_rates_body. apply transaction_rejected.
  destruct (Finance._ensure_project_access db context project_id EDIT_ROLES)
    as [project|e]; cbn [bind]; [|reflexivity].
  apply bind_not_ok. now apply Hv.
Qed.

End BulkBodies.

Section BulkClaims.

Variable settings : Settings.


End BulkClaims.


(** ** The refresh inside a bulk write and the refresh after it *)

(** C5.  Two snapshot refreshes with no change of the data in between can
    return different rows.  The scenario after its first refresh: a bulk
    upsert overwrites the January entry of performer A with 1.004 planned
    person-days.  The refresh inside the request reads the 1.004 of the
    payload and returns and stores a planned cost of 200.40 for January;
    the commit stores 1.00 in the NUMERIC(10, 2) column.  The next refresh,
    with no effort entry, rate, invoice, revenue or project changed since,
    reads 1.00 and returns 200.00. *)
Theorem refresh_after_bulk_upsert_returns_other_rows :
  let out :=
    Planning.bulk_upsert_matrix_entries default_settings Scenario.db_refreshed
      Scenario.admin Scenario.project_id Scenario.batch_three_places in
  exists res entry db' rows,
    snd out = Ok res
    /\ snapshots (fst out) = result_snapshots res
    /\ map (fun s => planned_cost (ProjectMonthlySnapshot.values s))
         (result_snapshots res)
       = [Scenario.dec2 20040; Scenario.dec2 60000; Scenario.dec2 0]
    /\ Repo.get_effort_entry (fst out) Scenario.project_id Scenario.task_id
         Scenario.performer_a (Scenario.month 2026 1) = Some entry
    /\ EffortMonthlyEntry.planned_person_days entry = Scenario.dec2 100
    /\ Planning.refresh_project_snapshots default_settings (fst out)
         Scenario.project_id = Ok (db', rows)
    /\ same_facts (fst out) db'
    /\ map (fun s => planned_cost (ProjectMonthlySnapshot.values s)) rows
       = [Scenario.dec2 20000; Scenario.dec2 60000; Scenario.dec2 0]
    /\ map ProjectMonthlySnapshot.values rows
       <> map ProjectMonthlySnapshot.values (result_snapshots res).
Proof.
  cbv zeta. do 4 eexists.
  split; [vm_compute; reflexivity|].
  split; [vm_compute; reflexivity|].
  split; [vm_compute; reflexivity|].
  split; [vm_compute; reflexivity|].
  split; [vm_compute; reflexivity|].
  split; [vm_compute; reflexivity|].
  split; [vm_compute; repeat split; reflexivity|].
  split; [vm_compute; reflexivity|].
  vm_compute. intros H. discriminate H.
Qed.

(** * Further properties of the services *)

(** ** The month enumeration *)

(** X2.  On valid bounds whose range does not end in December 9999,
    [month_sequence] returns the first days of the consecutive months from
    the month of the start to the month of the end: as many as the
    calendar counts, the k-th being k months after the start, in strictly
    ascending order, each a valid first of a month; the days of the bounds
    play no part and a range that ends before it starts is empty. *)
Theorem month_sequence_enumerates_range (s e : date)
    (Vs : Date.valid s = true) (Ve : Date.valid e = true)
    (Hlast : (Date.month_index s <=? Date.month_index e)
             && (Date.month_index e =? MAX_INDEX) = false) :
  exists months,
    month_sequence s e = Ok months
    /\ List.length months
       = Z.to_nat (12 * (Date.year e - Date.year s) + (Date.month e - Date.month s) + 1)
    /\ (forall k, (k < List.length months)%nat ->
          nth_error months k
          = Some (Date.of_month_index (Date.month_index s + Z.of_nat k)))
    /\ StronglySorted (fun a b => Date.ltb a b = true) months
    /\ (forall m, In m months -> Date.valid m = true /\ Date.day m = 1)
    /\ (forall m, Date.valid m = true -> Date.day m = 1 ->
          (In m months
           <-> Date.month_index s <= Date.month_index m <= Date.month_index e))
    /\ (Date.month_index e < Date.month_index s -> months = []).
Proof.
  exists (calendar_months s e).
  pose proof (DateFacts.first_of_month_bounds s (DateFacts.valid_first s Vs)) as Bs.
  pose proof (DateFacts.first_of_month_bounds e (DateFacts.valid_first e Ve)) as Be.
  split; [|split; [|split; [|split; [|split; [|split]]]]].
  - now rewrite (DateFacts.month_sequence_valid s e Vs Ve), Hlast.
  - rewrite DateFacts.calendar_months_length. f_equal.
    unfold Date.month_index. lia.
  - intros k Hk. rewrite DateFacts.calendar_months_length in Hk.
    unfold calendar_months.
    rewrite nth_error_map, (nth_error_nth' _ 0%nat) by (now rewrite length_seq).
    cbn [option_map]. now rewrite seq_nth.
  - apply DateFacts.calendar_months_ascending.
  - intros m Hm. apply DateFacts.calendar_months_In in Hm.
    destruct Hm as (i & Hi & ->). split; [|reflexivity].
    rewrite DateFacts.valid_of_month_index.
    apply andb_true_iff. rewrite !Z.leb_le. lia.
  - intros m Vm Hd. rewrite DateFacts.calendar_months_In. split.
    + intros (i & Hi & ->). now rewrite DateFacts.month_index_of_month_index.
    + intros Hm. exists (Date.month_index m). split; [exact Hm|].
      symmetry. apply DateFacts.of_month_index_month_index; [|exact Hd].
      unfold Date.valid in Vm. rewrite !andb_true_iff, !Z.leb_le in Vm. lia.
  - intros Hlt. unfold calendar_months.
    replace (Z.to_nat _) with 0%nat by lia. reflexivity.
Qed.

(** The last quarter of 2026, from mid-October to the end of December. *)
Lemma month_sequence_enumerates_range_witness :
  (Date.valid (Date.mk 2026 10 15) = true
   /\ Date.valid (Date.mk 2026 12 31) = true
   /\ (Date.month_index (Date.mk 2026 10 15) <=? Date.month_index (Date.mk 2026 12 31))
      && (Date.month_index (Date.mk 2026 12 31) =? MAX_INDEX) = false)
  /\ exists months,
       month_sequence (Date.mk 2026 10 15) (Date.mk 2026 12 31) = Ok months
       /\ List.length months = 3%nat.
Proof.
  split; [repeat split|].
  destruct (month_sequence_enumerates_range (Date.mk 2026 10 15) (Date.mk 2026 12 31)
              eq_refl eq_refl eq_refl) as (months & Hm & Hlen & _).
  exists months. split; [exact Hm | exact Hlen].
Defined.

(** ** Rounding to two places *)

Lemma round_half_even_nearest (n d : Z) :
  0 < d ->
  2 * Z.abs (n - Dec.round_half_even n d * d) <= d
  /\ (2 * Z.abs (n - Dec.round_half_even n d * d) = d ->
      Z.even (Dec.round_half_even n d) = true).
Proof.
  intros Hd. unfold Dec.round_half_even.
  pose proof (Z.div_mod n d ltac:(lia)) as E.
  pose proof (Z.mod_pos_bound n d Hd) as B.
  destruct (Z.ltb_spec (2 * (n mod d)) d) as [H1|H1].
  - split; [nia | intros; nia].
  - destruct (Z.ltb_spec d (2 * (n mod d))) as [H2|H2].
    + split; [nia | intros; nia].
    + destruct (Z.even (n / d)) eqn:Ev.
      * split; [nia | intros _; exact Ev].
      * split; [nia|]. intros _.
        rewrite Z.add_1_r, Z.even_succ, <- Z.negb_even, Ev. reflexivity.
Qed.

(** X3.  For a value whose rounded value fits the 28 digits of the
    context (beyond them [quantize] raises InvalidOperation), [_q2] answers
    with two places, and rounding again changes nothing.  A value with at
    most two places keeps its numeric value.  A value with more places
    goes to the nearest multiple of 0.01: the error is at most half a unit
    of the second place, and exactly half only when the result's last
    digit is even. *)
Theorem q2_rounds_to_nearest_cent (x : Decimal) (Hfits : q2_fits x = true) :
  Dec.expo (_q2 x) = -2
  /\ _q2 (_q2 x) = _q2 x
  /\ (-2 <= Dec.expo x -> Dec.eqb (_q2 x) x = true)
  /\ (Dec.expo x < -2 ->
      let unit := 10 ^ (-2 - Dec.expo x) in
      2 * Z.abs (Dec.coef x - Dec.coef (_q2 x) * unit) <= unit
      /\ (2 * Z.abs (Dec.coef x - Dec.coef (_q2 x) * unit) = unit ->
          Z.even (Dec.coef (_q2 x)) = true)).
Proof.
  split; [apply q2_expo|]. split; [apply q2_idempotent|]. split.
  - intros He. destruct x as [c e]. cbn [Dec.expo] in He.
    unfold _q2, Dec.quantize, Dec.eqb, Dec.scaled, Q2; cbn [Dec.coef Dec.expo].
    destruct (Z.leb_spec (-2) e); [|lia]. cbn [Dec.coef Dec.expo].
    rewrite Z.min_l by lia. rewrite Z.sub_diag, Z.pow_0_r, Z.mul_1_r.
    apply Z.eqb_refl.
  - intros He. cbv zeta. destruct x as [c e]. cbn [Dec.expo] in He.
    unfold _q2, Dec.quantize, Q2; cbn [Dec.coef Dec.expo].
    destruct (Z.leb_spec (-2) e); [lia|]. cbn [Dec.coef].
    apply round_half_even_nearest. apply pow10_pos. lia.
Qed.

(** 1.005 is a tie between 1.00 and 1.01 and goes to 1.00, the even one;
    1.015 goes to 1.02. *)
Lemma q2_rounds_to_nearest_cent_witness :
  q2_fits (Dec.mk 1005 (-3)) = true
  /\ _q2 (Dec.mk 1005 (-3)) = Dec.mk 100 (-2)
  /\ _q2 (Dec.mk 1015 (-3)) = Dec.mk 102 (-2)
  /\ Z.even (Dec.coef (_q2 (Dec.mk 1005 (-3)))) = true.
Proof.
  split; [reflexivity|]. split; [reflexivity|]. split; [reflexivity|].
  destruct (q2_rounds_to_nearest_cent (Dec.mk 1005 (-3)) eq_refl) as (_ & _ & _ & H).
  apply (H ltac:(cbn; lia)). reflexivity.
Defined.


(** ** Access control *)

Lemma mem_incl {K : Type} `{EqType K} (x : K) (a b : list K) :
  (forall y, In y a -> In y b) -> mem x a = true -> mem x b = true.
Proof. intros Hab Hx. apply mem_In. apply Hab. now apply mem_In. Qed.

(** X4.  Access to a business unit is granted only to a super
    administrator (when the operation admits that role) or to the holder
    of an admitted role assigned for that very business unit; admitting
    more roles never takes access away, so whoever may edit may view; a
    super administrator may view and edit every business unit, and a
    context without role assignments may do neither anywhere. *)
Theorem business_unit_access_is_scoped
    (context : RequestUserContext) (business_unit_id : UUID) :
  (forall allowed,
     has_business_unit_access context business_unit_id allowed = true ->
     (is_super_admin context = true /\ In SUPER_ADMIN allowed)
     \/ (is_super_admin context = false
         /\ exists assignment,
              In assignment (roles context)
              /\ role_business_unit_id assignment = Some business_unit_id
              /\ In (role assignment) allowed))
  /\ (forall allowed allowed',
        (forall r, In r allowed -> In r allowed') ->
        has_business_unit_access context business_unit_id allowed = true ->
        has_business_unit_access context business_unit_id allowed' = true)
  /\ (has_business_unit_access context business_unit_id EDIT_ROLES = true ->
      has_business_unit_access context business_unit_id VIEW_ROLES = true)
  /\ (is_super_admin context = true ->
      has_business_unit_access context business_unit_id EDIT_ROLES = true
      /\ has_business_unit_access context business_unit_id VIEW_ROLES = true)
  /\ (roles context = [] ->
      forall allowed, has_business_unit_access context business_unit_id allowed = false).
Proof.
  assert (Hmono : forall allowed allowed',
             (forall r, In r allowed -> In r allowed') ->
             has_business_unit_access context business_unit_id allowed = true ->
             has_business_unit_access context business_unit_id allowed' = true).
  { intros allowed allowed' Hsub. unfold has_business_unit_access.
    destruct (is_super_admin context).
    - now apply mem_incl.
    - rewrite !existsb_exists. intros (a & Ha & Hp). exists a. split; [exact Ha|].
      apply andb_true_iff in Hp. destruct Hp as [Hb Hr].
      rewrite Hb. cbn [andb]. now apply (mem_incl _ allowed). }
  split; [|split; [exact Hmono|split; [|split]]].
  - intros allowed. unfold has_business_unit_access.
    destruct (is_super_admin context).
    + intros Hm. left. split; [reflexivity | now apply mem_In].
    + rewrite existsb_exists. intros (a & Ha & Hp). right. split; [reflexivity|].
      apply andb_true_iff in Hp. destruct Hp as [Hb Hr].
      exists a. split; [exact Ha|]. split; [now apply eqk_true in Hb | now apply mem_In].
  - apply Hmono. unfold EDIT_ROLES, VIEW_ROLES. cbn [In]. tauto.
  - intros Hs. unfold has_business_unit_access. rewrite Hs. split; reflexivity.
  - intros Hr allowed. unfold has_business_unit_access, is_super_admin.
    rewrite Hr. reflexivity.
Qed.

Section AccessClaims.

Variable settings : Settings.

(** X5.  No write without the right to edit: for a caller who may not
    edit the business unit of an existing project, every operation of the
    two services that changes the project, its stages, tasks, performers,
    assignments, matrix entries, rates or financial registers answers 403
    and leaves the store as it was, whatever the payload; so does
    [create_project] in a business unit that the caller may not edit. *)
Theorem writes_require_edit_access
    (db : DB) (context : RequestUserContext) (project_id : UUID) (project : Project.t)
    (Hproject : Repo.get_project db project_id = Some project)
    (Hdenied : has_business_unit_access context (Project.business_unit_id project)
                 EDIT_ROLES = false) :
  (forall data,
      Planning.update_project settings db context project_id data
      = (db, Raise forbidden))
  /\ Planning.delete_project db context project_id = (db, Raise forbidden)
  /\ (forall data,
         Planning.create_stage db context project_id data = (db, Raise forbidden))
  /\ (forall stage_id data,
         Planning.update_stage db context project_id stage_id data
         = (db, Raise forbidden))
  /\ (forall stage_id,
         Planning.delete_stage db context project_id stage_id = (db, Raise forbidden))
  /\ (forall data,
         Planning.create_task db context project_id data = (db, Raise forbidden))
  /\ (forall task_id data,
         Planning.update_task db context project_id task_id data
         = (db, Raise forbidden))
  /\ (forall task_id,
         Planning.delete_task db context project_id task_id = (db, Raise forbidden))
  /\ (forall data,
         Planning.create_project_performer db context project_id data
         = (db, Raise forbidden))
  /\ (forall performer_id data,
         Planning.update_project_performer db context project_id performer_id data
         = (db, Raise forbidden))
  /\ (forall performer_id,
         Planning.delete_project_performer db context project_id performer_id
         = (db, Raise forbidden))
  /\ (forall data,
         Planning.create_assignment db context project_id data = (db, Raise forbidden))
  /\ (forall task_id performer_id,
         Planning.delete_assignment db context project_id task_id performer_id
         = (db, Raise forbidden))
  /\ (forall entries,
         Planning.bulk_upsert_matrix_entries settings db context project_id entries
         = (db, Raise forbidden))
  /\ (forall entries,
         Finance.bulk_upsert_rates settings db context project_id entries
         = (db, Raise forbidden))
  /\ (forall data,
         Finance.create_financial_request settings db context project_id data
         = (db, Raise forbidden))
  /\ (forall data,
         Finance.create_invoice settings db context project_id data
         = (db, Raise forbidden))
  /\ (forall data,
         Finance.create_revenue settings db context project_id data
         = (db, Raise forbidden))
  /\ (forall data,
         Repo.get_business_unit db (Project.business_unit_id project) <> None ->
         Planning.create_project db context (Project.business_unit_id project) data
         = (db, Raise forbidden)).
Proof.
  assert (Hp : Planning._ensure_project_access db context project_id EDIT_ROLES
               = Raise forbidden).
  { unfold Planning._ensure_project_access. now rewrite Hproject, Hdenied. }
  assert (Hf : Finance._ensure_project_access db context project_id EDIT_ROLES
               = Raise forbidden).
  { unfold Finance._ensure_project_access. now rewrite Hproject, Hdenied. }
  repeat apply conj; intros;
    try (unfold Planning.update_project, Planning.delete_project, Planning.create_stage,
           Planning.update_stage, Planning.delete_stage, Planning.create_task,
           Planning.update_task, Planning.delete_task,
           Planning.create_project_performer, Planning.update_project_performer,
           Planning.delete_project_performer, Planning.create_assignment,
           Planning.delete_assignment, Planning.bulk_upsert_matrix_entries;
         rewrite Hp; reflexivity);
    try (unfold Finance.bulk_upsert_rates, Finance.create_financial_request,
           Finance.create_invoice, Finance.create_revenue;
         rewrite Hf; reflexivity).
  unfold Planning.create_project, Planning.ensure_can_edit_business_unit.
  destruct (Repo.get_business_unit db (Project.business_unit_id project));
    [|contradiction].
  now rewrite Hdenied.
Qed.


End AccessClaims.

(** The scenario: the viewer of the unit may read but not write, and the
    editor of another unit may do neither. *)
Lemma writes_require_edit_access_witness :
  (Repo.get_project Scenario.db Scenario.project_id = Some Scenario.project
   /\ has_business_unit_access Scenario.viewer (Project.business_unit_id Scenario.project)
        EDIT_ROLES = false)
  /\ Planning.delete_project Scenario.db Scenario.viewer Scenario.project_id
     = (Scenario.db, Raise forbidden)
  /\ Finance.bulk_upsert_rates default_settings Scenario.db Scenario.viewer
       Scenario.project_id [Scenario.rate_entry_overlapping]
     = (Scenario.db, Raise forbidden).
Proof.
  assert (H1 : Repo.get_project Scenario.db Scenario.project_id
               = Some Scenario.project) by reflexivity.
  assert (H2 : has_business_unit_access Scenario.viewer
                 (Project.business_unit_id Scenario.project) EDIT_ROLES = false)
    by reflexivity.
  split; [exact (conj H1 H2)|].
  pose proof (writes_require_edit_access default_settings Scenario.db Scenario.viewer
                Scenario.project_id Scenario.project H1 H2) as H.
  split; [apply H|]. apply H.
Defined.


(** ** Projects and stages *)

Lemma normalize_month_start_ok (d m : date) :
  normalize_month_start d = Ok m -> m = d /\ month_start_ok d = true.
Proof.
  unfold normalize_month_start, month_start_ok, Date.is_month_start.
  destruct (Z.eqb_spec (Date.day d) 1) as [E|N]; cbn [negb]; [|discriminate].
  unfold Date.new. destruct d as [y mo dd]. cbn [Date.year Date.month Date.day] in *.
  subst dd. destruct (Date.valid (Date.mk y mo 1)); [|discriminate].
  intros [= <-]. auto.
Qed.

Lemma optional_month_ok (given : option date) (stored m : date) :
  month_start_ok stored = true ->
  match given with
  | Some d => normalize_month_start d
  | None => Ok stored
  end = Ok m ->
  month_start_ok m = true.
Proof.
  intros Hs. destruct given as [d|].
  - intros H. apply normalize_month_start_ok in H. destruct H as [-> H]. exact H.
  - now intros [= <-].
Qed.

Lemma count_zero {A : Type} (p : A -> bool) (rows : list A) (x : A) :
  List.length (filter p rows) = 0%nat -> In x rows -> p x = false.
Proof.
  intros Hl Hin. destruct (p x) eqn:E; [|reflexivity].
  assert (Hx : In x (filter p rows)) by (apply filter_In; auto).
  destruct (filter p rows); [destruct Hx | discriminate].
Qed.

Section StructureClaims.

Variable settings : Settings.

(** X7.  [update_project] never leaves an effort entry of the project
    outside the project's month range.  When it returns, the project is
    stored with a range that starts no later than it ends, every effort
    entry of the project lies within that range, and no effort entry,
    rate, invoice or revenue has changed.  When an effort entry of the
    project lies outside the requested range, the request is answered 422
    and the store stays as it was. *)
Theorem update_project_keeps_effort_within_range
    (db : DB) (context : RequestUserContext) (project_id : UUID)
    (data : ProjectUpdateData) :
  let out := Planning.update_project settings db context project_id data in
  (forall updated,
      snd out = Ok updated ->
      Repo.get_project (fst out) project_id = Some updated
      /\ Date.ltb (Project.end_month updated) (Project.start_month updated) = false
      /\ (forall e, In e (effort_entries (fst out)) ->
            EffortMonthlyEntry.project_id e = project_id ->
            Date.ltb (EffortMonthlyEntry.month_start e) (Project.start_month updated)
            = false
            /\ Date.ltb (Project.end_month updated) (EffortMonthlyEntry.month_start e)
               = false)
      /\ same_facts
           (with_projects db
              (update_first (fun p => Project.id p =? project_id) (fun _ => updated)
                 (projects db)))
           (fst out))
  /\ (forall project target_start target_end e,
         Planning._ensure_project_access db context project_id EDIT_ROLES = Ok project ->
         match pu_start_month data with
         | Some d => normalize_month_start d
         | None => Ok (Project.start_month project)
         end = Ok target_start ->
         match pu_end_month data with
         | Some d => normalize_month_start d
         | None => Ok (Project.end_month project)
         end = Ok target_end ->
         Date.ltb target_end target_start = false ->
         In e (effort_entries db) ->
         EffortMonthlyEntry.project_id e = project_id ->
         Date.ltb (EffortMonthlyEntry.month_start e) target_start
         || Date.ltb target_end (EffortMonthlyEntry.month_start e) = true ->
         out = (db, Raise (HTTPException HTTP_422_UNPROCESSABLE_ENTITY
                             "Cannot shrink project month range while effort entries exist outside new range."))).
Proof.
  cbv zeta. unfold Planning.update_project. split.
  - intros updated.
    destruct (Planning._ensure_project_access db context project_id EDIT_ROLES)
      as [project|err] eqn:Ha; cbn [bind transaction snd]; [|discriminate].
    assert (Hget : Repo.get_project db project_id = Some project).
    { unfold Planning._ensure_project_access in Ha.
      destruct (Repo.get_project db project_id); [|discriminate].
      destruct (negb _); [discriminate | congruence]. }
    pose proof (get_project_id _ _ _ Hget) as Hid.
    destruct (match pu_start_month data with Some _ => _ | None => _ end)
      as [target_start|err]; cbn [bind transaction snd]; [|discriminate].
    destruct (match pu_end_month data with Some _ => _ | None => _ end)
      as [target_end|err]; cbn [bind transaction snd]; [|discriminate].
    destruct (Date.ltb target_end target_start) eqn:Hord;
      cbn [transaction snd]; [discriminate|].
    destruct (Z.eqb_spec
                (Repo.effort_outside_project_range_count db (Project.id project)
                   target_start target_end) 0) as [Hcount|Hcount];
      cbn [negb transaction snd]; [|discriminate].
    destruct (Planning.project_code_taken _ _ _ _); cbn [transaction snd];
      [discriminate|].
    destruct (Planning.refresh_project_snapshots settings _ (Project.id project))
      as [[db3 rows]|err] eqn:Hr; cbn [bind transaction fst snd]; [|discriminate].
    intros [= <-].
    pose proof (refresh_same_facts _ _ _ _ _ Hr) as Hf.
    assert (Hf' : same_facts
                    (with_projects db
                       (update_first (fun p => Project.id p =? project_id)
                          (fun _ =>
                             Project.mk (Project.id project)
                               (Project.business_unit_id project)
                               match pu_code data with
                               | Some c => str_strip c
                               | None => Project.code project
                               end
                               match pu_name data with
                               | Some n => str_strip n
                               | None => Project.name project
                               end
                               match pu_description data with
                               | Some d => strip_or_none (Some d)
                               | None => Project.description project
                               end
                               target_start target_end
                               (or_default (pu_status data) (Project.status project)))
                          (projects db)))
                    db3).
    { eapply same_facts_trans; [|exact Hf]. apply delete_same_facts. }
    destruct Hf' as (Hp & He & Hrest).
    cbn [projects effort_entries with_projects] in Hp, He.
    split; [|split; [|split]].
    + unfold Repo.get_project. rewrite <- Hp.
      apply (find_update_first_same _ (fun _ => _) _ _ Hget).
      cbn [Project.id]. rewrite Hid. apply Z.eqb_refl.
    + exact Hord.
    + intros e Hin Hpe. rewrite <- He in Hin. cbn [Project.start_month Project.end_month].
      unfold Repo.effort_outside_project_range_count in Hcount.
      assert (Hl : List.length
                     (filter
                        (fun e0 =>
                           (EffortMonthlyEntry.project_id e0 =? Project.id project)
                           && (Date.ltb (EffortMonthlyEntry.month_start e0) target_start
                               || Date.ltb target_end (EffortMonthlyEntry.month_start e0)))
                        (effort_entries db)) = 0%nat) by lia.
      pose proof (count_zero _ _ e Hl Hin) as Hz. cbn beta in Hz.
      rewrite Hpe, Hid, Z.eqb_refl in Hz. cbn [andb] in Hz.
      now apply orb_false_iff in Hz.
    + repeat split; try apply Hrest; assumption.
  - intros project target_start target_end e Ha Hs He Hord Hin Hpe Hout.
    rewrite Ha. cbn [bind]. rewrite Hs. cbn [bind]. rewrite He. cbn [bind].
    rewrite Hord.
    assert (Hget : Repo.get_project db project_id = Some project).
    { unfold Planning._ensure_project_access in Ha.
      destruct (Repo.get_project db project_id); [|discriminate].
      destruct (negb _); [discriminate | congruence]. }
    pose proof (get_project_id _ _ _ Hget) as Hid.
    destruct (Z.eqb_spec
                (Repo.effort_outside_project_range_count db (Project.id project)
                   target_start target_end) 0) as [Hcount|Hcount];
      cbn [negb transaction]; [|reflexivity].
    exfalso. unfold Repo.effort_outside_project_range_count in Hcount.
    assert (Hl : List.length
                   (filter
                      (fun e0 =>
                         (EffortMonthlyEntry.project_id e0 =? Project.id project)
                         && (Date.ltb (EffortMonthlyEntry.month_start e0) target_start
                             || Date.ltb target_end (EffortMonthlyEntry.month_start e0)))
                      (effort_entries db)) = 0%nat) by lia.
    pose proof (count_zero _ _ e Hl Hin) as Hz. cbn beta in Hz.
    rewrite Hpe, Hid, Z.eqb_refl, Hout in Hz. discriminate.
Qed.

(** Whatever [_ensure_project_access] returns is the stored project. *)
Lemma ensure_project_access_ok db context project_id roles project :
  Planning._ensure_project_access db context project_id roles = Ok project ->
  Repo.get_project db project_id = Some project
  /\ Project.id project = project_id
  /\ has_business_unit_access context (Project.business_unit_id project) roles = true.
Proof.
  unfold Planning._ensure_project_access.
  destruct (Repo.get_project db project_id) as [p|] eqn:Hget; [|discriminate].
  destruct (has_business_unit_access context (Project.business_unit_id p) roles) eqn:Ha;
    cbn [negb]; [|discriminate].
  intros [= <-]. split; [reflexivity|]. split; [|exact Ha].
  exact (get_project_id _ _ _ Hget).
Qed.

(** X8.  A stage that [create_stage] or [update_stage] stores belongs to
    the project, starts no later than it ends and lies within the month
    range of the project; a created stage starts and ends on valid first
    days of months and is appended to the stages, an updated stage keeps
    its identifier and is the stage that a lookup by that identifier
    finds afterwards. *)
Theorem stored_stage_lies_within_project_range
    (db : DB) (context : RequestUserContext) (project_id : UUID) :
  (forall data stage,
      snd (Planning.create_stage db context project_id data) = Ok stage ->
      exists project,
        Repo.get_project db project_id = Some project
        /\ ProjectStage.project_id stage = project_id
        /\ month_start_ok (ProjectStage.start_month stage) = true
        /\ month_start_ok (ProjectStage.end_month stage) = true
        /\ Date.ltb (ProjectStage.end_month stage) (ProjectStage.start_month stage)
           = false
        /\ Date.ltb (ProjectStage.start_month stage) (Project.start_month project)
           = false
        /\ Date.ltb (Project.end_month project) (ProjectStage.end_month stage) = false
        /\ stages (fst (Planning.create_stage db context project_id data))
           = stages db ++ [stage])
  /\ (forall stage_id data stage,
         snd (Planning.update_stage db context project_id stage_id data) = Ok stage ->
         exists project,
           Repo.get_project db project_id = Some project
           /\ ProjectStage.id stage = stage_id
           /\ ProjectStage.project_id stage = project_id
           /\ Date.ltb (ProjectStage.end_month stage) (ProjectStage.start_month stage)
              = false
           /\ Date.ltb (ProjectStage.start_month stage) (Project.start_month project)
              = false
           /\ Date.ltb (Project.end_month project) (ProjectStage.end_month stage)
              = false
           /\ Repo.get_stage
                (fst (Planning.update_stage db context project_id stage_id data))
                stage_id = Some stage).
Proof.
  split.
  - intros data stage. unfold Planning.create_stage.
    destruct (Planning._ensure_project_access db context project_id EDIT_ROLES)
      as [project|err] eqn:Ha; cbn [bind transaction snd]; [|discriminate].
    destruct (ensure_project_access_ok _ _ _ _ _ Ha) as (Hget & Hid & _).
    destruct (normalize_month_start (sc_start_month data)) as [s|err] eqn:Hs;
      cbn [bind transaction snd]; [|discriminate].
    destruct (normalize_month_start (sc_end_month data)) as [e|err] eqn:He;
      cbn [bind transaction snd]; [|discriminate].
    apply normalize_month_start_ok in Hs, He. destruct Hs as [-> Hs], He as [-> He].
    destruct (Date.ltb (sc_end_month data) (sc_start_month data)) eqn:Hord;
      cbn [transaction snd]; [discriminate|].
    destruct (Date.ltb (sc_start_month data) (Project.start_month project)) eqn:H1;
      cbn [orb transaction snd]; [discriminate|].
    destruct (Date.ltb (Project.end_month project) (sc_end_month data)) eqn:H2;
      cbn [transaction fst snd]; [discriminate|].
    intros [= <-]. exists project.
    cbn [ProjectStage.project_id ProjectStage.start_month ProjectStage.end_month
         fresh_uuid Repo.add_stage with_stages stages].
    repeat split; assumption.
  - intros stage_id data stage. unfold Planning.update_stage.
    destruct (Planning._ensure_project_access db context project_id EDIT_ROLES)
      as [project|err] eqn:Ha; cbn [bind transaction snd]; [|discriminate].
    destruct (ensure_project_access_ok _ _ _ _ _ Ha) as (Hget & Hid & _).
    destruct (Repo.get_stage db stage_id) as [old|] eqn:Hold;
      cbn [transaction snd]; [|discriminate].
    destruct (Z.eqb_spec (ProjectStage.project_id old) (Project.id project))
      as [Hop|Hop]; cbn [negb transaction snd]; [|discriminate].
    destruct (match su_start_month data with Some _ => _ | None => _ end)
      as [s|err]; cbn [bind transaction snd]; [|discriminate].
    destruct (match su_end_month data with Some _ => _ | None => _ end)
      as [e|err]; cbn [bind transaction snd]; [|discriminate].
    destruct (Date.ltb e s) eqn:Hord; cbn [transaction snd]; [discriminate|].
    destruct (Date.ltb s (Project.start_month project)) eqn:H1;
      cbn [orb transaction snd]; [discriminate|].
    destruct (Date.ltb (Project.end_month project) e) eqn:H2;
      cbn [transaction fst snd]; [discriminate|].
    intros [= <-]. exists project.
    cbn [ProjectStage.id ProjectStage.project_id ProjectStage.start_month
         ProjectStage.end_month with_stages stages].
    pose proof Hold as Hfound. unfold Repo.get_stage in Hfound.
    apply find_some in Hfound. destruct Hfound as [_ Hsid]. apply Z.eqb_eq in Hsid.
    repeat split; try assumption; try congruence.
    unfold Repo.get_stage. cbn [stages].
    apply (find_update_first_same _ (fun _ => _) _ _ Hold).
    cbn [ProjectStage.id]. now apply Z.eqb_eq.
Qed.

End StructureClaims.

(** The scenario: the project is renamed, and its range and effort
    entries stay as they were. *)
Lemma update_project_keeps_effort_within_range_witness :
  exists updated,
    snd (Planning.update_project default_settings Scenario.db Scenario.admin
           Scenario.project_id Scenario.project_rename) = Ok updated
    /\ Repo.get_project
         (fst (Planning.update_project default_settings Scenario.db Scenario.admin
                 Scenario.project_id Scenario.project_rename))
         Scenario.project_id = Some updated
    /\ Date.ltb (Project.end_month updated) (Project.start_month updated) = false.
Proof.
  eexists. split; [vm_compute; reflexivity|].
  pose proof (update_project_keeps_effort_within_range default_settings Scenario.db
                Scenario.admin Scenario.project_id Scenario.project_rename) as H.
  cbv zeta in H. destruct H as [H _].
  destruct (H _ ltac:(vm_compute; reflexivity)) as (H1 & H2 & _).
  exact (conj H1 H2).
Defined.

(** The scenario: a second stage from February to March. *)
Lemma stored_stage_lies_within_project_range_witness :
  exists stage,
    snd (Planning.create_stage Scenario.db Scenario.admin Scenario.project_id
           Scenario.stage_two) = Ok stage
    /\ exists project,
         Repo.get_project Scenario.db Scenario.project_id = Some project
         /\ ProjectStage.project_id stage = Scenario.project_id
         /\ month_start_ok (ProjectStage.start_month stage) = true
         /\ month_start_ok (ProjectStage.end_month stage) = true
         /\ Date.ltb (ProjectStage.end_month stage) (ProjectStage.start_month stage)
            = false
         /\ Date.ltb (ProjectStage.start_month stage) (Project.start_month project)
            = false
         /\ Date.ltb (Project.end_month project) (ProjectStage.end_month stage) = false
         /\ stages (fst (Planning.create_stage Scenario.db Scenario.admin
                           Scenario.project_id Scenario.stage_two))
            = stages Scenario.db ++ [stage].
Proof.
  eexists. split; [vm_compute; reflexivity|].
  apply (proj1 (stored_stage_lies_within_project_range Scenario.db Scenario.admin
                  Scenario.project_id) Scenario.stage_two).
  vm_compute. reflexivity.
Defined.

(** ** Deleting structure rows *)

Lemma count_positive {A : Type} (p : A -> bool) (rows : list A) :
  (0 <? Repo.count p rows) = existsb p rows.
Proof.
  unfold Repo.count. induction rows as [|x rows IH]; [reflexivity|].
  cbn [filter existsb]. destruct (p x); cbn [orb List.length]; [|exact IH].
  apply Z.ltb_lt. lia.
Qed.

Lemma find_filter_out {A : Type} (p keep : A -> bool) (rows : list A) :
  (forall x, p x = true -> keep x = false) -> find p (filter keep rows) = None.
Proof.
  intros H. induction rows as [|x rows IH]; [reflexivity|]. cbn [filter].
  destruct (keep x) eqn:K; [|exact IH]. cbn [find].
  destruct (p x) eqn:P; [|exact IH]. rewrite (H x P) in K. discriminate.
Qed.

Lemma existsb_false_In {A : Type} (p : A -> bool) (rows : list A) (x : A) :
  existsb p rows = false -> In x rows -> p x = false.
Proof.
  intros H Hin. destruct (p x) eqn:E; [|reflexivity].
  assert (existsb p rows = true) by (apply existsb_exists; eauto). congruence.
Qed.

(** X9.  The guards of [delete_stage], [delete_task] and
    [delete_assignment] cover every row that refers to what they delete:
    these operations either return or answer with an [HTTPException] (and
    then leave the store as it was), never with an error of the database.
    When they return, the row is gone, no task refers to the deleted
    stage, no assignment or effort entry refers to the deleted task, no
    effort entry is left on the deleted pair, and the other rows of the
    table are as before. *)
Theorem guarded_deletes_leave_no_dangling_reference
    (db : DB) (context : RequestUserContext) (project_id : UUID) :
  (forall stage_id,
      let out := Planning.delete_stage db context project_id stage_id in
      match snd out with
      | Ok _ =>
          Repo.get_stage (fst out) stage_id = None
          /\ stages (fst out)
             = filter (fun s => negb (ProjectStage.id s =? stage_id)) (stages db)
          /\ tasks (fst out) = tasks db
          /\ (forall t, In t (tasks (fst out)) -> Task.stage_id t <> stage_id)
      | Raise _ => answered (snd out) /\ fst out = db
      end)
  /\ (forall task_id,
         let out := Planning.delete_task db context project_id task_id in
         match snd out with
         | Ok _ =>
             Repo.get_task (fst out) task_id = None
             /\ tasks (fst out)
                = filter (fun t => negb (Task.id t =? task_id)) (tasks db)
             /\ assignments (fst out) = assignments db
             /\ effort_entries (fst out) = effort_entries db
             /\ (forall a, In a (assignments (fst out)) ->
                   TaskPerformerAssignment.task_id a <> task_id)
             /\ (forall e, In e (effort_entries (fst out)) ->
                   EffortMonthlyEntry.task_id e <> task_id)
         | Raise _ => answered (snd out) /\ fst out = db
         end)
  /\ (forall task_id performer_id,
         let out :=
           Planning.delete_assignment db context project_id task_id performer_id in
         match snd out with
         | Ok _ =>
             exists assignment,
               Repo.get_assignment db task_id performer_id = Some assignment
               /\ assignments (fst out)
                  = filter
                      (fun a => negb (TaskPerformerAssignment.id a
                                      =? TaskPerformerAssignment.id assignment))
                      (assignments db)
               /\ effort_entries (fst out) = effort_entries db
               /\ (forall e, In e (effort_entries (fst out)) ->
                     ~ (EffortMonthlyEntry.task_id e = task_id
                        /\ EffortMonthlyEntry.performer_id e = performer_id))
         | Raise _ => answered (snd out) /\ fst out = db
         end).
Proof.
  split; [|split].
  - intros stage_id. cbv zeta. unfold Planning.delete_stage.
    destruct (Planning._ensure_project_access db context project_id EDIT_ROLES)
      as [project|[c d|m|m|m|m]] eqn:Ha; cbn [bind transaction fst snd answered];
      try (unfold Planning._ensure_project_access in Ha;
           destruct (Repo.get_project db project_id); [|discriminate];
           destruct (negb _); discriminate);
      [|now split].
    destruct (Repo.get_stage db stage_id) as [stage|] eqn:Hs;
      cbn [transaction fst snd answered]; [|now split].
    destruct (negb _); cbn [transaction fst snd answered]; [now split|].
    assert (Hid : ProjectStage.id stage = stage_id).
    { unfold Repo.get_stage in Hs. apply find_some in Hs. now apply Z.eqb_eq. }
    unfold Repo.task_count_in_stage. rewrite count_positive.
    unfold Repo.delete_stage, Repo.stage_is_referenced. rewrite Hid.
    destruct (existsb (fun t => Task.stage_id t =? stage_id) (tasks db)) eqn:Ht;
      cbn [bind transaction fst snd answered]; [now split|].
    cbn [stages tasks with_stages]. repeat split.
    + unfold Repo.get_stage. cbn [stages]. apply find_filter_out.
      intros x Hx. now rewrite Hx.
    + intros t Hin E. pose proof (existsb_false_In _ _ t Ht Hin) as Hf.
      cbn beta in Hf. rewrite E, Z.eqb_refl in Hf. discriminate.
  - intros task_id. cbv zeta. unfold Planning.delete_task.
    destruct (Planning._ensure_project_access db context project_id EDIT_ROLES)
      as [project|[c d|m|m|m|m]] eqn:Ha; cbn [bind transaction fst snd answered];
      try (unfold Planning._ensure_project_access in Ha;
           destruct (Repo.get_project db project_id); [|discriminate];
           destruct (negb _); discriminate);
      [|now split].
    destruct (Repo.get_task db task_id) as [task|] eqn:Hs;
      cbn [transaction fst snd answered]; [|now split].
    destruct (negb _); cbn [transaction fst snd answered]; [now split|].
    assert (Hid : Task.id task = task_id).
    { unfold Repo.get_task in Hs. apply find_some in Hs. now apply Z.eqb_eq. }
    unfold Repo.assignment_count_for_task, Repo.effort_count_for_task.
    rewrite !count_positive.
    unfold Repo.delete_task, Repo.task_is_referenced. rewrite Hid.
    destruct (existsb (fun a => TaskPerformerAssignment.task_id a =? task_id)
                (assignments db)) eqn:H1;
      cbn [orb bind transaction fst snd answered]; [now split|].
    destruct (existsb (fun e => EffortMonthlyEntry.task_id e =? task_id)
                (effort_entries db)) eqn:H2;
      cbn [bind transaction fst snd answered]; [now split|].
    cbn [tasks assignments effort_entries with_tasks]. repeat split.
    + unfold Repo.get_task. cbn [tasks]. apply find_filter_out.
      intros x Hx. now rewrite Hx.
    + intros a Hin E. pose proof (existsb_false_In _ _ a H1 Hin) as Hf.
      cbn beta in Hf. rewrite E, Z.eqb_refl in Hf. discriminate.
    + intros e Hin E. pose proof (existsb_false_In _ _ e H2 Hin) as Hf.
      cbn beta in Hf. rewrite E, Z.eqb_refl in Hf. discriminate.
  - intros task_id performer_id. cbv zeta. unfold Planning.delete_assignment.
    destruct (Planning._ensure_project_access db context project_id EDIT_ROLES)
      as [project|[c d|m|m|m|m]] eqn:Ha; cbn [bind transaction fst snd answered];
      try (unfold Planning._ensure_project_access in Ha;
           destruct (Repo.get_project db project_id); [|discriminate];
           destruct (negb _); discriminate);
      [|now split].
    destruct (Repo.get_task db task_id) as [task|];
      cbn [transaction fst snd answered]; [|now split].
    destruct (negb _); cbn [transaction fst snd answered]; [now split|].
    destruct (Repo.get_performer db performer_id) as [performer|];
      cbn [transaction fst snd answered]; [|now split].
    destruct (negb _); cbn [transaction fst snd answered]; [now split|].
    destruct (Repo.get_assignment db task_id performer_id) as [assignment|] eqn:Hg;
      cbn [transaction fst snd answered]; [|now split].
    unfold Repo.effort_count_for_assignment. rewrite count_positive.
    destruct (existsb _ (effort_entries db)) eqn:He;
      cbn [transaction fst snd answered]; [now split|].
    exists assignment. cbn [Repo.delete_assignment assignments effort_entries
                            with_assignments].
    repeat split.
    intros e Hin [E1 E2]. pose proof (existsb_false_In _ _ e He Hin) as Hf.
    cbn beta in Hf. rewrite E1, E2, !Z.eqb_refl in Hf. discriminate.
Qed.

(** X10.  [delete_project] and [delete_project_performer] return only
    when no row of any table refers to what they delete, and then the row
    is gone.  When none of the guards fires (no stage, task, effort entry
    or snapshot of the project; no assignment or effort entry of the
    performer), a rate, financial request, invoice or revenue that still
    refers to the project, or a rate that still refers to the performer,
    is covered by no guard: the delete is refused by the database, the
    operation ends in [IntegrityError] and the store stays as it was. *)
Theorem unguarded_references_surface_as_database_errors
    (db : DB) (context : RequestUserContext) (project_id : UUID) (project : Project.t)
    (Haccess : Planning._ensure_project_access db context project_id EDIT_ROLES
               = Ok project) :
  (snd (Planning.delete_project db context project_id) = Ok tt ->
   Repo.project_is_referenced db project_id = false
   /\ Repo.get_project (fst (Planning.delete_project db context project_id)) project_id
      = None)
  /\ (Repo.stage_count_for_project db project_id = 0 ->
      Repo.task_count_for_project db project_id = 0 ->
      Repo.effort_count_for_project db project_id = 0 ->
      Repo.snapshot_count_for_project db project_id = 0 ->
      Repo.project_is_referenced db project_id = true ->
      Planning.delete_project db context project_id
      = (db, Raise (IntegrityError "foreign key on projects.id")))
  /\ (forall performer_id,
         snd (Planning.delete_project_performer db context project_id performer_id)
         = Ok tt ->
         Repo.performer_is_referenced db performer_id = false
         /\ Repo.get_performer
              (fst (Planning.delete_project_performer db context project_id
                      performer_id)) performer_id = None)
  /\ (forall performer_id performer rate,
         Repo.get_performer db performer_id = Some performer ->
         Performer.business_unit_id performer = Project.business_unit_id project ->
         Repo.assignment_count_for_performer db performer_id = 0 ->
         Repo.effort_count_for_performer db performer_id = 0 ->
         In rate (rates db) -> PerformerRate.performer_id rate = performer_id ->
         Planning.delete_project_performer db context project_id performer_id
         = (db, Raise (IntegrityError "foreign key on performers.id"))).
Proof.
  destruct (ensure_project_access_ok _ _ _ _ _ Haccess) as (Hget & Hid & _).
  split; [|split; [|split]].
  - unfold Planning.delete_project. rewrite Haccess. cbn [bind]. rewrite Hid.
    repeat (destruct (0 <? _); cbn [transaction snd]; [discriminate|]).
    unfold Repo.delete_project. rewrite Hid.
    destruct (Repo.project_is_referenced db project_id);
      cbn [bind transaction fst snd]; [discriminate|].
    intros _. split; [reflexivity|].
    unfold Repo.get_project. cbn [projects with_projects].
    apply find_filter_out. intros x Hx. now rewrite Hx.
  - intros H1 H2 H3 H4 Href. unfold Planning.delete_project.
    rewrite Haccess. cbn [bind]. rewrite Hid, H1, H2, H3, H4. cbn [Z.ltb Z.compare].
    unfold Repo.delete_project. rewrite Hid, Href. reflexivity.
  - intros performer_id. unfold Planning.delete_project_performer.
    rewrite Haccess. cbn [bind].
    destruct (Repo.get_performer db performer_id) as [performer|] eqn:Hp;
      cbn [transaction snd]; [|discriminate].
    assert (Hpid : Performer.id performer = performer_id).
    { unfold Repo.get_performer in Hp. apply find_some in Hp. now apply Z.eqb_eq. }
    destruct (negb _); cbn [transaction snd]; [discriminate|].
    repeat (destruct (0 <? _); cbn [transaction snd]; [discriminate|]).
    unfold Repo.delete_performer. rewrite Hpid.
    destruct (Repo.performer_is_referenced db performer_id);
      cbn [bind transaction fst snd]; [discriminate|].
    intros _. split; [reflexivity|].
    unfold Repo.get_performer. cbn [performers with_performers].
    apply find_filter_out. intros x Hx. now rewrite Hx.
  - intros performer_id performer rate Hp Hbu H1 H2 Hin Hr.
    assert (Hpid : Performer.id performer = performer_id).
    { unfold Repo.get_performer in Hp. apply find_some in Hp. now apply Z.eqb_eq. }
    unfold Planning.delete_project_performer.
    rewrite Haccess. cbn [bind]. rewrite Hp, Hbu, Z.eqb_refl. cbn [negb].
    rewrite Hpid, H1, H2. cbn [Z.ltb Z.compare].
    unfold Repo.delete_performer. rewrite Hpid.
    assert (Href : Repo.performer_is_referenced db performer_id = true).
    { unfold Repo.performer_is_referenced. rewrite !orb_true_iff. right.
      apply existsb_exists. exists rate. split; [exact Hin|]. now apply Z.eqb_eq. }
    now rewrite Href.
Qed.

(** A project and a performer to which only a rate refers: both deletes
    end in the error of the database. *)
Lemma unguarded_references_surface_as_database_errors_witness :
  Planning._ensure_project_access Scenario.db_bare Scenario.admin Scenario.project_id
    EDIT_ROLES = Ok Scenario.project
  /\ Planning.delete_project Scenario.db_bare Scenario.admin Scenario.project_id
     = (Scenario.db_bare, Raise (IntegrityError "foreign key on projects.id"))
  /\ Planning.delete_project_performer Scenario.db_bare Scenario.admin
       Scenario.project_id Scenario.performer_c
     = (Scenario.db_bare, Raise (IntegrityError "foreign key on performers.id")).
Proof.
  assert (H : Planning._ensure_project_access Scenario.db_bare Scenario.admin
                Scenario.project_id EDIT_ROLES = Ok Scenario.project) by reflexivity.
  split; [exact H|].
  pose proof (unguarded_references_surface_as_database_errors Scenario.db_bare
                Scenario.admin Scenario.project_id Scenario.project H)
    as (_ & Hproject & _ & Hperformer).
  split.
  - apply Hproject; reflexivity.
  - apply (Hperformer Scenario.performer_c
             (Performer.mk Scenario.performer_c Scenario.unit_id None "C" true)
             Scenario.rate_c_project); try reflexivity.
    now left.
Defined.

(** The scenario before any effort was entered: the assignment of
    performer A is deleted. *)
Lemma guarded_deletes_leave_no_dangling_reference_witness :
  snd (Planning.delete_assignment Scenario.db_assigned Scenario.admin
         Scenario.project_id Scenario.task_id Scenario.performer_a) = Ok tt
  /\ exists assignment,
       Repo.get_assignment Scenario.db_assigned Scenario.task_id Scenario.performer_a
       = Some assignment
       /\ assignments
            (fst (Planning.delete_assignment Scenario.db_assigned Scenario.admin
                    Scenario.project_id Scenario.task_id Scenario.performer_a))
          = filter
              (fun a => negb (TaskPerformerAssignment.id a
                              =? TaskPerformerAssignment.id assignment))
              (assignments Scenario.db_assigned).
Proof.
  split; [vm_compute; reflexivity|].
  pose proof (proj2 (proj2 (guarded_deletes_leave_no_dangling_reference
                              Scenario.db_assigned Scenario.admin Scenario.project_id))
                Scenario.task_id Scenario.performer_a) as H.
  cbv zeta in H.
  assert (E : snd (Planning.delete_assignment Scenario.db_assigned Scenario.admin
                     Scenario.project_id Scenario.task_id Scenario.performer_a)
              = Ok tt) by (vm_compute; reflexivity).
  rewrite E in H. destruct H as (assignment & H1 & H2 & _).
  exists assignment. exact (conj H1 H2).
Defined.

(** ** Creating tasks, performers and assignments *)

(** X11.  What [create_task], [update_task], [create_project_performer]
    and [create_assignment] store refers to rows of the same project: a
    task names a stage of the project and carries a code that no other
    task of the project has, a performer belongs to the business unit of
    the project, an assignment joins a task of the project with a
    performer of its business unit who was not assigned to that task
    before.  The new row is appended to its table, and an assignment is
    found afterwards by its pair, an updated task by its identifier. *)
Theorem created_rows_refer_to_rows_of_the_project
    (db : DB) (context : RequestUserContext) (project_id : UUID) :
  (forall data task,
      snd (Planning.create_task db context project_id data) = Ok task ->
      exists stage,
        Repo.get_stage db (Task.stage_id task) = Some stage
        /\ ProjectStage.project_id stage = project_id
        /\ Task.project_id task = project_id
        /\ Task.code task = str_strip (tc_code data)
        /\ (forall other, In other (tasks db) -> Task.project_id other = project_id ->
              Task.id other <> Task.id task -> Task.code other <> Task.code task)
        /\ tasks (fst (Planning.create_task db context project_id data))
           = tasks db ++ [task])
  /\ (forall task_id data task,
         snd (Planning.update_task db context project_id task_id data) = Ok task ->
         Task.id task = task_id
         /\ Task.project_id task = project_id
         /\ (forall s, tu_stage_id data = Some s ->
               Task.stage_id task = s
               /\ exists stage, Repo.get_stage db s = Some stage
                                /\ ProjectStage.project_id stage = project_id)
         /\ (forall other,
               In other (tasks (fst (Planning.update_task db context project_id
                                       task_id data))) ->
               Task.project_id other = project_id ->
               Task.id other <> task_id -> Task.code other <> Task.code task)
         /\ Repo.get_task (fst (Planning.update_task db context project_id task_id data))
              task_id = Some task)
  /\ (forall data performer,
         snd (Planning.create_project_performer db context project_id data)
         = Ok performer ->
         exists project,
           Repo.get_project db project_id = Some project
           /\ Performer.business_unit_id performer = Project.business_unit_id project
           /\ performers (fst (Planning.create_project_performer db context project_id
                                 data))
              = performers db ++ [performer])
  /\ (forall data assignment,
         snd (Planning.create_assignment db context project_id data) = Ok assignment ->
         exists project task performer,
           Repo.get_project db project_id = Some project
           /\ Repo.get_task db (TaskPerformerAssignment.task_id assignment) = Some task
           /\ Task.project_id task = project_id
           /\ Repo.get_performer db (TaskPerformerAssignment.performer_id assignment)
              = Some performer
           /\ Performer.business_unit_id performer = Project.business_unit_id project
           /\ Repo.get_assignment db (TaskPerformerAssignment.task_id assignment)
                (TaskPerformerAssignment.performer_id assignment) = None
           /\ Repo.get_assignment
                (fst (Planning.create_assignment db context project_id data))
                (TaskPerformerAssignment.task_id assignment)
                (TaskPerformerAssignment.performer_id assignment) = Some assignment
           /\ assignments (fst (Planning.create_assignment db context project_id data))
              = assignments db ++ [assignment]).
Proof.
  split; [|split; [|split]].
  - intros data task. unfold Planning.create_task.
    destruct (Planning._ensure_project_access db context project_id EDIT_ROLES)
      as [project|err] eqn:Ha; cbn [bind transaction snd]; [|discriminate].
    destruct (ensure_project_access_ok _ _ _ _ _ Ha) as (Hget & Hid & _).
    destruct (Repo.get_stage db (tc_stage_id data)) as [stage|] eqn:Hs;
      cbn [transaction snd]; [|discriminate].
    destruct (Z.eqb_spec (ProjectStage.project_id stage) (Project.id project))
      as [Hsp|Hsp]; cbn [negb transaction snd]; [|discriminate].
    cbn [fresh_uuid].
    destruct (Planning.task_code_taken _ _ _ _) eqn:Ht;
      cbn [transaction fst snd]; [discriminate|].
    intros [= <-]. exists stage.
    cbn [Task.stage_id Task.project_id Task.code Task.id Repo.add_task tasks with_tasks].
    repeat split; try assumption; try congruence.
    intros other Hin Hp Hne Hc.
    unfold Planning.task_code_taken in Ht. cbn [tasks Task.code] in Ht.
    pose proof (existsb_false_In _ _ other Ht Hin) as Hf. cbn beta in Hf.
    rewrite Hp, Z.eqb_refl, Hc, String.eqb_refl in Hf.
    destruct (Z.eqb_spec (Task.id other) (next_uuid db)); [contradiction|].
    discriminate.
  - intros task_id data task. unfold Planning.update_task.
    destruct (Planning._ensure_project_access db context project_id EDIT_ROLES)
      as [project|err] eqn:Ha; cbn [bind transaction snd]; [|discriminate].
    destruct (ensure_project_access_ok _ _ _ _ _ Ha) as (Hget & Hid & _).
    destruct (Repo.get_task db task_id) as [old|] eqn:Hold;
      cbn [transaction snd]; [|discriminate].
    destruct (Z.eqb_spec (Task.project_id old) (Project.id project)) as [Hop|Hop];
      cbn [negb transaction snd]; [|discriminate].
    assert (Hoid : Task.id old = task_id).
    { unfold Repo.get_task in Hold. apply find_some in Hold. now apply Z.eqb_eq. }
    destruct (match tu_stage_id data with Some _ => _ | None => _ end)
      as [stage_id|err] eqn:Hst; cbn [bind transaction snd]; [|discriminate].
    destruct (Planning.task_code_taken _ _ _ _) eqn:Ht;
      cbn [transaction fst snd]; [discriminate|].
    intros [= <-].
    cbn [Task.id Task.project_id Task.stage_id Task.code tasks with_tasks].
    split; [exact Hoid|]. split; [congruence|]. split; [|split].
    + intros s Hs. rewrite Hs in Hst.
      destruct (Repo.get_stage db s) as [stage|] eqn:Hg; [|discriminate].
      destruct (Z.eqb_spec (ProjectStage.project_id stage) (Project.id project))
        as [Hsp|Hsp]; cbn [negb] in Hst; [|discriminate].
      injection Hst as <-. split; [reflexivity|]. exists stage. split; congruence.
    + intros other Hin Hp Hne Hc.
      unfold Planning.task_code_taken in Ht.
      cbn [tasks with_tasks Task.id Task.project_id Task.code] in Ht.
      pose proof (existsb_false_In _ _ other Ht Hin) as Hf. cbn beta in Hf.
      rewrite Hp, Hop, Hid, Z.eqb_refl, Hc, String.eqb_refl, Hoid in Hf.
      destruct (Z.eqb_spec (Task.id other) task_id); [contradiction|].
      discriminate.
    + unfold Repo.get_task. cbn [tasks].
      apply (find_update_first_same _ (fun _ => _) _ _ Hold).
      cbn [Task.id]. now apply Z.eqb_eq.
  - intros data performer. unfold Planning.create_project_performer.
    destruct (Planning._ensure_project_access db context project_id EDIT_ROLES)
      as [project|err] eqn:Ha; cbn [bind transaction snd]; [|discriminate].
    destruct (ensure_project_access_ok _ _ _ _ _ Ha) as (Hget & Hid & _).
    cbn [fresh_uuid transaction fst snd]. intros [= <-]. exists project.
    cbn [Performer.business_unit_id Repo.add_performer performers with_performers].
    repeat split. exact Hget.
  - intros data assignment. unfold Planning.create_assignment.
    destruct (Planning._ensure_project_access db context project_id EDIT_ROLES)
      as [project|err] eqn:Ha; cbn [bind transaction snd]; [|discriminate].
    destruct (ensure_project_access_ok _ _ _ _ _ Ha) as (Hget & Hid & _).
    destruct (Repo.get_task db (ac_task_id data)) as [task|] eqn:Ht;
      cbn [transaction snd]; [|discriminate].
    destruct (Z.eqb_spec (Task.project_id task) (Project.id project)) as [Htp|Htp];
      cbn [negb transaction snd]; [|discriminate].
    destruct (Repo.get_performer db (ac_performer_id data)) as [performer|] eqn:Hp;
      cbn [transaction snd]; [|discriminate].
    destruct (Z.eqb_spec (Performer.business_unit_id performer)
                (Project.business_unit_id project)) as [Hpb|Hpb];
      cbn [negb transaction snd]; [|discriminate].
    assert (Htid : Task.id task = ac_task_id data).
    { unfold Repo.get_task in Ht. apply find_some in Ht. now apply Z.eqb_eq. }
    assert (Hpid : Performer.id performer = ac_performer_id data).
    { unfold Repo.get_performer in Hp. apply find_some in Hp. now apply Z.eqb_eq. }
    cbn [fresh_uuid].
    destruct (Repo.get_assignment _ (Task.id task) (Performer.id performer)) eqn:Hg;
      cbn [transaction fst snd]; [discriminate|].
    intros [= <-]. exists project, task, performer.
    cbn [TaskPerformerAssignment.task_id TaskPerformerAssignment.performer_id
         Repo.add_assignment assignments with_assignments].
    rewrite Htid, Hpid in *.
    unfold Repo.get_assignment in *. cbn [assignments] in *.
    repeat split; try assumption; try congruence.
    cbn [Repo.add_assignment assignments with_assignments].
    rewrite find_app, Hg. cbn [find TaskPerformerAssignment.task_id
                               TaskPerformerAssignment.performer_id].
    now rewrite !Z.eqb_refl.
Qed.

(** The scenario: a second task in the stage of the project. *)
Lemma created_rows_refer_to_rows_of_the_project_witness :
  exists task,
    snd (Planning.create_task Scenario.db Scenario.admin Scenario.project_id
           Scenario.task_two) = Ok task
    /\ exists stage,
         Repo.get_stage Scenario.db (Task.stage_id task) = Some stage
         /\ ProjectStage.project_id stage = Scenario.project_id
         /\ Task.project_id task = Scenario.project_id
         /\ Task.code task = str_strip (tc_code Scenario.task_two)
         /\ (forall other, In other (tasks Scenario.db) ->
               Task.project_id other = Scenario.project_id ->
               Task.id other <> Task.id task -> Task.code other <> Task.code task)
         /\ tasks (fst (Planning.create_task Scenario.db Scenario.admin
                          Scenario.project_id Scenario.task_two))
            = tasks Scenario.db ++ [task].
Proof.
  eexists. split; [vm_compute; reflexivity|].
  apply (proj1 (created_rows_refer_to_rows_of_the_project Scenario.db Scenario.admin
                  Scenario.project_id) Scenario.task_two).
  vm_compute. reflexivity.
Defined.

(** ** What a snapshot refresh leaves alone *)

Lemma same_structure_refl db : same_structure db db.
Proof. repeat split. Qed.

Lemma same_structure_trans a b c :
  same_structure a b -> same_structure b c -> same_structure a c.
Proof. unfold same_structure. intuition congruence. Qed.

Lemma filter_update_first {A : Type} (p keep : A -> bool) (f : A -> A) (l : list A) :
  (forall x, p x = true -> keep x = false /\ keep (f x) = false) ->
  filter keep (update_first p f l) = filter keep l.
Proof.
  intros H. induction l as [|x l IH]; [reflexivity|]. cbn [update_first].
  destruct (p x) eqn:P; cbn [filter].
  - destruct (H x P) as [-> ->]. reflexivity.
  - now rewrite IH.
Qed.

Lemma write_snapshot_frame db project_id month v db' s :
  Planning.write_snapshot db project_id month v = (db', s) ->
  same_structure db db'
  /\ snapshots_of_others db' project_id = snapshots_of_others db project_id.
Proof.
  unfold Planning.write_snapshot, Repo.get_snapshot, snapshots_of_others.
  destruct (find _ (snapshots db)) as [existing|] eqn:F.
  - intros [= <- <-]. split; [repeat split|]. cbn [snapshots with_snapshots].
    apply filter_update_first. intros x Hx.
    apply find_some in F. destruct F as [_ Hk].
    unfold Repo.snapshot_key_matches in Hx, Hk.
    apply andb_true_iff in Hx, Hk. destruct Hx as [Hx _], Hk as [Hk _].
    cbn [ProjectMonthlySnapshot.project_id]. now rewrite Hx, Hk.
  - intros [= <- <-]. split; [repeat split|].
    cbn [fresh_uuid Repo.add_snapshot snapshots with_snapshots].
    rewrite filter_app. cbn [filter ProjectMonthlySnapshot.project_id].
    rewrite Z.eqb_refl. cbn [negb]. apply app_nil_r.
Qed.

Lemma write_all_frame project_id items :
  forall db db' rows,
    write_all db project_id items = (db', rows) ->
    same_structure db db'
    /\ snapshots_of_others db' project_id = snapshots_of_others db project_id.
Proof.
  induction items as [|[m v] items IH]; intros db db' rows; cbn [write_all].
  - intros [= <- <-]. split; [apply same_structure_refl | reflexivity].
  - destruct (Planning.write_snapshot db project_id m v) as [db1 s] eqn:W.
    destruct (write_all db1 project_id items) as [db2 rest] eqn:R.
    intros [= <- <-].
    destruct (write_snapshot_frame _ _ _ _ _ _ W) as [H1 O1].
    destruct (IH _ _ _ R) as [H2 O2].
    split; [eapply same_structure_trans; eauto | congruence].
Qed.

Lemma delete_outside_range_frame db project_id s e :
  same_structure db (Repo.delete_snapshots_outside_range db project_id s e)
  /\ snapshots_of_others (Repo.delete_snapshots_outside_range db project_id s e)
       project_id
     = snapshots_of_others db project_id.
Proof.
  split; [repeat split|].
  unfold snapshots_of_others, Repo.delete_snapshots_outside_range.
  cbn [snapshots with_snapshots].
  induction (snapshots db) as [|x l IH]; [reflexivity|]. cbn [filter].
  unfold Repo.outside_range at 1.
  destruct (Z.eqb_spec (ProjectMonthlySnapshot.project_id x) project_id) as [E|N];
    cbn [andb negb].
  - destruct (negb _); cbn [filter]; [|exact IH].
    destruct (Z.eqb_spec (ProjectMonthlySnapshot.project_id x) project_id);
      [exact IH | contradiction].
  - cbn [filter].
    destruct (Z.eqb_spec (ProjectMonthlySnapshot.project_id x) project_id);
      [contradiction|]. cbn [negb]. now rewrite IH.
Qed.

Lemma refresh_frame settings db project_id db' rows :
  Planning.refresh_project_snapshots settings db project_id = Ok (db', rows) ->
  same_structure db db'
  /\ snapshots_of_others db' project_id = snapshots_of_others db project_id.
Proof.
  intros Hr. pose proof Hr as Hr'. rewrite refresh_equation in Hr'.
  destruct (Repo.get_project db project_id) as [p|] eqn:Hp; [|discriminate].
  pose proof (get_project_id _ _ _ Hp) as Hid.
  destruct (month_sequence _ _) as [months|]; [|discriminate]. cbn [bind] in Hr'.
  destruct (write_all db (Project.id p) _) as [dbw rows'] eqn:W.
  injection Hr' as <- <-. rewrite Hid in *.
  destruct (write_all_frame _ _ _ _ _ W) as [H1 O1].
  destruct (delete_outside_range_frame dbw project_id (Project.start_month p)
              (Project.end_month p)) as [H2 O2].
  split; [eapply same_structure_trans; eauto | congruence].
Qed.

Lemma write_all_rows_project project_id items :
  forall db db' rows,
    write_all db project_id items = (db', rows) ->
    Forall (fun s => ProjectMonthlySnapshot.project_id s = project_id) rows.
Proof.
  induction items as [|[m v] items IH]; intros db db' rows; cbn [write_all].
  - intros [= <- <-]. constructor.
  - destruct (Planning.write_snapshot db project_id m v) as [db1 s] eqn:W1.
    destruct (write_all db1 project_id items) as [db2 rest] eqn:R.
    intros [= <- <-]. constructor; [|eapply IH; eauto].
    destruct (write_snapshot_effect _ _ _ _ _ _ W1) as (Hk & _).
    unfold snapshot_key in Hk. congruence.
Qed.

Section FrameClaims.

Variable settings : Settings.

(** X12.  A snapshot refresh of a project writes snapshot rows of that
    project and nothing else: no business unit, project, stage, performer,
    task, assignment, effort entry, rate, financial request, invoice or
    revenue changes, and the snapshot rows of the other projects stay as
    they were, in their order; an unknown project is answered 404. *)
Theorem refresh_writes_only_snapshots_of_the_project
    (db : DB) (project_id : UUID) :
  match Planning.refresh_project_snapshots settings db project_id with
  | Ok (db', rows) =>
      same_structure db db'
      /\ snapshots_of_others db' project_id = snapshots_of_others db project_id
      /\ Forall (fun s => ProjectMonthlySnapshot.project_id s = project_id) rows
  | Raise e =>
      Repo.get_project db project_id = None ->
      e = HTTPException HTTP_404_NOT_FOUND "Project not found."
  end.
Proof.
  destruct (Planning.refresh_project_snapshots settings db project_id)
    as [[db' rows]|e] eqn:Hr.
  - destruct (refresh_frame _ _ _ _ _ Hr) as [H1 H2]. split; [exact H1|].
    split; [exact H2|].
    rewrite refresh_equation in Hr.
    destruct (Repo.get_project db project_id) as [p|] eqn:Hp; [|discriminate].
    pose proof (get_project_id _ _ _ Hp) as Hid.
    destruct (month_sequence _ _) as [months|]; [|discriminate]. cbn [bind] in Hr.
    destruct (write_all db (Project.id p) _) as [dbw rows'] eqn:W.
    injection Hr as <- <-. rewrite Hid in W.
    exact (write_all_rows_project _ _ _ _ _ W).
  - intros Hn. rewrite refresh_equation, Hn in Hr. congruence.
Qed.

End FrameClaims.

(** ** Effort entries and assignments *)

Lemma validate_matrix_entry_assigned db project tb pb n seen x s' :
  Planning.validate_matrix_entry project tb pb
    (to_set
       (map (fun a => (TaskPerformerAssignment.task_id a,
                       TaskPerformerAssignment.performer_id a))
          (Repo.list_assignments_for_project db (Project.id project))))
    (n, seen) x = Ok s' ->
  exists y,
    s' = (n ++ [y], snd s')
    /\ exists a, In a (assignments db)
                 /\ TaskPerformerAssignment.task_id a = mi_task_id y
                 /\ TaskPerformerAssignment.performer_id a = mi_performer_id y.
Proof.
  unfold Planning.validate_matrix_entry.
  destruct (normalize_month_start (mi_month_start x)) as [m|e]; cbn [bind];
    [|discriminate].
  destruct (_ || _); [discriminate|]. destruct (_ || _); [discriminate|].
  destruct (dict_get tb (mi_task_id x)) as [task|]; [|discriminate].
  destruct (negb (Task.active task)); [discriminate|].
  destruct (dict_get pb (mi_performer_id x)) as [performer|]; [|discriminate].
  destruct (negb (Performer.active performer)); [discriminate|].
  destruct (mem (Task.id task, Performer.id performer) _) eqn:Hm; cbn [negb];
    [|discriminate].
  destruct (mem _ seen); [discriminate|].
  intros [= <-]. eexists. split; [reflexivity|].
  apply mem_In, to_set_In, in_map_iff in Hm. destruct Hm as (a & Hpair & Ha).
  unfold Repo.list_assignments_for_project in Ha.
  apply sort_asc_In, filter_In in Ha. destruct Ha as [Ha _].
  injection Hpair as H1 H2. exists a.
  cbn [mi_task_id mi_performer_id]. auto.
Qed.

Lemma validate_matrix_entries_assigned db project entries normalized :
  Planning.validate_matrix_entries db project entries = Ok normalized ->
  Forall
    (fun y => exists a, In a (assignments db)
                        /\ TaskPerformerAssignment.task_id a = mi_task_id y
                        /\ TaskPerformerAssignment.performer_id a = mi_performer_id y)
    normalized.
Proof.
  unfold Planning.validate_matrix_entries. cbv zeta.
  destruct (fold_result _ entries ([], [])) as [[n seen]|e] eqn:E; cbn [bind];
    [|discriminate].
  intros [= <-].
  assert (G : forall l n0 seen0 s',
             Forall
               (fun y => exists a, In a (assignments db)
                                   /\ TaskPerformerAssignment.task_id a = mi_task_id y
                                   /\ TaskPerformerAssignment.performer_id a
                                      = mi_performer_id y) n0 ->
             fold_result
               (Planning.validate_matrix_entry project
                  (fold_left (fun d task => dict_set d (Task.id task) task)
                     (Repo.list_tasks db (Project.id project)) [])
                  (fold_left (fun d performer =>
                                dict_set d (Performer.id performer) performer)
                     (Repo.list_performers_for_project db (Project.id project)
                        (Project.business_unit_id project)) [])
                  (to_set
                     (map (fun a => (TaskPerformerAssignment.task_id a,
                                     TaskPerformerAssignment.performer_id a))
                        (Repo.list_assignments_for_project db (Project.id project)))))
               l (n0, seen0) = Ok s' ->
             Forall
               (fun y => exists a, In a (assignments db)
                                   /\ TaskPerformerAssignment.task_id a = mi_task_id y
                                   /\ TaskPerformerAssignment.performer_id a
                                      = mi_performer_id y) (fst s')).
  { induction l as [|x l IH]; intros n0 seen0 s' Hn; cbn [fold_result].
    - now intros [= <-].
    - destruct (Planning.validate_matrix_entry _ _ _ _ (n0, seen0) x)
        as [s1|err] eqn:S; cbn [bind]; [|discriminate].
      destruct (validate_matrix_entry_assigned _ _ _ _ _ _ _ _ S) as (y & -> & Hy).
      apply IH. apply Forall_app. split; [exact Hn | now constructor]. }
  exact (G entries [] [] (n, seen) (Forall_nil _) E).
Qed.

Lemma upsert_effort_entry_pairs project_id db y db' e :
  Planning.upsert_effort_entry project_id db y = Ok db' ->
  In e (effort_entries db') ->
  (exists e0, In e0 (effort_entries db)
              /\ EffortMonthlyEntry.task_id e = EffortMonthlyEntry.task_id e0
              /\ EffortMonthlyEntry.performer_id e = EffortMonthlyEntry.performer_id e0)
  \/ (EffortMonthlyEntry.task_id e = mi_task_id y
      /\ EffortMonthlyEntry.performer_id e = mi_performer_id y).
Proof.
  unfold Planning.upsert_effort_entry.
  destruct (Repo.get_effort_entry db project_id _ _ _) as [row|].
  - intros [= <-]. cbn [effort_entries with_effort_entries]. intros Hin.
    apply In_update_first in Hin. destruct Hin as [Hin|(r & Hr & _ & ->)].
    + left. exists e. auto.
    + left. exists r. auto.
  - destruct (numeric 10 2 (mi_planned_person_days y)) as [planned|]; cbn [bind];
      [|discriminate].
    destruct (numeric 10 2 (mi_actual_person_days y)) as [actual|]; cbn [bind];
      [|discriminate].
    cbn [fresh_uuid]. intros [= <-].
    cbn [Repo.add_effort_entry effort_entries with_effort_entries].
    intros Hin. apply in_app_or in Hin. destruct Hin as [Hin|[<-|[]]].
    + left. exists e. auto.
    + right. auto.
Qed.

Lemma upsert_effort_entry_structure project_id db y db' :
  Planning.upsert_effort_entry project_id db y = Ok db' ->
  assignments db' = assignments db.
Proof.
  unfold Planning.upsert_effort_entry.
  destruct (Repo.get_effort_entry db project_id _ _ _).
  - now intros [= <-].
  - destruct (numeric 10 2 (mi_planned_person_days y)) as [planned|]; cbn [bind];
      [|discriminate].
    destruct (numeric 10 2 (mi_actual_person_days y)) as [actual|]; cbn [bind];
      [|discriminate].
    cbn [fresh_uuid]. now intros [= <-].
Qed.

Lemma upserts_keep_assigned_pairs project_id (l : list MatrixEntryInput) :
  forall db db',
    fold_result (Planning.upsert_effort_entry project_id) l db = Ok db' ->
    effort_on_assigned_pairs db ->
    Forall
      (fun y => exists a, In a (assignments db)
                          /\ TaskPerformerAssignment.task_id a = mi_task_id y
                          /\ TaskPerformerAssignment.performer_id a = mi_performer_id y)
      l ->
    effort_on_assigned_pairs db' /\ assignments db' = assignments db.
Proof.
  induction l as [|y l IH]; intros db db'; cbn [fold_result].
  - intros [= <-]. auto.
  - destruct (Planning.upsert_effort_entry project_id db y) as [db1|] eqn:W;
      cbn [bind]; [|discriminate].
    intros Hl Hinv Hall. inversion Hall as [|? ? Hy Hrest]; subst.
    pose proof (upsert_effort_entry_structure _ _ _ _ W) as Hs.
    destruct (IH db1 db' Hl) as [H1 H2].
    + intros e Hin. rewrite Hs.
      destruct (upsert_effort_entry_pairs _ _ _ _ _ W Hin)
        as [(e0 & H0 & Et & Ep)|[Et Ep]].
      * destruct (Hinv e0 H0) as (a & Ha & At & Ap). exists a. split; [exact Ha|].
        split; congruence.
      * destruct Hy as (a & Ha & At & Ap). exists a. split; [exact Ha|].
        split; congruence.
    + now rewrite Hs.
    + split; [exact H1 | congruence].
Qed.

(** The commit changes no pair of an effort entry and no assignment. *)
Lemma stores_keep_assigned_pairs project_id (l : list MatrixEntryInput) :
  forall db db',
    fold_result (Planning.store_effort_entry project_id) l db = Ok db' ->
    effort_on_assigned_pairs db -> effort_on_assigned_pairs db'.
Proof.
  induction l as [|y l IH]; intros db db'; cbn [fold_result].
  - now intros [= <-].
  - destruct (Planning.store_effort_entry project_id db y) as [db1|] eqn:S;
      cbn [bind]; [|discriminate].
    intros Hl Hinv. apply (IH db1 db' Hl).
    unfold Planning.store_effort_entry in S.
    destruct (numeric 10 2 (mi_planned_person_days y)) as [planned|]; cbn [bind] in S;
      [|discriminate].
    destruct (numeric 10 2 (mi_actual_person_days y)) as [actual|]; cbn [bind] in S;
      [|discriminate].
    injection S as <-. intros e Hin.
    cbn [effort_entries assignments with_effort_entries] in *.
    apply In_update_first in Hin. destruct Hin as [Hin|(r & Hr & _ & ->)].
    + exact (Hinv e Hin).
    + exact (Hinv r Hr).
Qed.

Section AssignedClaims.

Variable settings : Settings.

(** X13.  No operation separates an effort entry from its assignment.
    In a store where every effort entry is on an assigned pair of task and
    performer (and assignments have distinct identifiers), this is still
    so after a bulk upsert of matrix entries, after [create_assignment]
    and after [delete_assignment], whatever their outcome. *)
Theorem effort_entries_stay_on_assigned_pairs
    (db : DB) (context : RequestUserContext) (project_id : UUID)
    (Hinv : effort_on_assigned_pairs db)
    (Hkey : forall a b, In a (assignments db) -> In b (assignments db) ->
              TaskPerformerAssignment.id a = TaskPerformerAssignment.id b -> a = b) :
  (forall entries,
      effort_on_assigned_pairs
        (fst (Planning.bulk_upsert_matrix_entries settings db context project_id
                entries)))
  /\ (forall data,
         effort_on_assigned_pairs
           (fst (Planning.create_assignment db context project_id data)))
  /\ (forall task_id performer_id,
         effort_on_assigned_pairs
           (fst (Planning.delete_assignment db context project_id task_id
                   performer_id))).
Proof.
  split; [|split].
  - intros entries. rewrite bulk_upsert_matrix_entries_body.
    destruct (Planning._ensure_project_access db context project_id EDIT_ROLES)
      as [project|e]; cbn [bind transaction fst]; [|exact Hinv].
    destruct (Planning.validate_matrix_entries db project entries)
      as [normalized|e] eqn:Hv; cbn [bind transaction fst]; [|exact Hinv].
    destruct (fold_result (Planning.upsert_effort_entry (Project.id project))
                normalized db) as [written|e] eqn:Hw; cbn [bind transaction fst];
      [|exact Hinv].
    destruct (Planning.refresh_project_snapshots settings _ (Project.id project))
      as [[db2 snaps]|e] eqn:Hr; cbn [bind transaction fst]; [|exact Hinv].
    destruct (fold_result (Planning.store_effort_entry (Project.id project))
                normalized db2) as [stored|e] eqn:Hs; cbn [bind transaction fst];
      [|exact Hinv].
    destruct (upserts_keep_assigned_pairs (Project.id project) normalized db written
                Hw Hinv (validate_matrix_entries_assigned _ _ _ _ Hv)) as [H1 H2].
    apply (stores_keep_assigned_pairs _ _ _ _ Hs).
    destruct (refresh_frame _ _ _ _ _ Hr) as [Hf _].
    destruct Hf as (_ & _ & _ & _ & _ & Ha & He & _).
    intros e Hin. rewrite <- He in Hin. destruct (H1 e Hin) as (a & Hain & Hp).
    exists a. split; [now rewrite <- Ha | exact Hp].
  - intros data. unfold Planning.create_assignment.
    destruct (Planning._ensure_project_access db context project_id EDIT_ROLES)
      as [project|e]; cbn [bind transaction fst]; [|exact Hinv].
    destruct (Repo.get_task db (ac_task_id data)) as [task|];
      cbn [transaction fst]; [|exact Hinv].
    destruct (negb _); cbn [transaction fst]; [exact Hinv|].
    destruct (Repo.get_performer db (ac_performer_id data)) as [performer|];
      cbn [transaction fst]; [|exact Hinv].
    destruct (negb _); cbn [transaction fst]; [exact Hinv|].
    cbn [fresh_uuid].
    destruct (Repo.get_assignment _ _ _); cbn [transaction fst]; [exact Hinv|].
    intros e Hin.
    cbn [Repo.add_assignment effort_entries assignments with_assignments] in *.
    destruct (Hinv e Hin) as (a & Ha & Hp). exists a. split; [|exact Hp].
    apply in_or_app. now left.
  - intros task_id performer_id. unfold Planning.delete_assignment.
    destruct (Planning._ensure_project_access db context project_id EDIT_ROLES)
      as [project|e]; cbn [bind transaction fst]; [|exact Hinv].
    destruct (Repo.get_task db task_id) as [task|];
      cbn [transaction fst]; [|exact Hinv].
    destruct (negb _); cbn [transaction fst]; [exact Hinv|].
    destruct (Repo.get_performer db performer_id) as [performer|];
      cbn [transaction fst]; [|exact Hinv].
    destruct (negb _); cbn [transaction fst]; [exact Hinv|].
    destruct (Repo.get_assignment db task_id performer_id) as [assignment|] eqn:Hg;
      cbn [transaction fst]; [|exact Hinv].
    unfold Repo.effort_count_for_assignment. rewrite count_positive.
    destruct (existsb _ (effort_entries db)) eqn:He; cbn [transaction fst];
      [exact Hinv|].
    intros e Hin.
    cbn [Repo.delete_assignment effort_entries assignments with_assignments] in *.
    destruct (Hinv e Hin) as (a & Ha & Ht & Hp). exists a. split; [|auto].
    apply filter_In. split; [exact Ha|]. apply negb_true_iff, Z.eqb_neq. intros Eid.
    unfold Repo.get_assignment in Hg. apply find_some in Hg. destruct Hg as [Hain Hk].
    pose proof (Hkey a assignment Ha Hain Eid) as ->.
    apply andb_true_iff in Hk. destruct Hk as [K1 K2].
    apply Z.eqb_eq in K1, K2.
    pose proof (existsb_false_In _ _ e He Hin) as Hf. cbn beta in Hf.
    rewrite <- Ht, <- Hp, K1, K2, !Z.eqb_refl in Hf. discriminate.
Qed.

End AssignedClaims.

(** The scenario: its three effort entries are on the two assigned
    pairs. *)
Lemma effort_entries_stay_on_assigned_pairs_witness :
  effort_on_assigned_pairs
    (fst (Planning.delete_assignment Scenario.db Scenario.admin Scenario.project_id
            Scenario.task_id Scenario.performer_a)).
Proof.
  assert (Hinv : effort_on_assigned_pairs Scenario.db).
  { intros e [<-|[<-|[<-|[]]]].
    - exists (TaskPerformerAssignment.mk 60 Scenario.task_id Scenario.performer_a).
      split; [now left | split; reflexivity].
    - exists (TaskPerformerAssignment.mk 60 Scenario.task_id Scenario.performer_a).
      split; [now left | split; reflexivity].
    - exists (TaskPerformerAssignment.mk 61 Scenario.task_id Scenario.performer_b).
      split; [right; now left | split; reflexivity]. }
  assert (Hkey : forall a b, In a (assignments Scenario.db) ->
                   In b (assignments Scenario.db) ->
                   TaskPerformerAssignment.id a = TaskPerformerAssignment.id b -> a = b).
  { intros a b [<-|[<-|[]]] [<-|[<-|[]]] E; try reflexivity; discriminate E. }
  exact (proj2 (proj2 (effort_entries_stay_on_assigned_pairs default_settings
                         Scenario.db Scenario.admin Scenario.project_id Hinv Hkey))
           Scenario.task_id Scenario.performer_a).
Defined.

(** ** Stored snapshots and rollups computed on the fly *)

Lemma list_effort_entries_unfiltered db project_id from_month to_month :
  Repo.list_effort_entries_filtered db project_id from_month to_month None None
  = Repo.list_effort_entries db project_id from_month to_month.
Proof.
  unfold Repo.list_effort_entries_filtered, Repo.list_effort_entries. f_equal.
  apply filter_ext. intros e. cbn [Repo.in_filter]. now rewrite !andb_true_r.
Qed.

Lemma add_two_places_zero (x : Decimal) : Dec.expo x = -2 -> Dec.add x ZERO = x.
Proof.
  destruct x as [c e]. cbn [Dec.expo]. intros ->.
  unfold Dec.add, Dec.scaled, ZERO. cbn [Dec.expo Dec.coef].
  f_equal. change (Z.min (-2) (-2)) with (-2). change (-2 - -2) with 0. lia.
Qed.

Lemma add_two_places (x y : Decimal) :
  Dec.expo x = -2 -> Dec.expo y = -2 -> Dec.expo (Dec.add x y) = -2.
Proof. intros Hx Hy. unfold Dec.add. cbn [Dec.expo]. rewrite Hx, Hy. reflexivity. Qed.

Section AgreementFacts.

Variable settings : Settings.

(** The cost totals of every month have two places. *)
#[local] Abbreviation costs_two_places totals :=
  (forall m : date,
      Dec.expo (b_planned_cost (dict_get_default totals m zero_bucket)) = -2
      /\ Dec.expo (b_actual_cost (dict_get_default totals m zero_bucket)) = -2).

Lemma accrue_cost_row_is_accrue_entry rates_by_performer project_id totals entry :
  costs_two_places totals ->
  Finance.accrue_cost_row totals
    (Finance.cost_entry_row settings rates_by_performer project_id entry)
  = Planning.accrue_entry settings rates_by_performer project_id totals entry
  /\ costs_two_places
       (Planning.accrue_entry settings rates_by_performer project_id totals entry).
Proof.
  intros Hinv.
  destruct (Hinv (EffortMonthlyEntry.month_start entry)) as [Hp Ha].
  unfold Finance.accrue_cost_row, Finance.cost_entry_row, Planning.accrue_entry.
  rewrite finance_resolve_is_planning_resolve.
  destruct (Planning._resolve_effective_rate _ _ _ _) as [rate|];
    cbn [cr_month_start cr_planned_person_days cr_actual_person_days cr_planned_cost
         cr_actual_cost].
  - split; [reflexivity|]. intros m. rewrite dict_get_default_set.
    destruct (eqk _ m); [|apply Hinv].
    cbn [b_planned_cost b_actual_cost].
    split; apply add_two_places; auto using q2_expo.
  - rewrite !q2_mul_zero, !add_two_places_zero by assumption.
    split; [reflexivity|]. intros m. rewrite dict_get_default_set.
    destruct (eqk _ m); [|apply Hinv].
    cbn [b_planned_cost b_actual_cost]. auto.
Qed.

Lemma accrue_cost_rows_are_accrue_entries rates_by_performer project_id entries :
  forall totals,
    costs_two_places totals ->
    fold_left Finance.accrue_cost_row
      (map (Finance.cost_entry_row settings rates_by_performer project_id) entries)
      totals
    = fold_left (Planning.accrue_entry settings rates_by_performer project_id)
        entries totals.
Proof.
  induction entries as [|e l IH]; intros totals Hinv; cbn [map fold_left];
    [reflexivity|].
  destruct (accrue_cost_row_is_accrue_entry rates_by_performer project_id totals e
              Hinv) as [-> Hnext].
  now apply IH.
Qed.

Lemma rollup_months_are_plan_values totals invoices revenues months :
  forall cp ca cr,
    map (fun r => (rr_month_start r, rr_values r))
      (Finance.rollup_months totals invoices revenues months
         (Finance.mkCumulative cp ca cr) [])
    = plan_values totals invoices revenues months (Planning.mkCumulative cp ca cr).
Proof.
  induction months as [|m ms IH]; intros cp ca cr;
    cbn [Finance.rollup_months plan_values]; [reflexivity|].
  rewrite rollup_months_acc. cbn [app map rr_month_start rr_values].
  f_equal. apply IH.
Qed.

End AgreementFacts.

Section AgreementClaims.

Variable settings : Settings.

(** X14.  The snapshots that a refresh stores are the monthly rollups of
    the finance summary: on a store whose amounts have two places (what
    the columns hold), after a refresh that returns, the rollup builder of
    the finance service, run on the new store over the whole range of the
    project, returns for each month the values of the snapshot row that
    the refresh returned for it, in the same order. *)
Theorem refreshed_snapshots_are_the_finance_rollups
    (db : DB) (project_id : UUID) (db' : DB)
    (rows : list ProjectMonthlySnapshot.t)
    (Hcolumns : two_place_amounts db)
    (Hrefresh : Planning.refresh_project_snapshots settings db project_id
                = Ok (db', rows)) :
  exists project rollups,
    Repo.get_project db' project_id = Some project
    /\ Finance._project_monthly_rollups settings db' project
         (Project.start_month project) (Project.end_month project) = Ok rollups
    /\ map (fun r => (rr_month_start r, rr_values r)) rollups
       = map (fun s => (ProjectMonthlySnapshot.month_start s,
                        ProjectMonthlySnapshot.values s)) rows.
Proof.
  destruct (refresh_frame _ _ _ _ _ Hrefresh) as [Hs _].
  destruct Hs as (_ & Hprojects & _ & _ & _ & _ & Heffort & Hrates & _ & Hinv & Hrev).
  destruct (refresh_unfold _ _ _ _ _ Hrefresh) as (project & dbw & Hp & Hm & Hw & _).
  destruct (write_all_rows _ _ _ _ _ Hw) as [Hrows _].
  exists project. eexists. split; [|split].
  - unfold Repo.get_project in *. now rewrite <- Hprojects.
  - unfold Finance._project_monthly_rollups. rewrite Hm. cbn [bind]. reflexivity.
  - rewrite Hrows, rollup_months_are_plan_values. f_equal.
    + unfold Finance._project_cost_entry_rows, Finance._project_rates_by_performer.
      rewrite list_effort_entries_unfiltered.
      unfold Repo.list_effort_entries, Repo.list_rates_for_business_unit.
      rewrite <- Heffort, <- Hrates.
      apply accrue_cost_rows_are_accrue_entries.
      intros m. rewrite init_totals_default. split; reflexivity.
    + unfold Repo.aggregate_invoices_by_month. now rewrite <- Hinv.
    + unfold Repo.aggregate_revenues_by_month. now rewrite <- Hrev.
Qed.

End AgreementClaims.

(** The scenario: the refresh of its project returns, and the rollups of
    the new store are its rows. *)
Lemma refreshed_snapshots_are_the_finance_rollups_witness :
  exists project rollups,
    Repo.get_project Scenario.db_refreshed Scenario.project_id = Some project
    /\ Finance._project_monthly_rollups default_settings Scenario.db_refreshed
         project (Project.start_month project) (Project.end_month project)
       = Ok rollups
    /\ map (fun r => (rr_month_start r, rr_values r)) rollups
       = map (fun s => (ProjectMonthlySnapshot.month_start s,
                        ProjectMonthlySnapshot.values s)) Scenario.snapshot_rows.
Proof.
  apply (refreshed_snapshots_are_the_finance_rollups default_settings Scenario.db
           Scenario.project_id Scenario.db_refreshed Scenario.snapshot_rows).
  - exact scenario_two_place_amounts.
  - vm_compute. reflexivity.
Defined.

(** ** The financial registers and the rollups *)

Lemma group_sum_app (l l' : list (date * Decimal)) :
  forall acc, Repo.group_sum (l ++ l') acc = Repo.group_sum l' (Repo.group_sum l acc).
Proof.
  induction l as [|[m a] l IH]; intros acc; cbn [app Repo.group_sum]; auto.
Qed.

Lemma group_sum_two_places (l : list (date * Decimal)) :
  forall acc,
    (forall m t, dict_get acc m = Some t -> Dec.expo t = -2) ->
    Forall (fun x => Dec.expo (snd x) = -2) l ->
    forall m t, dict_get (Repo.group_sum l acc) m = Some t -> Dec.expo t = -2.
Proof.
  induction l as [|[k a] l IH]; intros acc Hacc Hl; cbn [Repo.group_sum]; [exact Hacc|].
  inversion Hl as [|? ? Ha Hl']; subst. cbn [snd] in Ha.
  apply IH; [|exact Hl']. intros m t.
  destruct (eqk_spec k m) as [->|N].
  - rewrite dict_get_set_same. intros [= <-].
    destruct (dict_get acc m) as [total|] eqn:G; [|exact Ha].
    apply add_two_places; [eapply Hacc; eauto | exact Ha].
  - rewrite dict_get_set_other by exact N. apply Hacc.
Qed.

Lemma zero_add_two_places (x : Decimal) : Dec.expo x = -2 -> Dec.add ZERO x = x.
Proof.
  destruct x as [c e]. cbn [Dec.expo]. intros ->.
  unfold Dec.add, Dec.scaled, ZERO. cbn [Dec.expo Dec.coef].
  f_equal. change (Z.min (-2) (-2)) with (-2). change (-2 - -2) with 0. lia.
Qed.

(** The rounded total of a month after one more amount of two places was
    added to the totals. *)
Lemma month_total_after (l : list (date * Decimal)) (k : date) (a : Decimal) (m : date) :
  Forall (fun x => Dec.expo (snd x) = -2) l -> Dec.expo a = -2 ->
  _q2 (dict_get_default (Repo.group_sum (l ++ [(k, a)]) []) m ZERO)
  = if (m =? k)%date
    then Dec.add (_q2 (dict_get_default (Repo.group_sum l []) m ZERO)) a
    else _q2 (dict_get_default (Repo.group_sum l []) m ZERO).
Proof.
  intros Hl Ha. rewrite group_sum_app. cbn [Repo.group_sum].
  assert (Hacc : forall m t, dict_get (Repo.group_sum l []) m = Some t -> Dec.expo t = -2).
  { apply group_sum_two_places; [discriminate | exact Hl]. }
  unfold dict_get_default.
  destruct (date_eqb_spec m k) as [->|N].
  - rewrite dict_get_set_same.
    destruct (dict_get (Repo.group_sum l []) k) as [total|] eqn:G.
    + pose proof (Hacc _ _ G) as Ht.
      rewrite (q2_fixed total Ht). apply q2_fixed. now apply add_two_places.
    + rewrite q2_zero, (zero_add_two_places a Ha). now apply q2_fixed.
  - rewrite dict_get_set_other by congruence. reflexivity.
Qed.

Section RegisterFacts.

Variable settings : Settings.

(** A column of the rollup rows that does not depend on the running
    totals is a function of the month alone. *)
Lemma rollup_months_column {X : Type} (g : date -> MonthValues -> X)
    totals invoices revenues months :
  (forall c c' m,
      g m (Finance.rollup_values totals invoices revenues c m)
      = g m (Finance.rollup_values totals invoices revenues c' m)) ->
  forall cumulative,
    map (fun r => g (rr_month_start r) (rr_values r))
      (Finance.rollup_months totals invoices revenues months cumulative [])
    = map (fun m =>
             g m (Finance.rollup_values totals invoices revenues
                    (Finance.mkCumulative ZERO ZERO ZERO) m))
        months.
Proof.
  intros Hg. induction months as [|m ms IH]; intros cum;
    cbn [Finance.rollup_months]; [reflexivity|].
  rewrite rollup_months_acc. cbn [app map rr_month_start rr_values].
  f_equal; [apply Hg | apply IH].
Qed.

(** The rollups read the effort entries, the rates, the invoices and the
    revenues, and nothing else. *)
Lemma rollups_read db db' project from_month to_month :
  effort_entries db' = effort_entries db -> rates db' = rates db ->
  invoices db' = invoices db -> revenues db' = revenues db ->
  Finance._project_monthly_rollups settings db' project from_month to_month
  = Finance._project_monthly_rollups settings db project from_month to_month.
Proof.
  intros He Hr Hi Hv.
  unfold Finance._project_monthly_rollups, Finance._project_cost_entry_rows,
    Finance._project_rates_by_performer, Repo.list_effort_entries_filtered,
    Repo.list_rates_for_business_unit, Repo.aggregate_invoices_by_month,
    Repo.aggregate_revenues_by_month.
  now rewrite He, Hr, Hi, Hv.
Qed.

Lemma create_revenue_store db context project_id data db' row :
  Finance.create_revenue settings db context project_id data = (db', Ok row) ->
  normalize_month_start (rc_month_start data) = Ok (Revenue.month_start row)
  /\ Revenue.project_id row = project_id
  /\ Revenue.amount row = rc_amount data
  /\ effort_entries db' = effort_entries db /\ rates db' = rates db
  /\ invoices db' = invoices db /\ revenues db' = revenues db ++ [row].
Proof.
  unfold Finance.create_revenue, Finance._ensure_project_access.
  destruct (Repo.get_project db project_id) as [project|] eqn:Hp;
    cbn [bind transaction]; [|discriminate].
  pose proof (get_project_id _ _ _ Hp) as Hid.
  destruct (negb _); cbn [bind transaction]; [discriminate|].
  destruct (normalize_month_start _) as [m|]; cbn [bind transaction]; [|discriminate].
  destruct (Finance._validate_non_negative_amount _ _); cbn [bind transaction];
    [|discriminate].
  destruct (Finance.register_month_check _ _); cbn [bind transaction]; [|discriminate].
  cbn [fresh_uuid].
  destruct (Planning.refresh_project_snapshots _ _ _) as [[db3 snaps]|] eqn:Hr;
    cbn [bind transaction]; [|discriminate].
  intros [= <- <-].
  destruct (refresh_frame _ _ _ _ _ Hr) as [Hs _].
  destruct Hs as (_ & _ & _ & _ & _ & _ & He & Hrt & _ & Hi & Hv).
  cbn [Repo.add_revenue effort_entries rates invoices revenues with_revenues] in *.
  cbn [Revenue.month_start Revenue.project_id Revenue.amount]. auto 10.
Qed.

Lemma create_invoice_store db context project_id data db' row :
  Finance.create_invoice settings db context project_id data = (db', Ok row) ->
  normalize_month_start (ic_month_start data) = Ok (Invoice.month_start row)
  /\ Invoice.project_id row = project_id
  /\ Invoice.amount row = ic_amount data
  /\ effort_entries db' = effort_entries db /\ rates db' = rates db
  /\ revenues db' = revenues db /\ invoices db' = invoices db ++ [row].
Proof.
  unfold Finance.create_invoice, Finance._ensure_project_access.
  destruct (Repo.get_project db project_id) as [project|] eqn:Hp;
    cbn [bind transaction]; [|discriminate].
  pose proof (get_project_id _ _ _ Hp) as Hid.
  destruct (negb _); cbn [bind transaction]; [discriminate|].
  destruct (normalize_month_start _) as [m|]; cbn [bind transaction]; [|discriminate].
  destruct (Finance._validate_non_negative_amount _ _); cbn [bind transaction];
    [|discriminate].
  destruct (Finance.register_month_check _ _); cbn [bind transaction]; [|discriminate].
  cbn [fresh_uuid].
  destruct (Planning.refresh_project_snapshots _ _ _) as [[db3 snaps]|] eqn:Hr;
    cbn [bind transaction]; [|discriminate].
  intros [= <- <-].
  destruct (refresh_frame _ _ _ _ _ Hr) as [Hs _].
  destruct Hs as (_ & _ & _ & _ & _ & _ & He & Hrt & _ & Hi & Hv).
  cbn [Repo.add_invoice effort_entries rates invoices revenues with_invoices] in *.
  cbn [Invoice.month_start Invoice.project_id Invoice.amount]. auto 10.
Qed.

End RegisterFacts.

Section RegisterClaims.

Variable settings : Settings.

(** X15.  A registered revenue is added to the revenue of its month.
    When the revenue amounts of the project and the new amount have two
    places (what the column stores) and [create_revenue] returns, every
    rollup of the project over the new store has the rows of the same
    rollup before, with the amount added to the revenue of the month of
    the new row and every other monthly value as it was. *)
Theorem registered_revenue_is_added_to_its_month
    (db : DB) (context : RequestUserContext) (project_id : UUID)
    (data : RevenueCreateData) (db' : DB) (row : Revenue.t)
    (Hstored : forall r, In r (revenues db) -> Revenue.project_id r = project_id ->
                 Dec.expo (Revenue.amount r) = -2)
    (Hamount : Dec.expo (rc_amount data) = -2)
    (Hcreate : Finance.create_revenue settings db context project_id data
               = (db', Ok row)) :
  normalize_month_start (rc_month_start data) = Ok (Revenue.month_start row)
  /\ forall project from_month to_month rollups,
       Repo.get_project db project_id = Some project ->
       Finance._project_monthly_rollups settings db project from_month to_month
       = Ok rollups ->
       exists rollups',
         Finance._project_monthly_rollups settings db' project from_month to_month
         = Ok rollups'
         /\ map rr_month_start rollups' = map rr_month_start rollups
         /\ map (fun r => revenue_amount (rr_values r)) rollups'
            = map (fun r =>
                     if (rr_month_start r =? Revenue.month_start row)%date
                     then Dec.add (revenue_amount (rr_values r)) (rc_amount data)
                     else revenue_amount (rr_values r))
                rollups
         /\ map (fun r => (effort_and_cost_values (rr_values r),
                           invoice_amount (rr_values r))) rollups'
            = map (fun r => (effort_and_cost_values (rr_values r),
                             invoice_amount (rr_values r))) rollups.
Proof.
  destruct (create_revenue_store _ _ _ _ _ _ _ Hcreate)
    as (Hm & Hpid & Ha & He & Hr & Hi & Hv).
  split; [exact Hm|]. intros project from_month to_month rollups Hp.
  pose proof (get_project_id _ _ _ Hp) as Hid.
  unfold Finance._project_monthly_rollups, Finance._project_cost_entry_rows,
    Finance._project_rates_by_performer, Repo.list_effort_entries_filtered,
    Repo.list_rates_for_business_unit, Repo.aggregate_invoices_by_month,
    Repo.aggregate_revenues_by_month.
  rewrite He, Hr, Hi, Hv.
  destruct (month_sequence from_month to_month) as [months|]; cbn [bind];
    [|discriminate].
  intros [= <-]. eexists. split; [reflexivity|]. split; [|split].
  - now rewrite !rollup_months_months.
  - rewrite (rollup_months_column (fun _ v => revenue_amount v))
      by reflexivity.
    rewrite (rollup_months_column
               (fun m v => if (m =? Revenue.month_start row)%date
                           then Dec.add (revenue_amount v) (rc_amount data)
                           else revenue_amount v)) by reflexivity.
    apply map_ext. intros m. cbn [Finance.rollup_values revenue_amount].
    rewrite filter_app, map_app. cbn [filter]. rewrite Hpid, Hid, Z.eqb_refl.
    cbn [map app]. rewrite Ha. apply month_total_after; [|exact Hamount].
    apply Forall_forall. intros x Hx. apply in_map_iff in Hx.
    destruct Hx as (r & <- & Hin). apply filter_In in Hin. destruct Hin as [Hin Hk].
    cbn [snd]. apply Hstored; [exact Hin|]. apply Z.eqb_eq in Hk. congruence.
  - rewrite !(rollup_months_column
                (fun _ v => (effort_and_cost_values v, invoice_amount v)))
      by reflexivity.
    reflexivity.
Qed.

(** X16.  A registered invoice is added to the invoiced amount of its
    month.  When the invoice amounts of the project and the new amount have
    two places and [create_invoice] returns, every rollup of the project
    over the new store has the rows of the same rollup before, with the
    amount added to the invoiced amount of the month of the new row and
    every other monthly value as it was. *)
Theorem registered_invoice_is_added_to_its_month
    (db : DB) (context : RequestUserContext) (project_id : UUID)
    (data : InvoiceCreateData) (db' : DB) (row : Invoice.t)
    (Hstored : forall i, In i (invoices db) -> Invoice.project_id i = project_id ->
                 Dec.expo (Invoice.amount i) = -2)
    (Hamount : Dec.expo (ic_amount data) = -2)
    (Hcreate : Finance.create_invoice settings db context project_id data
               = (db', Ok row)) :
  normalize_month_start (ic_month_start data) = Ok (Invoice.month_start row)
  /\ forall project from_month to_month rollups,
       Repo.get_project db project_id = Some project ->
       Finance._project_monthly_rollups settings db project from_month to_month
       = Ok rollups ->
       exists rollups',
         Finance._project_monthly_rollups settings db' project from_month to_month
         = Ok rollups'
         /\ map rr_month_start rollups' = map rr_month_start rollups
         /\ map (fun r => invoice_amount (rr_values r)) rollups'
            = map (fun r =>
                     if (rr_month_start r =? Invoice.month_start row)%date
                     then Dec.add (invoice_amount (rr_values r)) (ic_amount data)
                     else invoice_amount (rr_values r))
                rollups
         /\ map (fun r => (effort_and_cost_values (rr_values r),
                           revenue_amount (rr_values r))) rollups'
            = map (fun r => (effort_and_cost_values (rr_values r),
                             revenue_amount (rr_values r))) rollups.
Proof.
  destruct (create_invoice_store _ _ _ _ _ _ _ Hcreate)
    as (Hm & Hpid & Ha & He & Hr & Hv & Hi).
  split; [exact Hm|]. intros project from_month to_month rollups Hp.
  pose proof (get_project_id _ _ _ Hp) as Hid.
  unfold Finance._project_monthly_rollups, Finance._project_cost_entry_rows,
    Finance._project_rates_by_performer, Repo.list_effort_entries_filtered,
    Repo.list_rates_for_business_unit, Repo.aggregate_invoices_by_month,
    Repo.aggregate_revenues_by_month.
  rewrite He, Hr, Hi, Hv.
  destruct (month_sequence from_month to_month) as [months|]; cbn [bind];
    [|discriminate].
  intros [= <-]. eexists. split; [reflexivity|]. split; [|split].
  - now rewrite !rollup_months_months.
  - rewrite (rollup_months_column (fun _ v => invoice_amount v))
      by reflexivity.
    rewrite (rollup_months_column
               (fun m v => if (m =? Invoice.month_start row)%date
                           then Dec.add (invoice_amount v) (ic_amount data)
                           else invoice_amount v)) by reflexivity.
    apply map_ext. intros m. cbn [Finance.rollup_values invoice_amount].
    rewrite filter_app, map_app. cbn [filter]. rewrite Hpid, Hid, Z.eqb_refl.
    cbn [map app]. rewrite Ha. apply month_total_after; [|exact Hamount].
    apply Forall_forall. intros x Hx. apply in_map_iff in Hx.
    destruct Hx as (r & <- & Hin). apply filter_In in Hin. destruct Hin as [Hin Hk].
    cbn [snd]. apply Hstored; [exact Hin|]. apply Z.eqb_eq in Hk. congruence.
  - rewrite !(rollup_months_column
                (fun _ v => (effort_and_cost_values v, revenue_amount v)))
      by reflexivity.
    reflexivity.
Qed.

(** X17.  Financial requests never enter the rollups: whatever the
    outcome of [create_financial_request], every rollup of every project
    over the store it leaves is the rollup over the store before. *)
Theorem financial_requests_never_enter_the_rollups
    (db : DB) (context : RequestUserContext) (project_id : UUID)
    (data : FinancialRequestCreateData)
    (project : Project.t) (from_month to_month : date) :
  Finance._project_monthly_rollups settings
    (fst (Finance.create_financial_request settings db context project_id data))
    project from_month to_month
  = Finance._project_monthly_rollups settings db project from_month to_month.
Proof.
  unfold Finance.create_financial_request.
  destruct (Finance._ensure_project_access db context project_id EDIT_ROLES)
    as [p|]; cbn [bind transaction fst]; [|reflexivity].
  destruct (normalize_month_start _) as [m|]; cbn [bind transaction fst];
    [|reflexivity].
  destruct (Finance._validate_non_negative_amount _ _); cbn [bind transaction fst];
    [|reflexivity].
  destruct (Finance.register_month_check _ _); cbn [bind transaction fst];
    [|reflexivity].
  cbn [fresh_uuid].
  destruct (Planning.refresh_project_snapshots _ _ _) as [[db3 snaps]|] eqn:Hr;
    cbn [bind transaction fst]; [|reflexivity].
  destruct (refresh_frame _ _ _ _ _ Hr) as [Hs _].
  destruct Hs as (_ & _ & _ & _ & _ & _ & He & Hrt & _ & Hi & Hv).
  cbn [Repo.add_financial_request effort_entries rates invoices revenues
       with_financial_requests] in *.
  now apply rollups_read.
Qed.

End RegisterClaims.

(** The scenario: a revenue of 25.00 registered for February. *)
Lemma registered_revenue_is_added_to_its_month_witness :
  normalize_month_start (rc_month_start Scenario.revenue_february)
  = Ok (Revenue.month_start Scenario.revenue_february_row)
  /\ forall project from_month to_month rollups,
       Repo.get_project Scenario.db Scenario.project_id = Some project ->
       Finance._project_monthly_rollups default_settings Scenario.db project
         from_month to_month = Ok rollups ->
       exists rollups',
         Finance._project_monthly_rollups default_settings
           (fst (Finance.create_revenue default_settings Scenario.db Scenario.admin
                   Scenario.project_id Scenario.revenue_february))
           project from_month to_month = Ok rollups'
         /\ map rr_month_start rollups' = map rr_month_start rollups
         /\ map (fun r => revenue_amount (rr_values r)) rollups'
            = map (fun r =>
                     if (rr_month_start r
                         =? Revenue.month_start Scenario.revenue_february_row)%date
                     then Dec.add (revenue_amount (rr_values r))
                            (rc_amount Scenario.revenue_february)
                     else revenue_amount (rr_values r))
                rollups
         /\ map (fun r => (effort_and_cost_values (rr_values r),
                           invoice_amount (rr_values r))) rollups'
            = map (fun r => (effort_and_cost_values (rr_values r),
                             invoice_amount (rr_values r))) rollups.
Proof.
  apply (registered_revenue_is_added_to_its_month default_settings Scenario.db
           Scenario.admin Scenario.project_id Scenario.revenue_february
           (fst (Finance.create_revenue default_settings Scenario.db Scenario.admin
                   Scenario.project_id Scenario.revenue_february))
           Scenario.revenue_february_row).
  - intros r [<-|[]] _. reflexivity.
  - reflexivity.
  - vm_compute. reflexivity.
Defined.

(** The scenario: an invoice of 40.00 registered for February. *)
Lemma registered_invoice_is_added_to_its_month_witness :
  normalize_month_start (ic_month_start Scenario.invoice_february)
  = Ok (Invoice.month_start Scenario.invoice_february_row)
  /\ forall project from_month to_month rollups,
       Repo.get_project Scenario.db Scenario.project_id = Some project ->
       Finance._project_monthly_rollups default_settings Scenario.db project
         from_month to_month = Ok rollups ->
       exists rollups',
         Finance._project_monthly_rollups default_settings
           (fst (Finance.create_invoice default_settings Scenario.db Scenario.admin
                   Scenario.project_id Scenario.invoice_february))
           project from_month to_month = Ok rollups'
         /\ map rr_month_start rollups' = map rr_month_start rollups
         /\ map (fun r => invoice_amount (rr_values r)) rollups'
            = map (fun r =>
                     if (rr_month_start r
                         =? Invoice.month_start Scenario.invoice_february_row)%date
                     then Dec.add (invoice_amount (rr_values r))
                            (ic_amount Scenario.invoice_february)
                     else invoice_amount (rr_values r))
                rollups
         /\ map (fun r => (effort_and_cost_values (rr_values r),
                           revenue_amount (rr_values r))) rollups'
            = map (fun r => (effort_and_cost_values (rr_values r),
                             revenue_amount (rr_values r))) rollups.
Proof.
  apply (registered_invoice_is_added_to_its_month default_settings Scenario.db
           Scenario.admin Scenario.project_id Scenario.invoice_february
           (fst (Finance.create_invoice default_settings Scenario.db Scenario.admin
                   Scenario.project_id Scenario.invoice_february))
           Scenario.invoice_february_row).
  - intros i [].
  - reflexivity.
  - vm_compute. reflexivity.
Defined.

(** ** The project dashboard *)

Section DictOfRows.

Context {K : Type} `{EqType K} {X : Type}.

Lemma dict_of_list_skip (key : X -> K) (l : list X) :
  forall (d : dict K X) k,
    ~ In k (map key l) ->
    dict_get (fold_left (fun d x => dict_set d (key x) x) l d) k = dict_get d k.
Proof.
  induction l as [|x l IH]; intros d k Hk; cbn [fold_left]; [reflexivity|].
  cbn [map In] in Hk. rewrite IH by tauto.
  apply dict_get_set_other. tauto.
Qed.

(** Rows with distinct keys are found again under their key. *)
Lemma dict_of_list_find (key : X -> K) (l : list X) :
  forall (d : dict K X) x,
    NoDup (map key l) -> In x l ->
    dict_get (fold_left (fun d x => dict_set d (key x) x) l d) (key x) = Some x.
Proof.
  induction l as [|y l IH]; intros d x Hnd Hin; [destruct Hin|].
  cbn [map] in Hnd. inversion Hnd as [|? ? Hy Hl]; subst. cbn [fold_left].
  destruct Hin as [->|Hin].
  - rewrite dict_of_list_skip by exact Hy. apply dict_get_set_same.
  - now apply IH.
Qed.

End DictOfRows.

Lemma Forall2_map_left {A B : Type} (P : B -> A -> Prop) (f : A -> B) (l : list A) :
  (forall x, In x l -> P (f x) x) -> Forall2 P (map f l) l.
Proof.
  induction l as [|x l IH]; intros Hl; cbn [map]; constructor.
  - apply Hl. now left.
  - apply IH. intros y Hy. apply Hl. now right.
Qed.

Lemma sub_two_places (x y : Decimal) :
  Dec.expo x = -2 -> Dec.expo y = -2 -> Dec.expo (Dec.sub x y) = -2.
Proof. intros Hx Hy. unfold Dec.sub. cbn [Dec.expo]. rewrite Hx, Hy. reflexivity. Qed.

Lemma eqb_zero_two_places (x : Decimal) :
  Dec.expo x = -2 -> Dec.eqb x ZERO = true <-> x = ZERO.
Proof.
  destruct x as [c e]. cbn [Dec.expo]. intros ->.
  unfold Dec.eqb, Dec.scaled, ZERO. cbn [Dec.expo Dec.coef].
  change (Z.min (-2) (-2)) with (-2). change (-2 - -2) with 0.
  rewrite Z.eqb_eq. split; [intros E; f_equal; lia | intros [= ->]; reflexivity].
Qed.

Section DashboardFacts.

Variable settings : Settings.

Lemma report_month_range_months project from_month to_month report_from report_to months :
  Finance._report_month_range project from_month to_month
  = Ok (report_from, report_to, months) ->
  month_sequence report_from report_to = Ok months.
Proof.
  unfold Finance._report_month_range.
  destruct (normalize_month_start (or_default from_month _)) as [f|]; cbn [bind];
    [|discriminate].
  destruct (normalize_month_start (or_default to_month _)) as [t|]; cbn [bind];
    [|discriminate].
  destruct (_ || _); [discriminate|]. destruct (_ <? _)%date; [discriminate|].
  destruct (month_sequence f t) as [ms|] eqn:M; cbn [bind]; [|discriminate].
  now intros [= <- <- <-].
Qed.

(** The cumulative figures of a rollup row have two places. *)
Lemma rollup_months_two_places totals invoices revenues months :
  forall cumulative r,
    In r (Finance.rollup_months totals invoices revenues months cumulative []) ->
    Dec.expo (cumulative_revenue (rr_values r)) = -2
    /\ Dec.expo (cumulative_actual_cost (rr_values r)) = -2.
Proof.
  induction months as [|m ms IH]; intros cum r; cbn [Finance.rollup_months];
    [intros []|].
  rewrite rollup_months_acc. cbn [app]. intros [<-|Hin]; [|eapply IH; eauto].
  cbn [rr_values Finance.rollup_values cumulative_revenue cumulative_actual_cost].
  split; apply q2_expo.
Qed.

End DashboardFacts.

Section DashboardClaims.

Variable settings : Settings.

(** X18.  The realization trend of the project dashboard follows the
    rollups of its window: when [project_dashboard] returns, the trend has
    one point per rollup row, in the same order, with the month and the
    cumulative revenue and actual cost of the row; the margin is their
    exact difference, and the realization percent is 0.00 when the
    cumulative revenue is zero and the rounded quotient of a hundred times
    the cost by the revenue otherwise. *)
Theorem dashboard_trend_follows_the_rollups
    (db : DB) (context : RequestUserContext) (project_id : UUID)
    (from_month to_month : option date) (d : DashboardData)
    (Hreturns : Finance.project_dashboard settings db context project_id
                  from_month to_month = Ok d) :
  exists project rollups,
    Repo.get_project db project_id = Some project
    /\ Finance._project_monthly_rollups settings db project
         (dd_from_month d) (dd_to_month d) = Ok rollups
    /\ Forall2
         (fun point row =>
            let revenue := cumulative_revenue (rr_values row) in
            let actual := cumulative_actual_cost (rr_values row) in
            rp_month_start point = rr_month_start row
            /\ rp_cumulative_revenue point = revenue
            /\ rp_cumulative_actual_cost point = actual
            /\ rp_cumulative_margin point = Dec.sub revenue actual
            /\ (revenue = ZERO -> rp_realization_percent point = ZERO)
            /\ (revenue <> ZERO ->
                rp_realization_percent point
                = _q2 (Dec.div (Dec.mul actual (Dec.mk 10000 (-2))) revenue)))
         (dd_realization_trend d) rollups.
Proof.
  unfold Finance.project_dashboard, Finance._ensure_project_access in Hreturns.
  destruct (Repo.get_project db project_id) as [project|] eqn:Hp;
    cbn [bind] in Hreturns; [|discriminate].
  destruct (negb _); cbn [bind] in Hreturns; [discriminate|].
  destruct (Finance._report_month_range project from_month to_month)
    as [[[report_from report_to] months]|] eqn:R; cbn [bind] in Hreturns;
    [|discriminate].
  destruct (Finance._project_monthly_rollups settings db project report_from report_to)
    as [rollups|] eqn:Rl; cbn [bind] in Hreturns; [|discriminate].
  injection Hreturns as <-. cbn [dd_from_month dd_to_month dd_realization_trend].
  exists project, rollups. split; [reflexivity|]. split; [exact Rl|].
  pose proof (report_month_range_months _ _ _ _ _ _ R) as M.
  destruct (DateFacts.month_sequence_ok _ _ _ M) as (Hmonths & _ & _).
  unfold Finance._project_monthly_rollups in Rl. rewrite M in Rl. cbn [bind] in Rl.
  injection Rl as Hrows.
  assert (Hkeys : map rr_month_start rollups = months).
  { rewrite <- Hrows. apply rollup_months_months. }
  assert (Hnd : NoDup (map rr_month_start rollups)).
  { rewrite Hkeys, Hmonths. apply DateFacts.calendar_months_NoDup. }
  rewrite <- Hkeys, map_map. apply Forall2_map_left. intros r Hr.
  unfold Finance.realization_point.
  rewrite (dict_of_list_find rr_month_start rollups [] r Hnd Hr).
  rewrite <- Hrows in Hr.
  destruct (rollup_months_two_places _ _ _ _ _ _ Hr) as [Erev Eact].
  cbn [rp_month_start rp_cumulative_revenue rp_cumulative_actual_cost
       rp_cumulative_margin rp_realization_percent].
  rewrite !(q2_fixed _ Erev), !(q2_fixed _ Eact).
  split; [reflexivity|]. split; [reflexivity|]. split; [reflexivity|].
  split; [apply q2_fixed; now apply sub_two_places|].
  unfold _safe_div. split.
  - intros E. apply (eqb_zero_two_places _ Erev) in E. now rewrite E.
  - intros N. destruct (Dec.eqb _ ZERO) eqn:E; [|reflexivity].
    apply (eqb_zero_two_places _ Erev) in E. contradiction.
Qed.

End DashboardClaims.

(** The scenario: the dashboard of the whole project range. *)
Lemma dashboard_trend_follows_the_rollups_witness :
  exists project rollups,
    Repo.get_project Scenario.db Scenario.project_id = Some project
    /\ Finance._project_monthly_rollups default_settings Scenario.db project
         (dd_from_month Scenario.dashboard) (dd_to_month Scenario.dashboard)
       = Ok rollups
    /\ Forall2
         (fun point row =>
            let revenue := cumulative_revenue (rr_values row) in
            let actual := cumulative_actual_cost (rr_values row) in
            rp_month_start point = rr_month_start row
            /\ rp_cumulative_revenue point = revenue
            /\ rp_cumulative_actual_cost point = actual
            /\ rp_cumulative_margin point = Dec.sub revenue actual
            /\ (revenue = ZERO -> rp_realization_percent point = ZERO)
            /\ (revenue <> ZERO ->
                rp_realization_percent point
                = _q2 (Dec.div (Dec.mul actual (Dec.mk 10000 (-2))) revenue)))
         (dd_realization_trend Scenario.dashboard) rollups.
Proof.
  apply (dashboard_trend_follows_the_rollups default_settings Scenario.db
           Scenario.admin Scenario.project_id None None Scenario.dashboard).
  vm_compute. reflexivity.
Defined.

(** ** The rows of the reports *)

Lemma in_filter_selected (ids : option (list UUID)) (x : UUID) :
  Repo.in_filter (Finance.filter_set ids) x = true <-> selected ids x.
Proof.
  destruct ids as [[|a l]|]; cbn [Finance.filter_set Repo.in_filter selected];
    try tauto.
  cbn [to_set]. rewrite mem_In. apply (to_set_In x (a :: l)).
Qed.

Lemma resolve_filters_sets db project_id business_unit_id performer_ids task_ids filters :
  Finance._resolve_filters db project_id business_unit_id performer_ids task_ids
  = Ok filters ->
  task_filter_set filters = Finance.filter_set task_ids
  /\ performer_filter_set filters = Finance.filter_set performer_ids.
Proof.
  unfold Finance._resolve_filters. cbv zeta.
  destruct (Finance.unknown_ids (Finance.filter_set task_ids) _); [|discriminate].
  destruct (Finance.unknown_ids (Finance.filter_set performer_ids) _); [|discriminate].
  intros [= <-]. split; reflexivity.
Qed.

Lemma resolve_filters_labels db project_id business_unit_id performer_ids task_ids
    filters :
  Finance._resolve_filters db project_id business_unit_id performer_ids task_ids
  = Ok filters ->
  performer_labels filters
  = fold_left (fun d p => dict_set d (Performer.id p) (Performer.display_name p))
      (Repo.list_performers_for_business_unit db business_unit_id) []
  /\ task_labels filters
     = fold_left (fun d task => dict_set d (Task.id task) (Task.name task))
         (Repo.list_tasks db project_id) []
  /\ stage_labels filters
     = fold_left
         (fun d task =>
            dict_set d (Task.id task)
              (dict_get_default
                 (fold_left
                    (fun d stage =>
                       dict_set d (ProjectStage.id stage) (ProjectStage.name stage))
                    (Repo.list_stages db project_id) [])
                 (Task.stage_id task) EmptyString))
         (Repo.list_tasks db project_id) [].
Proof.
  unfold Finance._resolve_filters. cbv zeta.
  destruct (Finance.unknown_ids (Finance.filter_set task_ids) _); [|discriminate].
  destruct (Finance.unknown_ids (Finance.filter_set performer_ids) _); [|discriminate].
  intros [= <-]. repeat split.
Qed.

Lemma list_effort_entries_filtered_In db project_id from_month to_month
    task_ids performer_ids e :
  In e (Repo.list_effort_entries_filtered db project_id from_month to_month
          (Finance.filter_set task_ids) (Finance.filter_set performer_ids))
  <-> In e (effort_entries db)
      /\ EffortMonthlyEntry.project_id e = project_id
      /\ (from_month <=? EffortMonthlyEntry.month_start e)%date = true
      /\ (EffortMonthlyEntry.month_start e <=? to_month)%date = true
      /\ selected task_ids (EffortMonthlyEntry.task_id e)
      /\ selected performer_ids (EffortMonthlyEntry.performer_id e).
Proof.
  unfold Repo.list_effort_entries_filtered, Repo.in_month_range.
  rewrite sort_asc_In, filter_In, !andb_true_iff, Z.eqb_eq, !in_filter_selected.
  tauto.
Qed.

(** *** Dictionaries in insertion order *)

Section InsertionOrder.

Context {K : Type} `{EqType K} {V : Type}.

Lemma to_set_snoc (l : list K) (x : K) :
  to_set (l ++ [x]) = if mem x l then to_set l else to_set l ++ [x].
Proof.
  induction l as [|a l IH]; [reflexivity|].
  cbn [app to_set mem]. rewrite IH.
  destruct (mem x l); [now rewrite orb_true_r|].
  rewrite orb_false_r, filter_app. cbn [filter].
  destruct (eqk a x); cbn [negb]; [now rewrite app_nil_r | reflexivity].
Qed.

Lemma mem_to_set (l : list K) (k : K) : mem k (to_set l) = mem k l.
Proof.
  destruct (mem k l) eqn:M.
  - apply (proj2 (mem_In _ _)), (proj2 (to_set_In _ _)), (proj1 (mem_In _ _)), M.
  - destruct (mem k (to_set l)) eqn:M'; [|reflexivity].
    apply (proj1 (mem_In _ _)), (proj1 (to_set_In _ _)), (proj2 (mem_In _ _)) in M'.
    rewrite M in M'. discriminate.
Qed.

Lemma dict_get_mem (d : dict K V) (k : K) :
  mem k (map fst d) = match dict_get d k with Some _ => true | None => false end.
Proof.
  induction d as [|[k' v] d IH]; [reflexivity|].
  cbn [map fst mem dict_get]. now destruct (eqk k' k).
Qed.

Lemma dict_set_keys (d : dict K V) (k : K) (v : V) :
  map fst (dict_set d k v)
  = if mem k (map fst d) then map fst d else map fst d ++ [k].
Proof.
  induction d as [|[k' v'] d IH]; [reflexivity|].
  cbn [dict_set map fst mem]. destruct (eqk k' k); [reflexivity|].
  cbn [map fst orb]. rewrite IH. now destruct (mem k (map fst d)).
Qed.

End InsertionOrder.

Lemma sum_snoc (l : list Decimal) (x z : Decimal) :
  Dec.sum (l ++ [x]) z = Dec.add (Dec.sum l z) x.
Proof. unfold Dec.sum. now rewrite fold_left_app. Qed.

Lemma new_bucket_get (months : list date) (m : date) :
  dict_get (Finance.new_bucket months) m
  = if mem m months then Some (ZERO, ZERO) else None.
Proof.
  unfold Finance.new_bucket.
  assert (G : forall d : dict date (Decimal * Decimal),
             dict_get (fold_left (fun d month => dict_set d month (ZERO, ZERO)) months d) m
             = if mem m months then Some (ZERO, ZERO) else dict_get d m).
  { induction months as [|x l IH]; intros d; [reflexivity|].
    cbn [fold_left mem]. rewrite IH.
    destruct (mem m l); [now rewrite orb_true_r|]. rewrite orb_false_r.
    destruct (eqk_spec x m) as [->|N].
    - apply dict_get_set_same.
    - now apply dict_get_set_other. }
  apply G.
Qed.

(** *** The pivot *)

Section PivotFacts.

Context {Row : Type}.
Variable key_of : Row -> UUID.
Variable month_of : Row -> date.
Variable planned_of actual_of : Row -> Decimal.
Variable months : list date.

Let cells := cell_sum key_of month_of.

Let buckets_of := buckets_of key_of month_of planned_of actual_of months.

Lemma buckets_of_nil : buckets_of [] [].
Proof.
  split; [reflexivity|]. intros k month.
  unfold dict_get_default; cbn [dict_get]. apply new_bucket_get.
Qed.

Lemma cell_sum_snoc (value_of : Row -> Decimal) (done : list Row) (r : Row) k month :
  cells value_of (done ++ [r]) k month
  = if (key_of r =? k) && Date.eqb (month_of r) month
    then Dec.add (cells value_of done k month) (value_of r)
    else cells value_of done k month.
Proof.
  unfold cells, cell_sum. rewrite filter_app. cbn [filter].
  destruct ((key_of r =? k) && Date.eqb (month_of r) month).
  - rewrite map_app. cbn [map]. now rewrite sum_snoc.
  - now rewrite app_nil_r.
Qed.

Lemma accrue_row_step (done : list Row) (by_key : dict UUID Finance.Bucket) (r : Row) :
  buckets_of done by_key ->
  match Finance.accrue_row key_of month_of planned_of actual_of months by_key r with
  | Ok by_key' => In (month_of r) months /\ buckets_of (done ++ [r]) by_key'
  | Raise _ => ~ In (month_of r) months
  end.
Proof.
  intros [Hkeys Hcells]. unfold Finance.accrue_row.
  rewrite (Hcells (key_of r) (month_of r)).
  destruct (mem (month_of r) months) eqn:M.
  - split; [apply mem_In, M|]. split.
    + rewrite dict_set_keys, map_app. cbn [map].
      rewrite to_set_snoc, <- (mem_to_set (map key_of done)), <- Hkeys. reflexivity.
    + intros k month. rewrite dict_get_default_set, !cell_sum_snoc.
      change (eqk (key_of r) k) with (key_of r =? k).
      destruct (Z.eqb_spec (key_of r) k) as [->|N]; cbn [andb].
      * destruct (eqk_spec (month_of r) month) as [E|Nm].
        -- subst month. rewrite dict_get_set_same, date_eqb_refl, M. reflexivity.
        -- rewrite dict_get_set_other by exact Nm.
           rewrite (date_eqb_neq _ _ Nm). apply Hcells.
      * apply Hcells.
  - intros Hin. apply mem_In in Hin. congruence.
Qed.

Lemma accrue_rows (entries : list Row) :
  forall (done : list Row) (by_key : dict UUID Finance.Bucket),
    buckets_of done by_key ->
    match fold_result (Finance.accrue_row key_of month_of planned_of actual_of months)
            entries by_key with
    | Ok by_key' =>
        Forall (fun r => In (month_of r) months) entries
        /\ buckets_of (done ++ entries) by_key'
    | Raise _ => ~ Forall (fun r => In (month_of r) months) entries
    end.
Proof.
  induction entries as [|r l IH]; intros done by_key Hb; cbn [fold_result].
  - rewrite app_nil_r. split; [constructor | exact Hb].
  - pose proof (accrue_row_step done by_key r Hb) as Hstep.
    destruct (Finance.accrue_row _ _ _ _ _ _ _) as [by_key1|e]; cbn [bind].
    + destruct Hstep as [Hin Hb1]. specialize (IH _ _ Hb1).
      destruct (fold_result _ l by_key1) as [by_key'|e].
      * destruct IH as [Hall Hb']. split; [now constructor|].
        now rewrite <- app_assoc in Hb'.
      * intros Hall. inversion Hall; subst. contradiction.
    + intros Hall. inversion Hall; subst. contradiction.
Qed.

Lemma report_month_values_spec (bucket : Finance.Bucket) (P A : date -> Decimal) :
  forall (ms : list date) (total_planned total_actual : Decimal)
         (month_values : list ReportMonth),
    (forall m, In m ms -> dict_get bucket m = Some (P m, A m)) ->
    let cell m :=
      mkReportMonth m (_q2 (P m)) (_q2 (A m)) (_q2 (Dec.sub (_q2 (A m)) (_q2 (P m)))) in
    Finance.report_month_values bucket ms total_planned total_actual month_values
    = Ok (month_values ++ map cell ms,
          Dec.sum (map rm_planned (map cell ms)) total_planned,
          Dec.sum (map rm_actual (map cell ms)) total_actual).
Proof.
  induction ms as [|m ms IH]; intros tp ta acc Hget; cbv zeta in *.
  - cbn. now rewrite app_nil_r.
  - cbn [Finance.report_month_values]. rewrite (Hget m (or_introl eq_refl)).
    rewrite IH by (intros; apply Hget; now right).
    cbn [map Dec.sum fold_left rm_planned rm_actual]. unfold Dec.sum.
    now rewrite <- app_assoc.
Qed.

Variable label_of : UUID -> string.
Variable stage_of : UUID -> option string.

Lemma report_rows_spec (entries : list Row) (by_key : dict UUID Finance.Bucket) :
  buckets_of entries by_key ->
  forall (keys : list UUID) (rows : list ReportRow),
    (forall k, In k keys -> In k (map fst by_key)) ->
    fold_result (Finance.report_row label_of stage_of by_key months) keys rows
    = Ok (rows
          ++ map (pivot_row key_of month_of planned_of actual_of label_of stage_of
                    months entries) keys).
Proof.
  intros [Hkeys Hcells]. induction keys as [|k keys IH]; intros rows Hin.
  - cbn. now rewrite app_nil_r.
  - cbn [fold_result map]. unfold Finance.report_row at 1.
    assert (Hk : mem k (map fst by_key) = true)
      by (apply mem_In, Hin; now left).
    rewrite dict_get_mem in Hk.
    destruct (dict_get by_key k) as [bucket|] eqn:G; [|discriminate].
    rewrite (report_month_values_spec bucket
               (cells planned_of entries k) (cells actual_of entries k)).
    + cbn [bind app]. rewrite IH by (intros; apply Hin; now right).
      rewrite <- app_assoc. reflexivity.
    + intros m Hm. specialize (Hcells k m).
      unfold dict_get_default in Hcells. rewrite G in Hcells.
      apply mem_In in Hm. now rewrite Hm in Hcells.
Qed.

(** The pivot, in full: it returns exactly when every entry lies in a
    month of the report, and then it returns the pivot table. *)
Lemma pivot_rows_spec (entries : list Row) (rows : list ReportRow) :
  Finance.pivot_rows key_of month_of planned_of actual_of label_of stage_of months
    entries = Ok rows
  <-> Forall (fun r => In (month_of r) months) entries
      /\ rows = pivot_table key_of month_of planned_of actual_of label_of stage_of
                  months entries.
Proof.
  unfold Finance.pivot_rows.
  pose proof (accrue_rows entries [] [] buckets_of_nil) as Hacc.
  destruct (fold_result (Finance.accrue_row key_of month_of planned_of actual_of months)
              entries []) as [by_key|e]; cbn [bind].
  - destruct Hacc as [Hall Hb]. cbn [app] in Hb.
    rewrite (report_rows_spec entries by_key Hb)
      by (intros k Hk; now apply sort_asc_In in Hk).
    cbn [app]. unfold pivot_table. destruct Hb as [-> _].
    split.
    + intros [= <-]. split; [exact Hall | reflexivity].
    + intros [_ ->]. reflexivity.
  - split; [discriminate|]. intros [Hall _]. contradiction.
Qed.

End PivotFacts.

Lemma pivoted_bind {Row : Type} (key_of : Row -> UUID) (month_of : Row -> date)
    (planned_of actual_of : Row -> Decimal) (label_of : UUID -> string)
    (stage_of : UUID -> option string) (report_key : string) (o : ReportData Row) :
  pivoted key_of month_of planned_of actual_of label_of stage_of report_key o
    (rows <- Finance.pivot_rows key_of month_of planned_of actual_of label_of stage_of
               (rd_months _ o) (rd_rows _ o) ;;
     Ok (mkReportData report_key (rd_project_id _ o) (rd_from_month _ o)
           (rd_to_month _ o) (rd_months _ o) rows)).
Proof.
  intros d.
  pose proof (pivot_rows_spec key_of month_of planned_of actual_of (rd_months _ o)
                label_of stage_of (rd_rows _ o)) as Hspec.
  destruct (Finance.pivot_rows _ _ _ _ _ _ _ _) as [rows|e]; cbn [bind].
  - destruct (proj1 (Hspec rows) eq_refl) as [Hall ->]. split.
    + intros [= <-]. split; [exact Hall | reflexivity].
    + intros [_ ->]. reflexivity.
  - split; [discriminate|]. intros [Hall _].
    discriminate (proj2 (Hspec _) (conj Hall eq_refl)).
Qed.

Lemma normalize_month_start_first_day (d m : date) :
  normalize_month_start d = Ok m -> Date.valid m = true /\ Date.day m = 1.
Proof.
  unfold normalize_month_start, Date.new.
  destruct (negb (Date.day d =? 1)); [discriminate|].
  destruct (Date.valid (Date.mk (Date.year d) (Date.month d) 1)) eqn:V; [|discriminate].
  intros [= <-]. split; [exact V | reflexivity].
Qed.

(** A first day of a month between two first days is one of the calendar
    months from the one to the other. *)
Lemma month_start_in_calendar_months (s e m : date) :
  Date.valid s = true -> Date.valid e = true -> Date.valid m = true ->
  Date.day s = 1 -> Date.day m = 1 ->
  (s <=? m)%date = true -> (m <=? e)%date = true ->
  In m (calendar_months s e).
Proof.
  intros Vs Ve Vm Ds Dm Hs He. apply DateFacts.calendar_months_In.
  exists (Date.month_index m).
  unfold Date.valid in Vs, Ve, Vm. rewrite !andb_true_iff, !Z.leb_le in Vs, Ve, Vm.
  split.
  - unfold Date.leb, Date.ltb in Hs, He. rewrite negb_true_iff in Hs, He.
    rewrite !orb_false_iff, !andb_false_iff, !orb_false_iff, !andb_false_iff,
      !Z.ltb_ge, !Z.eqb_neq in Hs, He.
    unfold Date.month_index. lia.
  - symmetry. apply DateFacts.of_month_index_month_index; [lia | exact Dm].
Qed.

Lemma report_month_range_ok (project : Project.t) (from_month to_month : option date)
    (report_from report_to : date) (months : list date) :
  Finance._report_month_range project from_month to_month
  = Ok (report_from, report_to, months) ->
  Date.valid report_from = true /\ Date.valid report_to = true
  /\ Date.day report_from = 1
  /\ months = calendar_months report_from report_to.
Proof.
  unfold Finance._report_month_range.
  destruct (normalize_month_start (or_default from_month _)) as [f|] eqn:Nf;
    cbn [bind]; [|discriminate].
  destruct (normalize_month_start (or_default to_month _)) as [t|] eqn:Nt;
    cbn [bind]; [|discriminate].
  destruct (_ || _); [discriminate|].
  destruct (Date.ltb t f); [discriminate|].
  destruct (month_sequence f t) as [ms|] eqn:M; cbn [bind]; [|discriminate].
  intros [= <- <- <-].
  destruct (normalize_month_start_first_day _ _ Nf) as [Vf Df].
  destruct (normalize_month_start_first_day _ _ Nt) as [Vt _].
  destruct (DateFacts.month_sequence_ok _ _ _ M) as [-> _].
  repeat split; assumption.
Qed.

Lemma filtered_entries_in_months (db : DB) (project_id : UUID) (s e : date)
    (task_ids performer_ids : option (list UUID)) :
  effort_on_month_starts db ->
  Date.valid s = true -> Date.valid e = true -> Date.day s = 1 ->
  Forall (fun x => In (EffortMonthlyEntry.month_start x) (calendar_months s e))
    (Repo.list_effort_entries_filtered db project_id s e task_ids performer_ids).
Proof.
  intros Hstore Vs Ve Ds. apply Forall_forall. intros x Hx.
  unfold Repo.list_effort_entries_filtered, Repo.in_month_range in Hx.
  apply sort_asc_In in Hx. apply filter_In in Hx. destruct Hx as [Hx Hc].
  rewrite !andb_true_iff in Hc. destruct Hc as [[[_ [Hs He]] _] _].
  unfold effort_on_month_starts in Hstore. rewrite Forall_forall in Hstore.
  destruct (Hstore x Hx) as [Vx Dx].
  now apply month_start_in_calendar_months.
Qed.

Section ReportClaims.

Variable settings : Settings.

(** Each report is its opening followed by the pivot. *)
Ltac report_shape :=
  unfold Finance.effort_report_by_performer, Finance.effort_report_by_task,
    Finance.cost_report_by_performer, Finance.cost_report_by_task,
    Finance.effort_report, Finance.cost_report, Finance._ensure_project_access,
    performer_label, task_label, task_stage_label;
  match goal with
  | |- context [Repo.get_project ?db ?project_id] =>
      let Hp := fresh "Hp" in
      destruct (Repo.get_project db project_id) as [project|] eqn:Hp;
      cbn [bind]; [|reflexivity];
      destruct (negb _); cbn [bind]; [reflexivity|];
      rewrite ?(get_project_id _ _ _ Hp)
  end;
  match goal with
  | |- context [Finance._report_month_range ?p ?f ?t] =>
      destruct (Finance._report_month_range p f t) as [[[report_from report_to] months]|];
      cbn [bind]; [|reflexivity]
  end;
  match goal with
  | |- context [Finance._resolve_filters ?db ?i ?b ?p ?t] =>
      let F := fresh "F" in
      destruct (Finance._resolve_filters db i b p t) as [filters|] eqn:F;
      cbn [bind]; [|reflexivity];
      let E1 := fresh "E" in
      let E2 := fresh "E" in
      let E3 := fresh "E" in
      destruct (resolve_filters_labels _ _ _ _ _ _ F) as (E1 & E2 & E3);
      rewrite ?E1, ?E2, ?E3
  end;
  reflexivity.

Lemma effort_report_by_performer_shape db context project_id from_month to_month
    performer_ids task_ids :
  Finance.effort_report_by_performer db context project_id from_month to_month
    performer_ids task_ids
  = (o <- Finance.effort_report "effort-by-performer" db context project_id from_month
            to_month performer_ids task_ids ;;
     rows <- Finance.pivot_rows EffortMonthlyEntry.performer_id
               EffortMonthlyEntry.month_start EffortMonthlyEntry.planned_person_days
               EffortMonthlyEntry.actual_person_days (performer_label db project_id)
               (fun _ => None) (rd_months _ o) (rd_rows _ o) ;;
     Ok (mkReportData "effort-by-performer" (rd_project_id _ o) (rd_from_month _ o)
           (rd_to_month _ o) (rd_months _ o) rows)).
Proof. report_shape. Qed.

Lemma effort_report_by_task_shape db context project_id from_month to_month
    performer_ids task_ids :
  Finance.effort_report_by_task db context project_id from_month to_month
    performer_ids task_ids
  = (o <- Finance.effort_report "effort-by-task" db context project_id from_month
            to_month performer_ids task_ids ;;
     rows <- Finance.pivot_rows EffortMonthlyEntry.task_id
               EffortMonthlyEntry.month_start EffortMonthlyEntry.planned_person_days
               EffortMonthlyEntry.actual_person_days (task_label db project_id)
               (task_stage_label db project_id) (rd_months _ o) (rd_rows _ o) ;;
     Ok (mkReportData "effort-by-task" (rd_project_id _ o) (rd_from_month _ o)
           (rd_to_month _ o) (rd_months _ o) rows)).
Proof. report_shape. Qed.

Lemma cost_report_by_performer_shape db context project_id from_month to_month
    performer_ids task_ids :
  Finance.cost_report_by_performer settings db context project_id from_month to_month
    performer_ids task_ids
  = (o <- Finance.cost_report settings "cost-by-performer" db context project_id
            from_month to_month performer_ids task_ids ;;
     rows <- Finance.pivot_rows cr_performer_id cr_month_start cr_planned_cost
               cr_actual_cost (performer_label db project_id) (fun _ => None)
               (rd_months _ o) (rd_rows _ o) ;;
     Ok (mkReportData "cost-by-performer" (rd_project_id _ o) (rd_from_month _ o)
           (rd_to_month _ o) (rd_months _ o) rows)).
Proof. report_shape. Qed.

Lemma cost_report_by_task_shape db context project_id from_month to_month
    performer_ids task_ids :
  Finance.cost_report_by_task settings db context project_id from_month to_month
    performer_ids task_ids
  = (o <- Finance.cost_report settings "cost-by-task" db context project_id
            from_month to_month performer_ids task_ids ;;
     rows <- Finance.pivot_rows cr_task_id cr_month_start cr_planned_cost
               cr_actual_cost (task_label db project_id)
               (task_stage_label db project_id) (rd_months _ o) (rd_rows _ o) ;;
     Ok (mkReportData "cost-by-task" (rd_project_id _ o) (rd_from_month _ o)
           (rd_to_month _ o) (rd_months _ o) rows)).
Proof. report_shape. Qed.

(** X19.  The four reports pivot the effort entries that pass their
    filters.  The entries of a report are the effort entries of the
    project whose month lies in the window and whose task and performer
    pass the filters, an absent or empty filter letting every identifier
    pass; a cost report has one cost row for each of them, in the same
    order.  A report fails as its opening (access, window, filters) fails.
    When the opening returns, the report returns exactly when the month of
    every entry is a month of the window, which it is when the effort
    entries of the store are on first days of months; it then has one row
    for each performer (or task) of the entries, ordered by name, and each
    row has one cell for each month of the window: the sum of the planned
    and of the actual person-days (or costs) of the performer (or task) in
    the month, each rounded to two places, with the rounded difference of
    the two as the variance; the totals of a row are the rounded sums of
    its cells. *)
Theorem reports_pivot_the_selected_entries
    (db : DB) (context : RequestUserContext) (project_id : UUID)
    (from_month to_month : option date)
    (performer_ids task_ids : option (list UUID)) :
  (* the entries *)
  (forall key o,
      Finance.effort_report key db context project_id from_month to_month
        performer_ids task_ids = Ok o ->
      forall e,
        In e (rd_rows _ o)
        <-> In e (effort_entries db)
            /\ EffortMonthlyEntry.project_id e = project_id
            /\ (rd_from_month _ o <=? EffortMonthlyEntry.month_start e)%date = true
            /\ (EffortMonthlyEntry.month_start e <=? rd_to_month _ o)%date = true
            /\ selected task_ids (EffortMonthlyEntry.task_id e)
            /\ selected performer_ids (EffortMonthlyEntry.performer_id e))
  /\ (forall key c,
         Finance.cost_report settings key db context project_id from_month to_month
           performer_ids task_ids = Ok c ->
         exists o,
           Finance.effort_report key db context project_id from_month to_month
             performer_ids task_ids = Ok o
           /\ rd_months _ c = rd_months _ o
           /\ Forall2
                (fun row e =>
                   cr_task_id row = EffortMonthlyEntry.task_id e
                   /\ cr_performer_id row = EffortMonthlyEntry.performer_id e
                   /\ cr_month_start row = EffortMonthlyEntry.month_start e
                   /\ cr_planned_person_days row
                      = EffortMonthlyEntry.planned_person_days e
                   /\ cr_actual_person_days row
                      = EffortMonthlyEntry.actual_person_days e)
                (rd_rows _ c) (rd_rows _ o))
  (* a report fails as its opening *)
  /\ (forall e,
         (Finance.effort_report "effort-by-performer" db context project_id from_month
            to_month performer_ids task_ids = Raise e ->
          Finance.effort_report_by_performer db context project_id from_month to_month
            performer_ids task_ids = Raise e)
         /\ (Finance.effort_report "effort-by-task" db context project_id from_month
               to_month performer_ids task_ids = Raise e ->
             Finance.effort_report_by_task db context project_id from_month to_month
               performer_ids task_ids = Raise e)
         /\ (Finance.cost_report settings "cost-by-performer" db context project_id
               from_month to_month performer_ids task_ids = Raise e ->
             Finance.cost_report_by_performer settings db context project_id from_month
               to_month performer_ids task_ids = Raise e)
         /\ (Finance.cost_report settings "cost-by-task" db context project_id
               from_month to_month performer_ids task_ids = Raise e ->
             Finance.cost_report_by_task settings db context project_id from_month
               to_month performer_ids task_ids = Raise e))
  (* the pivots *)
  /\ (forall o,
         Finance.effort_report "effort-by-performer" db context project_id from_month
           to_month performer_ids task_ids = Ok o ->
         pivoted EffortMonthlyEntry.performer_id EffortMonthlyEntry.month_start
           EffortMonthlyEntry.planned_person_days EffortMonthlyEntry.actual_person_days
           (performer_label db project_id) (fun _ => None) "effort-by-performer" o
           (Finance.effort_report_by_performer db context project_id from_month
              to_month performer_ids task_ids))
  /\ (forall o,
         Finance.effort_report "effort-by-task" db context project_id from_month
           to_month performer_ids task_ids = Ok o ->
         pivoted EffortMonthlyEntry.task_id EffortMonthlyEntry.month_start
           EffortMonthlyEntry.planned_person_days EffortMonthlyEntry.actual_person_days
           (task_label db project_id) (task_stage_label db project_id)
           "effort-by-task" o
           (Finance.effort_report_by_task db context project_id from_month to_month
              performer_ids task_ids))
  /\ (forall c,
         Finance.cost_report settings "cost-by-performer" db context project_id
           from_month to_month performer_ids task_ids = Ok c ->
         pivoted cr_performer_id cr_month_start cr_planned_cost cr_actual_cost
           (performer_label db project_id) (fun _ => None) "cost-by-performer" c
           (Finance.cost_report_by_performer settings db context project_id from_month
              to_month performer_ids task_ids))
  /\ (forall c,
         Finance.cost_report settings "cost-by-task" db context project_id
           from_month to_month performer_ids task_ids = Ok c ->
         pivoted cr_task_id cr_month_start cr_planned_cost cr_actual_cost
           (task_label db project_id) (task_stage_label db project_id)
           "cost-by-task" c
           (Finance.cost_report_by_task settings db context project_id from_month
              to_month performer_ids task_ids))
  (* every entry lies in a month of the window *)
  /\ (effort_on_month_starts db ->
      (forall key o,
          Finance.effort_report key db context project_id from_month to_month
            performer_ids task_ids = Ok o ->
          Forall (fun e => In (EffortMonthlyEntry.month_start e) (rd_months _ o))
            (rd_rows _ o))
      /\ (forall key c,
             Finance.cost_report settings key db context project_id from_month
               to_month performer_ids task_ids = Ok c ->
             Forall (fun row => In (cr_month_start row) (rd_months _ c))
               (rd_rows _ c))).
Proof.
  split; [|split; [|split; [|split; [|split; [|split; [|split; [|]]]]]]].
  - intros key o. unfold Finance.effort_report, Finance._ensure_project_access.
    destruct (Repo.get_project db project_id) as [project|] eqn:Hp; cbn [bind];
      [|discriminate].
    pose proof (get_project_id _ _ _ Hp) as Hid.
    destruct (negb _); cbn [bind]; [discriminate|].
    destruct (Finance._report_month_range project from_month to_month)
      as [[[report_from report_to] months]|]; cbn [bind]; [|discriminate].
    destruct (Finance._resolve_filters db _ _ performer_ids task_ids)
      as [filters|] eqn:F; cbn [bind]; [|discriminate].
    destruct (resolve_filters_sets _ _ _ _ _ _ F) as [-> ->].
    intros [= <-] e. cbn [rd_rows rd_from_month rd_to_month].
    rewrite list_effort_entries_filtered_In, Hid. tauto.
  - intros key c. unfold Finance.cost_report, Finance.effort_report,
      Finance._ensure_project_access.
    destruct (Repo.get_project db project_id) as [project|] eqn:Hp; cbn [bind];
      [|discriminate].
    destruct (negb _); cbn [bind]; [discriminate|].
    destruct (Finance._report_month_range project from_month to_month)
      as [[[report_from report_to] months]|]; cbn [bind]; [|discriminate].
    destruct (Finance._resolve_filters db _ _ performer_ids task_ids)
      as [filters|] eqn:F; cbn [bind]; [|discriminate].
    intros [= <-]. eexists. split; [reflexivity|]. cbn [rd_rows rd_months].
    split; [reflexivity|].
    unfold Finance._project_cost_entry_rows. apply Forall2_map_left.
    intros e _. unfold Finance.cost_entry_row.
    destruct (Finance._resolve_effective_rate _ _ _ _);
      cbn [cr_task_id cr_performer_id cr_month_start cr_planned_person_days
           cr_actual_person_days]; auto.
  - intros e.
    rewrite effort_report_by_performer_shape, effort_report_by_task_shape,
      cost_report_by_performer_shape, cost_report_by_task_shape.
    repeat split; intros ->; reflexivity.
  - intros o Ho. rewrite effort_report_by_performer_shape, Ho. cbn [bind].
    apply pivoted_bind.
  - intros o Ho. rewrite effort_report_by_task_shape, Ho. cbn [bind].
    apply pivoted_bind.
  - intros c Hc. rewrite cost_report_by_performer_shape, Hc. cbn [bind].
    apply pivoted_bind.
  - intros c Hc. rewrite cost_report_by_task_shape, Hc. cbn [bind].
    apply pivoted_bind.
  - intros Hstore. split.
    + intros key o. unfold Finance.effort_report.
      destruct (Finance._ensure_project_access _ _ _ _) as [project|]; cbn [bind];
        [|discriminate].
      destruct (Finance._report_month_range project from_month to_month)
        as [[[report_from report_to] months]|] eqn:R; cbn [bind]; [|discriminate].
      destruct (Finance._resolve_filters db _ _ performer_ids task_ids)
        as [filters|]; cbn [bind]; [|discriminate].
      intros [= <-]. cbn [rd_rows rd_months].
      destruct (report_month_range_ok _ _ _ _ _ _ R) as (Vf & Vt & Df & ->).
      now apply filtered_entries_in_months.
    + intros key c. unfold Finance.cost_report.
      destruct (Finance._ensure_project_access _ _ _ _) as [project|]; cbn [bind];
        [|discriminate].
      destruct (Finance._report_month_range project from_month to_month)
        as [[[report_from report_to] months]|] eqn:R; cbn [bind]; [|discriminate].
      destruct (Finance._resolve_filters db _ _ performer_ids task_ids)
        as [filters|]; cbn [bind]; [|discriminate].
      intros [= <-]. cbn [rd_rows rd_months].
      destruct (report_month_range_ok _ _ _ _ _ _ R) as (Vf & Vt & Df & ->).
      unfold Finance._project_cost_entry_rows. rewrite Forall_map.
      eapply Forall_impl;
        [|apply (filtered_entries_in_months db (Project.id project) report_from
                   report_to (task_filter_set filters) (performer_filter_set filters)
                   Hstore Vf Vt Df)].
      intros x Hx. now rewrite cost_entry_row_month.
Qed.

End ReportClaims.

(** The scenario: the effort report by performer has a row for A (2.00
    and 3.00 planned person-days in January and February, 5.00 in all) and
    a row for B (1.00 in January). *)
Lemma reports_pivot_the_selected_entries_witness :
  exists o d,
    Finance.effort_report "effort-by-performer" Scenario.db Scenario.viewer
      Scenario.project_id None None None None = Ok o
    /\ Finance.effort_report_by_performer Scenario.db Scenario.viewer
         Scenario.project_id None None None None = Ok d
    /\ map row_name (rd_rows _ d) = ["A"; "B"]%string
    /\ map (fun row => map rm_planned (row_months row)) (rd_rows _ d)
       = [[Scenario.dec2 200; Scenario.dec2 300; Scenario.dec2 0];
          [Scenario.dec2 100; Scenario.dec2 0; Scenario.dec2 0]]
    /\ map (fun row => rt_planned (row_totals row)) (rd_rows _ d)
       = [Scenario.dec2 500; Scenario.dec2 100]
    /\ rd_rows _ d
       = pivot_table EffortMonthlyEntry.performer_id EffortMonthlyEntry.month_start
           EffortMonthlyEntry.planned_person_days
           EffortMonthlyEntry.actual_person_days
           (performer_label Scenario.db Scenario.project_id) (fun _ => None)
           (rd_months _ o) (rd_rows _ o).
Proof.
  eexists. eexists.
  split; [vm_compute; reflexivity|].
  split; [vm_compute; reflexivity|].
  split; [reflexivity|]. split; [reflexivity|]. split; [reflexivity|].
  pose proof (proj1 (proj2 (proj2 (proj2
                (reports_pivot_the_selected_entries default_settings Scenario.db
                   Scenario.viewer Scenario.project_id None None None None)))))
    as Hpivot.
  match goal with
  | |- rd_rows _ ?D = pivot_table _ _ _ _ _ _ (rd_months _ ?O) _ =>
      assert (Ho : Finance.effort_report "effort-by-performer" Scenario.db
                     Scenario.viewer Scenario.project_id None None None None = Ok O)
        by (vm_compute; reflexivity);
      assert (Hd : Finance.effort_report_by_performer Scenario.db Scenario.viewer
                     Scenario.project_id None None None None = Ok D)
        by (vm_compute; reflexivity);
      destruct (proj1 (Hpivot O Ho D) Hd) as [_ E];
      exact (f_equal (rd_rows _) E)
  end.
Defined.

(** ** The business-unit dashboard *)

Lemma aggregate_trends_acc aggregate months :
  forall cumulative cost_trend realization_trend,
    Finance.aggregate_trends aggregate months cumulative cost_trend realization_trend
    = (cost_trend
       ++ fst (Finance.aggregate_trends aggregate months cumulative [] []),
       realization_trend
       ++ snd (Finance.aggregate_trends aggregate months cumulative [] [])).
Proof.
  induction months as [|m ms IH]; intros cum ct rt; cbn [Finance.aggregate_trends].
  - cbn [fst snd]. now rewrite !app_nil_r.
  - rewrite IH. rewrite (IH _ ([] ++ _) ([] ++ _)). cbn [fst snd app].
    now rewrite <- !app_assoc.
Qed.

Lemma zero_aggregates_default (months : list date) (m : date) :
  dict_get_default
    (fold_left (fun d month => dict_set d month Finance.zero_aggregate) months [])
    m Finance.zero_aggregate
  = Finance.zero_aggregate.
Proof.
  assert (G : forall d,
             dict_get_default d m Finance.zero_aggregate = Finance.zero_aggregate ->
             dict_get_default
               (fold_left (fun d month => dict_set d month Finance.zero_aggregate)
                  months d)
               m Finance.zero_aggregate
             = Finance.zero_aggregate).
  { induction months as [|x l IH]; intros d Hd; cbn [fold_left]; auto.
    apply IH. rewrite dict_get_default_set. now destruct (eqk x m). }
  now apply G.
Qed.

Lemma add_snapshot_values_sums (l : list ProjectMonthlySnapshot.t) :
  forall bucket,
    Finance.ag_planned_cost (fold_left add_snapshot_values l bucket)
    = Dec.sum (map (fun s => planned_cost (ProjectMonthlySnapshot.values s)) l)
        (Finance.ag_planned_cost bucket)
    /\ Finance.ag_actual_cost (fold_left add_snapshot_values l bucket)
       = Dec.sum (map (fun s => actual_cost (ProjectMonthlySnapshot.values s)) l)
           (Finance.ag_actual_cost bucket)
    /\ Finance.ag_revenue (fold_left add_snapshot_values l bucket)
       = Dec.sum (map (fun s => revenue_amount (ProjectMonthlySnapshot.values s)) l)
           (Finance.ag_revenue bucket).
Proof.
  unfold Dec.sum. induction l as [|s l IH]; intros bucket; cbn [fold_left map];
    [auto|].
  destruct (IH (add_snapshot_values bucket s)) as (-> & -> & ->).
  cbn [add_snapshot_values Finance.ag_planned_cost Finance.ag_actual_cost
       Finance.ag_revenue]. auto.
Qed.

(** The bucket of a month after the snapshot loop: the sums over the rows
    of the month. *)
Lemma aggregate_month_sums (rows : list ProjectMonthlySnapshot.t) (months : list date)
    (m : date) :
  let bucket :=
    or_default
      (dict_get
         (fold_left Finance.accrue_snapshot rows
            (fold_left (fun d month => dict_set d month Finance.zero_aggregate)
               months []))
         m)
      Finance.zero_aggregate in
  Finance.ag_planned_cost bucket = month_sum planned_cost rows m
  /\ Finance.ag_actual_cost bucket = month_sum actual_cost rows m
  /\ Finance.ag_revenue bucket = month_sum revenue_amount rows m.
Proof.
  cbv zeta.
  change (or_default (dict_get ?d m) Finance.zero_aggregate)
    with (dict_get_default d m Finance.zero_aggregate).
  rewrite (grouped_fold ProjectMonthlySnapshot.month_start add_snapshot_values
             Finance.zero_aggregate Finance.accrue_snapshot)
    by reflexivity.
  rewrite zero_aggregates_default.
  exact (add_snapshot_values_sums
           (filter (fun s => (ProjectMonthlySnapshot.month_start s =? m)%date) rows)
           Finance.zero_aggregate).
Qed.

Lemma aggregate_trends_sum_snapshots rows all_months months :
  forall cp ca cr,
    trends_sum_snapshots cp ca cr rows months
      (fst (Finance.aggregate_trends
              (fold_left Finance.accrue_snapshot rows
                 (fold_left (fun d month => dict_set d month Finance.zero_aggregate)
                    all_months []))
              months (Finance.mkCumulative cp ca cr) [] []))
      (snd (Finance.aggregate_trends
              (fold_left Finance.accrue_snapshot rows
                 (fold_left (fun d month => dict_set d month Finance.zero_aggregate)
                    all_months []))
              months (Finance.mkCumulative cp ca cr) [] [])).
Proof.
  induction months as [|m ms IH]; intros cp ca cr;
    cbn [Finance.aggregate_trends fst snd trends_sum_snapshots]; [exact I|].
  rewrite aggregate_trends_acc. cbn [fst snd app trends_sum_snapshots].
  destruct (aggregate_month_sums rows all_months m) as (Hp & Ha & Hr).
  cbv zeta in Hp, Ha, Hr. rewrite Hp, Ha, Hr.
  cbn [Finance.ct_month_start Finance.ct_planned_cost Finance.ct_actual_cost
       Finance.ct_cumulative_planned_cost Finance.ct_cumulative_actual_cost
       rp_month_start rp_cumulative_actual_cost rp_cumulative_revenue
       rp_cumulative_margin Finance.c_planned_cost Finance.c_actual_cost
       Finance.c_revenue].
  repeat (split; [reflexivity|]).
  split; [apply q2_fixed; apply sub_two_places; apply q2_expo|].
  apply IH.
Qed.

(** The scenario: the dashboard of its unit after the refresh. *)
Lemma unit_dashboard_scenario :
  Finance.business_unit_dashboard Scenario.db_refreshed Scenario.admin Scenario.unit_id
    None None
  = Ok Scenario.unit_dashboard.
Proof. vm_compute. reflexivity. Qed.

(** X20.  The trends of the business-unit dashboard add up the snapshots
    of the unit.  For a unit without projects the dashboard that
    [business_unit_dashboard] returns is empty and has no window; for any
    other unit it has the window of the request, normalized, and its two
    trends have one point per calendar month of the window, whose monthly
    costs are the rounded sums over the snapshot rows of the month of the
    projects of the unit and whose cumulative values add them up from zero,
    rounding after each addition. *)
Theorem unit_dashboard_trends_sum_the_snapshots
    (db : DB) (context : RequestUserContext) (business_unit_id : UUID)
    (from_month to_month : option date) (d : Finance.BusinessUnitDashboardData)
    (Hreturns : Finance.business_unit_dashboard db context business_unit_id
                  from_month to_month = Ok d) :
  match Repo.list_projects_for_business_unit db business_unit_id with
  | [] =>
      d = Finance.mkBusinessUnitDashboardData business_unit_id None None [] [] []
  | first :: rest =>
      exists report_from report_to,
        normalize_month_start
          (or_default from_month
             (Finance.min_date (Project.start_month first)
                (map Project.start_month rest))) = Ok report_from
        /\ normalize_month_start
             (or_default to_month
                (Finance.max_date (Project.end_month first)
                   (map Project.end_month rest))) = Ok report_to
        /\ Finance.bd_from_month d = Some report_from
        /\ Finance.bd_to_month d = Some report_to
        /\ trends_sum_snapshots ZERO ZERO ZERO
             (Repo.list_snapshots_for_business_unit db business_unit_id report_from
                report_to)
             (calendar_months report_from report_to)
             (Finance.bd_aggregated_cumulative_cost_trend d)
             (Finance.bd_realization_trend d)
  end.
Proof.
  unfold Finance.business_unit_dashboard in Hreturns.
  destruct (Finance._ensure_business_unit_view_access context business_unit_id);
    cbn [bind] in Hreturns; [|discriminate].
  destruct (Repo.list_projects_for_business_unit db business_unit_id)
    as [|first rest]; [now injection Hreturns as <-|].
  cbv zeta in Hreturns.
  destruct (normalize_month_start (or_default from_month _)) as [report_from|];
    cbn [bind] in Hreturns; [|discriminate].
  destruct (normalize_month_start (or_default to_month _)) as [report_to|];
    cbn [bind] in Hreturns; [|discriminate].
  destruct (report_to <? report_from)%date; [discriminate|].
  destruct (month_sequence report_from report_to) as [months|] eqn:M;
    cbn [bind] in Hreturns; [|discriminate].
  destruct (DateFacts.month_sequence_ok _ _ _ M) as (-> & _ & _).
  destruct (Finance.aggregate_trends _ _ _ _ _) as [cost_trend realization_trend]
    eqn:T.
  injection Hreturns as <-. exists report_from, report_to.
  cbn [Finance.bd_from_month Finance.bd_to_month
       Finance.bd_aggregated_cumulative_cost_trend Finance.bd_realization_trend].
  repeat (split; [reflexivity|]).
  pose proof (aggregate_trends_sum_snapshots
                (Repo.list_snapshots_for_business_unit db business_unit_id report_from
                   report_to)
                (calendar_months report_from report_to)
                (calendar_months report_from report_to) ZERO ZERO ZERO) as H.
  rewrite T in H. exact H.
Qed.

Lemma unit_dashboard_trends_sum_the_snapshots_witness :
  exists report_from report_to,
    normalize_month_start
      (or_default None
         (Finance.min_date (Project.start_month Scenario.project)
            (map Project.start_month []))) = Ok report_from
    /\ normalize_month_start
         (or_default None
            (Finance.max_date (Project.end_month Scenario.project)
               (map Project.end_month []))) = Ok report_to
    /\ Finance.bd_from_month Scenario.unit_dashboard = Some report_from
    /\ Finance.bd_to_month Scenario.unit_dashboard = Some report_to
    /\ trends_sum_snapshots ZERO ZERO ZERO
         (Repo.list_snapshots_for_business_unit Scenario.db_refreshed Scenario.unit_id
            report_from report_to)
         (calendar_months report_from report_to)
         (Finance.bd_aggregated_cumulative_cost_trend Scenario.unit_dashboard)
         (Finance.bd_realization_trend Scenario.unit_dashboard).
Proof.
  exact (unit_dashboard_trends_sum_the_snapshots Scenario.db_refreshed Scenario.admin
           Scenario.unit_id None None Scenario.unit_dashboard unit_dashboard_scenario).
Defined.

Section SetFacts.

Context {K : Type} `{EqType K}.

Lemma to_set_NoDup (l : list K) : NoDup (to_set l).
Proof.
  induction l as [|x l IH]; cbn [to_set]; constructor.
  - rewrite filter_In. intros [_ Hx]. now rewrite eqk_refl in Hx.
  - now apply NoDup_filter.
Qed.

End SetFacts.

Lemma insert_asc_NoDup {A : Type} (lt : A -> A -> bool) (x : A) (l : list A) :
  ~ In x l -> NoDup l -> NoDup (insert_asc lt x l).
Proof.
  induction l as [|y l IH]; intros Hx Hl; cbn [insert_asc].
  - constructor; [exact Hx | constructor].
  - inversion Hl as [|? ? Hy Hl']; subst.
    destruct (lt y x).
    + constructor.
      * rewrite insert_asc_In. intros [E|Hin]; [|contradiction].
        apply Hx. left. congruence.
      * apply IH; [|exact Hl']. intros Hin. apply Hx. now right.
    + constructor; assumption.
Qed.

Lemma sort_asc_NoDup {A : Type} (lt : A -> A -> bool) (l : list A) :
  NoDup l -> NoDup (sort_asc lt l).
Proof.
  induction l as [|x l IH]; intros Hl; cbn [sort_asc]; [constructor|].
  inversion Hl as [|? ? Hx Hl']; subst.
  apply insert_asc_NoDup; [|now apply IH]. now rewrite sort_asc_In.
Qed.

Lemma add_person_days_sums (l : list EffortMonthlyEntry.t) :
  forall cell,
    fold_left add_person_days l cell
    = (Dec.sum (map EffortMonthlyEntry.planned_person_days l) (fst cell),
       Dec.sum (map EffortMonthlyEntry.actual_person_days l) (snd cell)).
Proof.
  unfold Dec.sum. induction l as [|e l IH]; intros cell; cbn [fold_left map].
  - now destruct cell.
  - rewrite IH. reflexivity.
Qed.

(** The cell of a performer and a month after the workload loop. *)
Lemma workload_cell (entries : list EffortMonthlyEntry.t) (performer_id : UUID)
    (m : date) :
  dict_get_default (fold_left Finance.accrue_workload entries []) (performer_id, m)
    (ZERO, ZERO)
  = (person_days_sum EffortMonthlyEntry.planned_person_days entries performer_id m,
     person_days_sum EffortMonthlyEntry.actual_person_days entries performer_id m).
Proof.
  rewrite (grouped_fold
             (fun e => (EffortMonthlyEntry.performer_id e,
                        EffortMonthlyEntry.month_start e))
             add_person_days (ZERO, ZERO) Finance.accrue_workload).
  - apply add_person_days_sums.
  - intros d x. unfold Finance.accrue_workload, add_person_days.
    now destruct (dict_get_default d _ (ZERO, ZERO)).
Qed.

(** X21.  The workload heatmap of the business-unit dashboard adds up
    the effort of the unit.  When the dashboard has a window, the heatmap
    has one row for each performer with an effort entry of a project of the
    unit in the window, no performer twice; a row has one cell per calendar
    month of the window, and the cell holds the rounded sums of the planned
    and of the actual person-days of the entries of the performer in the
    month. *)
Theorem unit_dashboard_workload_sums_the_effort
    (db : DB) (context : RequestUserContext) (business_unit_id : UUID)
    (from_month to_month : option date) (d : Finance.BusinessUnitDashboardData)
    (report_from report_to : date)
    (Hreturns : Finance.business_unit_dashboard db context business_unit_id
                  from_month to_month = Ok d)
    (Hfrom : Finance.bd_from_month d = Some report_from)
    (Hto : Finance.bd_to_month d = Some report_to) :
  let entries :=
    Repo.list_effort_entries_for_business_unit db business_unit_id report_from
      report_to in
  (forall performer_id,
      In performer_id (map Finance.wr_performer_id (Finance.bd_workload_heatmap d))
      <-> exists e, In e entries /\ EffortMonthlyEntry.performer_id e = performer_id)
  /\ NoDup (map Finance.wr_performer_id (Finance.bd_workload_heatmap d))
  /\ Forall
       (fun row =>
          map Finance.wm_month_start (Finance.wr_months row)
          = calendar_months report_from report_to
          /\ Forall
               (fun cell =>
                  Finance.wm_planned_person_days cell
                  = _q2 (person_days_sum EffortMonthlyEntry.planned_person_days
                           entries (Finance.wr_performer_id row)
                           (Finance.wm_month_start cell))
                  /\ Finance.wm_actual_person_days cell
                     = _q2 (person_days_sum EffortMonthlyEntry.actual_person_days
                              entries (Finance.wr_performer_id row)
                              (Finance.wm_month_start cell)))
               (Finance.wr_months row))
       (Finance.bd_workload_heatmap d).
Proof.
  unfold Finance.business_unit_dashboard in Hreturns.
  destruct (Finance._ensure_business_unit_view_access context business_unit_id);
    cbn [bind] in Hreturns; [|discriminate].
  destruct (Repo.list_projects_for_business_unit db business_unit_id)
    as [|first rest]; [injection Hreturns as <-; discriminate Hfrom|].
  cbv zeta in Hreturns.
  destruct (normalize_month_start (or_default from_month _)) as [rf|];
    cbn [bind] in Hreturns; [|discriminate].
  destruct (normalize_month_start (or_default to_month _)) as [rt|];
    cbn [bind] in Hreturns; [|discriminate].
  destruct (rt <? rf)%date; [discriminate|].
  destruct (month_sequence rf rt) as [months|] eqn:M;
    cbn [bind] in Hreturns; [|discriminate].
  destruct (DateFacts.month_sequence_ok _ _ _ M) as (-> & _ & _).
  destruct (Finance.aggregate_trends _ _ _ _ _) as [cost_trend realization_trend].
  injection Hreturns as <-.
  cbn [Finance.bd_from_month Finance.bd_to_month] in Hfrom, Hto.
  injection Hfrom as ->. injection Hto as ->.
  cbn [Finance.bd_workload_heatmap]. cbv zeta.
  unfold Finance.workload_rows. cbv zeta.
  rewrite map_map. cbn [Finance.wr_performer_id]. rewrite map_id.
  split; [|split].
  - intros performer_id. rewrite sort_asc_In, to_set_In, in_map_iff.
    split; intros (e & H1 & H2); exists e; split; assumption.
  - apply sort_asc_NoDup, to_set_NoDup.
  - apply Forall_forall. intros row Hrow. apply in_map_iff in Hrow.
    destruct Hrow as (performer_id & <- & _).
    cbn [Finance.wr_months Finance.wr_performer_id]. split.
    + rewrite map_map. rewrite <- (map_id (calendar_months report_from report_to)) at 2.
      apply map_ext. intros m. now destruct (dict_get_default _ _ _).
    + apply Forall_forall. intros cell Hcell. apply in_map_iff in Hcell.
      destruct Hcell as (m & <- & _). rewrite workload_cell.
      cbn [Finance.wm_planned_person_days Finance.wm_actual_person_days
           Finance.wm_month_start]. auto.
Qed.

Lemma unit_dashboard_workload_sums_the_effort_witness :
  let entries :=
    Repo.list_effort_entries_for_business_unit Scenario.db_refreshed Scenario.unit_id
      (Scenario.month 2026 1) (Scenario.month 2026 3) in
  (forall performer_id,
      In performer_id
        (map Finance.wr_performer_id
           (Finance.bd_workload_heatmap Scenario.unit_dashboard))
      <-> exists e, In e entries /\ EffortMonthlyEntry.performer_id e = performer_id)
  /\ NoDup (map Finance.wr_performer_id
              (Finance.bd_workload_heatmap Scenario.unit_dashboard))
  /\ Forall
       (fun row =>
          map Finance.wm_month_start (Finance.wr_months row)
          = calendar_months (Scenario.month 2026 1) (Scenario.month 2026 3)
          /\ Forall
               (fun cell =>
                  Finance.wm_planned_person_days cell
                  = _q2 (person_days_sum EffortMonthlyEntry.planned_person_days
                           entries (Finance.wr_performer_id row)
                           (Finance.wm_month_start cell))
                  /\ Finance.wm_actual_person_days cell
                     = _q2 (person_days_sum EffortMonthlyEntry.actual_person_days
                              entries (Finance.wr_performer_id row)
                              (Finance.wm_month_start cell)))
               (Finance.wr_months row))
       (Finance.bd_workload_heatmap Scenario.unit_dashboard).
Proof.
  exact (unit_dashboard_workload_sums_the_effort Scenario.db_refreshed Scenario.admin
           Scenario.unit_id None None Scenario.unit_dashboard
           (Scenario.month 2026 1) (Scenario.month 2026 3)
           unit_dashboard_scenario eq_refl eq_refl).
Defined.

(** ** Sanity checks of the arithmetic and calendar helpers *)

Example q2_half_even_down : _q2 (Dec.mk 100125 (-5)) = Dec.mk 100 (-2).
Proof. reflexivity. Qed.

Example q2_tie_to_even : _q2 (Dec.mk 1005 (-3)) = Dec.mk 100 (-2).
Proof. reflexivity. Qed.

Example q2_tie_to_even_up : _q2 (Dec.mk 1015 (-3)) = Dec.mk 102 (-2).
Proof. reflexivity. Qed.

Example q2_widen : _q2 (Dec.mk 3 0) = Dec.mk 300 (-2).
Proof. reflexivity. Qed.

Example div_2000_by_20 :
  Dec.div (Dec.mk 200000 (-2)) (Dec.of_int 20) = Dec.mk 10000 (-2).
Proof. vm_compute. reflexivity. Qed.

Example div_100_by_3 :
  Dec.div (Dec.mk 10000 (-2)) (Dec.of_int 3)
  = Dec.mk 3333333333333333333333333333 (-26).
Proof. vm_compute. reflexivity. Qed.

Example div_200_by_3 :
  Dec.div (Dec.mk 20000 (-2)) (Dec.of_int 3)
  = Dec.mk 6666666666666666666666666667 (-26).
Proof. vm_compute. reflexivity. Qed.

Example month_sequence_q4 :
  month_sequence (Date.mk 2025 11 1) (Date.mk 2026 2 1)
  = Ok [Date.mk 2025 11 1; Date.mk 2025 12 1; Date.mk 2026 1 1; Date.mk 2026 2 1].
Proof. reflexivity. Qed.

Example month_sequence_empty :
  month_sequence (Date.mk 2026 3 1) (Date.mk 2026 2 1) = Ok [].
Proof. reflexivity. Qed.

Example calendar_months_q4 :
  calendar_months (Date.mk 2025 11 1) (Date.mk 2026 2 1)
  = [Date.mk 2025 11 1; Date.mk 2025 12 1; Date.mk 2026 1 1; Date.mk 2026 2 1].
Proof. reflexivity. Qed.

Example uuid_str_small :
  uuid_str 2748 = "00000000-0000-0000-0000-000000000abc"%string.
Proof. vm_compute. reflexivity. Qed.

Example sort_desc_stable :
  sort_desc (fun a b => fst a <? fst b) [(1, 10); (3, 20); (3, 30); (2, 40)]
  = [(3, 20); (3, 30); (2, 40); (1, 10)].
Proof. reflexivity. Qed.

Example sort_asc_stable :
  sort_asc (fun a b => fst a <? fst b) [(3, 20); (1, 10); (3, 30); (1, 40)]
  = [(1, 10); (1, 40); (3, 20); (3, 30)].
Proof. reflexivity. Qed.

Example str_strip_both : str_strip "  a b  " = "a b"%string.
Proof. reflexivity. Qed.

Example scenario_rollups :
  Finance._project_monthly_rollups default_settings Scenario.db Scenario.project
    (Scenario.month 2026 1) (Scenario.month 2026 3)
  = Ok Scenario.rollup_rows.
Proof. vm_compute. reflexivity. Qed.

Example scenario_refresh :
  Planning.refresh_project_snapshots default_settings Scenario.db Scenario.project_id
  = Ok (Scenario.db_refreshed, Scenario.snapshot_rows).
Proof. vm_compute. reflexivity. Qed.
